(* ===== verification/_CoqProject ===== *)
-Q . S2P
Prelude.v
PyString.v
PyDict.v
DictMap.v
DataFrame.v
Regex.v
TimeFormat.v
Entry.v
Schedule.v
Generator.v
NormalizeHours.v
App.v
CleanHours.v
PrimaryContact.v
Refinement.v
RuleOrder.v
RecordOrder.v
Agreement.v
Stateless.v
RuleNeeded.v
Validator.v
Complete.v
Adapter.v
Denotation.v
Pacing.v
