(* ===== verification/Prelude.v ===== *)
(** * Verification of the ViveryAIDataCleanser hours pipeline

    The repository converts free-text opening hours into a fixed
    14-field, comma-separated schedule encoding with the help of an
    external text-generation service, and accepts a generated candidate
    only when a battery of validation rules passes.  It has two
    near-duplicate implementations of the pipeline and two small
    collaborators:

    - [src/clean-hours/server/normalizeHours.py]: the single-record
      pipeline (text adapter, generation call, candidate assembly, ten
      rules over a mutable response dictionary);
    - [src/clean_hours.py]: the batch pipeline (nine of the rules over
      three dictionaries keyed by program identifier, the
      accept-or-revert filter and the expansion into output rows);
    - [src/clean-hours/server/app.py]: the HTTP wrapper of the
      single-record pipeline;
    - [src/primary_contact.py]: the contact-extraction script.

    ** Files of the development, in dependency order

    - [Prelude] (this file): Python's exceptions as a [result] type with
      its monad, [try]/[except] and short-circuit [and]/[or] over
      results, the loop combinators [for_each] and [any_r] with their
      induction principles, the shared tactics and the hint databases
      [py] and [pyrw].
    - [PyString]: the Python built-ins the sources call on [str] and
      [list] values ([split], [join], [count], [replace], [strip],
      [lower], [isdigit], the substring test, indexing, slicing and item
      assignment) as executable functions on [string] and [list string],
      with the lemmas the components share (split/join round trips,
      comma counting, bounds of indexing) and the specification of
      [strip], [replace] and the substring test.
    - [PyDict]: dictionaries with text keys as association lists in
      insertion order ([dict_get], [dict_set], comprehensions), the
      invariant that keys are distinct, and the closed form of the loop
      that updates one dictionary from the records of another.
    - [DictMap]: the dictionaries of [PyDict] seen as finite maps
      (stdpp's [gmap]) and the equivalence that forgets the order of
      insertion.  This file and [RecordOrder] load stdpp; the others
      use the standard library alone.
    - [DataFrame]: the table operations of pandas that the batch script
      calls (iteration over rows, a column as a list, selection by the
      value of a column, appending a row) on a record of column labels
      and rows of cells, a cell being a text or a missing value.
    - [Regex]: regular expressions with a derivative matcher, proved
      sound and complete for the usual inductive semantics, and
      [re_search_anchored], the behaviour of [re.search] on a pattern
      written between [^] and [$].
    - [TimeFormat]: [time_regex] (the pattern of
      [test_valid_open_closed_hours]) and [strptime_HM]
      ([datetime.strptime(s, "%H:%M")]), their characterisations and the
      relation between the two.
    - [Entry]: what the two sets of rules share about one entry: its
      fields, the test that a field exists and satisfies a predicate,
      the reserved fields, and the arithmetic of the counting rule.
    - [Schedule]: the abstract side: a schedule entry as a value
      (weekday, times, recurrence, or call for information), its
      well-formedness, and [decode] and [encode] between it and the wire
      form.
    - [Generator]: the interface of the generation service as the class
      [Completion] with an explicit state of the outside world, the
      monad [io] of the code that calls it, the trace of what a run
      sends, prints and writes, the loops [io_map] and [io_for_each],
      and two instances: a service that answers from a script and a
      service that is a function of the prompt.
    - [NormalizeHours], Module [Server]: the response dictionary, the text
      adapter ([preprocess_string], [postprocess_string]),
      [format_input_string], the ten rules and [normalize_input_string]
      of [normalizeHours.py], statement by statement.
    - [App], Module [Http]: the handlers of [app.py] as functions to a
      body and a status code.
    - [CleanHours], Module [Batch]: [create_id_hours_dict],
      [format_hours_iteratively], the nine rules, [filter_invalid_values],
      [convert_id_hours_dict_to_df] and the body of the script ([main])
      of [clean_hours.py], statement by statement, with its prints, the
      name of the output file ([output_path]) and the call of [to_csv],
      and the script from its argument ([args], [script]).
    - [PrimaryContact], Module [Contacts]: the helpers and the body of
      [primary_contact.py], with the lines it prints.
    - [Refinement]: the candidates that the rules of either pipeline
      accept decode to well-formed schedule entries.
    - [RuleOrder]: what the order of the list of rules contributes in
      either pipeline.
    - [RecordOrder]: the batch rules up to the equivalence of
      dictionaries.
    - [Agreement]: the candidates on which the rules of the two
      pipelines give the same verdict.
    - [Stateless]: the two pipelines in closed form, as functions of
      their input, for a service that is a function of the prompt.
    - [RuleNeeded]: for every rule of either battery, a candidate that
      only that rule rejects.
    - [Validator]: the interface between the rules and the
      reconciliation (the class [Validator]), its two instances, and
      the reconciliation for any validator.
    - [Complete]: the rules of either pipeline on the wire form of
      well-formed schedule entries, the converse of [Refinement], and
      the verdict of each battery as a test of what the candidate
      decodes to.
    - [Adapter]: the corrections of [postprocess_string] as a function
      of the fields of a reply, and what they are for.
    - [Denotation]: the table the script writes read back as
      schedules, a row of the output as one entry, and the response of
      the route of the server read the same way.
    - [Pacing]: the time slept after the calls of the service, in the
      three copies of [call_oai].

    ** Conventions of the model

    - A Python [str] is a [string] (a list of 8-bit characters).  The
      model is exact on ASCII text; on non-ASCII text, [lower],
      [isdigit], [strip] and the digit class of [strptime] act on code
      points in Python and on bytes here, so a statement about them is a
      statement about ASCII input.
    - A Python function that may raise returns [result A]; the
      exceptions are the ones the sources can meet: [IndexError] (list
      index out of range), [KeyError] (missing dictionary key or column),
      [ValueError] ([strptime] on an unparsable string, a row of the
      wrong width), [TypeError] ([join] on a value that is not a text),
      [FileNotFoundError] (a file that cannot be read) and
      [UpstreamUnavailable] (any failure of the generation call).
      [try: ... except: ...] is [try_except] or [except_all]; [a and b],
      [a or b] over expressions that may raise
      are [and_then] and [or_else], which evaluate [b] only when Python
      does.
    - A [for] loop over a list is [for_each body l s], with the loop's
      variables as the state [s]; an exception raised by the body leaves
      the loop.  All loops of the sources range over finite lists, so no
      fuel is needed: every definition is total and evaluates by
      [vm_compute].
    - A function that mutates a dictionary or a table passed to it
      returns the new one.  The batch rules mutate [is_valid_dict] in
      place and the script runs them in a list comprehension; here the
      dictionary is threaded through the rules in the same order.
    - Three interfaces separate the components: [Completion] (in
      [Generator]) is what the pipelines ask of the service, [Files]
      (in [DataFrame]) is what a script asks of the file system, and
      [Validator] (in [Validator]) is what the reconciliation asks of
      the rules.
    - Code that calls the service is in [io], which threads the state of
      the service, the milliseconds slept and the trace of the run: the
      list, in order, of the requests sent ([Sent]), the values printed
      ([Printed]) and the tables written ([Wrote], with the path).  The
      trace is only appended to; no definition reads it, so it records
      what the run did without taking part in it.  A printed value is
      kept as the value given to [print] (a text, a list of texts, the
      dictionary of flags), a written table as the table given to
      [to_csv]: the rendering of either is Python's and pandas'.
    - A cell of a table is a text or the missing value [NaN], which is
      what [pd.read_csv] makes of an empty field.  [cell_str] is [str]
      on a cell (the text [nan] for a missing one), [cell_eqb] is [==]
      (a missing value is equal to nothing, itself included).  A
      dictionary keyed by the cells of a column is keyed by their text;
      the missing value is one key, as it is one object in the tables
      pandas reads.  Columns that pandas reads as numbers or booleans
      are outside the model.
    - The functions of Python's library and of pandas that the sources
      call ([str] and [list] methods, [re.search], [datetime.strptime],
      the table operations) are modelled from their behaviour on the
      values the sources give them; the map of the manifest names a
      line where the source calls them.  [Schedule] has no line of the
      sources: it is the reference the rules are compared with.
    - Definitions carry the names of the sources.  The body of a rule's
      loop is a definition named [..._step]; predicates that exist only
      to state theorems ([field_is], [all_checks], [lower], [rows_of])
      are marked as such where they are declared.

    ** What the theorems show

    - [Prelude], [PyString], [PyDict], [DataFrame], [Regex]: the laws of
      the substrate (monad laws, loop invariants, [split]/[join] round
      trips, lookup after assignment, soundness and completeness of the
      matcher).
    - [TimeFormat]: the time pattern accepts exactly the 24-hour
      [H:MM]/[HH:MM] strings (possibly followed by one newline);
      [strptime_HM] parses every string the pattern accepts, but for
      the final newline, into an hour below 24 and a minute below 60
      ([is_time_strptime], [is_time_final_newline]), and accepts more.
    - [NormalizeHours]: the battery of ten rules in closed form
      ([run_validation_tests_spec]): it never raises and computes a
      conjunction of per-entry tests, but for the weekday rule, whose
      loop is not a conjunction.  From it: a valid response has fourteen
      fields in every entry; monthly entries are always rejected; the
      battery is idempotent and only lowers the flag.  Two rules raise
      when called on their own.  [postprocess_string] raises on short
      replies and keeps the number of commas; [normalize_input_string]
      raises nothing but [UpstreamUnavailable] and [IndexError], and
      returns when the service answers every prompt with a reply of at
      least eleven fields ([normalize_input_string_returns]).  A run
      that returns has sent every clause of the input, preprocessed and
      in order ([normalize_input_string_sends_every_clause]); one that
      raises stopped at the clause that failed.
    - [CleanHours]: the battery of nine rules in closed form
      ([battery_spec]): it raises [IndexError] exactly when an entry is
      too short for the reads of the rules, and otherwise conjoins the
      outcome of the rules to each flag.  The reconciliation in closed
      form ([reconciliation_spec]): the output table, row by row.  From
      both, for the script as a whole ([main_table], [main_rows],
      [main_raises]): the output is rectangular with the columns of the
      input, rejected rows are copied, accepted entries have fourteen
      fields, the [ValueError] fallback is never taken, and the script
      fails in three ways only.  It returns when the table has the two
      columns it reads, no identifier is missing and the service
      answers every prompt with a reply the rules can read
      ([main_returns]); a row without identifier makes it raise
      [IndexError] in the reconciliation, after a request was sent for
      every record ([main_missing_identifier]), and a row without
      hours is sent to the service as the text [nan].  A run that returns
      has sent one request per record in the order of the records,
      printed the candidates and the flags and then written the table
      it returns ([main_trace]); a run that raises has written nothing
      ([main_failure_writes_nothing]).  The same for the script from
      its argument ([script]): an input that cannot be read ends it
      before any request, a run that returns has written one file, the
      last thing it did, and a run that raises none
      ([script_unreadable], [script_writes_once],
      [script_failure_writes_nothing]).  The output file is the input
      file with every [.csv] removed and [_HOURS_CLEANED.csv] appended
      ([output_path_suffix], [output_path_names]).
    - [App]: the route answers 200 or 400, and 400 exactly when the
      pipeline raises; a valid response in a reply has fourteen fields
      in every entry; the route answers 200 when the replies of the
      service have eleven fields.
    - [PrimaryContact]: the generation loop keeps the keys and pauses
      50 milliseconds per record; it sends the texts in order and
      prints each answer before the next request; the ways the script
      can fail; it returns on a table that has the columns it is given
      and no missing contact cell when the service answers, and raises
      [TypeError] before any request when a contact cell is missing
      ([contacts_main_missing_cell]); without [--columns] it raises
      [KeyError] at the first row ([contacts_script_without_columns]).
    - [Schedule], [Refinement]: [decode] after [encode] is the identity
      on well-formed entries and [decode] returns well-formed entries
      only; every entry of a record accepted by the batch rules decodes
      to an opening; every entry of a response accepted by the server
      decodes provided it starts with a weekday or is a call for
      information, which the server checks of the last entry only.
    - [RuleOrder]: the batch rules give the same flags or the same
      exception in every order; the server's rules do so on responses
      whose entries have eleven fields, and not below
      ([order_matters_on_a_narrow_entry]).  Both follow from
      [for_each_Permutation], the rule for loops whose iterations
      commute.  Any sequence of the server's rules, as the relation
      [rule_steps], only lowers the flag and stops changing the
      response once it is invalid.
    - [Agreement]: on one candidate, the script accepts and no entry
      is monthly exactly when the server accepts and every entry names
      a weekday ([verdicts_agree]), by an agreement entry by entry
      ([entry_agree]); a candidate on which the rules of the script
      raise is rejected by the server
      ([batch_raises_server_rejects]).
    - [Stateless]: when the service answers every prompt [p] with
      [reply p], [normalize_input_string] returns [normalized case] and
      the script writes [cleaned_table]: the output rows of a record
      are a function ([row_group]) of its text and of its row, so the
      work on one record does not depend on the others
      ([normalize_input_string_stateless], [main_stateless]).  When the
      identifiers are distinct the table written is the concatenation
      of [row_out] over the rows of the input, a function of the row
      and of the columns alone ([main_rowwise]).
    - [RuleNeeded]: no rule follows from the others, in either
      pipeline ([every_server_rule_needed], [every_batch_rule_needed]):
      each is the only one to reject some candidate.
    - [Validator]: the reconciliation needs one promise of the rules,
      that an accepted candidate has fourteen fields in every entry;
      with flags from any validator that keeps it, the table is
      written without the fallback row ([reconciled_rows]).  The rules
      of the script are such a validator ([battery_flags]) and so are
      those of the server.
    - [Complete]: the rules of the script on one record are a
      decision procedure for the schema: the record keeps its flag
      exactly when every entry of the candidate decodes to an opening
      whose ordinal, if any, is spelled in the original text
      ([battery_decides], from [batch_entry_decode], the same entry by
      entry); the rules of the server decide the schema in the same
      way on a candidate in which every entry names a weekday or is a
      call for information without one, accept every candidate that
      decodes to weekly openings and calls for information, and accept
      beyond the schema only through the weekday rule
      ([server_decides], [server_accepts_unnamed_day]); on a candidate
      whose entries are encodings of well-formed schedule entries, the
      script keeps the flag exactly
      when every entry is an opening whose ordinal, if any, is spelled
      in the original text, and the server exactly when every entry is
      a weekly opening or a call for information
      ([batch_accepts_encoded], [server_accepts_encoded]); the joined
      form of a schedule splits into its encoded entries and decodes
      to the schedule ([entries_encode_all], [decode_all_encode]).
    - [Adapter]: what [postprocess_string] returns it returns
      unchanged when corrected again
      ([postprocess_string_idempotent]); a reply with text in field 7
      alone becomes the wire form of a call for information, which the
      server accepts ([information_reply_accepted]); a reply that also
      carries an hour type is not corrected
      ([information_with_type_kept]).
    - [Denotation]: the row written for an entry reads back to what
      the entry decodes to ([row_entry_entry_row]); for a service that
      is a function of the prompt the table [main] writes denotes,
      over the rows of the input in order, the schedule of the reply
      to the text of the row when the script admits it and what the
      row held otherwise ([main_denotes]), and every row written keeps
      the cells of its record to the left of the hour columns
      ([row_out_keeps]); the route of the server answers 200 with the
      response of the corrected replies, valid exactly when its
      candidate denotes a schedule the server admits, the weekday rule
      read entry by entry ([normalize_hours_denotes]).
    - [Pacing]: on every run, returning or raising, the server and
      the contact script have slept 50 milliseconds for every request
      the service answered, and the batch script, whose [call_oai] has
      no [time.sleep], has not slept ([delay_after_each_call], by the
      rules for [pacing], one per construct of [io]).
    - [DictMap], [RecordOrder]: [d[k]], [d[k] = v] and [k in d] are the
      lookup, the insertion and the domain of the map of [d]; the
      operations respect the equivalence of dictionaries ([Proper]
      instances); the batch rules return equivalent flags, or the same
      exception, on equivalent dictionaries.

    ** Bounds

    No definition uses fuel.  That every time of the day prints and
    parses back, and prints without a semicolon, is checked by running
    the 1440 cases ([all_times_print], [all_times_unsplit]).  Field positions are the constants of the
    sources (0 to 13); the reconciliation theorems assume the table has
    at least fifteen columns, the number the script removes from a row
    ([len(df.columns) - 15]); on a narrower table Python's slice counts
    from the end, which [slice_to] models and the examples exercise.

    ** Not modelled

    The service's internals ([openai]) and credentials: the service
    appears only through the [Completion] interface, and whatever the
    call expression raises, in the request or in the reads
    [["choices"][0]["text"]] of the answer, is the one failure
    [UpstreamUnavailable].  A failure of [to_csv]: the write is the
    last statement of the batch script and is taken to succeed, so what
    a write that stops part of the way leaves behind is not covered by
    the theorems on what a failed run has written.  The web framework
    (routing, CORS, the rendering of a body as JSON, the text of error
    messages, which the body of an error reply holds as the exception
    itself, [app.run]).  The libraries under a script: how
    [argparse] splits a command line and refuses a malformed one (the
    scripts start from the record of the arguments), and how
    [pd.read_csv] parses the text of a file (a file system is what each
    path reads as).  The types pandas infers for a column: a table of
    the model holds texts and missing values, so a column of numbers,
    whose identifiers [str] would render with a decimal point next to a
    missing one, is not covered.  What the outside does with an event
    of the trace: the text on the terminal, the bytes of the CSV file.
    The remaining lines of the sources are imports, comments and
    docstrings. *)

From Stdlib Require Import String Ascii List Bool Arith Lia Permutation.
Import ListNotations.

Declare Scope py_scope.
Delimit Scope py_scope with py.

(** ** Exceptions and results *)

Inductive exn : Type :=
| IndexError
| KeyError
| ValueError
| TypeError
| FileNotFoundError
| UpstreamUnavailable.

Inductive result (A : Type) : Type :=
| Ok (a : A)
| Raise (e : exn).

Arguments Ok {A} a.
Arguments Raise {A} e.

Definition exn_eqb (e1 e2 : exn) : bool :=
  match e1, e2 with
  | IndexError, IndexError
  | KeyError, KeyError
  | ValueError, ValueError
  | TypeError, TypeError
  | FileNotFoundError, FileNotFoundError
  | UpstreamUnavailable, UpstreamUnavailable => true
  | _, _ => false
  end.

Definition rbind {A B : Type} (m : result A) (k : A -> result B) : result B :=
  match m with
  | Ok a => k a
  | Raise e => Raise e
  end.

Definition rmap {A B : Type} (f : A -> B) (m : result A) : result B :=
  match m with
  | Ok a => Ok (f a)
  | Raise e => Raise e
  end.

(** [try: m  except: h] with a handler that sees the exception. *)
Definition try_except {A : Type} (m : result A) (h : exn -> result A) : result A :=
  match m with
  | Ok a => Ok a
  | Raise e => h e
  end.

(** [try: x = m  except: x = d]: a bare [except] with a constant handler. *)
Definition except_all {A : Type} (m : result A) (d : A) : A :=
  match m with
  | Ok a => a
  | Raise _ => d
  end.

Definition is_ok {A : Type} (m : result A) : bool :=
  match m with
  | Ok _ => true
  | Raise _ => false
  end.

Definition of_option {A : Type} (e : exn) (o : option A) : result A :=
  match o with
  | Some a => Ok a
  | None => Raise e
  end.

Notation "x <- m ;; k" := (rbind m (fun x => k))
  (at level 62, m at next level, right associativity) : py_scope.

(** Python's [a and b] and [a or b] on boolean operands that may raise:
    the right operand is evaluated only when the left one does not decide. *)
Definition and_then (a b : result bool) : result bool :=
  rbind a (fun x => if x then b else Ok false).

Definition or_else (a b : result bool) : result bool :=
  rbind a (fun x => if x then Ok true else b).

Notation "a &&& b" := (and_then a b)
  (at level 40, left associativity) : py_scope.
Notation "a ||| b" := (or_else a b)
  (at level 50, left associativity) : py_scope.

Local Open Scope py_scope.

(** ** Loops *)

(** [for x in l: s = body(s, x)], leaving the loop on an exception. *)
Fixpoint for_each {S A : Type} (body : S -> A -> result S) (l : list A) (s : S)
  : result S :=
  match l with
  | [] => Ok s
  | x :: l' => s' <- body s x ;; for_each body l' s'
  end.

(** [any(f(x) for x in l)]: the generator is consumed lazily, so [f] is not
    evaluated after the first true element, nor after an exception. *)
Fixpoint any_r {A : Type} (f : A -> result bool) (l : list A) : result bool :=
  match l with
  | [] => Ok false
  | x :: l' => b <- f x ;; if b then Ok true else any_r f l'
  end.

(** [[f(x) for x in l]] with an [f] that may raise. *)
Fixpoint map_r {A B : Type} (f : A -> result B) (l : list A) : result (list B) :=
  match l with
  | [] => Ok []
  | x :: l' => y <- f x ;; ys <- map_r f l' ;; Ok (y :: ys)
  end.

(** ** Tactics *)

Ltac inv H := inversion H; subst; clear H.

Ltac break_match :=
  match goal with
  | |- context [match ?x with _ => _ end] => destruct x eqn:?
  | H : context [match ?x with _ => _ end] |- _ => destruct x eqn:?
  end.

Ltac break_if :=
  match goal with
  | |- context [if ?b then _ else _] => destruct b eqn:?
  | H : context [if ?b then _ else _] |- _ => destruct b eqn:?
  end.

Ltac destruct_result m := destruct m as [?|?] eqn:?; simpl in *; try discriminate.

Create HintDb py discriminated.
Create Rewrite HintDb pyrw.

(** ** Laws of the result monad *)

Lemma rbind_ok {A B : Type} (a : A) (k : A -> result B) :
  rbind (Ok a) k = k a.
Proof. reflexivity. Qed.

Lemma rbind_raise {A B : Type} (e : exn) (k : A -> result B) :
  rbind (Raise e) k = Raise e.
Proof. reflexivity. Qed.

Lemma rbind_ret {A : Type} (m : result A) : rbind m Ok = m.
Proof. destruct m; reflexivity. Qed.

Lemma rbind_assoc {A B C : Type} (m : result A) (f : A -> result B)
  (g : B -> result C) :
  rbind (rbind m f) g = rbind m (fun a => rbind (f a) g).
Proof. destruct m; reflexivity. Qed.

Lemma rbind_ok_inv {A B : Type} (m : result A) (k : A -> result B) (b : B) :
  rbind m k = Ok b -> exists a, m = Ok a /\ k a = Ok b.
Proof. destruct m; simpl; intros H; [eauto | discriminate]. Qed.

Lemma rbind_raise_inv {A B : Type} (m : result A) (k : A -> result B) (e : exn) :
  rbind m k = Raise e -> m = Raise e \/ exists a, m = Ok a /\ k a = Raise e.
Proof. destruct m; simpl; intros H; [right; eauto | left; congruence]. Qed.

Lemma exn_eqb_eq (e1 e2 : exn) : exn_eqb e1 e2 = true <-> e1 = e2.
Proof. destruct e1, e2; simpl; split; congruence. Qed.

Lemma is_ok_true {A : Type} (m : result A) : is_ok m = true <-> exists a, m = Ok a.
Proof.
  destruct m; simpl; split; intros H; eauto; try discriminate.
  destruct H as [a H]; discriminate.
Qed.

Lemma except_all_ok {A : Type} (a d : A) : except_all (Ok a) d = a.
Proof. reflexivity. Qed.

Lemma except_all_raise {A : Type} (e : exn) (d : A) : except_all (Raise e) d = d.
Proof. reflexivity. Qed.

Lemma and_then_ok (a b : bool) : Ok a &&& Ok b = Ok (a && b).
Proof. destruct a; reflexivity. Qed.

Lemma or_else_ok (a b : bool) : Ok a ||| Ok b = Ok (a || b).
Proof. destruct a; reflexivity. Qed.

Lemma and_then_assoc (a b c : result bool) : (a &&& b) &&& c = a &&& (b &&& c).
Proof. destruct a as [[|]|e]; reflexivity. Qed.

Lemma and_then_false (b : result bool) : Ok false &&& b = Ok false.
Proof. reflexivity. Qed.

Lemma or_else_true (b : result bool) : Ok true ||| b = Ok true.
Proof. reflexivity. Qed.

Lemma and_then_true (b : result bool) : Ok true &&& b = b.
Proof. reflexivity. Qed.

Lemma or_else_false (b : result bool) : Ok false ||| b = b.
Proof. reflexivity. Qed.

#[export] Hint Rewrite @rbind_ok @rbind_raise @rbind_ret @except_all_ok
  @except_all_raise and_then_ok or_else_ok and_then_false or_else_true
  and_then_true or_else_false : pyrw.

(** ** Laws of the loop combinators *)

Section ForEach.
Context {S A : Type}.
Variable body : S -> A -> result S.

Lemma for_each_app (l1 l2 : list A) (s : S) :
  for_each body (l1 ++ l2) s = (s' <- for_each body l1 s ;; for_each body l2 s').
Proof.
  revert s; induction l1 as [|x l1 IH]; intros s; simpl; [reflexivity|].
  destruct (body s x); simpl; auto.
Qed.

(** A loop whose body never raises is a left fold. *)
Lemma for_each_total (step : S -> A -> S) (l : list A) (s : S) :
  (forall s x, body s x = Ok (step s x)) ->
  for_each body l s = Ok (fold_left step l s).
Proof.
  intros Hb; revert s; induction l as [|x l IH]; intros s; simpl; [reflexivity|].
  rewrite Hb; simpl; apply IH.
Qed.

(** Invariant rule: a predicate kept by every successful iteration holds of
    the state the loop returns. *)
Lemma for_each_invariant (P : S -> Prop) (l : list A) (s s' : S) :
  (forall s x s', In x l -> P s -> body s x = Ok s' -> P s') ->
  P s -> for_each body l s = Ok s' -> P s'.
Proof.
  revert s; induction l as [|x l IH]; intros s Hstep Hs Hrun; simpl in Hrun.
  - inv Hrun; exact Hs.
  - destruct (body s x) as [s1|e] eqn:Hb; simpl in Hrun; [|discriminate].
    apply (IH s1); auto.
    + intros; eapply Hstep; eauto; right; assumption.
    + eapply Hstep; eauto; left; reflexivity.
Qed.

(** A loop returns as soon as every iteration does. *)
Lemma for_each_returns (P : S -> Prop) (l : list A) (s : S) :
  (forall s x, In x l -> P s -> exists s', body s x = Ok s' /\ P s') ->
  P s -> exists s', for_each body l s = Ok s' /\ P s'.
Proof.
  revert s; induction l as [|x l IH]; intros s Hstep Hs; simpl.
  - eauto.
  - destruct (Hstep s x) as (s1 & Hb & Hs1); auto; [left; reflexivity|].
    rewrite Hb; simpl. apply IH; auto.
    intros; apply Hstep; auto; right; assumption.
Qed.

(** An exception out of a loop is one of those its body raises. *)
Lemma for_each_raises (P : exn -> Prop) (l : list A) (s : S) (z : exn) :
  (forall s x z, In x l -> body s x = Raise z -> P z) ->
  for_each body l s = Raise z -> P z.
Proof.
  revert s; induction l as [|x l IH]; intros s Hb; simpl; [discriminate|].
  destruct (body s x) as [s1|z1] eqn:E; simpl.
  - apply IH. intros; eapply Hb; eauto; right; assumption.
  - intros [= <-]. eapply Hb; eauto; left; reflexivity.
Qed.

End ForEach.

Section AnyR.
Context {A : Type}.

Lemma any_r_total (f : A -> result bool) (g : A -> bool) (l : list A) :
  (forall x, In x l -> f x = Ok (g x)) -> any_r f l = Ok (existsb g l).
Proof.
  induction l as [|x l IH]; intros Hf; simpl; [reflexivity|].
  rewrite Hf by (left; reflexivity); simpl.
  destruct (g x); simpl; [reflexivity|].
  apply IH; intros; apply Hf; right; assumption.
Qed.

Lemma any_r_first_raises (f : A -> result bool) (x : A) (l : list A) (e : exn) :
  f x = Raise e -> any_r f (x :: l) = Raise e.
Proof. intros H; simpl; rewrite H; reflexivity. Qed.

End AnyR.

(** ** Lists *)

Lemma fold_left_andb_false {A : Type} (f : A -> bool) (l : list A) :
  fold_left (fun b x => f x && b) l false = false.
Proof.
  induction l as [|x l IH]; simpl; [reflexivity|].
  rewrite andb_false_r; exact IH.
Qed.

Lemma fold_left_andb_forallb {A : Type} (f : A -> bool) (l : list A) (b : bool) :
  fold_left (fun b x => f x && b) l b = forallb f l && b.
Proof.
  revert b; induction l as [|x l IH]; intros b; simpl; [reflexivity|].
  rewrite IH. destruct (f x), (forallb f l), b; reflexivity.
Qed.

#[export] Hint Rewrite @fold_left_andb_false @fold_left_andb_forallb : pyrw.

(** ** [try]/[except] around boolean expressions *)

(** Under a bare [except] that answers [False], a conjunction is the
    conjunction of its operands, each under the same handler. *)
Lemma except_all_and_then (a b : result bool) :
  except_all (a &&& b) false = except_all a false && except_all b false.
Proof. destruct a as [[|]|e]; reflexivity. Qed.

(** For a disjunction this holds when the left operand returns. *)
Lemma except_all_or_else (x : bool) (b : result bool) :
  except_all (Ok x ||| b) false = x || except_all b false.
Proof. destruct x; reflexivity. Qed.

Lemma except_all_if {A : Type} (c : bool) (a b : result A) (d : A) :
  except_all (if c then a else b) d = if c then except_all a d else except_all b d.
Proof. destruct c; reflexivity. Qed.

#[export] Hint Rewrite except_all_and_then except_all_or_else @except_all_if : pyrw.

(** ** Loops over the elements of a given list *)

Lemma for_each_total_in {S A : Type} (body : S -> A -> result S) (step : S -> A -> S)
  (l : list A) (s : S) :
  (forall s x, In x l -> body s x = Ok (step s x)) ->
  for_each body l s = Ok (fold_left step l s).
Proof.
  revert s; induction l as [|x l IH]; intros s Hb; simpl; [reflexivity|].
  rewrite Hb by (left; reflexivity); simpl.
  apply IH; intros; apply Hb; right; assumption.
Qed.

Lemma fold_left_map {S A B : Type} (f : S -> B -> S) (g : A -> B) (l : list A)
  (s : S) :
  fold_left f (map g l) s = fold_left (fun s x => f s (g x)) l s.
Proof. revert s; induction l as [|x l IH]; intros s; simpl; auto. Qed.

Lemma flat_map_map {A B C : Type} (f : B -> list C) (g : A -> B) (l : list A) :
  flat_map f (map g l) = flat_map (fun x => f (g x)) l.
Proof. induction l as [|x l IH]; simpl; [reflexivity | rewrite IH; reflexivity]. Qed.

Lemma map_flat_map {A B C : Type} (f : B -> C) (g : A -> list B) (l : list A) :
  map f (flat_map g l) = flat_map (fun x => map f (g x)) l.
Proof.
  induction l as [|x l IH]; simpl; [reflexivity | rewrite map_app, IH; reflexivity].
Qed.

(** A map that gives back the list fixes its elements. *)
Lemma map_fixed_in {A : Type} (f : A -> A) (l : list A) (x : A) :
  map f l = l -> In x l -> f x = x.
Proof.
  induction l as [|a l IH]; simpl; [tauto|].
  intros [= Ha Hl] [<-|Hin]; auto.
Qed.

Lemma fold_left_ext_in {S A : Type} (f g : S -> A -> S) (l : list A) (s : S) :
  (forall s x, In x l -> f s x = g s x) -> fold_left f l s = fold_left g l s.
Proof.
  revert s; induction l as [|x l IH]; intros s H; simpl; [reflexivity|].
  rewrite H by (left; reflexivity). apply IH; intros; apply H; right; assumption.
Qed.

Lemma forallb_ext_in {A : Type} (f g : A -> bool) (l : list A) :
  (forall x, In x l -> f x = g x) -> forallb f l = forallb g l.
Proof.
  induction l as [|x l IH]; intros H; simpl; [reflexivity|].
  rewrite H by (left; reflexivity). f_equal. apply IH; intros; apply H; right; assumption.
Qed.

Lemma forallb_map_ext_in {A B : Type} (f : B -> bool) (g : A -> B) (h : A -> bool)
  (l : list A) :
  (forall x, In x l -> f (g x) = h x) -> forallb f (map g l) = forallb h l.
Proof.
  induction l as [|x l IH]; intros H; simpl; [reflexivity|].
  rewrite H by (left; reflexivity). f_equal. apply IH; intros; apply H; right; assumption.
Qed.

Lemma forallb_false_in {A : Type} (f : A -> bool) (l : list A) (x : A) :
  In x l -> f x = false -> forallb f l = false.
Proof.
  intros Hx Hf. destruct (forallb f l) eqn:E; [|reflexivity].
  rewrite forallb_forall in E. rewrite E in Hf by exact Hx. discriminate.
Qed.

Lemma forallb_false_ex {A : Type} (f : A -> bool) (l : list A) :
  forallb f l = false -> exists x, In x l /\ f x = false.
Proof.
  induction l as [|x l IH]; simpl; [discriminate|].
  destruct (f x) eqn:E; simpl; [|eauto].
  intros H. destruct (IH H) as (y & Hy & Hf). eauto.
Qed.

Lemma forallb_filter_nil {A : Type} (f : A -> bool) (l : list A) :
  (forall x, In x l -> f x = false) -> filter f l = [].
Proof.
  induction l as [|a l IH]; intros H; simpl; [reflexivity|].
  rewrite H by (left; reflexivity). apply IH. intros; apply H; right; assumption.
Qed.

(** The first element at which a test fails. *)
Lemma forallb_false_split {A : Type} (f : A -> bool) (l : list A) :
  forallb f l = false ->
  exists pre x post,
    l = (pre ++ x :: post)%list /\ forallb f pre = true /\ f x = false.
Proof.
  induction l as [|a l IH]; simpl; [discriminate|].
  destruct (f a) eqn:E; simpl.
  - intros H. destruct (IH H) as (pre & x & post & -> & Hp & Hx).
    exists (a :: pre), x, post. simpl. rewrite E. auto.
  - intros _. exists [], a, l. auto.
Qed.

Lemma forallb_andb {A : Type} (f g : A -> bool) (l : list A) :
  forallb (fun x => f x && g x) l = forallb f l && forallb g l.
Proof.
  induction l as [|x l IH]; simpl; [reflexivity|].
  rewrite IH. destruct (f x), (g x), (forallb f l); reflexivity.
Qed.

(** ** Loops whose body raises on some elements

    A body that, on each element, either raises [e] or conjoins a test of
    the element to the state: the loop raises [e] as soon as one element
    makes the body raise, and otherwise returns the conjunction. *)
Lemma for_each_guarded {A : Type} (body : bool -> A -> result bool)
  (g p : A -> bool) (e : exn) (l : list A) (b : bool) :
  (forall b x, In x l -> body b x = if g x then Ok (p x && b) else Raise e) ->
  for_each body l b = if forallb g l then Ok (forallb p l && b) else Raise e.
Proof.
  revert b; induction l as [|x l IH]; intros b Hb; simpl; [reflexivity|].
  rewrite Hb by (left; reflexivity). destruct (g x); simpl; [|reflexivity].
  rewrite IH by (intros; apply Hb; right; assumption).
  destruct (forallb g l); [|reflexivity].
  f_equal. destruct (p x), (forallb p l), b; reflexivity.
Qed.

(** The same for a body that steps the state where it does not raise. *)
Lemma for_each_guarded_fold {S A : Type} (body : S -> A -> result S)
  (g : A -> bool) (step : S -> A -> S) (e : exn) (l : list A) (s : S) :
  (forall s x, In x l -> body s x = if g x then Ok (step s x) else Raise e) ->
  for_each body l s = if forallb g l then Ok (fold_left step l s) else Raise e.
Proof.
  revert s; induction l as [|x l IH]; intros s Hb; simpl; [reflexivity|].
  rewrite Hb by (left; reflexivity). destruct (g x); simpl; [|reflexivity].
  apply IH. intros; apply Hb; right; assumption.
Qed.

(** ** Comprehensions *)

Lemma map_r_guarded {A B : Type} (f : A -> result B) (g : A -> bool) (h : A -> B)
  (e : exn) (l : list A) :
  (forall x, In x l -> f x = if g x then Ok (h x) else Raise e) ->
  map_r f l = if forallb g l then Ok (map h l) else Raise e.
Proof.
  induction l as [|x l IH]; intros Hf; simpl; [reflexivity|].
  rewrite Hf by (left; reflexivity). destruct (g x); simpl; [|reflexivity].
  rewrite IH by (intros; apply Hf; right; assumption).
  destruct (forallb g l); reflexivity.
Qed.

Lemma map_r_total {A B : Type} (f : A -> result B) (g : A -> B) (l : list A) :
  (forall x, In x l -> f x = Ok (g x)) -> map_r f l = Ok (map g l).
Proof.
  induction l as [|x l IH]; intros Hf; simpl; [reflexivity|].
  rewrite Hf by (left; reflexivity). simpl.
  rewrite IH by (intros; apply Hf; right; assumption). reflexivity.
Qed.

Lemma map_r_length {A B : Type} (f : A -> result B) (l : list A) (ys : list B) :
  map_r f l = Ok ys -> length ys = length l.
Proof.
  revert ys; induction l as [|x l IH]; intros ys; simpl.
  - intros [= <-]. reflexivity.
  - destruct (f x) as [y|]; simpl; [|discriminate].
    destruct (map_r f l) as [ys'|]; simpl; [|discriminate].
    intros [= <-]. simpl. f_equal. apply IH. reflexivity.
Qed.

Lemma map_r_raises {A B : Type} (f : A -> result B) (P : exn -> Prop)
  (l : list A) (z : exn) :
  (forall x z, In x l -> f x = Raise z -> P z) -> map_r f l = Raise z -> P z.
Proof.
  induction l as [|x l IH]; intros Hf; simpl; [discriminate|].
  destruct (f x) as [y|z1] eqn:E; simpl.
  - destruct (map_r f l) as [ys|z2] eqn:E2; simpl; [discriminate|].
    intros [= <-]. apply IH; [|reflexivity].
    intros; eapply Hf; eauto; right; assumption.
  - intros [= <-]. eapply Hf; eauto. left; reflexivity.
Qed.

(** ** Loops over commuting bodies

    A loop whose iterations commute on the states that satisfy an
    invariant returns the same result, or raises the same exception, in
    every order of its list. *)

Section ForEachOrder.
Context {S A : Type}.
Variable body : S -> A -> result S.
Variable good : A -> Prop.
Variable inv : S -> Prop.
Hypothesis commute : forall s x y, good x -> good y -> inv s ->
  (s' <- body s x ;; body s' y) = (s' <- body s y ;; body s' x).
Hypothesis preserved : forall s x s', good x -> inv s -> body s x = Ok s' -> inv s'.

Lemma for_each_Permutation (p q : list A) (s : S) :
  Permutation p q -> Forall good p -> inv s ->
  for_each body p s = for_each body q s.
Proof.
  intros Hp. revert s.
  induction Hp as [|x p q _ IH|x y p|p q r Hpq IH1 _ IH2]; intros s Hg Hs.
  - reflexivity.
  - inversion Hg; subst. simpl. destruct (body s x) as [s'|e] eqn:E; simpl; eauto.
  - inversion Hg as [|? ? Hy Hg']; subst. inversion Hg' as [|? ? Hx _]; subst.
    cbn [for_each]. rewrite <- !rbind_assoc. f_equal. auto.
  - rewrite IH1 by assumption. apply IH2; [|assumption].
    eapply Permutation_Forall; eauto.
Qed.

End ForEachOrder.

(** ** Sums *)

Lemma list_sum_ge (l : list nat) (k : nat) :
  Forall (fun x => k <= x) l -> k * length l <= list_sum l.
Proof.
  induction 1 as [|x l Hx _ IH]; simpl; [lia|].
  rewrite Nat.mul_succ_r. lia.
Qed.

(** Numbers that are each at least [k] and sum to [k] times their count are
    all equal to [k]. *)
Lemma list_sum_exact (l : list nat) (k : nat) :
  Forall (fun x => k <= x) l -> list_sum l = k * length l ->
  Forall (fun x => x = k) l.
Proof.
  induction 1 as [|x l Hx Hl IH]; simpl; intros Hs; [constructor|].
  rewrite Nat.mul_succ_r in Hs. pose proof (list_sum_ge l k Hl).
  constructor; [lia | apply IH; lia].
Qed.

(** ** [flat_map] *)

Lemma flat_map_ext_in {A B : Type} (f g : A -> list B) (l : list A) :
  (forall x, In x l -> f x = g x) -> flat_map f l = flat_map g l.
Proof.
  induction l as [|x l IH]; intros H; simpl; [reflexivity|].
  rewrite H by (left; reflexivity). f_equal.
  apply IH. intros; apply H; right; assumption.
Qed.

Lemma flat_map_singleton {A B : Type} (f : A -> list B) (g : A -> B) (l : list A) :
  (forall x, In x l -> f x = [g x]) -> flat_map f l = map g l.
Proof.
  induction l as [|x l IH]; intros H; simpl; [reflexivity|].
  rewrite H by (left; reflexivity). simpl. f_equal.
  apply IH. intros; apply H; right; assumption.
Qed.

Lemma length_flat_map_sum {A B : Type} (f : A -> list B) (l : list A) :
  length (flat_map f l) = list_sum (map (fun x => length (f x)) l).
Proof.
  induction l as [|x l IH]; simpl; [reflexivity|].
  rewrite length_app, IH. reflexivity.
Qed.
