(* ===== verification/PyDict.v ===== *)
(** * PyDict: Python dictionaries with text keys

    A [dict] of the program is a list of key-value pairs in insertion
    order, the order in which [items()] yields them.  [d[k]] raises
    [KeyError] on a missing key; [d[k] = v] replaces the value of a key
    that is present, in place, and appends a new key at the end.  A
    dictionary that the program builds has distinct keys ([dict_wf]);
    every operation keeps that.

    The last section gives the closed form of the loop that both sets of
    rules end with: for every record of one dictionary, compute an
    outcome and combine it into the entry of the same key in another. *)

From Stdlib Require Import String Ascii List Bool Arith Lia.
From S2P Require Import Prelude.
Import ListNotations.
Local Open Scope string_scope.
Local Open Scope py_scope.

Definition dict (V : Type) : Type := list (string * V).

(** [d[k]]. *)
Fixpoint dict_get {V : Type} (d : dict V) (k : string) : result V :=
  match d with
  | [] => Raise KeyError
  | (k', v) :: d' => if String.eqb k k' then Ok v else dict_get d' k
  end.

(** [d[k] = v]. *)
Fixpoint dict_set {V : Type} (d : dict V) (k : string) (v : V) : dict V :=
  match d with
  | [] => [(k, v)]
  | (k', v') :: d' =>
      if String.eqb k k' then (k', v) :: d' else (k', v') :: dict_set d' k v
  end.

(** [d.keys()], in insertion order. *)
Definition dict_keys {V : Type} (d : dict V) : list string := map fst d.

(** [k in d]. *)
Definition dict_has {V : Type} (d : dict V) (k : string) : bool :=
  existsb (String.eqb k) (dict_keys d).

(** [{k: v for k, v in pairs}]: the pairs are inserted from left to right,
    so a later pair overwrites an earlier one of the same key. *)
Definition dict_from_pairs {V : Type} (pairs : list (string * V)) : dict V :=
  fold_left (fun d kv => dict_set d (fst kv) (snd kv)) pairs [].

(** The keys of a dictionary are distinct. *)
Definition dict_wf {V : Type} (d : dict V) : Prop := NoDup (dict_keys d).

(** The same, as a test. *)
Fixpoint distinct (l : list string) : bool :=
  match l with
  | [] => true
  | x :: l' => negb (existsb (String.eqb x) l') && distinct l'
  end.

Definition dict_wfb {V : Type} (d : dict V) : bool := distinct (dict_keys d).

(** Every key of [c] is a key of [d]. *)
Definition has_keys_of {V X : Type} (d : dict V) (c : dict X) : bool :=
  forallb (dict_has d) (dict_keys c).

(** [d] with the value [v] of every key [k] that [c] also has replaced by
    [f k x v], where [x] is the value of [k] in [c]. *)
Definition dict_update_all {V X : Type} (f : string -> X -> V -> V)
  (c : dict X) (d : dict V) : dict V :=
  map (fun kv => (fst kv,
                  match dict_get c (fst kv) with
                  | Ok x => f (fst kv) x (snd kv)
                  | Raise _ => snd kv
                  end)) d.

(** ** Lookup *)

Section Lookup.
Context {V : Type}.
Implicit Types (d : dict V) (k : string) (v : V).

Lemma dict_get_raise d k (e : exn) :
  dict_get d k = Raise e -> e = KeyError /\ ~ In k (dict_keys d).
Proof.
  induction d as [|[k' v] d IH]; simpl.
  - intros [= <-]; auto.
  - destruct (String.eqb_spec k k'); [discriminate|].
    intros H; apply IH in H as [-> H]. split; [reflexivity|].
    intros [Hk|Hk]; [congruence | contradiction].
Qed.

Lemma dict_get_ok d k v : dict_get d k = Ok v -> In (k, v) d.
Proof.
  induction d as [|[k' v'] d IH]; simpl; [discriminate|].
  destruct (String.eqb_spec k k') as [->|]; [intros [= ->]; auto | auto].
Qed.

Lemma dict_get_in d k : In k (dict_keys d) -> exists v, dict_get d k = Ok v.
Proof.
  intros H. destruct (dict_get d k) as [v|e] eqn:E; [eauto|].
  apply dict_get_raise in E as [_ E]. contradiction.
Qed.

Lemma dict_get_not_in d k : ~ In k (dict_keys d) -> dict_get d k = Raise KeyError.
Proof.
  intros H. destruct (dict_get d k) as [v|e] eqn:E.
  - apply dict_get_ok, (in_map fst) in E. contradiction.
  - apply dict_get_raise in E as [-> _]. reflexivity.
Qed.

(** In a dictionary, a pair that is there is the one lookup finds. *)
Lemma dict_get_wf d k v : dict_wf d -> In (k, v) d -> dict_get d k = Ok v.
Proof.
  unfold dict_wf, dict_keys. induction d as [|[k' v'] d IH]; simpl; [tauto|].
  intros Hn [[= -> ->]|Hin]; inv Hn.
  - rewrite String.eqb_refl. reflexivity.
  - destruct (String.eqb_spec k k') as [->|]; [|auto].
    apply (in_map fst) in Hin. contradiction.
Qed.

Lemma dict_has_in d k : dict_has d k = true <-> In k (dict_keys d).
Proof.
  unfold dict_has. rewrite existsb_exists. split.
  - intros (x & Hx & E). apply String.eqb_eq in E. congruence.
  - intros H. exists k. split; [exact H | apply String.eqb_refl].
Qed.

Lemma distinct_NoDup (l : list string) : distinct l = true <-> NoDup l.
Proof.
  induction l as [|x l IH]; simpl.
  - split; [constructor | reflexivity].
  - rewrite andb_true_iff, negb_true_iff, IH. split.
    + intros [Hx Hl]. constructor; [|exact Hl]. intros Hin.
      assert (E : existsb (String.eqb x) l = true)
        by (apply existsb_exists; exists x; split; [exact Hin | apply String.eqb_refl]).
      congruence.
    + intros H. inv H. split; [|assumption].
      destruct (existsb (String.eqb x) l) eqn:E; [|reflexivity].
      apply existsb_exists in E as (y & Hy & E). apply String.eqb_eq in E. congruence.
Qed.

Lemma dict_wfb_spec d : dict_wfb d = true <-> dict_wf d.
Proof. apply distinct_NoDup. Qed.

(** ** Assignment *)

Lemma dict_get_set_eq d k v : dict_get (dict_set d k v) k = Ok v.
Proof.
  induction d as [|[k' v'] d IH]; simpl.
  - rewrite String.eqb_refl. reflexivity.
  - destruct (String.eqb_spec k k') as [->|Hne]; simpl.
    + rewrite String.eqb_refl. reflexivity.
    + apply String.eqb_neq in Hne. rewrite Hne. exact IH.
Qed.

Lemma dict_get_set_ne d k k' v :
  k <> k' -> dict_get (dict_set d k v) k' = dict_get d k'.
Proof.
  intros Hne. induction d as [|[k0 v0] d IH]; simpl.
  - destruct (String.eqb_spec k' k); [congruence | reflexivity].
  - destruct (String.eqb_spec k k0) as [->|]; simpl.
    + destruct (String.eqb_spec k' k0); [congruence | reflexivity].
    + rewrite IH. reflexivity.
Qed.

Lemma dict_keys_set_in d k v :
  In k (dict_keys d) -> dict_keys (dict_set d k v) = dict_keys d.
Proof.
  unfold dict_keys. induction d as [|[k' v'] d IH]; simpl; [tauto|].
  destruct (String.eqb_spec k k') as [->|Hne]; [reflexivity|].
  intros [E|H]; [congruence|]. simpl. f_equal. auto.
Qed.

Lemma dict_keys_set_new d k v :
  ~ In k (dict_keys d) -> dict_keys (dict_set d k v) = (dict_keys d ++ [k])%list.
Proof.
  unfold dict_keys. induction d as [|[k' v'] d IH]; simpl; [reflexivity|].
  destruct (String.eqb_spec k k') as [->|Hne]; [tauto|].
  intros H. simpl. f_equal. apply IH. tauto.
Qed.

Lemma dict_keys_set d k v :
  dict_keys (dict_set d k v)
  = if dict_has d k then dict_keys d else (dict_keys d ++ [k])%list.
Proof.
  destruct (dict_has d k) eqn:E.
  - apply dict_keys_set_in, dict_has_in, E.
  - apply dict_keys_set_new. rewrite <- dict_has_in. congruence.
Qed.

Lemma dict_keys_set_iff d k v k' :
  In k' (dict_keys (dict_set d k v)) <-> In k' (dict_keys d) \/ k' = k.
Proof.
  rewrite dict_keys_set. destruct (dict_has d k) eqn:E.
  - apply dict_has_in in E. split; [tauto|]. intros [H| ->]; assumption.
  - rewrite in_app_iff. simpl. split; [intros [H|[H|[]]]; auto | intros [H|H]; auto].
Qed.

(** A new key goes to the end. *)
Lemma dict_set_new d k v :
  ~ In k (dict_keys d) -> dict_set d k v = (d ++ [(k, v)])%list.
Proof.
  unfold dict_keys. induction d as [|[k' v'] d IH]; simpl; [reflexivity|].
  destruct (String.eqb_spec k k') as [->|]; [tauto|].
  intros H. f_equal. apply IH. tauto.
Qed.

Lemma dict_set_wf d k v : dict_wf d -> dict_wf (dict_set d k v).
Proof.
  unfold dict_wf. rewrite dict_keys_set. destruct (dict_has d k) eqn:E; [auto|].
  intros H. apply NoDup_app; [exact H | repeat constructor; simpl; tauto |].
  intros x Hx [<-|[]]. apply dict_has_in in Hx. congruence.
Qed.

(** Assigning to a key that is present a function of its value changes
    that value and nothing else. *)
Lemma dict_set_get_map d k (old : V) (g : V -> V) :
  dict_wf d -> dict_get d k = Ok old ->
  dict_set d k (g old)
  = map (fun kv => (fst kv, if String.eqb (fst kv) k then g (snd kv) else snd kv)) d.
Proof.
  unfold dict_wf, dict_keys. induction d as [|[k' v'] d IH]; simpl; [discriminate|].
  intros Hn. inv Hn. rewrite (String.eqb_sym k' k).
  destruct (String.eqb_spec k k') as [->|Hne].
  - intros [= ->]. f_equal. symmetry. erewrite map_ext_in; [apply map_id|].
    intros [k0 v0] Hin; simpl. destruct (String.eqb_spec k0 k') as [->|]; [|reflexivity].
    apply (in_map fst) in Hin. contradiction.
  - intros H. f_equal. auto.
Qed.

End Lookup.

Lemma has_keys_of_spec {V X : Type} (d : dict V) (c : dict X) :
  has_keys_of d c = true <-> incl (dict_keys c) (dict_keys d).
Proof.
  unfold has_keys_of. rewrite forallb_forall. unfold incl.
  split; intros H k Hk; apply dict_has_in; auto.
Qed.

(** ** Comprehensions *)

Lemma dict_from_pairs_app {V : Type} (l : list (string * V)) (d : dict V) :
  NoDup (map fst d ++ map fst l) ->
  fold_left (fun d kv => dict_set d (fst kv) (snd kv)) l d = (d ++ l)%list.
Proof.
  revert d; induction l as [|[k v] l IH]; intros d Hn; simpl.
  - rewrite app_nil_r. reflexivity.
  - assert (Hk : ~ In k (dict_keys d)).
    { apply NoDup_remove_2 in Hn. intros Hin. apply Hn, in_or_app. auto. }
    rewrite (dict_set_new d k v Hk), IH, <- app_assoc; [reflexivity|].
    rewrite map_app, <- app_assoc. exact Hn.
Qed.

(** A comprehension over pairs of distinct keys is the list of pairs. *)
Lemma dict_from_pairs_wf {V : Type} (l : list (string * V)) :
  NoDup (map fst l) -> dict_from_pairs l = l.
Proof. intros H. unfold dict_from_pairs. rewrite dict_from_pairs_app; auto. Qed.

(** ** Updating one dictionary from the records of another *)

Section UpdateAll.
Context {V X : Type}.
Variable f : string -> X -> V -> V.

Lemma dict_keys_update_all (c : dict X) (d : dict V) :
  dict_keys (dict_update_all f c d) = dict_keys d.
Proof. unfold dict_update_all, dict_keys. rewrite map_map. reflexivity. Qed.

Lemma dict_update_all_nil (d : dict V) : dict_update_all f [] d = d.
Proof.
  unfold dict_update_all. erewrite map_ext; [apply map_id|].
  intros [k v]; reflexivity.
Qed.

Lemma dict_get_update_all (c : dict X) (d : dict V) (k : string) :
  dict_get (dict_update_all f c d) k
  = (v <- dict_get d k ;;
     Ok (match dict_get c k with Ok x => f k x v | Raise _ => v end)).
Proof.
  induction d as [|[k' v'] d IH]; simpl; [reflexivity|].
  destruct (String.eqb_spec k k') as [->|]; [reflexivity | exact IH].
Qed.

(** One assignment followed by the update from the remaining records is
    the update from all of them. *)
Lemma dict_update_all_cons (k : string) (x : X) (c : dict X) (d : dict V) :
  ~ In k (dict_keys c) ->
  dict_update_all f c
    (map (fun kv => (fst kv, if String.eqb (fst kv) k then f k x (snd kv) else snd kv)) d)
  = dict_update_all f ((k, x) :: c) d.
Proof.
  intros Hk. unfold dict_update_all. rewrite map_map. apply map_ext.
  intros [k' v']; simpl. destruct (String.eqb_spec k' k) as [->|]; [|reflexivity].
  rewrite (dict_get_not_in c k Hk). reflexivity.
Qed.

(** The loop [for k, x in c.items(): d[k] = combine(d[k], check(k, x))]
    where [check] either returns or raises [e], depending on the record
    alone. *)
Lemma for_each_dict_update (check : string -> X -> result V) (g : string -> X -> bool)
  (h : string -> X -> V) (combine : V -> V -> V) (e : exn) (c : dict X) (d : dict V) :
  (forall k x, f k x = fun v => combine v (h k x)) ->
  (forall k x, In (k, x) c -> check k x = if g k x then Ok (h k x) else Raise e) ->
  dict_wf c -> dict_wf d -> incl (dict_keys c) (dict_keys d) ->
  for_each (fun d kv =>
              b <- check (fst kv) (snd kv) ;;
              old <- dict_get d (fst kv) ;;
              Ok (dict_set d (fst kv) (combine old b))) c d
  = if forallb (fun kv => g (fst kv) (snd kv)) c
    then Ok (dict_update_all f c d) else Raise e.
Proof.
  intros Hf. revert d; induction c as [|[k x] c IH]; intros d Hc Hwc Hwd Hin.
  - simpl. rewrite dict_update_all_nil. reflexivity.
  - cbn [for_each forallb fst snd]. rewrite Hc by (left; reflexivity).
    destruct (g k x); [|reflexivity]. rewrite rbind_ok.
    destruct (dict_get_in d k) as (old & Hold); [apply Hin; left; reflexivity|].
    rewrite Hold, !rbind_ok.
    rewrite (dict_set_get_map d k old (fun v => combine v (h k x)) Hwd Hold).
    inv Hwc. rewrite IH.
    + rewrite andb_true_l. destruct (forallb _ c); [|reflexivity].
      f_equal. rewrite <- dict_update_all_cons by assumption.
      rewrite Hf. reflexivity.
    + intros; apply Hc; right; assumption.
    + assumption.
    + unfold dict_wf, dict_keys in *. rewrite map_map. exact Hwd.
    + unfold dict_keys in *. rewrite map_map. simpl.
      intros k' Hk'. apply Hin. right. exact Hk'.
Qed.

End UpdateAll.

(** Two updates from the same records are one. *)
Lemma dict_update_all_twice {V X : Type} (f g : string -> X -> V -> V)
  (c : dict X) (d : dict V) :
  dict_update_all g c (dict_update_all f c d)
  = dict_update_all (fun k x v => g k x (f k x v)) c d.
Proof.
  unfold dict_update_all. rewrite map_map. apply map_ext.
  intros [k v]; simpl. destruct (dict_get c k); reflexivity.
Qed.

Lemma dict_update_all_ext {V X : Type} (f g : string -> X -> V -> V)
  (c : dict X) (d : dict V) :
  (forall k x v, In (k, x) c -> f k x v = g k x v) ->
  dict_update_all f c d = dict_update_all g c d.
Proof.
  intros H. unfold dict_update_all. apply map_ext.
  intros [k v]; simpl. destruct (dict_get c k) eqn:E; [|reflexivity].
  rewrite H; [reflexivity | apply dict_get_ok, E].
Qed.

(** ** Dictionaries built by successive assignments *)

Lemma fold_dict_set_wf {V : Type} (l : list (string * V)) (d : dict V) :
  dict_wf d ->
  dict_wf (fold_left (fun d kv => dict_set d (fst kv) (snd kv)) l d).
Proof.
  revert d; induction l as [|kv l IH]; intros d Hd; simpl; [exact Hd|].
  apply IH, dict_set_wf, Hd.
Qed.

Lemma fold_dict_set_keys {V : Type} (l : list (string * V)) (d : dict V) (k : string) :
  In k (dict_keys (fold_left (fun d kv => dict_set d (fst kv) (snd kv)) l d))
  <-> In k (dict_keys d) \/ In k (map fst l).
Proof.
  revert d; induction l as [|[k' v] l IH]; intros d; simpl; [tauto|].
  rewrite IH, dict_keys_set. destruct (dict_has d k') eqn:E.
  - apply dict_has_in in E. split; [tauto|].
    intros [H|[<-|H]]; auto.
  - rewrite in_app_iff. simpl. tauto.
Qed.

Lemma dict_from_pairs_is_wf {V : Type} (l : list (string * V)) :
  dict_wf (dict_from_pairs l).
Proof. apply fold_dict_set_wf. constructor. Qed.

Lemma dict_from_pairs_keys {V : Type} (l : list (string * V)) (k : string) :
  In k (dict_keys (dict_from_pairs l)) <-> In k (map fst l).
Proof. unfold dict_from_pairs. rewrite fold_dict_set_keys. simpl. tauto. Qed.

(** ** Predicates on the bindings *)

(** Assigning a value keeps a property of the bindings that the new
    binding has. *)
Lemma dict_set_Forall {V : Type} (P : string * V -> Prop) (d : dict V)
  (k : string) (v : V) :
  (forall k', P (k', v)) -> Forall P d -> Forall P (dict_set d k v).
Proof.
  intros Hv. induction 1 as [|[k' v'] d Hx Hd IH]; simpl.
  - constructor; [apply Hv | constructor].
  - destruct (String.eqb k k'); constructor; auto.
Qed.
