(* ===== verification/DictMap.v ===== *)
(** * DictMap: dictionaries as finite maps

    A Python dictionary is a finite map that remembers the order of
    insertion.  [PyDict] keeps the order, because [items()] shows it to
    the loops of the program; this file forgets it.  [to_gmap] sends a
    dictionary to the finite map of its bindings, the operations of
    [PyDict] are the lookup and the insertion of that map, and two
    dictionaries are equivalent when Python's [==] holds of them: when
    they are the same map.  The operations respect the equivalence; on
    dictionaries with distinct keys it is the permutation of the
    bindings. *)

From stdpp Require Import base option list fin_maps gmap strings.
From Stdlib Require Import String List Bool Arith.
From S2P Require Import Prelude.
From S2P Require Import PyDict.
Import ListNotations.
Local Open Scope string_scope.

(** ** The map of a dictionary *)

Definition to_gmap {V : Type} (d : dict V) : gmap string V := list_to_map d.

(** Python's [d == d'] on dictionaries whose values are compared by
    identity of contents. *)
#[export] Instance dict_equiv {V : Type} : Equiv (dict V) :=
  fun d d' => to_gmap d = to_gmap d'.

#[export] Instance dict_equivalence {V : Type} : Equivalence (≡@{dict V}).
Proof.
  split; unfold equiv, dict_equiv.
  - by intros d.
  - by intros d d' H.
  - intros d1 d2 d3 H1 H2. congruence.
Qed.

(** A result up to the equivalence of the dictionary it returns. *)
#[export] Instance result_equiv {V : Type} : Equiv (result (dict V)) :=
  fun m m' =>
    match m, m' with
    | Ok d, Ok d' => d ≡ d'
    | Raise e, Raise e' => e = e'
    | _, _ => False
    end.

(** ** The operations are those of the map *)

Section Refines.
Context {V : Type}.
Implicit Types (d : dict V) (k : string) (v : V).

(** [d[k]] is the lookup. *)
Lemma dict_get_lookup d k : dict_get d k = of_option KeyError (to_gmap d !! k).
Proof.
  unfold to_gmap. induction d as [|[k' v] d IH]; simpl; [done|].
  destruct (String.eqb_spec k k') as [->|Hne].
  - by rewrite lookup_insert_eq.
  - by rewrite lookup_insert_ne.
Qed.

(** [d[k] = v] is the insertion. *)
Lemma to_gmap_set d k v : to_gmap (dict_set d k v) = <[k:=v]> (to_gmap d).
Proof.
  unfold to_gmap. induction d as [|[k' v'] d IH]; simpl; [done|].
  destruct (String.eqb_spec k k') as [->|Hne]; simpl.
  - by rewrite insert_insert_eq.
  - rewrite IH. by apply insert_insert_ne.
Qed.

(** [k in d] is membership in the domain. *)
Lemma dict_has_lookup d k : dict_has d k = bool_decide (is_Some (to_gmap d !! k)).
Proof.
  unfold to_gmap, dict_has, dict_keys.
  induction d as [|[k' v] d IH]; simpl.
  - rewrite lookup_empty. symmetry. apply bool_decide_eq_false. by intros [? ?].
  - destruct (String.eqb_spec k k') as [->|Hne]; simpl.
    + rewrite lookup_insert_eq. symmetry. by apply bool_decide_eq_true.
    + by rewrite lookup_insert_ne.
Qed.

(** The dictionary built from pairs is the map of the pairs, the last of
    two pairs of one key winning. *)
Lemma to_gmap_from_pairs (pairs : list (string * V)) :
  to_gmap (dict_from_pairs pairs) = list_to_map (reverse pairs).
Proof.
  unfold dict_from_pairs.
  assert (H : ∀ d, to_gmap (fold_left (λ d kv, dict_set d kv.1 kv.2) pairs d)
                   = list_to_map (reverse pairs) ∪ to_gmap d).
  { induction pairs as [|[k v] pairs IH]; intros d; simpl.
    - by rewrite (left_id_L ∅ (∪)).
    - rewrite IH, to_gmap_set, reverse_cons, list_to_map_app. simpl.
      rewrite <- (assoc_L (∪)), insert_empty. f_equal.
      apply insert_union_singleton_l. }
  rewrite H. apply (right_id_L ∅ (∪)).
Qed.

End Refines.

(** The loop that ends every rule is a map over the bindings. *)
Lemma to_gmap_update_all {V X : Type} (f : string → X → V → V) (c : dict X)
  (d : dict V) :
  to_gmap (dict_update_all f c d)
  = map_imap (λ k v, Some (match to_gmap c !! k with
                           | Some x => f k x v
                           | None => v
                           end)) (to_gmap d).
Proof.
  unfold to_gmap at 1 3, dict_update_all.
  induction d as [|[k v] d IH]; simpl; [by rewrite map_imap_empty|].
  rewrite IH. erewrite map_imap_insert_Some; [|done].
  rewrite dict_get_lookup. by destruct (to_gmap c !! k).
Qed.

(** ** The operations respect the equivalence *)

#[export] Instance dict_get_proper {V : Type} :
  Proper ((≡) ==> (=) ==> (=)) (@dict_get V).
Proof. intros d d' H k ? <-. by rewrite !dict_get_lookup, H. Qed.

#[export] Instance dict_set_proper {V : Type} :
  Proper ((≡) ==> (=) ==> (=) ==> (≡)) (@dict_set V).
Proof.
  intros d d' H k ? <- v ? <-. unfold equiv, dict_equiv in *.
  by rewrite !to_gmap_set, H.
Qed.

#[export] Instance dict_has_proper {V : Type} :
  Proper ((≡) ==> (=) ==> (=)) (@dict_has V).
Proof. intros d d' H k ? <-. by rewrite !dict_has_lookup, H. Qed.

#[export] Instance dict_update_all_proper {V X : Type} (f : string → X → V → V) :
  Proper ((≡) ==> (≡) ==> (≡)) (dict_update_all f).
Proof.
  intros c c' Hc d d' Hd. unfold equiv, dict_equiv in *.
  by rewrite !to_gmap_update_all, Hc, Hd.
Qed.

(** ** Dictionaries with distinct keys *)

Section Distinct.
Context {V : Type}.
Implicit Types (d : dict V).

Lemma dict_keys_fmap d : dict_keys d = d.*1.
Proof. unfold dict_keys. induction d; simpl; f_equal; done. Qed.

(** Two dictionaries with distinct keys are the same map exactly when one
    lists the bindings of the other in another order. *)
Lemma dict_equiv_Permutation d d' :
  dict_wf d → dict_wf d' → d ≡ d' ↔ d ≡ₚ d'.
Proof.
  unfold dict_wf, equiv, dict_equiv, to_gmap.
  rewrite !dict_keys_fmap, <- !NoDup_ListNoDup. intros Hd Hd'. split.
  - by apply list_to_map_inj.
  - by apply list_to_map_proper.
Qed.

(** A loop over the bindings that tests each of them does not see the
    order. *)
Lemma forallb_dict_equiv (g : string * V → bool) d d' :
  dict_wf d → dict_wf d' → d ≡ d' → forallb g d = forallb g d'.
Proof.
  intros Hd Hd' H. apply dict_equiv_Permutation in H; [|done..].
  apply eq_true_iff_eq. rewrite !forallb_forall.
  split; intros Hg x Hx; apply Hg.
  - eapply Permutation_in; [symmetry; exact H | exact Hx].
  - eapply Permutation_in; [exact H | exact Hx].
Qed.

End Distinct.
