(* ===== verification/DataFrame.v ===== *)
(** * DataFrame: the table operations the batch pipeline calls

    A frame is its column labels and its rows, each row a list of cells.
    A cell is what [pd.read_csv] puts in a column of texts: a text, or
    the missing value [NaN] of an empty field.  Columns that
    [pd.read_csv] reads as numbers or booleans are outside the model.
    The frame keeps the default index (row [i] has label [i]), so
    assigning to the label [len(df)] appends a row.  Only the operations
    the scripts use are here, with the exceptions pandas raises for
    them: [KeyError] for a column that does not exist, [ValueError] for
    a row of the wrong width. *)

From Stdlib Require Import String Ascii List Bool Arith ZArith Lia.
From S2P Require Import Prelude.
From S2P Require Import PyString.
Import ListNotations.
Local Open Scope string_scope.
Local Open Scope py_scope.

(** ** Cells *)

Inductive cell : Type :=
  | Text (s : string)
  | NaN.

Coercion Text : string >-> cell.

(** [str(x)]. *)
Definition cell_str (c : cell) : string :=
  match c with
  | Text s => s
  | NaN => "nan"
  end.

(** [a == b], as the comparison of a column with a value computes it cell
    by cell: a missing value is equal to nothing, itself included. *)
Definition cell_eqb (a b : cell) : bool :=
  match a, b with
  | Text s, Text t => String.eqb s t
  | _, _ => false
  end.

(** The cell is a text, not a missing value. *)
Definition present (c : cell) : bool :=
  match c with
  | Text _ => true
  | NaN => false
  end.

Record DataFrame : Type := {
  columns : list string;
  values : list (list cell)
}.

(** [pd.read_csv(path)].  What the files hold and how their text is
    parsed are outside the model: a file system is the table, or the
    exception, that each path reads as. *)
Class Files : Type := {
  read_csv : string -> result DataFrame
}.

(** A file system with one readable file. *)
Definition one_file (path : string) (df : DataFrame) : Files :=
  {| read_csv := fun p => if String.eqb p path then Ok df
                          else Raise FileNotFoundError |}.

(** [pd.DataFrame(columns=cols)]. *)
Definition df_empty (cols : list string) : DataFrame :=
  {| columns := cols; values := [] |}.

(** [len(df)]. *)
Definition df_len (df : DataFrame) : nat := length (values df).

(** The position of a label among the columns. *)
Fixpoint index_of (name : string) (cols : list string) : option nat :=
  match cols with
  | [] => None
  | c :: cols' =>
      if String.eqb name c then Some 0 else option_map S (index_of name cols')
  end.

(** [row[name]] for a row that [df.iterrows()] yields. *)
Definition row_get (df : DataFrame) (row : list cell) (name : string)
  : result cell :=
  i <- of_option KeyError (index_of name (columns df)) ;;
  list_get row i.

(** [df[name].to_list()]. *)
Definition df_column (df : DataFrame) (name : string) : result (list cell) :=
  i <- of_option KeyError (index_of name (columns df)) ;;
  Ok (map (fun row => nth i row (Text "")) (values df)).

(** [df.loc[df[name] == x].values.tolist()]. *)
Definition df_loc_eq (df : DataFrame) (name : string) (x : cell)
  : result (list (list cell)) :=
  i <- of_option KeyError (index_of name (columns df)) ;;
  Ok (filter (fun row => cell_eqb (nth i row (Text "")) x) (values df)).

(** [l[0]] on a list of rows. *)
Definition first_row (l : list (list cell)) : result (list cell) :=
  match l with
  | [] => Raise IndexError
  | row :: _ => Ok row
  end.

(** [df.loc[len(df)] = row]. *)
Definition df_append (df : DataFrame) (row : list cell) : result DataFrame :=
  if (length row =? length (columns df))%nat
  then Ok {| columns := columns df; values := values df ++ [row] |}
  else Raise ValueError.

(** [l[0:stop]] for an integer [stop]: a negative [stop] counts from the
    end of the list. *)
Definition slice_to {A : Type} (stop : Z) (l : list A) : list A :=
  if (stop <? 0)%Z
  then firstn (Z.to_nat (Z.of_nat (length l) + stop)) l
  else firstn (Z.to_nat stop) l.

(** Every row has one cell per column. *)
Definition df_wf (df : DataFrame) : Prop :=
  Forall (fun row => length row = length (columns df)) (values df).

(** ** Equality of cells *)

Lemma cell_eqb_eq (a b : cell) : cell_eqb a b = true -> a = b.
Proof.
  destruct a, b; simpl; try discriminate; intros H;
    apply String.eqb_eq in H; congruence.
Qed.

Lemma cell_eqb_refl (a : cell) : present a = true -> cell_eqb a a = true.
Proof. destruct a; simpl; [intros _; apply String.eqb_refl | discriminate]. Qed.

Lemma cell_eqb_NaN (a : cell) : cell_eqb a NaN = false.
Proof. destruct a; reflexivity. Qed.

(** A cell that is present is the text [str] renders. *)
Lemma present_text (a : cell) : present a = true -> a = Text (cell_str a).
Proof. destruct a; [reflexivity | discriminate]. Qed.

(** The texts of distinct cells, none of them missing, are distinct. *)
Lemma NoDup_cell_str (ids : list cell) :
  NoDup ids -> forallb present ids = true -> NoDup (map cell_str ids).
Proof.
  induction 1 as [|a l Ha Hn IH]; simpl; [constructor|].
  intros Hp. apply andb_prop in Hp as (Hpa & Hp). constructor; [|auto].
  intros Hin. apply in_map_iff in Hin as (b & Hb & Hin). apply Ha.
  rewrite forallb_forall in Hp.
  rewrite (present_text a Hpa), <- Hb, <- (present_text b (Hp b Hin)). exact Hin.
Qed.

(** ** Columns *)

Lemma index_of_lt (name : string) (cols : list string) (i : nat) :
  index_of name cols = Some i -> i < length cols /\ nth_error cols i = Some name.
Proof.
  revert i; induction cols as [|c cols IH]; intros i; simpl; [discriminate|].
  destruct (String.eqb_spec name c) as [->|].
  - intros [= <-]. split; [lia | reflexivity].
  - destruct (index_of name cols) as [j|]; simpl; [|discriminate].
    intros [= <-]. destruct (IH j eq_refl). split; [lia | assumption].
Qed.

Lemma index_of_in (name : string) (cols : list string) :
  In name cols -> exists i, index_of name cols = Some i.
Proof.
  induction cols as [|c cols IH]; simpl; [tauto|].
  destruct (String.eqb_spec name c) as [->|Hne]; [eauto|].
  intros [E|H]; [congruence|]. destruct (IH H) as (i & ->). simpl. eauto.
Qed.

Lemma index_of_none (name : string) (cols : list string) :
  index_of name cols = None -> ~ In name cols.
Proof.
  intros H Hin. apply index_of_in in Hin as (i & Hi). congruence.
Qed.

(** ** Rows *)

Lemma row_get_wf (df : DataFrame) (row : list cell) (name : string) :
  df_wf df -> In row (values df) -> In name (columns df) ->
  exists v, row_get df row name = Ok v.
Proof.
  unfold df_wf, row_get. rewrite Forall_forall. intros Hw Hr Hn.
  destruct (index_of_in _ _ Hn) as (i & Hi). rewrite Hi. simpl.
  apply list_get_lt. rewrite (Hw row Hr). apply (index_of_lt _ _ _ Hi).
Qed.

Lemma row_get_missing (df : DataFrame) (row : list cell) (name : string) :
  ~ In name (columns df) -> row_get df row name = Raise KeyError.
Proof.
  intros Hn. unfold row_get. destruct (index_of name (columns df)) eqn:E.
  - apply index_of_lt in E as [_ E]. apply nth_error_In in E. contradiction.
  - reflexivity.
Qed.

Lemma length_df_column (df : DataFrame) (name : string) (l : list cell) :
  df_column df name = Ok l -> length l = df_len df.
Proof.
  unfold df_column, df_len. destruct (index_of name (columns df)); simpl;
    [|discriminate].
  intros [= <-]. apply length_map.
Qed.

Lemma df_column_raises (df : DataFrame) (name : string) (x : exn) :
  df_column df name = Raise x -> x = KeyError.
Proof.
  unfold df_column. destruct (index_of name (columns df)); simpl; congruence.
Qed.

(** A value of a column that is not missing selects at least the row it
    comes from. *)
Lemma df_loc_eq_column (df : DataFrame) (name : string) (ids : list cell)
  (x : cell) :
  df_column df name = Ok ids -> In x ids -> present x = true ->
  exists row rows, df_loc_eq df name x = Ok (row :: rows) /\ In row (values df).
Proof.
  unfold df_column, df_loc_eq. destruct (index_of name (columns df)) as [i|];
    simpl; [|discriminate].
  intros [= <-] Hx Hp. apply in_map_iff in Hx as (row & Hrow & Hin).
  assert (Hf : In row (filter (fun row => cell_eqb (nth i row (Text "")) x)
                         (values df))).
  { apply filter_In. split; [exact Hin|]. rewrite Hrow. apply cell_eqb_refl, Hp. }
  destruct (filter _ (values df)) as [|r rs] eqn:E; [destruct Hf|].
  exists r, rs. split; [reflexivity|].
  assert (Hr : In r (r :: rs)) by (left; reflexivity).
  rewrite <- E in Hr. apply filter_In in Hr. tauto.
Qed.

(** ** Appending *)

Lemma df_append_ok (df : DataFrame) (row : list cell) :
  length row = length (columns df) ->
  df_append df row = Ok {| columns := columns df; values := values df ++ [row] |}.
Proof. intros H. unfold df_append. rewrite H, Nat.eqb_refl. reflexivity. Qed.

Lemma df_append_raise (df : DataFrame) (row : list cell) :
  length row <> length (columns df) -> df_append df row = Raise ValueError.
Proof.
  intros H. unfold df_append. apply Nat.eqb_neq in H. rewrite H. reflexivity.
Qed.

Lemma df_append_inv (df df' : DataFrame) (row : list cell) :
  df_append df row = Ok df' ->
  length row = length (columns df) /\ columns df' = columns df /\
  values df' = (values df ++ [row])%list.
Proof.
  unfold df_append. destruct (Nat.eqb_spec (length row) (length (columns df)));
    [|discriminate].
  intros [= <-]. auto.
Qed.

Lemma df_append_wf (df df' : DataFrame) (row : list cell) :
  df_wf df -> df_append df row = Ok df' -> df_wf df'.
Proof.
  unfold df_wf. intros Hw H. apply df_append_inv in H as (Hl & Hc & Hv).
  rewrite Hc, Hv. apply Forall_app. split; [exact Hw|]. constructor; auto.
Qed.

Lemma df_empty_wf (cols : list string) : df_wf (df_empty cols).
Proof. constructor. Qed.

(** ** Slices *)

Lemma slice_to_nonneg {A : Type} (n : nat) (l : list A) :
  slice_to (Z.of_nat n) l = firstn n l.
Proof.
  unfold slice_to. destruct (Z.ltb_spec (Z.of_nat n) 0); [lia|].
  rewrite Nat2Z.id. reflexivity.
Qed.

Lemma slice_to_sub {A : Type} (n k : nat) (l : list A) :
  k <= n -> slice_to (Z.of_nat n - Z.of_nat k) l = firstn (n - k) l.
Proof.
  intros H. rewrite <- Nat2Z.inj_sub by exact H. apply slice_to_nonneg.
Qed.

Lemma length_slice_to_sub {A : Type} (n k : nat) (l : list A) :
  k <= n -> length l = n -> length (slice_to (Z.of_nat n - Z.of_nat k) l) = n - k.
Proof.
  intros H Hl. rewrite slice_to_sub by exact H. rewrite length_firstn. lia.
Qed.

(** ** Selecting by a column of distinct values *)

Lemma filter_key_none {A : Type} (f : A -> cell) (l : list A) (k : cell) :
  ~ In k (map f l) -> filter (fun y => cell_eqb (f y) k) l = [].
Proof.
  induction l as [|a l IH]; simpl; [reflexivity|].
  intros H. destruct (cell_eqb (f a) k) eqn:E; [|apply IH; tauto].
  apply cell_eqb_eq in E. tauto.
Qed.

Lemma filter_key_distinct {A : Type} (f : A -> cell) (l : list A) (x : A) :
  NoDup (map f l) -> In x l -> present (f x) = true ->
  filter (fun y => cell_eqb (f y) (f x)) l = [x].
Proof.
  induction l as [|a l IH]; simpl; [tauto|].
  intros Hn Hin Hp. inv Hn. destruct Hin as [->|Hin].
  - rewrite cell_eqb_refl, filter_key_none; auto.
  - destruct (cell_eqb (f a) (f x)) eqn:E; [|auto].
    exfalso. match goal with H : ~ In _ _ |- _ => apply H end.
    apply cell_eqb_eq in E. rewrite E. apply in_map. exact Hin.
Qed.

(** When the values of a column are distinct and none is missing, each
    selects its own row. *)
Lemma df_loc_eq_distinct (df : DataFrame) (name : string) (ids : list cell) :
  df_column df name = Ok ids -> NoDup ids -> forallb present ids = true ->
  map (df_loc_eq df name) ids = map (fun row => Ok [row]) (values df).
Proof.
  unfold df_column, df_loc_eq. destruct (index_of name (columns df)) as [i|];
    simpl; [|discriminate].
  intros [= <-] Hn Hp. rewrite map_map. apply map_ext_in. intros row Hrow. f_equal.
  apply (filter_key_distinct (fun row => nth i row (Text ""))); try assumption.
  rewrite forallb_forall in Hp.
  apply Hp, (in_map (fun row => nth i row (Text ""))), Hrow.
Qed.

(** ** Reading a cell by the position of its column *)

Lemma row_get_nth (df : DataFrame) (row : list cell) (name : string) (i : nat) :
  df_wf df -> In row (values df) -> index_of name (columns df) = Some i ->
  row_get df row name = Ok (nth i row (Text "")).
Proof.
  unfold df_wf, row_get. rewrite Forall_forall. intros Hw Hr Hi.
  rewrite Hi. simpl. apply list_get_ok, nth_error_nth'.
  rewrite (Hw row Hr). apply (index_of_lt _ _ _ Hi).
Qed.

Lemma df_column_index (df : DataFrame) (name : string) (ids : list cell) :
  df_column df name = Ok ids ->
  exists i, index_of name (columns df) = Some i /\
            ids = map (fun row => nth i row (Text "")) (values df).
Proof.
  unfold df_column. destruct (index_of name (columns df)) as [i|]; simpl;
    [|discriminate].
  intros [= <-]. eauto.
Qed.

Lemma df_column_returns (df : DataFrame) (name : string) :
  In name (columns df) -> exists ids, df_column df name = Ok ids.
Proof.
  intros Hn. unfold df_column. destruct (index_of_in _ _ Hn) as (i & ->).
  simpl. eauto.
Qed.
