(* ===== verification/Regex.v ===== *)
(** * Regex: the fragment of Python's [re] the sources use

    The only pattern of the repository,
    [^([01]?[0-9]|2[0-3]):[0-5][0-9]$], is built from characters,
    character ranges, concatenation, alternation and [?].  This file
    gives that fragment its usual semantics ([matches]), an executable
    matcher by derivatives ([matchb]) proved sound and complete for it,
    and [re_search_anchored], what [re.search] answers for a pattern
    written between [^] and [$] without the [MULTILINE] flag: [$] stands
    at the end of the string and also just before a newline that ends
    the string. *)

From Stdlib Require Import String Ascii List Bool Arith Lia.
From S2P Require Import Prelude.
Import ListNotations.
Local Open Scope string_scope.

Inductive regex : Type :=
| Void
| Eps
| Chr (c : ascii)
| Rng (lo hi : ascii)
| Seq (r1 r2 : regex)
| Alt (r1 r2 : regex)
| Opt (r : regex).

(** [c] is in the class [[lo-hi]]. *)
Definition in_range (lo hi c : ascii) : bool :=
  (nat_of_ascii lo <=? nat_of_ascii c)%nat && (nat_of_ascii c <=? nat_of_ascii hi)%nat.

Inductive matches : regex -> string -> Prop :=
| M_Eps : matches Eps ""
| M_Chr c : matches (Chr c) (String c "")
| M_Rng lo hi c : in_range lo hi c = true -> matches (Rng lo hi) (String c "")
| M_Seq r1 r2 s1 s2 :
    matches r1 s1 -> matches r2 s2 -> matches (Seq r1 r2) (s1 ++ s2)
| M_AltL r1 r2 s : matches r1 s -> matches (Alt r1 r2) s
| M_AltR r1 r2 s : matches r2 s -> matches (Alt r1 r2) s
| M_OptNone r : matches (Opt r) ""
| M_OptSome r s : matches r s -> matches (Opt r) s.

Fixpoint nullable (r : regex) : bool :=
  match r with
  | Void | Chr _ | Rng _ _ => false
  | Eps | Opt _ => true
  | Seq r1 r2 => nullable r1 && nullable r2
  | Alt r1 r2 => nullable r1 || nullable r2
  end.

(** The derivative of [r] by [c]: what may follow a leading [c]. *)
Fixpoint deriv (c : ascii) (r : regex) : regex :=
  match r with
  | Void | Eps => Void
  | Chr d => if Ascii.eqb c d then Eps else Void
  | Rng lo hi => if in_range lo hi c then Eps else Void
  | Seq r1 r2 =>
      if nullable r1 then Alt (Seq (deriv c r1) r2) (deriv c r2)
      else Seq (deriv c r1) r2
  | Alt r1 r2 => Alt (deriv c r1) (deriv c r2)
  | Opt r1 => deriv c r1
  end.

(** The whole string [s] is in the language of [r]. *)
Fixpoint matchb (r : regex) (s : string) : bool :=
  match s with
  | EmptyString => nullable r
  | String c s' => matchb (deriv c r) s'
  end.

(** [s] without the newline that ends it, when one does. *)
Fixpoint strip_final_newline (s : string) : option string :=
  match s with
  | EmptyString => None
  | String c s' =>
      match s' with
      | EmptyString => if Ascii.eqb c "010"%char then Some EmptyString else None
      | String _ _ => option_map (String c) (strip_final_newline s')
      end
  end.

(** [re.search("^r$", s) != None]. *)
Definition re_search_anchored (r : regex) (s : string) : bool :=
  matchb r s ||
  match strip_final_newline s with
  | Some s' => matchb r s'
  | None => false
  end.

#[export] Hint Constructors matches : py.

(** ** Soundness and completeness of the matcher *)

Lemma str_app_cons_inv (s1 s2 s : string) (c : ascii) :
  s1 ++ s2 = String c s ->
  (s1 = "" /\ s2 = String c s) \/ (exists s1', s1 = String c s1' /\ s = s1' ++ s2).
Proof.
  destruct s1 as [|a s1]; simpl; intros H; [left; auto|].
  inv H; right; eauto.
Qed.

Lemma str_app_empty_inv (s1 s2 : string) : s1 ++ s2 = "" -> s1 = "" /\ s2 = "".
Proof. destruct s1; simpl; [auto | discriminate]. Qed.

Lemma matches_Seq_inv (r1 r2 : regex) (s : string) :
  matches (Seq r1 r2) s ->
  exists s1 s2, s = s1 ++ s2 /\ matches r1 s1 /\ matches r2 s2.
Proof. intros H; inversion H; subst; eauto. Qed.

Lemma matches_Alt_inv (r1 r2 : regex) (s : string) :
  matches (Alt r1 r2) s -> matches r1 s \/ matches r2 s.
Proof. intros H; inversion H; subst; auto. Qed.

Lemma matches_Rng_inv (lo hi c : ascii) (s : string) :
  matches (Rng lo hi) (String c s) -> s = "" /\ in_range lo hi c = true.
Proof. intros H; inversion H; subst; auto. Qed.

Lemma matches_Chr_inv (d c : ascii) (s : string) :
  matches (Chr d) (String c s) -> s = "" /\ c = d.
Proof. intros H; inversion H; subst; auto. Qed.

Lemma matches_Rng_inv_gen (lo hi : ascii) (s : string) :
  matches (Rng lo hi) s -> exists c, s = String c "" /\ in_range lo hi c = true.
Proof. intros H; inversion H; subst; eauto. Qed.

Lemma matches_Chr_inv_gen (d : ascii) (s : string) :
  matches (Chr d) s -> s = String d "".
Proof. intros H; inversion H; subst; auto. Qed.

Lemma matches_Eps_inv (s : string) : matches Eps s -> s = "".
Proof. intros H; inversion H; subst; auto. Qed.

Lemma matches_Opt_inv (r : regex) (s : string) :
  matches (Opt r) s -> s = "" \/ matches r s.
Proof. intros H; inversion H; subst; auto. Qed.

Lemma matches_Seq_cons (r1 r2 : regex) (c : ascii) (s1 s2 : string) :
  matches r1 (String c s1) -> matches r2 s2 -> matches (Seq r1 r2) (String c (s1 ++ s2)).
Proof. intros H1 H2. change (String c (s1 ++ s2)) with (String c s1 ++ s2). auto with py. Qed.

Lemma matches_Seq_nil (r1 r2 : regex) (s : string) :
  matches r1 "" -> matches r2 s -> matches (Seq r1 r2) s.
Proof. intros H1 H2. change s with ("" ++ s). auto with py. Qed.

Lemma matches_Seq_char (r1 r2 : regex) (c : ascii) (s : string) :
  matches r1 (String c "") -> matches r2 s -> matches (Seq r1 r2) (String c s).
Proof. apply (matches_Seq_cons r1 r2 c ""). Qed.

#[export] Hint Resolve matches_Seq_char matches_Seq_cons matches_Seq_nil : py.

Lemma nullable_spec (r : regex) : nullable r = true <-> matches r "".
Proof.
  induction r; simpl; split; intros H;
    try discriminate; try solve [inversion H]; auto with py.
  - apply andb_true_iff in H as [H1 H2].
    apply matches_Seq_nil; [apply IHr1 | apply IHr2]; assumption.
  - apply matches_Seq_inv in H as (s1 & s2 & Hs & H1 & H2).
    symmetry in Hs. apply str_app_empty_inv in Hs as [-> ->].
    apply andb_true_iff; split; [apply IHr1 | apply IHr2]; assumption.
  - apply orb_true_iff in H as [H|H]; [apply M_AltL, IHr1 | apply M_AltR, IHr2]; exact H.
  - apply orb_true_iff.
    apply matches_Alt_inv in H as [H|H]; [left; apply IHr1 | right; apply IHr2]; assumption.
Qed.

Lemma deriv_sound (c : ascii) (r : regex) (s : string) :
  matches (deriv c r) s -> matches r (String c s).
Proof.
  revert s; induction r; simpl; intros s H; try solve [inversion H].
  - destruct (Ascii.eqb_spec c c0); inv H; constructor.
  - destruct (in_range lo hi c) eqn:E; inv H; constructor; exact E.
  - destruct (nullable r1) eqn:N.
    + apply matches_Alt_inv in H as [H|H].
      * apply matches_Seq_inv in H as (s1 & s2 & -> & H1 & H2). auto with py.
      * apply nullable_spec in N. auto with py.
    + apply matches_Seq_inv in H as (s1 & s2 & -> & H1 & H2). auto with py.
  - apply matches_Alt_inv in H as [H|H]; auto with py.
  - auto with py.
Qed.

Lemma deriv_complete (c : ascii) (r : regex) (s : string) :
  matches r (String c s) -> matches (deriv c r) s.
Proof.
  revert s; induction r; simpl; intros s H; try solve [inversion H].
  - apply matches_Chr_inv in H as [-> ->]. rewrite Ascii.eqb_refl; constructor.
  - apply matches_Rng_inv in H as [-> ->]. constructor.
  - apply matches_Seq_inv in H as (s1 & s2 & Hs & H1 & H2).
    symmetry in Hs. apply str_app_cons_inv in Hs as [[-> ->]|(s1' & -> & ->)].
    + apply nullable_spec in H1; rewrite H1. auto with py.
    + destruct (nullable r1); auto with py.
  - apply matches_Alt_inv in H as [H|H]; auto with py.
  - apply matches_Opt_inv in H as [H|H]; [discriminate | auto].
Qed.

Theorem matchb_correct (r : regex) (s : string) :
  matchb r s = true <-> matches r s.
Proof.
  revert r; induction s as [|c s IH]; intros r; simpl.
  - apply nullable_spec.
  - rewrite IH. split; [apply deriv_sound | apply deriv_complete].
Qed.

(** ** The final newline *)

Lemma strip_final_newline_spec (s s' : string) :
  strip_final_newline s = Some s' <-> s = s' ++ String "010"%char "".
Proof.
  revert s'; induction s as [|c s IH]; intros s'.
  - simpl; split; [discriminate|]. destruct s'; discriminate.
  - destruct s as [|d s].
    + simpl. destruct (Ascii.eqb_spec c "010"%char) as [->|Hne]; split; intros H.
      * inv H; reflexivity.
      * destruct s' as [|a [|b s']]; simpl in H; try discriminate; reflexivity.
      * discriminate.
      * destruct s' as [|a [|b s']]; simpl in H; try discriminate; congruence.
    + change (strip_final_newline (String c (String d s)))
        with (option_map (String c) (strip_final_newline (String d s))).
      destruct (strip_final_newline (String d s)) as [t|] eqn:E; simpl.
      * pose proof (proj1 (IH t) eq_refl) as Ht. split; intros H.
        -- inv H. simpl. rewrite Ht. reflexivity.
        -- destruct s' as [|a s']; simpl in H; [discriminate|].
           injection H as -> H. apply IH in H. congruence.
      * split; [discriminate|]. intros H.
        destruct s' as [|a s']; simpl in H; [discriminate|].
        injection H as -> H. apply IH in H. discriminate.
Qed.

(** [re.search] with both anchors finds a match exactly when the string, or
    the string without its final newline, is in the language. *)
Theorem re_search_anchored_spec (r : regex) (s : string) :
  re_search_anchored r s = true <->
  matches r s \/ exists s', s = s' ++ String "010"%char "" /\ matches r s'.
Proof.
  unfold re_search_anchored. rewrite orb_true_iff, matchb_correct.
  apply or_iff_compat_l.
  destruct (strip_final_newline s) as [t|] eqn:E.
  - apply strip_final_newline_spec in E. rewrite matchb_correct. split.
    + intros H; eauto.
    + intros (s' & Hs & H). subst s.
      assert (Some t = Some s') as [= ->]; [|exact H].
      rewrite <- (proj2 (strip_final_newline_spec _ t) eq_refl).
      apply strip_final_newline_spec; exact Hs.
  - split; [discriminate|]. intros (s' & Hs & _).
    apply strip_final_newline_spec in Hs; congruence.
Qed.

(** ** Character classes *)

Lemma nat_of_ascii_inj (c d : ascii) : nat_of_ascii c = nat_of_ascii d -> c = d.
Proof.
  intros H. rewrite <- (ascii_nat_embedding c), <- (ascii_nat_embedding d).
  congruence.
Qed.

Lemma in_range_spec (lo hi c : ascii) :
  in_range lo hi c = true <->
  nat_of_ascii lo <= nat_of_ascii c /\ nat_of_ascii c <= nat_of_ascii hi.
Proof. unfold in_range. rewrite andb_true_iff, !Nat.leb_le. reflexivity. Qed.

(** A character of a class differs from every character outside it. *)
Lemma in_range_neq (lo hi c d : ascii) :
  in_range lo hi c = true -> in_range lo hi d = false -> Ascii.eqb c d = false.
Proof.
  intros Hc Hd. destruct (Ascii.eqb_spec c d) as [->|]; congruence.
Qed.

(** A class inside another one. *)
Lemma in_range_weaken (lo hi lo' hi' c : ascii) :
  in_range lo hi c = true ->
  in_range lo' hi' lo = true -> in_range lo' hi' hi = true ->
  in_range lo' hi' c = true.
Proof. rewrite !in_range_spec. lia. Qed.

(** Inverts every hypothesis [matches r s] whose [r] is a constructor. *)
Ltac invert_matches :=
  repeat match goal with
  | H : matches (Seq _ _) _ |- _ =>
      apply matches_Seq_inv in H as (? & ? & ? & ? & ?); subst
  | H : matches (Alt _ _) _ |- _ => apply matches_Alt_inv in H as [?|?]
  | H : matches (Opt _) _ |- _ => apply matches_Opt_inv in H as [?|?]; subst
  | H : matches (Rng _ _) _ |- _ =>
      apply matches_Rng_inv_gen in H as (? & ? & ?); subst
  | H : matches (Chr _) _ |- _ => apply matches_Chr_inv_gen in H; subst
  | H : matches Eps _ |- _ => apply matches_Eps_inv in H; subst
  | H : matches Void _ |- _ => inversion H
  end.
