(* ===== verification/TimeFormat.v ===== *)
(** * TimeFormat: the two readings of a time of day

    The rules read an opening or closing time in two ways.
    [test_valid_open_closed_hours] matches it against
    [time_regex]; [test_close_hour_greater_than_open_hour] parses it with
    [datetime.strptime(s, "%H:%M")] and compares the two results.  This
    file models both ([is_time], [strptime_HM], [datetime_gt]), relates
    [strptime_HM] to the pattern CPython compiles the format into
    ([strptime_regex]), and proves what each accepts. *)

From Stdlib Require Import String Ascii List Bool Arith Lia.
From S2P Require Import Prelude.
From S2P Require Import PyString.
From S2P Require Import Regex.
Import ListNotations.
Local Open Scope string_scope.
Local Open Scope py_scope.

(** ** The pattern of [test_valid_open_closed_hours] *)

Definition digit : regex := Rng "0" "9".

(** [([01]?[0-9]|2[0-3]):[0-5][0-9]], the pattern between [^] and [$]. *)
Definition time_regex : regex :=
  Seq (Alt (Seq (Opt (Rng "0" "1")) digit) (Seq (Chr "2") (Rng "0" "3")))
      (Seq (Chr ":") (Seq (Rng "0" "5") digit)).

(** [re.search(time_regex, s) != None]. *)
Definition is_time (s : string) : bool := re_search_anchored time_regex s.

(** ** [datetime.strptime(s, "%H:%M")] *)

(** [int(s)] on a string of decimal digits. *)
Fixpoint int_of_digits_from (acc : nat) (s : string) : nat :=
  match s with
  | EmptyString => acc
  | String c s' => int_of_digits_from (10 * acc + digit_val c) s'
  end.

Definition int_of_digits (s : string) : nat := int_of_digits_from 0 s.

(** The directive [%H]: one digit, or two digits that read 00 to 23. *)
Definition parse_hour (h : string) : option nat :=
  match h with
  | String a EmptyString => if is_digit a then Some (int_of_digits h) else None
  | String a (String b EmptyString) =>
      if (Ascii.eqb a "2" && in_range "0" "3" b) || (in_range "0" "1" a && is_digit b)
      then Some (int_of_digits h) else None
  | _ => None
  end.

(** The directive [%M]: one digit, or two digits that read 00 to 59. *)
Definition parse_minute (m : string) : option nat :=
  match m with
  | String a EmptyString => if is_digit a then Some (int_of_digits m) else None
  | String a (String b EmptyString) =>
      if in_range "0" "5" a && is_digit b then Some (int_of_digits m) else None
  | _ => None
  end.

(** The hour and the minute of [datetime.strptime(s, "%H:%M")]; the date is
    1900-01-01 whatever [s].  Anything but an hour, a colon and a minute
    is a [ValueError]. *)
Definition strptime_HM (s : string) : result (nat * nat) :=
  match str_split ":" s with
  | [h; m] =>
      match parse_hour h, parse_minute m with
      | Some hh, Some mm => Ok (hh, mm)
      | _, _ => Raise ValueError
      end
  | _ => Raise ValueError
  end.

(** [a > b] on two results of [strptime_HM]: datetimes of the same day
    compare by hour, then by minute. *)
Definition datetime_gt (a b : nat * nat) : bool :=
  (fst b <? fst a)%nat || ((fst a =? fst b)%nat && (snd b <? snd a)%nat).

(** The pattern CPython's [_strptime] compiles ["%H:%M"] into:
    [(2[0-3]|[0-1]\d|\d):([0-5]\d|\d)]. *)
Definition hour_regex : regex :=
  Alt (Seq (Chr "2") (Rng "0" "3")) (Alt (Seq (Rng "0" "1") digit) digit).

Definition minute_regex : regex := Alt (Seq (Rng "0" "5") digit) digit.

Definition strptime_regex : regex :=
  Seq hour_regex (Seq (Chr ":") minute_regex).

(** Minutes since midnight. *)
Definition minutes_of (t : nat * nat) : nat := 60 * fst t + snd t.

(** ** Runs *)

Example is_time_runs :
  map is_time ["15:00"; "9:05"; "23:59"; "24:00"; "12:60"; "7:5"; ""; "12pm"]
  = [true; true; true; false; false; false; false; false].
Proof. vm_compute. reflexivity. Qed.

Example strptime_HM_runs :
  map strptime_HM ["15:00"; "9:05"; "7:5"; "24:00"; "12:60"; ""; "1:2:3"]
  = [Ok (15, 0); Ok (9, 5); Ok (7, 5); Raise ValueError; Raise ValueError;
     Raise ValueError; Raise ValueError].
Proof. vm_compute. reflexivity. Qed.

(** ** Digits *)

Lemma is_digit_in_range (a : ascii) : is_digit a = in_range "0" "9" a.
Proof. reflexivity. Qed.

Lemma digit_val_range (lo hi c : ascii) :
  in_range lo hi c = true -> digit_val lo <= digit_val c <= digit_val hi.
Proof. rewrite in_range_spec. unfold digit_val. lia. Qed.

Lemma int_of_digits_1 (a : ascii) : int_of_digits (String a "") = digit_val a.
Proof. unfold int_of_digits; simpl; lia. Qed.

Lemma int_of_digits_2 (a b : ascii) :
  int_of_digits (String a (String b "")) = 10 * digit_val a + digit_val b.
Proof. unfold int_of_digits; simpl; lia. Qed.

(** Turns the class tests of the context into bounds on [digit_val]. *)
Ltac digit_bounds :=
  repeat match goal with
  | H : is_digit _ = true |- _ =>
      rewrite is_digit_in_range in H
  | H : in_range _ _ ?c = true |- _ =>
      apply digit_val_range in H; vm_compute (digit_val (Ascii _ _ _ _ _ _ _ _)) in H
  | H : Ascii.eqb _ _ = true |- _ => apply Ascii.eqb_eq in H; subst
  | H : _ && _ = true |- _ => apply andb_true_iff in H as [? ?]
  | H : _ || _ = true |- _ => apply orb_true_iff in H as [?|?]
  end.

(** ** What [strptime_HM] returns *)

Lemma parse_hour_bound (hs : string) (h : nat) :
  parse_hour hs = Some h -> h < 24.
Proof.
  destruct hs as [|a [|b [|c hs]]]; simpl; try discriminate.
  - destruct (is_digit a) eqn:D; intros [= <-].
    rewrite int_of_digits_1. digit_bounds. lia.
  - match goal with |- (if ?t then _ else _) = _ -> _ => destruct t eqn:D end;
      intros [= <-].
    rewrite int_of_digits_2. digit_bounds; vm_compute (digit_val "2"); lia.
Qed.

Lemma parse_minute_bound (ms : string) (m : nat) :
  parse_minute ms = Some m -> m < 60.
Proof.
  destruct ms as [|a [|b [|c ms]]]; simpl; try discriminate.
  - destruct (is_digit a) eqn:D; intros [= <-].
    rewrite int_of_digits_1. digit_bounds. lia.
  - match goal with |- (if ?t then _ else _) = _ -> _ => destruct t eqn:D end;
      intros [= <-].
    rewrite int_of_digits_2. digit_bounds; lia.
Qed.

Lemma strptime_HM_ok_inv (s : string) (h m : nat) :
  strptime_HM s = Ok (h, m) ->
  exists hs ms, s = hs ++ String ":" ms /\ parse_hour hs = Some h /\
                parse_minute ms = Some m.
Proof.
  unfold strptime_HM. intros H.
  destruct (str_split ":" s) as [|hs [|ms [|x l]]] eqn:E; try discriminate.
  destruct (parse_hour hs) as [hh|] eqn:Eh; [|discriminate].
  destruct (parse_minute ms) as [mm|] eqn:Em; [|discriminate].
  inv H. exists hs, ms. repeat split; auto.
  rewrite <- (str_join_split ":" s), E. reflexivity.
Qed.

(** [strptime_HM] raises nothing but [ValueError]. *)
Lemma strptime_HM_raise (s : string) (e : exn) :
  strptime_HM s = Raise e -> e = ValueError.
Proof.
  unfold strptime_HM.
  destruct (str_split ":" s) as [|hs [|ms [|x l]]]; try congruence.
  destruct (parse_hour hs), (parse_minute ms); congruence.
Qed.

(** ** [strptime_HM] and the pattern of CPython *)

(** For every character known to be in a class: it is not the colon, and it
    is a digit when the class is one of digits. *)
Ltac range_facts :=
  repeat match goal with
  | H : in_range ?lo ?hi ?x = true |- _ =>
      lazymatch goal with
      | _ : Ascii.eqb x ":" = false |- _ => fail
      | _ => pose proof (in_range_neq lo hi x ":" H eq_refl);
             pose proof (in_range_weaken lo hi "0" "9" x H eq_refl eq_refl)
      end
  end.

Ltac rewrite_tests :=
  rewrite ?is_digit_in_range;
  repeat match goal with
  | H : _ = true |- _ => rewrite H
  | H : _ = false |- _ => rewrite H
  end.

Lemma hour_regex_parse (hs : string) :
  matches hour_regex hs ->
  (exists h, parse_hour hs = Some h) /\ str_count ":" hs = 0.
Proof.
  unfold hour_regex, digit. intros H. invert_matches; range_facts;
    simpl; rewrite_tests; simpl; rewrite ?orb_true_r; eauto.
Qed.

Lemma minute_regex_parse (ms : string) :
  matches minute_regex ms ->
  (exists m, parse_minute ms = Some m) /\ str_count ":" ms = 0.
Proof.
  unfold minute_regex, digit. intros H. invert_matches; range_facts;
    simpl; rewrite_tests; simpl; eauto.
Qed.

Lemma parse_hour_regex (hs : string) (h : nat) :
  parse_hour hs = Some h -> matches hour_regex hs.
Proof.
  unfold hour_regex, digit.
  destruct hs as [|a [|b [|c hs]]]; simpl; try discriminate.
  - rewrite is_digit_in_range. destruct (in_range "0" "9" a) eqn:D; [|discriminate].
    auto with py.
  - rewrite is_digit_in_range.
    match goal with |- (if ?t then _ else _) = _ -> _ => destruct t eqn:D end;
      [|discriminate]. intros _.
    apply orb_true_iff in D as [D|D]; apply andb_true_iff in D as [D1 D2].
    + apply Ascii.eqb_eq in D1; subst. auto 6 with py.
    + auto 6 with py.
Qed.

Lemma parse_minute_regex (ms : string) (m : nat) :
  parse_minute ms = Some m -> matches minute_regex ms.
Proof.
  unfold minute_regex, digit.
  destruct ms as [|a [|b [|c ms]]]; simpl; try discriminate;
    rewrite is_digit_in_range.
  - destruct (in_range "0" "9" a) eqn:D; [|discriminate]. auto with py.
  - match goal with |- (if ?t then _ else _) = _ -> _ => destruct t eqn:D end;
      [|discriminate]. intros _.
    apply andb_true_iff in D as [D1 D2]. auto 6 with py.
Qed.

Lemma strptime_HM_ok_iff (s : string) :
  (exists hm, strptime_HM s = Ok hm) <-> matches strptime_regex s.
Proof.
  split.
  - intros [[h m] H]. apply strptime_HM_ok_inv in H as (hs & ms & -> & Hh & Hm).
    apply M_Seq; [eapply parse_hour_regex; eauto|].
    apply matches_Seq_char; [constructor | eapply parse_minute_regex; eauto].
  - unfold strptime_regex. intros H. invert_matches.
    match goal with Hr : matches hour_regex _ |- _ =>
      apply hour_regex_parse in Hr as ((h & Hh) & Ch) end.
    match goal with Hr : matches minute_regex _ |- _ =>
      apply minute_regex_parse in Hr as ((m & Hm) & Cm) end.
    exists (h, m). unfold strptime_HM. simpl String.append.
    rewrite str_split_app_sep, !str_split_no_sep by assumption. simpl.
    rewrite Hh, Hm. reflexivity.
Qed.

(** [strptime_HM] accepts exactly the language of the pattern
    CPython compiles ["%H:%M"] into. *)
Theorem strptime_HM_regex (s : string) :
  is_ok (strptime_HM s) = matchb strptime_regex s.
Proof.
  apply eq_true_iff_eq.
  rewrite matchb_correct, is_ok_true. apply strptime_HM_ok_iff.
Qed.

(** ** The pattern of the rule against [strptime_HM] *)

(** Every string of the rule's pattern is in the language of ["%H:%M"]. *)
Lemma time_regex_incl (s : string) :
  matches time_regex s -> matches strptime_regex s.
Proof.
  unfold time_regex, strptime_regex, hour_regex, minute_regex, digit.
  intros H. invert_matches; range_facts;
    (apply M_Seq; [simpl | apply M_Seq; [constructor | simpl]]); auto 6 with py.
Qed.

Lemma strptime_HM_of_regex (s : string) :
  matches strptime_regex s ->
  exists h m, strptime_HM s = Ok (h, m) /\ h < 24 /\ m < 60.
Proof.
  intros H. apply strptime_HM_ok_iff in H as [[h m] H].
  exists h, m. split; [exact H|].
  apply strptime_HM_ok_inv in H as (hs & ms & _ & Hh & Hm).
  split; [eapply parse_hour_bound | eapply parse_minute_bound]; eauto.
Qed.

(** C38. A time the pattern of the rule accepts, and that does not end in a
    newline, is parsed by [strptime_HM] into an hour below 24 and a minute
    below 60. *)
Theorem is_time_strptime (s : string) :
  is_time s = true -> strip_final_newline s = None ->
  exists h m, strptime_HM s = Ok (h, m) /\ h < 24 /\ m < 60.
Proof.
  unfold is_time. intros H Hnl.
  apply re_search_anchored_spec in H as [H|(s' & Hs & _)].
  - apply strptime_HM_of_regex, time_regex_incl, H.
  - apply strip_final_newline_spec in Hs. congruence.
Qed.

(** C40. The pattern of the rule accepts a time followed by one newline;
    [strptime_HM] does not. *)
Theorem is_time_final_newline (s : string) :
  matches time_regex s ->
  is_time (s ++ String "010" "") = true /\
  strptime_HM (s ++ String "010" "") = Raise ValueError.
Proof.
  intros H. split.
  - apply re_search_anchored_spec. right; eauto.
  - destruct (strptime_HM (s ++ String "010" "")) as [[h m]|e] eqn:E;
      [|f_equal; eapply strptime_HM_raise; eauto].
    exfalso. revert E. unfold time_regex, digit in H. invert_matches;
      range_facts; unfold strptime_HM; simpl; rewrite_tests; simpl;
      match goal with |- match ?x with _ => _ end = _ -> _ => destruct x end;
      discriminate.
Qed.

(** [strptime_HM] reads a one-digit minute; the pattern wants two. *)
Example strptime_HM_not_is_time :
  strptime_HM "7:5" = Ok (7, 5) /\ is_time "7:5" = false.
Proof. split; vm_compute; reflexivity. Qed.

(** ** Comparing two times *)

Lemma datetime_gt_minutes (a b : nat * nat) :
  snd a < 60 -> snd b < 60 ->
  datetime_gt a b = (minutes_of b <? minutes_of a)%nat.
Proof.
  destruct a as [h1 m1], b as [h2 m2]; unfold datetime_gt, minutes_of;
    cbn [fst snd]. intros Ha Hb.
  destruct (Nat.ltb_spec h2 h1), (Nat.eqb_spec h1 h2), (Nat.ltb_spec m2 m1),
    (Nat.ltb_spec (60 * h2 + m2) (60 * h1 + m1)); simpl; try reflexivity; lia.
Qed.

Lemma datetime_gt_irrefl (a : nat * nat) : datetime_gt a a = false.
Proof.
  unfold datetime_gt. rewrite !Nat.ltb_irrefl, andb_false_r. reflexivity.
Qed.

Lemma datetime_gt_asym (a b : nat * nat) :
  datetime_gt a b = true -> datetime_gt b a = false.
Proof.
  destruct a as [h1 m1], b as [h2 m2]; unfold datetime_gt; cbn [fst snd].
  destruct (Nat.ltb_spec h2 h1), (Nat.eqb_spec h1 h2), (Nat.ltb_spec m2 m1),
    (Nat.ltb_spec h1 h2), (Nat.eqb_spec h2 h1), (Nat.ltb_spec m1 m2);
    simpl; intros; try reflexivity; try discriminate; lia.
Qed.

(** ** Witnesses *)

Lemma is_time_strptime_witness :
  exists h m, strptime_HM "9:05" = Ok (h, m) /\ h < 24 /\ m < 60.
Proof. apply is_time_strptime; vm_compute; reflexivity. Defined.

Lemma is_time_final_newline_witness :
  is_time ("15:00" ++ String "010" "") = true /\
  strptime_HM ("15:00" ++ String "010" "") = Raise ValueError.
Proof.
  apply is_time_final_newline. apply matchb_correct. vm_compute. reflexivity.
Defined.
