(* ===== verification/Entry.v ===== *)
(** * Entry: one schedule entry as the rules read it

    Both pipelines validate a candidate by splitting it on [;] into
    entries and each entry on [,] into fields, and then reading fields by
    position.  This file holds what the two sets of rules share: the
    fields of an entry, the test that a field exists and satisfies a
    predicate, the reserved fields that must be empty, and the counting
    rule (thirteen commas per entry) with the arithmetic that turns it
    into "exactly fourteen fields per entry". *)

From Stdlib Require Import String Ascii List Bool Arith Lia.
From S2P Require Import Prelude.
From S2P Require Import PyString.
Import ListNotations.
Local Open Scope string_scope.
Local Open Scope py_scope.
(** ** Fields

    Field [i] exists and satisfies [p]. *)
Definition field_is (value : list string) (i : nat) (p : string -> bool) : bool :=
  match nth_error value i with
  | Some v => p v
  | None => false
  end.

Definition is_empty (v : string) : bool := v =? "".

Definition fields (entry : string) : list string := str_split "," entry.

(** The reserved fields of an entry are there and empty. *)
Definition null_values_ok (entry : string) : bool :=
  forallb (fun i => field_is (fields entry) i is_empty) [3; 4; 5; 6; 11; 12; 13].

(** The counting rule as the specification states it: thirteen commas per
    entry. *)
Definition entry_format_ok (formatted : string) : bool :=
  (str_count "," formatted =? 13 * (str_count ";" formatted + 1))%nat.

(** ** Reading a field

    A read under a handler that answers [False] is [field_is]. *)
Lemma except_all_get (value : list string) (i : nat) (p : string -> bool) :
  except_all (v <- list_get value i ;; Ok (p v)) false = field_is value i p.
Proof. unfold list_get, field_is. destruct (nth_error value i); reflexivity. Qed.

Lemma length_zero_eqb (s : string) : (String.length s =? 0)%nat = (s =? "").
Proof. destruct s; reflexivity. Qed.

Lemma field_is_ext (value : list string) (i : nat) (p q : string -> bool) :
  (forall v, nth_error value i = Some v -> p v = q v) ->
  field_is value i p = field_is value i q.
Proof. unfold field_is. destruct (nth_error value i); auto. Qed.

Lemma field_is_true (value : list string) (i : nat) (p : string -> bool) :
  field_is value i p = true <-> exists v, nth_error value i = Some v /\ p v = true.
Proof.
  unfold field_is. destruct (nth_error value i) as [v|]; split.
  - eauto.
  - intros (v' & [= <-] & H); exact H.
  - discriminate.
  - intros (v' & H & _); discriminate.
Qed.

Lemma field_is_lt (value : list string) (i : nat) (p : string -> bool) :
  field_is value i p = true -> i < length value.
Proof.
  intros H. apply field_is_true in H as (v & H & _).
  apply nth_error_Some. congruence.
Qed.

(** A field exists as soon as a later one does. *)
Lemma field_is_below (value : list string) (i j : nat) (p q : string -> bool) :
  field_is value j q = true -> i <= j ->
  field_is value i p = except_all (v <- list_get value i ;; Ok (p v)) false /\
  exists v, nth_error value i = Some v.
Proof.
  intros H Hij. split; [symmetry; apply except_all_get|].
  apply field_is_lt in H.
  destruct (nth_error value i) eqn:E; [eauto|].
  apply nth_error_None in E. lia.
Qed.

(** ** The counting rule

    The two assignments of [test_valid_entry_format], with [s] semicolons
    and [c] commas, amount to [c = 13 * (s + 1)]. *)
Lemma entry_format_formula (s c : nat) :
  (((s <? 1) && (c =? 13)) || ((1 <=? s) && (13 <? c)) && (13 + s * 13 =? c)
   = (c =? 13 * (s + 1)))%nat.
Proof.
  destruct (Nat.ltb_spec s 1), (Nat.eqb_spec c 13), (Nat.leb_spec 1 s),
    (Nat.ltb_spec 13 c), (Nat.eqb_spec (13 + s * 13) c),
    (Nat.eqb_spec c (13 * (s + 1))); simpl; try reflexivity; lia.
Qed.

(** An entry always has a first field. *)
Lemma fields_head (e : string) : exists v0, list_get (fields e) 0 = Ok v0.
Proof.
  apply list_get_lt. unfold fields. rewrite length_str_split. lia.
Qed.

(** In an entry of eleven fields or more, the fields up to the hour type
    are there to read. *)
Lemma wide_field (e : string) (i : nat) :
  11 <= length (fields e) -> i <= 10 ->
  exists v, nth_error (fields e) i = Some v /\ list_get (fields e) i = Ok v.
Proof.
  intros Hw Hi. destruct (list_get_lt (fields e) i) as (v & Hv); [lia|].
  exists v. split; [apply list_get_ok|]; exact Hv.
Qed.

Lemma narrow_field (e : string) (i : nat) :
  length (fields e) <= i -> list_get (fields e) i = Raise IndexError.
Proof. intros H. apply list_get_raise. auto. Qed.

(** Rewrites the reads of field [i] of an entry of eleven fields or more. *)
Ltac read_field e Hw i :=
  let v := fresh "v" in let Hn := fresh "Hn" in let Hg := fresh "Hg" in
  destruct (wide_field e i Hw) as (v & Hn & Hg); [lia|];
  unfold field_is; rewrite ?Hn, ?Hg; rewrite ?rbind_ok.

Lemma null_values_ok_fields (e : string) :
  null_values_ok e = true -> 14 <= length (fields e).
Proof.
  unfold null_values_ok. rewrite forallb_forall. intros H.
  specialize (H 13 ltac:(simpl; tauto)). apply field_is_lt in H. lia.
Qed.

(** Thirteen commas per entry in all, and at least fourteen fields in
    each entry, leave exactly fourteen fields in each. *)
Lemma exact_arity (f : string) :
  entry_format_ok f = true ->
  Forall (fun e => 14 <= length (fields e)) (str_split ";" f) ->
  Forall (fun e => length (fields e) = 14) (str_split ";" f).
Proof.
  unfold entry_format_ok, fields. intros Hc Hw. apply Nat.eqb_eq in Hc.
  assert (Hsum : list_sum (map (str_count ",") (str_split ";" f))
                 = 13 * length (map (str_count ",") (str_split ";" f))).
  { rewrite str_count_split by discriminate.
    rewrite length_map, length_str_split. lia. }
  apply list_sum_exact in Hsum.
  - rewrite Forall_map in Hsum. revert Hsum. apply Forall_impl.
    intros e He. rewrite length_str_split. lia.
  - rewrite Forall_map. revert Hw. apply Forall_impl.
    intros e He. rewrite length_str_split in He. lia.
Qed.
