(* ===== verification/Schedule.v ===== *)
(** * Schedule: what a candidate denotes

    The abstract side of the development: a schedule entry as a value (a
    weekday, two times and a recurrence, or the statement that one has to
    call for information), the well-formedness that the data model of
    the specification asks of it, and the two directions between such a
    value and its wire form of fourteen comma-separated fields.
    [decode] accepts exactly the wire forms the data model calls valid;
    [encode] writes one of them.  Field 7, the marker left by the
    generation step, is carried along unchanged: no rule reads it.

    The theorems of this file are about the format alone; those that
    relate the rules of the two pipelines to it are in [Refinement]. *)

From Stdlib Require Import String Ascii List Bool Arith Lia.
From S2P Require Import Prelude.
From S2P Require Import PyString.
From S2P Require Import Regex.
From S2P Require Import TimeFormat.
From S2P Require Import Entry.
Import ListNotations.
Local Open Scope string_scope.
Local Open Scope py_scope.

(** ** Values *)

Inductive weekday : Type :=
  | Monday | Tuesday | Wednesday | Thursday | Friday | Saturday | Sunday.

Inductive recurrence : Type :=
  | Weekly
  | EveryOtherWeek
  | DayOfMonth (ordinal : nat)
  | WeekOfMonth (ordinal : nat).

Inductive schedule_entry : Type :=
  | Opening (day : weekday) (open close : nat * nat) (every : recurrence)
      (marker : string)
  | InformationOnly (marker : string).

(** ** Names *)

Definition weekdays : list weekday :=
  [Monday; Tuesday; Wednesday; Thursday; Friday; Saturday; Sunday].

Definition weekday_name (d : weekday) : string :=
  match d with
  | Monday => "Monday" | Tuesday => "Tuesday" | Wednesday => "Wednesday"
  | Thursday => "Thursday" | Friday => "Friday" | Saturday => "Saturday"
  | Sunday => "Sunday"
  end.

Definition weekday_of_name (s : string) : option weekday :=
  find (fun d => weekday_name d =? s) weekdays.

Definition ordinal_name (n : nat) : string :=
  String (ascii_of_nat (48 + n)) "".

Definition ordinal_of_name (s : string) : option nat :=
  find (fun n => ordinal_name n =? s) [1; 2; 3; 4; 5].

Definition recurrence_name (r : recurrence) : string :=
  match r with
  | Weekly => "Weekly"
  | EveryOtherWeek => "Every Other Week"
  | DayOfMonth _ => "Day of Month"
  | WeekOfMonth _ => "Week of Month"
  end.

(** The recurrence written by the hour type and the two ordinal fields. *)
Definition recurrence_of (hour_type week day : string) : option recurrence :=
  if hour_type =? "Weekly" then
    if (week =? "") && (day =? "") then Some Weekly else None
  else if hour_type =? "Every Other Week" then
    if (week =? "") && (day =? "") then Some EveryOtherWeek else None
  else if hour_type =? "Day of Month" then
    if week =? "" then option_map DayOfMonth (ordinal_of_name day) else None
  else if hour_type =? "Week of Month" then
    if day =? "" then option_map WeekOfMonth (ordinal_of_name week) else None
  else None.

(** ** Times *)

(** A time of day written [HH:MM]: accepted by the pattern of the rules
    and by [strptime]. *)
Definition parse_time (v : string) : option (nat * nat) :=
  if is_time v then
    match strptime_HM v with
    | Ok t => Some t
    | Raise _ => None
    end
  else None.

Definition show2 (n : nat) : string :=
  String (ascii_of_nat (48 + n / 10)) (String (ascii_of_nat (48 + n mod 10)) "").

Definition show_time (t : nat * nat) : string :=
  show2 (fst t) ++ ":" ++ show2 (snd t).

(** ** Well-formed entries *)

Definition time_ok (t : nat * nat) : bool := (fst t <? 24)%nat && (snd t <? 60)%nat.

Definition recurrence_ok (r : recurrence) : bool :=
  match r with
  | Weekly | EveryOtherWeek => true
  | DayOfMonth n | WeekOfMonth n => (1 <=? n)%nat && (n <=? 5)%nat
  end.

(** A marker that fits in one field. *)
Definition plain (m : string) : bool := (str_count "," m =? 0)%nat.

Definition wf (s : schedule_entry) : bool :=
  match s with
  | Opening _ o c r m =>
      time_ok o && time_ok c && datetime_gt c o && recurrence_ok r && plain m
  | InformationOnly m => plain m
  end.

(** ** The wire form *)

Definition encode_fields (s : schedule_entry) : list string :=
  match s with
  | Opening d o c r m =>
      [weekday_name d; show_time o; show_time c; ""; ""; ""; ""; m;
       match r with WeekOfMonth n => ordinal_name n | _ => "" end;
       match r with DayOfMonth n => ordinal_name n | _ => "" end;
       recurrence_name r; ""; ""; ""]
  | InformationOnly m =>
      [""; ""; ""; ""; ""; ""; ""; m; ""; ""; "Call for Information"; ""; ""; ""]
  end.

Definition encode (s : schedule_entry) : string :=
  str_join "," (encode_fields s).

Definition decode_fields (f : list string) : option schedule_entry :=
  let v i := nth i f "" in
  if negb (length f =? 14)%nat then None
  else if negb (forallb (fun i => v i =? "") [3; 4; 5; 6; 11; 12; 13]) then None
  else if v 10 =? "Call for Information" then
    if forallb (fun i => v i =? "") [0; 1; 2; 8; 9]
    then Some (InformationOnly (v 7)) else None
  else
    match weekday_of_name (v 0), parse_time (v 1), parse_time (v 2),
          recurrence_of (v 10) (v 8) (v 9) with
    | Some d, Some o, Some c, Some r =>
        if datetime_gt c o then Some (Opening d o c r (v 7)) else None
    | _, _, _, _ => None
    end.

Definition decode (entry : string) : option schedule_entry :=
  decode_fields (fields entry).

(** A candidate denotes the schedule of its entries, when each decodes. *)
Fixpoint decode_all (entries : list string) : option (list schedule_entry) :=
  match entries with
  | [] => Some []
  | e :: es =>
      match decode e, decode_all es with
      | Some s, Some ss => Some (s :: ss)
      | _, _ => None
      end
  end.

(** ** Runs *)

Example decode_runs :
  map decode
    ["Monday,15:00,17:00,,,,,,,,Weekly,,,";
     "Tuesday,09:00,10:00,,,,,,,3,Day of Month,,,";
     ",,,,,,,Call for Information,,,Call for Information,,,";
     "Mursday,15:00,17:00,,,,,,,,Weekly,,,";
     "Monday,17:00,15:00,,,,,,,,Weekly,,,";
     "Monday,15:00,17:00,,,,,,,6,Day of Month,,,";
     "Monday,15:00,17:00"]
  = [Some (Opening Monday (15, 0) (17, 0) Weekly "");
     Some (Opening Tuesday (9, 0) (10, 0) (DayOfMonth 3) "");
     Some (InformationOnly "Call for Information");
     None; None; None; None].
Proof. vm_compute. reflexivity. Qed.

Example encode_runs :
  encode (Opening Friday (9, 5) (17, 30) (WeekOfMonth 2) "")
  = "Friday,09:05,17:30,,,,,,2,,Week of Month,,,".
Proof. vm_compute. reflexivity. Qed.

(** ** Names and times print and parse *)

Lemma weekday_of_name_name (d : weekday) : weekday_of_name (weekday_name d) = Some d.
Proof. destruct d; reflexivity. Qed.

Lemma weekday_of_name_some (s : string) (d : weekday) :
  weekday_of_name s = Some d -> weekday_name d = s.
Proof.
  unfold weekday_of_name. intros H. apply find_some in H as [_ H].
  apply String.eqb_eq, H.
Qed.

Lemma weekday_name_plain (d : weekday) : str_count "," (weekday_name d) = 0.
Proof. destruct d; reflexivity. Qed.

Lemma recurrence_name_plain (r : recurrence) : str_count "," (recurrence_name r) = 0.
Proof. destruct r; reflexivity. Qed.

(** The ordinals of a well-formed recurrence, one by one. *)
Lemma recurrence_ok_cases (n : nat) :
  (1 <=? n)%nat && (n <=? 5)%nat = true -> In n [1; 2; 3; 4; 5].
Proof.
  rewrite andb_true_iff, Nat.leb_le, Nat.leb_le. simpl. lia.
Qed.

Lemma recurrence_of_name (r : recurrence) :
  recurrence_ok r = true ->
  recurrence_of (recurrence_name r)
    match r with WeekOfMonth n => ordinal_name n | _ => "" end
    match r with DayOfMonth n => ordinal_name n | _ => "" end
  = Some r.
Proof.
  destruct r as [| |n|n]; try reflexivity; simpl; intros H;
    apply recurrence_ok_cases in H;
    repeat (destruct H as [<-|H]; [reflexivity|]); destruct H.
Qed.

(** Every time of the day, checked one by one: its printed form has no
    comma and parses back to it. *)
Definition time_prints (t : nat * nat) : bool :=
  (str_count "," (show_time t) =? 0)%nat
  && match parse_time (show_time t) with
     | Some t' => (fst t' =? fst t)%nat && (snd t' =? snd t)%nat
     | None => false
     end.

Lemma all_times_print :
  forallb (fun h => forallb (fun m => time_prints (h, m)) (seq 0 60)) (seq 0 24)
  = true.
Proof. vm_compute. reflexivity. Qed.

Lemma time_prints_ok (t : nat * nat) : time_ok t = true -> time_prints t = true.
Proof.
  destruct t as [h m]. unfold time_ok. simpl.
  rewrite andb_true_iff, !Nat.ltb_lt. intros [Hh Hm].
  pose proof all_times_print as H. rewrite forallb_forall in H.
  specialize (H h). rewrite forallb_forall in H.
  apply H; apply in_seq; lia.
Qed.

Lemma show_time_plain (t : nat * nat) :
  time_ok t = true -> str_count "," (show_time t) = 0.
Proof.
  intros H. apply time_prints_ok in H. unfold time_prints in H.
  apply andb_true_iff in H as [H _]. apply Nat.eqb_eq, H.
Qed.

Lemma parse_show_time (t : nat * nat) :
  time_ok t = true -> parse_time (show_time t) = Some t.
Proof.
  intros H. apply time_prints_ok in H. unfold time_prints in H.
  apply andb_true_iff in H as [_ H].
  destruct (parse_time (show_time t)) as [[h m]|]; [|discriminate].
  destruct t as [h0 m0]. simpl in H.
  apply andb_true_iff in H as [Hh Hm].
  apply Nat.eqb_eq in Hh, Hm. congruence.
Qed.

(** What [parse_time] returns is a time of the day. *)
Lemma parse_time_ok (v : string) (t : nat * nat) :
  parse_time v = Some t -> time_ok t = true.
Proof.
  unfold parse_time. destruct (is_time v); [|discriminate].
  destruct (strptime_HM v) as [[h m]|] eqn:E; [|discriminate].
  intros [= <-]. apply strptime_HM_ok_inv in E as (hs & ms & _ & Hh & Hm).
  apply parse_hour_bound in Hh. apply parse_minute_bound in Hm.
  unfold time_ok. simpl. apply andb_true_iff. rewrite !Nat.ltb_lt. auto.
Qed.

Lemma ordinal_name_plain (n : nat) :
  (1 <=? n)%nat && (n <=? 5)%nat = true -> str_count "," (ordinal_name n) = 0.
Proof.
  intros H. apply recurrence_ok_cases in H.
  repeat (destruct H as [<-|H]; [reflexivity|]). destruct H.
Qed.

(** ** Encoding, then decoding *)

Lemma encode_fields_plain (s : schedule_entry) :
  wf s = true -> Forall (fun w => str_count "," w = 0) (encode_fields s).
Proof.
  destruct s as [d o c r m|m]; simpl; intros H.
  - apply andb_true_iff in H as [H Hm]. apply andb_true_iff in H as [H Hr].
    apply andb_true_iff in H as [H _]. apply andb_true_iff in H as [Ho Hc].
    apply Nat.eqb_eq in Hm.
    repeat first [apply Forall_cons | apply Forall_nil];
      auto using weekday_name_plain, show_time_plain, recurrence_name_plain;
      destruct r; try reflexivity; apply ordinal_name_plain, Hr.
  - repeat first [apply Forall_cons | apply Forall_nil]; try reflexivity.
    apply Nat.eqb_eq, H.
Qed.

Lemma fields_encode (s : schedule_entry) :
  wf s = true -> fields (encode s) = encode_fields s.
Proof.
  intros H. unfold fields, encode. apply str_split_join.
  - destruct s; discriminate.
  - apply encode_fields_plain, H.
Qed.

Lemma decode_encode_fields (s : schedule_entry) :
  wf s = true -> decode_fields (encode_fields s) = Some s.
Proof.
  destruct s as [d o c r m|m]; intros H; [|reflexivity].
  simpl in H. apply andb_true_iff in H as [H _]. apply andb_true_iff in H as [H Hr].
  apply andb_true_iff in H as [H Hgt]. apply andb_true_iff in H as [Ho Hc].
  unfold decode_fields, encode_fields.
  cbn [length Nat.eqb negb nth forallb String.eqb andb].
  replace (recurrence_name r =? "Call for Information") with false
    by (destruct r; reflexivity).
  rewrite weekday_of_name_name, !parse_show_time, recurrence_of_name by assumption.
  rewrite Hgt. reflexivity.
Qed.

(** ** Decoding *)

Lemma ordinal_of_name_some (s : string) (n : nat) :
  ordinal_of_name s = Some n -> (1 <=? n)%nat && (n <=? 5)%nat = true /\ ordinal_name n = s.
Proof.
  unfold ordinal_of_name. intros H. apply find_some in H as [Hin H].
  apply String.eqb_eq in H. split; [|exact H].
  simpl in Hin. repeat (destruct Hin as [<-|Hin]; [reflexivity|]). destruct Hin.
Qed.

Lemma recurrence_of_ok (t w d : string) (r : recurrence) :
  recurrence_of t w d = Some r -> recurrence_ok r = true.
Proof.
  unfold recurrence_of.
  repeat match goal with
         | |- (if ?b then _ else _) = _ -> _ => destruct b; try discriminate
         end.
  - intros [= <-]. reflexivity.
  - intros [= <-]. reflexivity.
  - destruct (ordinal_of_name d) as [n|] eqn:E; [|discriminate].
    intros [= <-]. apply ordinal_of_name_some in E. apply E.
  - destruct (ordinal_of_name w) as [n|] eqn:E; [|discriminate].
    intros [= <-]. apply ordinal_of_name_some in E. apply E.
Qed.

(** A field of an entry fits in one field. *)
Lemma field_plain (e : string) (i : nat) : plain (nth i (fields e) "") = true.
Proof.
  unfold plain. apply Nat.eqb_eq.
  destruct (Nat.lt_ge_cases i (length (fields e))) as [H|H].
  - pose proof (str_split_fields "," e) as Hf. rewrite Forall_forall in Hf.
    apply Hf. apply nth_In. exact H.
  - rewrite nth_overflow by exact H. reflexivity.
Qed.

(** C37. An entry written by [encode] from a well-formed value decodes to
    that value. *)
Theorem decode_encode (s : schedule_entry) :
  wf s = true -> decode (encode s) = Some s.
Proof.
  intros H. unfold decode. rewrite fields_encode by exact H.
  apply decode_encode_fields, H.
Qed.

(** What [decode] returns is well formed, and the entry it was read from
    has fourteen fields. *)
Lemma decode_some (e : string) (s : schedule_entry) :
  decode e = Some s -> wf s = true /\ length (fields e) = 14.
Proof.
  unfold decode, decode_fields.
  destruct (Nat.eqb_spec (length (fields e)) 14) as [Hl|]; [|discriminate].
  cbn [negb]. destruct (forallb _ [3; 4; 5; 6; 11; 12; 13]); [|discriminate].
  cbn [negb]. destruct (nth 10 (fields e) "" =? "Call for Information").
  - destruct (forallb _ [0; 1; 2; 8; 9]); [|discriminate].
    intros [= <-]. split; [apply field_plain | exact Hl].
  - destruct (weekday_of_name _) as [d|]; [|discriminate].
    destruct (parse_time (nth 1 _ _)) as [o|] eqn:Eo; [|discriminate].
    destruct (parse_time (nth 2 _ _)) as [c|] eqn:Ec; [|discriminate].
    destruct (recurrence_of _ _ _) as [r|] eqn:Er; [|discriminate].
    destruct (datetime_gt c o) eqn:Egt; [|discriminate].
    intros [= <-]. split; [|exact Hl]. simpl.
    rewrite (parse_time_ok _ _ Eo), (parse_time_ok _ _ Ec), Egt,
      (recurrence_of_ok _ _ _ _ Er), field_plain. reflexivity.
Qed.

(** The entries of a list decode when each of them does. *)
Lemma decode_all_forall (P : schedule_entry -> Prop) (es : list string) :
  Forall (fun e => exists s, decode e = Some s /\ P s) es ->
  exists ss, decode_all es = Some ss /\ Forall P ss /\ length ss = length es.
Proof.
  induction 1 as [|e es (s & Hs & Hp) _ (ss & Hss & Hall & Hlen)]; simpl.
  - exists []. auto.
  - rewrite Hs, Hss. exists (s :: ss). simpl. auto.
Qed.

Lemma decode_encode_witness :
  decode (encode (Opening Friday (9, 5) (17, 30) (WeekOfMonth 2) ""))
  = Some (Opening Friday (9, 5) (17, 30) (WeekOfMonth 2) "").
Proof. apply decode_encode. reflexivity. Defined.
