(* ===== verification/Generator.v ===== *)
(** * Generator: the boundary with the text-generation service

    [call_oai] of both pipelines sends one prompt to the completion
    service and returns the text of its first choice; the version of
    the server and that of the contact script sleep for 50 milliseconds
    before they return, the version of the batch script does not.  The service is outside the
    repository: it is the class [Completion], a state of the outside
    world and one operation on it that answers a prompt or fails.  Code
    that calls the service is written in the monad [io], which threads
    that state, the time slept and the trace of what the run has shown to
    the outside (requests sent, lines printed, tables written), and
    stops at the first exception.

    Two instances are given: a service that answers from a script (a
    list of replies consumed in order), used to run the pipeline on
    concrete inputs, and a service that is a function of the prompt. *)

From Stdlib Require Import String Ascii List Bool Arith Lia.
From S2P Require Import Prelude.
From S2P Require Import PyDict.
From S2P Require Import DataFrame.
Import ListNotations.
Local Open Scope string_scope.
Local Open Scope py_scope.

(** ** The service *)

Class Completion : Type := {
  world : Type;
  (** [openai.Completion.create(...)["choices"][0]["text"]]. *)
  completion_create : string -> world -> result string * world;
  (** Whatever goes wrong in the call expression, in the request or in
      the reads [["choices"][0]["text"]] of its answer, surfaces as one
      failure. *)
  completion_raises : forall p w e w',
    completion_create p w = (Raise e, w') -> e = UpstreamUnavailable
}.

(** ** What a run shows *)

(** The argument of a [print]: a text, a list of texts or the dictionary
    of flags.  How Python renders it is not modelled. *)
Inductive printable : Type :=
  | PText (s : string)
  | PList (l : list string)
  | PFlags (d : dict bool).

(** A request sent to the service, a call of [print], a call of
    [to_csv]. *)
Inductive event : Type :=
  | Sent (prompt : string)
  | Printed (v : printable)
  | Wrote (path : string) (table : DataFrame).

(** The events that are a file written, and those that are a request. *)
Definition is_wrote (ev : event) : bool :=
  match ev with Wrote _ _ => true | _ => false end.

Definition is_sent (ev : event) : bool :=
  match ev with Sent _ => true | _ => false end.

(** ** The environment of a run *)

Record env {C : Completion} : Type := {
  env_world : world;
  slept_ms : nat;
  trace : list event
}.

Arguments Build_env {C} _ _ _.

(** The environment in which a script starts. *)
Definition start {C : Completion} (w : world) : env := Build_env w 0 [].

Definition io {C : Completion} (A : Type) : Type := env -> result A * env.

Definition io_ret {C : Completion} {A : Type} (a : A) : io A :=
  fun e => (Ok a, e).

Definition io_lift {C : Completion} {A : Type} (m : result A) : io A :=
  fun e => (m, e).

Definition io_bind {C : Completion} {A B : Type} (m : io A) (k : A -> io B) : io B :=
  fun e =>
    match m e with
    | (Ok a, e') => k a e'
    | (Raise x, e') => (Raise x, e')
    end.

(** [map(f, l)] consumed from left to right, as [";".join] does. *)
Fixpoint io_map {C : Completion} {A B : Type} (f : A -> io B) (l : list A)
  : io (list B) :=
  match l with
  | [] => io_ret []
  | x :: l' =>
      io_bind (f x) (fun y => io_bind (io_map f l') (fun ys => io_ret (y :: ys)))
  end.

(** [for x in l: s = body(s, x)] with a body that calls the service. *)
Fixpoint io_for_each {C : Completion} {S A : Type} (body : S -> A -> io S)
  (l : list A) (s : S) : io S :=
  match l with
  | [] => io_ret s
  | x :: l' => io_bind (body s x) (io_for_each body l')
  end.

(** [time.sleep(ms / 1000)]. *)
Definition sleep {C : Completion} (ms : nat) : io unit :=
  fun e => (Ok tt, Build_env (env_world e) (slept_ms e + ms) (trace e)).

(** The environment after the events [evs]. *)
Definition after {C : Completion} (evs : list event) (e : env) : env :=
  Build_env (env_world e) (slept_ms e) (trace e ++ evs).

(** Appends an event to the trace. *)
Definition emit {C : Completion} (ev : event) : io unit :=
  fun e => (Ok tt, after [ev] e).

(** [print(v)]. *)
Definition print {C : Completion} (v : printable) : io unit := emit (Printed v).

(** [table.to_csv(path)].  The call is recorded and returns: a write
    that fails (a path that cannot be written, a full disk) would raise
    here, after every other stage, and could leave part of a file; that
    failure is outside the model, as are the bytes written. *)
Definition to_csv {C : Completion} (table : DataFrame) (path : string) : io unit :=
  emit (Wrote path table).

(** The completion request as an [io] action: the request is sent, then
    the service answers or fails. *)
Definition create {C : Completion} (prompt : string) : io string :=
  fun e =>
    let (r, w) := completion_create prompt (env_world e) in
    (r, Build_env w (slept_ms e) (trace e ++ [Sent prompt])).

(** ** Instances *)

(** A service that plays a script: each call consumes the next reply, and
    a call past the end of the script fails. *)
Definition scripted_create (p : string) (w : list (option string))
  : result string * list (option string) :=
  match w with
  | [] => (Raise UpstreamUnavailable, [])
  | Some text :: w' => (Ok text, w')
  | None :: w' => (Raise UpstreamUnavailable, w')
  end.

Lemma scripted_raises (p : string) (w : list (option string)) (e : exn)
  (w' : list (option string)) :
  scripted_create p w = (Raise e, w') -> e = UpstreamUnavailable.
Proof. destruct w as [|[t|] w]; simpl; congruence. Qed.

Definition Scripted : Completion := {|
  world := list (option string);
  completion_create := scripted_create;
  completion_raises := scripted_raises
|}.

(** A service whose answer is a function of the prompt. *)
Lemma pure_raises (f : string -> option string) (p : string) (w : unit)
  (e : exn) (w' : unit) :
  (of_option UpstreamUnavailable (f p), w) = (Raise e, w') ->
  e = UpstreamUnavailable.
Proof. destruct (f p); simpl; congruence. Qed.

Definition Pure (f : string -> option string) : Completion := {|
  world := unit;
  completion_create := fun p w => (of_option UpstreamUnavailable (f p), w);
  completion_raises := pure_raises f
|}.

(** ** Laws of [io] *)

Section IoLaws.
Context {C : Completion}.

Lemma io_bind_ret_l {A B : Type} (a : A) (k : A -> io B) (e : env) :
  io_bind (io_ret a) k e = k a e.
Proof. reflexivity. Qed.

Lemma io_bind_ret_r {A : Type} (m : io A) (e : env) :
  io_bind m io_ret e = m e.
Proof. unfold io_bind, io_ret. destruct (m e) as [[a|x] e']; reflexivity. Qed.

Lemma io_bind_assoc {A B D : Type} (m : io A) (f : A -> io B) (g : B -> io D)
  (e : env) :
  io_bind (io_bind m f) g e = io_bind m (fun a => io_bind (f a) g) e.
Proof. unfold io_bind. destruct (m e) as [[a|x] e']; reflexivity. Qed.

(** A successful [io_map] returns one result per element. *)
Lemma io_map_length {A B : Type} (f : A -> io B) (l : list A) (e e' : env)
  (ys : list B) :
  io_map f l e = (Ok ys, e') -> length ys = length l.
Proof.
  revert e e' ys; induction l as [|x l IH]; intros e e' ys; simpl.
  - unfold io_ret; intros [= <- _]; reflexivity.
  - unfold io_bind at 1. destruct (f x e) as [[y|z] e1]; [|discriminate].
    unfold io_bind. destruct (io_map f l e1) as [[ys1|z] e2] eqn:E; [|discriminate].
    unfold io_ret; intros [= <- _]. simpl. f_equal. eapply IH; eauto.
Qed.

(** The service only ever fails with [UpstreamUnavailable]. *)
Lemma create_raises (p : string) (e e' : env) (x : exn) :
  create p e = (Raise x, e') -> x = UpstreamUnavailable.
Proof.
  unfold create. destruct (completion_create p (env_world e)) as [r w] eqn:E.
  intros [= -> _]. eapply completion_raises; eauto.
Qed.

Lemma create_slept (p : string) (e e' : env) (r : result string) :
  create p e = (r, e') -> slept_ms e' = slept_ms e.
Proof.
  unfold create. destruct (completion_create p (env_world e)) as [r0 w].
  intros [= _ <-]. reflexivity.
Qed.

Lemma after_after (a b : list event) (e : env) :
  after b (after a e) = after (a ++ b)%list e.
Proof. unfold after. simpl. rewrite app_assoc. reflexivity. Qed.

Lemma after_nil (e : env) : after [] e = e.
Proof. unfold after. rewrite app_nil_r. destruct e; reflexivity. Qed.

Lemma trace_after (evs : list event) (e : env) :
  trace (after evs e) = (trace e ++ evs)%list.
Proof. reflexivity. Qed.

(** The trace only grows, by the request. *)
Lemma create_trace (p : string) (e e' : env) (r : result string) :
  create p e = (r, e') -> trace e' = (trace e ++ [Sent p])%list.
Proof.
  unfold create. destruct (completion_create p (env_world e)) as [r0 w].
  intros [= _ <-]. reflexivity.
Qed.

(** A quantity that every successful call raises by [k] is raised by [k]
    per element over a successful [io_map]. *)
Lemma io_map_measure {A B : Type} (f : A -> io B) (m : env -> nat) (k : nat)
  (l : list A) (e e' : env) (ys : list B) :
  (forall x e y e1, f x e = (Ok y, e1) -> m e1 = m e + k) ->
  io_map f l e = (Ok ys, e') -> m e' = m e + k * length l.
Proof.
  intros Hf. revert e e' ys; induction l as [|x l IH]; intros e e' ys; simpl.
  - unfold io_ret; intros [= _ <-]; lia.
  - unfold io_bind at 1. destruct (f x e) as [[y|z] e1] eqn:E1; [|discriminate].
    unfold io_bind. destruct (io_map f l e1) as [[ys1|z] e2] eqn:E; [|discriminate].
    unfold io_ret; intros [= _ <-].
    rewrite (IH _ _ _ E), (Hf _ _ _ _ E1). lia.
Qed.

(** An exception out of [io_map] is one of those the calls raise. *)
Lemma io_map_raises {A B : Type} (f : A -> io B) (P : exn -> Prop)
  (l : list A) (e e' : env) (z : exn) :
  (forall x e z e1, f x e = (Raise z, e1) -> P z) ->
  io_map f l e = (Raise z, e') -> P z.
Proof.
  intros Hf. revert e e'; induction l as [|x l IH]; intros e e'; simpl.
  - unfold io_ret; discriminate.
  - unfold io_bind at 1. destruct (f x e) as [[y|z1] e1] eqn:E1.
    + unfold io_bind. destruct (io_map f l e1) as [[ys1|z2] e2] eqn:E.
      * unfold io_ret; discriminate.
      * intros [= <- _]. eapply IH; eauto.
    + intros [= <- _]. eapply Hf; eauto.
Qed.

(** Events that every successful call appends are appended per element,
    in the order of the list. *)
Lemma io_map_trace {A B : Type} (f : A -> io B) (g : A -> list event)
  (l : list A) (e e' : env) (ys : list B) :
  (forall x e y e1, f x e = (Ok y, e1) -> trace e1 = (trace e ++ g x)%list) ->
  io_map f l e = (Ok ys, e') -> trace e' = (trace e ++ flat_map g l)%list.
Proof.
  intros Hf. revert e e' ys; induction l as [|x l IH]; intros e e' ys; simpl.
  - unfold io_ret; intros [= _ <-]. symmetry. apply app_nil_r.
  - unfold io_bind at 1. destruct (f x e) as [[y|z] e1] eqn:E1; [|discriminate].
    unfold io_bind. destruct (io_map f l e1) as [[ys1|z] e2] eqn:E; [|discriminate].
    unfold io_ret; intros [= _ <-].
    rewrite (IH _ _ _ E), (Hf _ _ _ _ E1), app_assoc. reflexivity.
Qed.

(** When a call fails, the events of the elements up to the failing one
    are in the trace, and none of a later element. *)
Lemma io_map_trace_raise {A B : Type} (f : A -> io B) (g : A -> list event)
  (l : list A) (e e' : env) (z : exn) :
  (forall x e r e1, f x e = (r, e1) -> trace e1 = (trace e ++ g x)%list) ->
  io_map f l e = (Raise z, e') ->
  exists k, k < length l /\ trace e' = (trace e ++ flat_map g (firstn (S k) l))%list.
Proof.
  intros Hf. revert e e'; induction l as [|x l IH]; intros e e'; simpl.
  - unfold io_ret; discriminate.
  - unfold io_bind at 1. destruct (f x e) as [[y|z1] e1] eqn:E1.
    + unfold io_bind. destruct (io_map f l e1) as [[ys1|z2] e2] eqn:E.
      * unfold io_ret; discriminate.
      * intros [= <- <-]. destruct (IH _ _ E) as (k & Hk & Ht).
        exists (S k). split; [lia|].
        rewrite Ht, (Hf _ _ _ _ E1), <- app_assoc. reflexivity.
    + intros [= <- <-]. exists 0. split; [lia|].
      rewrite (Hf _ _ _ _ E1). simpl. rewrite app_nil_r. reflexivity.
Qed.

(** The results of a successful [io_map], element by element. *)
Lemma io_map_forall2 {A B : Type} (f : A -> io B) (l : list A) (e e' : env)
  (ys : list B) :
  io_map f l e = (Ok ys, e') ->
  Forall2 (fun x y => exists e1 e2, f x e1 = (Ok y, e2)) l ys.
Proof.
  revert e e' ys; induction l as [|x l IH]; intros e e' ys; simpl.
  - unfold io_ret; intros [= <- _]; constructor.
  - unfold io_bind at 1. destruct (f x e) as [[y|z] e1] eqn:E1; [|discriminate].
    unfold io_bind. destruct (io_map f l e1) as [[ys1|z] e2] eqn:E; [|discriminate].
    unfold io_ret; intros [= <- _]. constructor; eauto.
Qed.

(** Invariant rule for [io_for_each]: a relation between the state of the
    loop and the elements consumed so far, kept by every successful
    iteration, holds when the loop returns. *)
Lemma io_for_each_invariant {S A : Type} (body : S -> A -> io S)
  (P : list A -> S -> Prop) (l done : list A) (s s' : S) (e e' : env) :
  (forall done s x e s' e', P done s -> body s x e = (Ok s', e') ->
                            P (done ++ [x])%list s') ->
  P done s -> io_for_each body l s e = (Ok s', e') -> P (done ++ l)%list s'.
Proof.
  intros Hb. revert done s e; induction l as [|x l IH]; intros done s e Hs; simpl.
  - unfold io_ret; intros [= <- _]. rewrite app_nil_r. exact Hs.
  - unfold io_bind. destruct (body s x e) as [[s1|z] e1] eqn:E1; [|discriminate].
    intros H. apply (IH (done ++ [x])%list) in H; [|eauto].
    rewrite <- app_assoc in H. exact H.
Qed.

Lemma io_for_each_app {S A : Type} (body : S -> A -> io S) (l1 l2 : list A)
  (s : S) (e : env) :
  io_for_each body (l1 ++ l2) s e
  = io_bind (io_for_each body l1 s) (io_for_each body l2) e.
Proof.
  revert s e; induction l1 as [|x l1 IH]; intros s e; simpl; [reflexivity|].
  unfold io_bind. destruct (body s x e) as [[s1|z] e1]; [|reflexivity].
  rewrite IH. reflexivity.
Qed.

(** An exception out of [io_for_each] is one of those the body raises. *)
Lemma io_for_each_raises {S A : Type} (body : S -> A -> io S) (P : exn -> Prop)
  (l : list A) (s : S) (e e' : env) (z : exn) :
  (forall s x e z e1, body s x e = (Raise z, e1) -> P z) ->
  io_for_each body l s e = (Raise z, e') -> P z.
Proof.
  intros Hb. revert s e; induction l as [|x l IH]; intros s e; simpl.
  - unfold io_ret; discriminate.
  - unfold io_bind. destruct (body s x e) as [[s1|z1] e1] eqn:E1.
    + apply IH.
    + intros [= <- _]. eapply Hb; eauto.
Qed.

(** A quantity that every successful iteration raises by [k]. *)
Lemma io_for_each_measure {S A : Type} (body : S -> A -> io S) (m : env -> nat)
  (k : nat) (l : list A) (s s' : S) (e e' : env) :
  (forall s x e s1 e1, body s x e = (Ok s1, e1) -> m e1 = m e + k) ->
  io_for_each body l s e = (Ok s', e') -> m e' = m e + k * length l.
Proof.
  intros Hb. revert s e; induction l as [|x l IH]; intros s e; simpl.
  - unfold io_ret; intros [= _ <-]; lia.
  - unfold io_bind. destruct (body s x e) as [[s1|z] e1] eqn:E1; [|discriminate].
    intros H. rewrite (IH _ _ H), (Hb _ _ _ _ _ E1). lia.
Qed.

(** A loop returns as soon as every iteration does, with an invariant
    to tell which states the iterations meet. *)
Lemma io_for_each_returns {S A : Type} (body : S -> A -> io S) (P : S -> Prop)
  (l : list A) (s : S) (e : env) :
  (forall s x e, In x l -> P s -> exists s' e', body s x e = (Ok s', e') /\ P s') ->
  P s -> exists s' e', io_for_each body l s e = (Ok s', e') /\ P s'.
Proof.
  revert s e; induction l as [|x l IH]; intros s e Hb Hs; simpl.
  - unfold io_ret. eauto.
  - destruct (Hb s x e) as (s1 & e1 & E & Hs1); [left; reflexivity | exact Hs|].
    unfold io_bind. rewrite E. apply IH; [|exact Hs1].
    intros; apply Hb; auto; right; assumption.
Qed.

Lemma io_map_returns {A B : Type} (f : A -> io B) (Q : B -> Prop) (l : list A)
  (e : env) :
  (forall x e, In x l -> exists y e', f x e = (Ok y, e') /\ Q y) ->
  exists ys e', io_map f l e = (Ok ys, e') /\ Forall Q ys.
Proof.
  revert e; induction l as [|x l IH]; intros e Hf; simpl.
  - unfold io_ret. eauto.
  - destruct (Hf x e) as (y & e1 & E & Hy); [left; reflexivity|].
    destruct (IH e1) as (ys & e2 & E2 & Hys);
      [intros; apply Hf; right; assumption|].
    unfold io_bind, io_ret. rewrite E, E2. eauto.
Qed.

(** Events that every successful iteration appends. *)
Lemma io_for_each_trace {S A : Type} (body : S -> A -> io S) (g : A -> list event)
  (l : list A) (s s' : S) (e e' : env) :
  (forall s x e s1 e1, body s x e = (Ok s1, e1) -> trace e1 = (trace e ++ g x)%list) ->
  io_for_each body l s e = (Ok s', e') -> trace e' = (trace e ++ flat_map g l)%list.
Proof.
  intros Hb. revert s e; induction l as [|x l IH]; intros s e; simpl.
  - unfold io_ret; intros [= _ <-]. symmetry. apply app_nil_r.
  - unfold io_bind. destruct (body s x e) as [[s1|z] e1] eqn:E1; [|discriminate].
    intros H. rewrite (IH _ _ H), (Hb _ _ _ _ _ E1), app_assoc. reflexivity.
Qed.

(** ** A service that is a function of the prompt

    [answers reply]: whatever the state of the world, the service
    answers the prompt [p] with [reply p]. *)
Definition answers (reply : string -> string) : Prop :=
  forall p w, exists w', completion_create p w = (Ok (reply p), w').

Lemma create_answers (reply : string -> string) (p : string) (e : env) :
  answers reply -> exists e', create p e = (Ok (reply p), e').
Proof.
  intros Ha. unfold create. destruct (Ha p (env_world e)) as (w' & ->). eauto.
Qed.

(** What [io_map] returns when the function returns a function of its
    argument. *)
Lemma io_map_answers {A B : Type} (f : A -> io B) (g : A -> B) (l : list A)
  (e : env) :
  (forall x e, In x l -> exists e', f x e = (Ok (g x), e')) ->
  exists e', io_map f l e = (Ok (map g l), e').
Proof.
  revert e; induction l as [|x l IH]; intros e Hf; simpl.
  - unfold io_ret. eauto.
  - destruct (Hf x e) as (e1 & E); [left; reflexivity|].
    destruct (IH e1) as (e2 & E2); [intros; apply Hf; right; assumption|].
    unfold io_bind, io_ret. rewrite E, E2. eauto.
Qed.

(** ** What a computation adds to the trace

    [adds P e e']: the trace of [e'] is the trace of [e] followed by
    events that satisfy [P].  The trace only grows. *)
Definition adds (P : event -> bool) (e e' : env) : Prop :=
  exists evs, trace e' = (trace e ++ evs)%list /\ forallb P evs = true.

Lemma adds_refl (P : event -> bool) (e : env) : adds P e e.
Proof. exists []. split; [symmetry; apply app_nil_r | reflexivity]. Qed.

Lemma adds_trans (P : event -> bool) (e1 e2 e3 : env) :
  adds P e1 e2 -> adds P e2 e3 -> adds P e1 e3.
Proof.
  intros (a & Ha & Pa) (b & Hb & Pb). exists (a ++ b)%list.
  rewrite Hb, Ha, app_assoc, forallb_app, Pa, Pb. auto.
Qed.

Lemma adds_after (P : event -> bool) (evs : list event) (e : env) :
  forallb P evs = true -> adds P e (after evs e).
Proof. intros H. exists evs. rewrite trace_after. auto. Qed.

Lemma create_adds (P : event -> bool) (p : string) (e e' : env) (r : result string) :
  P (Sent p) = true -> create p e = (r, e') -> adds P e e'.
Proof.
  intros HP H. exists [Sent p]. rewrite (create_trace _ _ _ _ H). simpl.
  rewrite HP. auto.
Qed.

(** Events that fail [Q] and are in the trace after a computation that
    adds only events that satisfy [P], with [P] and [Q] exclusive, were
    there before it. *)
Lemma adds_old (P Q : event -> bool) (e e' : env) (ev : event) :
  (forall x, P x = true -> Q x = false) -> adds P e e' ->
  Q ev = true -> In ev (trace e') -> In ev (trace e).
Proof.
  intros HPQ (evs & -> & HP) HQ Hin. apply in_app_or in Hin as [Hin|Hin]; [exact Hin|].
  rewrite forallb_forall in HP. apply HP, HPQ in Hin. congruence.
Qed.

(** A loop whose body adds such events adds such events, whether it
    finishes or raises. *)
Lemma io_for_each_adds {S A : Type} (body : S -> A -> io S) (P : event -> bool)
  (l : list A) (s : S) (e e' : env) (r : result S) :
  (forall s x e r e1, body s x e = (r, e1) -> adds P e e1) ->
  io_for_each body l s e = (r, e') -> adds P e e'.
Proof.
  intros Hb. revert s e; induction l as [|x l IH]; intros s e; simpl.
  - unfold io_ret; intros [= _ <-]. apply adds_refl.
  - unfold io_bind. destruct (body s x e) as [[s1|z] e1] eqn:E1.
    + intros H. eapply adds_trans; eauto.
    + intros [= _ <-]. eauto.
Qed.

(** ** Dictionaries filled by the service

    The loop of the two scripts that sends every value of a dictionary
    through a call and stores the answers under the same keys. *)

Section DictValues.
Variable call : string -> io string.

Let body (acc : dict string) (kv : string * string) : io (dict string) :=
  io_bind (call (snd kv)) (fun new_value => io_ret (dict_set acc (fst kv) new_value)).

(** The answers have the keys of the questions, in the same order. *)
Lemma io_dict_values_keys (d c : dict string) (e e' : env) :
  dict_wf d -> io_for_each body d [] e = (Ok c, e') -> dict_keys c = dict_keys d.
Proof.
  intros Hd H.
  apply (io_for_each_invariant _
           (fun done acc => NoDup (map fst done) -> dict_keys acc = map fst done)
           d [] [] c e e') in H;
    [exact H | | reflexivity | exact Hd].
  clear. intros done acc [k v] e acc' e' IHd Hb Hn. unfold body in Hb. simpl in Hb.
  unfold io_bind, io_ret in Hb.
  destruct (call v e) as [[new_value|x] e1]; [|discriminate].
  injection Hb as <- _. rewrite map_app in *. simpl in *.
  assert (Hdone : NoDup (map fst done)) by (apply NoDup_app_remove_r in Hn; exact Hn).
  rewrite dict_keys_set_new, (IHd Hdone); [reflexivity|].
  rewrite (IHd Hdone). intros Hin.
  apply NoDup_remove_2 in Hn. apply Hn. rewrite app_nil_r. exact Hin.
Qed.

(** The loop raises what the call raises. *)
Lemma io_dict_values_raises (P : exn -> Prop) (d : dict string) (e e' : env)
  (x : exn) :
  (forall p e z e1, call p e = (Raise z, e1) -> P z) ->
  io_for_each body d [] e = (Raise x, e') -> P x.
Proof.
  intros Hc. apply io_for_each_raises. intros acc [k v] e0 z e1. unfold body. simpl.
  unfold io_bind, io_ret. destruct (call v e0) as [[t|y] e2] eqn:E; [discriminate|].
  intros [= <- _]. eapply Hc; eauto.
Qed.

(** The loop returns when every call does, and stores answers only. *)
Lemma io_dict_values_returns (Q : string -> Prop) (d : dict string) (e : env) :
  (forall p e, exists v e', call p e = (Ok v, e') /\ Q v) ->
  exists c e', io_for_each body d [] e = (Ok c, e')
               /\ Forall (fun kv => Q (snd kv)) c.
Proof.
  intros Hc. apply io_for_each_returns; [|constructor].
  intros acc [k v] e0 _ Hacc. unfold body. simpl.
  destruct (Hc v e0) as (t & e1 & E & Ht).
  unfold io_bind, io_ret. rewrite E. eexists _, _. split; [reflexivity|].
  apply dict_set_Forall; [intros; exact Ht | exact Hacc].
Qed.

(** Events that every successful call appends are appended per record,
    in the order of the dictionary. *)
Lemma io_dict_values_trace (g : string -> list event) (d c : dict string)
  (e e' : env) :
  (forall p e v e1, call p e = (Ok v, e1) -> trace e1 = (trace e ++ g p)%list) ->
  io_for_each body d [] e = (Ok c, e') ->
  trace e' = (trace e ++ flat_map (fun kv => g (snd kv)) d)%list.
Proof.
  intros Hc. apply io_for_each_trace. intros acc [k0 v] e0 s1 e1. unfold body. simpl.
  unfold io_bind, io_ret. destruct (call v e0) as [[t|y] e2] eqn:E; [|discriminate].
  intros [= _ <-]. eapply Hc; eauto.
Qed.

(** A quantity that every successful call raises by [k] is raised by [k]
    per record. *)
Lemma io_dict_values_measure (m : env -> nat) (k : nat) (d c : dict string)
  (e e' : env) :
  (forall p e v e1, call p e = (Ok v, e1) -> m e1 = m e + k) ->
  io_for_each body d [] e = (Ok c, e') -> m e' = m e + k * length d.
Proof.
  intros Hc. apply io_for_each_measure. intros acc [k0 v] e0 s1 e1. unfold body. simpl.
  unfold io_bind, io_ret. destruct (call v e0) as [[t|y] e2] eqn:E; [|discriminate].
  intros [= _ <-]. eapply Hc; eauto.
Qed.

(** When the call returns a function [g] of the prompt, the answers are
    the questions with [g] applied to the values. *)
Lemma io_dict_values_from (g : string -> string) (d acc : dict string) (e : env) :
  (forall p e, exists e', call p e = (Ok (g p), e')) ->
  NoDup (dict_keys acc ++ dict_keys d) ->
  exists e', io_for_each body d acc e
             = (Ok (acc ++ map (fun kv => (fst kv, g (snd kv))) d)%list, e').
Proof.
  intros Hc. revert acc e; induction d as [|[k v] d IH]; intros acc e Hn; simpl.
  - unfold io_ret. rewrite app_nil_r. eauto.
  - destruct (Hc v e) as (e1 & E). unfold io_bind at 1, body at 1, io_bind at 1.
    cbn [fst snd]. rewrite E. unfold io_ret.
    rewrite dict_set_new
      by (apply NoDup_remove_2 in Hn; intros Hin; apply Hn, in_or_app; auto).
    destruct (IH (acc ++ [(k, g v)])%list e1) as (e2 & ->).
    + unfold dict_keys in *. rewrite map_app, <- app_assoc. exact Hn.
    + rewrite <- app_assoc. eauto.
Qed.

Lemma io_dict_values_answers (g : string -> string) (d : dict string) (e : env) :
  (forall p e, exists e', call p e = (Ok (g p), e')) -> dict_wf d ->
  exists e', io_for_each body d [] e
             = (Ok (map (fun kv => (fst kv, g (snd kv))) d), e').
Proof. intros Hc Hd. apply (io_dict_values_from g d [] e Hc Hd). Qed.

(** What every successful call appends, as a function of the question
    and the answer, is appended per record: the trace pairs each
    question with its answer. *)
Lemma io_dict_values_pairs_from (g : string -> string -> list event)
  (d acc c : dict string) (e e' : env) :
  (forall p e v e1, call p e = (Ok v, e1) -> trace e1 = (trace e ++ g p v)%list) ->
  NoDup (dict_keys acc ++ dict_keys d) ->
  io_for_each body d acc e = (Ok c, e') ->
  exists new, c = (acc ++ new)%list /\ length new = length d /\
    trace e' = (trace e ++ flat_map (fun qa => g (snd (fst qa)) (snd (snd qa)))
                             (combine d new))%list.
Proof.
  intros Hc. revert acc e; induction d as [|[k q] d IH]; intros acc e Hn; simpl.
  - unfold io_ret. intros [= <- <-]. exists []. rewrite !app_nil_r. auto.
  - unfold io_bind at 1, body at 1, io_bind at 1. cbn [fst snd].
    destruct (call q e) as [[a|z] e1] eqn:E; [|discriminate]. unfold io_ret.
    rewrite dict_set_new
      by (apply NoDup_remove_2 in Hn; intros Hin; apply Hn, in_or_app; auto).
    intros H. apply IH in H as (new & -> & Hl & Ht).
    + exists ((k, a) :: new). rewrite <- app_assoc. simpl.
      rewrite Ht, (Hc _ _ _ _ E), <- app_assoc, Hl. auto.
    + unfold dict_keys in *. rewrite map_app, <- app_assoc. exact Hn.
Qed.

Lemma io_dict_values_pairs (g : string -> string -> list event)
  (d c : dict string) (e e' : env) :
  (forall p e v e1, call p e = (Ok v, e1) -> trace e1 = (trace e ++ g p v)%list) ->
  dict_wf d -> io_for_each body d [] e = (Ok c, e') ->
  length c = length d /\
  trace e' = (trace e ++ flat_map (fun qa => g (snd (fst qa)) (snd (snd qa)))
                           (combine d c))%list.
Proof.
  intros Hc Hd H.
  apply (io_dict_values_pairs_from g d [] c e e' Hc Hd) in H as (new & -> & Hl & Ht).
  auto.
Qed.

Lemma io_dict_values_adds (P : event -> bool) (d : dict string) (e e' : env)
  (r : result (dict string)) :
  (forall p e r e1, call p e = (r, e1) -> adds P e e1) ->
  io_for_each body d [] e = (r, e') -> adds P e e'.
Proof.
  intros Hc. apply io_for_each_adds. intros acc [k0 v] e0 r0 e1. unfold body. simpl.
  unfold io_bind, io_ret. destruct (call v e0) as [[t|y] e2] eqn:E.
  - intros [= _ <-]. eauto.
  - intros [= _ <-]. eauto.
Qed.

End DictValues.

End IoLaws.
