(* ===== verification/NormalizeHours.v ===== *)
(** * NormalizeHours: the single-record pipeline

    Module [Server] models [src/clean-hours/server/normalizeHours.py]
    statement by statement: the constants, [call_oai], the text adapter
    ([preprocess_string], [postprocess_string]), the candidate
    assembler ([format_input_string]), the ten rules over the response
    dictionary and [normalize_input_string], which runs them in the
    order of the source.

    The response dictionary is the record [response].  A rule mutates it
    in Python and returns nothing; here it returns the new record,
    inside [result] because two of the rules can raise.  The body of
    each rule's loop is a definition of its own ([..._step]), and the
    frame the rules share (return at once on an invalid response, fold
    the entries, and [and] the outcome into [isValid]) is [rule_loop]. *)

From Stdlib Require Import String Ascii List Bool Arith Lia.
From S2P Require Import Prelude.
From S2P Require Import PyString.
From S2P Require Import PyDict.
From S2P Require Import Regex.
From S2P Require Import TimeFormat.
From S2P Require Import Entry.
From S2P Require Import Generator.
Import ListNotations.
Local Open Scope string_scope.
Local Open Scope py_scope.

Module Server.

(** ** Constants *)

(** The spellings of an ordinal.  The value of the key [""] is the empty
    string in the source, which has no element to iterate over. *)
Definition INT_TO_DAY_OF_MONTH : list (string * list string) :=
  [("1", ["1st"; "First"]); ("2", ["2nd"; "Second"]); ("3", ["3rd"; "Third"]);
   ("4", ["4th"; "Fourth"]); ("5", ["5th"; "Fifth"]); ("", [])].

Definition DAYS_OF_WEEK : list string :=
  ["Monday"; "Tuesday"; "Wednesday"; "Thursday"; "Friday"; "Saturday"; "Sunday"].

Definition HOUR_TYPES : list string :=
  ["Weekly"; "Every Other Week"; "Day of Month"; "Week of Month";
   "Call for Information"].

(** Two constants that no function of the file reads. *)
Definition UNCLEANED_HOURS_COLUMN : string := "Hours Uncleaned".

Definition INVALID_CHARACTERS : string := "".

(** ** The response dictionary *)

Record response : Type := {
  base : string;
  formatted : string;
  isValid : bool
}.

Definition set_isValid (r : response) (b : bool) : response :=
  {| base := base r; formatted := formatted r; isValid := b |}.

(** [response[key]] for a key read as text.  The dictionary has the keys
    ["base"], ["formatted"] and ["isValid"] and no other; ["isValid"]
    holds a boolean and is read through the field. *)
Definition response_get (r : response) (key : string) : result string :=
  if key =? "base" then Ok (base r)
  else if key =? "formatted" then Ok (formatted r)
  else Raise KeyError.

(** ** Generation client and text adapter *)

(** One completion request, then [time.sleep(0.05)]. *)
Definition call_oai {C : Completion} (prompt : string) : io string :=
  io_bind (create prompt) (fun text =>
  io_bind (sleep 50) (fun _ => io_ret text)).

(** [case.strip().replace("/", ", ")]. *)
Definition preprocess_string (case : string) : string :=
  str_replace "/" ", " (str_strip case).

(** The two corrections of a generated clause.  [case[7]] raises on a
    clause of fewer than eight fields and [case[10] = ...] on one of fewer
    than eleven; neither is caught. *)
Definition postprocess_string (case : string) : result string :=
  let case := str_split "," case in
  c7 <- list_get case 7 ;;
  case <- (if negb (c7 =? "") && (str_join "" (slice 0 7 case) =? "")
              && (str_join "" (skipn 8 case) =? "")
           then list_set case 10 "Call for Information"
           else Ok case) ;;
  c7 <- list_get case 7 ;;
  case <- (if c7 =? "For information"
           then list_set case 7 "Call for Information"
           else Ok case) ;;
  Ok (str_join "," case).

(** ** Candidate assembler *)

(** [lambda x: postprocess_string(call_oai(preprocess_string(x)))]. *)
Definition clause {C : Completion} (x : string) : io string :=
  io_bind (call_oai (preprocess_string x))
    (fun text => io_lift (postprocess_string text)).

(** The result of [case.replace("/", ", ")] is dropped by the source, so
    the clauses are those of [case] itself. *)
Definition format_input_string {C : Completion} (case : string) : io response :=
  let split_value := str_split ";" case in
  io_bind (io_map clause split_value)
    (fun response =>
       let new_value := str_join ";" response in
       io_ret {| base := case; formatted := new_value; isValid := true |}).

(** ** The frame of a rule *)

(** [if response["isValid"] == False: return], then the loop over the
    entries with [is_valid = True] before it, then
    [response["isValid"] = response["isValid"] and is_valid]. *)
Definition rule_loop (step : bool -> string -> result bool) (r : response)
  : result response :=
  if Bool.eqb (isValid r) false then Ok r
  else
    is_valid <- for_each step (str_split ";" (formatted r)) true ;;
    Ok (set_isValid r (isValid r && is_valid)).

(** ** The rules *)

(** The body of the loop of [test_valid_day_of_week]; its state is
    [response["isValid"]], which the body assigns. *)
Definition valid_day_of_week_step (valid : bool) (entry : string) : result bool :=
  let value := str_split "," entry in
  Ok (except_all
        ((v0 <- list_get value 0 ;; Ok (in_list v0 DAYS_OF_WEEK))
         ||| (v0 <- list_get value 0 ;; Ok (v0 =? ""))
             &&& (v10 <- list_get value 10 ;; Ok (v10 =? "Call for Information"))
             &&& Ok valid)
        false).

Definition test_valid_day_of_week (r : response) : result response :=
  if Bool.eqb (isValid r) false then Ok r
  else
    valid <- for_each valid_day_of_week_step (str_split ";" (formatted r))
               (isValid r) ;;
    Ok (set_isValid r valid).

Definition test_valid_entry_format (r : response) : result response :=
  if Bool.eqb (isValid r) false then Ok r
  else
    let count_semicolons := str_count ";" (formatted r) in
    let count_commas := str_count "," (formatted r) in
    let is_valid := (13 + count_semicolons * 13 =? count_commas)%nat in
    let is_valid :=
      ((count_semicolons <? 1)%nat && (count_commas =? 13)%nat)
      || ((1 <=? count_semicolons)%nat && (13 <? count_commas)%nat) && is_valid in
    Ok (set_isValid r (isValid r && is_valid)).

(** The body of the loop of [test_valid_open_closed_hours]; its state is
    the local [is_valid] and [response["isValid"]].  [value[10]] is read
    outside the [try]. *)
Definition valid_open_closed_hours_step (st : bool * bool) (entry : string)
  : result (bool * bool) :=
  let value := str_split "," entry in
  v10 <- list_get value 10 ;;
  if v10 =? "Call for Information" then Ok st
  else
    let is_valid :=
      except_all
        (v1 <- list_get value 1 ;;
         let is_open_hour_valid := is_time v1 in
         v2 <- list_get value 2 ;;
         let is_closed_hour_valid := is_time v2 in
         (Ok is_open_hour_valid ||| (v1 <- list_get value 1 ;; Ok (v1 =? "")))
         &&& (Ok is_closed_hour_valid ||| (v2 <- list_get value 2 ;; Ok (v2 =? "")))
         &&& Ok (fst st))
        false in
    Ok (is_valid, snd st && is_valid).

Definition test_valid_open_closed_hours (r : response) : result response :=
  if Bool.eqb (isValid r) false then Ok r
  else
    st <- for_each valid_open_closed_hours_step (str_split ";" (formatted r))
            (true, isValid r) ;;
    Ok (set_isValid r (snd st)).

(** The body of the loop of [test_close_hour_greater_than_open_hour]:
    [value[10]] is read inside the handler of [ValueError], where an
    [IndexError] is not caught. *)
Definition close_hour_greater_than_open_hour_step (is_valid : bool)
  (entry : string) : result bool :=
  let value := str_split "," entry in
  match (v2 <- list_get value 2 ;;
         close <- strptime_HM v2 ;;
         v1 <- list_get value 1 ;;
         open <- strptime_HM v1 ;;
         Ok (datetime_gt close open && is_valid)) with
  | Ok b => Ok b
  | Raise ValueError =>
      v10 <- list_get value 10 ;;
      Ok ((v10 =? "Call for Information") && is_valid)
  | Raise _ => Ok false
  end.

Definition test_close_hour_greater_than_open_hour (r : response)
  : result response :=
  rule_loop close_hour_greater_than_open_hour_step r.

(** [any(w.lower() in response["original"].lower() for w in words)]:
    [response["original"]] is evaluated once per word, inside the
    generator. *)
Definition ordinal_in_original (r : response) (words : list string) : result bool :=
  any_r (fun day_of_month_value =>
           original <- response_get r "original" ;;
           Ok (str_in (str_lower day_of_month_value) (str_lower original)))
        words.

(** The body of the loop of [test_day_of_month_formatting]; the whole body
    is inside the [try]. *)
Definition day_of_month_formatting_step (r : response) (is_valid : bool)
  (entry : string) : result bool :=
  let value := str_split "," entry in
  Ok (except_all
        (v10 <- list_get value 10 ;;
         if v10 =? "Day of Month" then
           is_valid <- (v9 <- list_get value 9 ;; Ok (str_isdigit v9))
                       &&& (v8 <- list_get value 8 ;; Ok (v8 =? ""))
                       &&& Ok is_valid ;;
           ((v9 <- list_get value 9 ;;
             words <- dict_get INT_TO_DAY_OF_MONTH v9 ;;
             ordinal_in_original r words)
            ||| (v9 <- list_get value 9 ;; Ok (v9 =? "")))
           &&& Ok is_valid
         else Ok is_valid)
        false).

Definition test_day_of_month_formatting (r : response) : result response :=
  rule_loop (day_of_month_formatting_step r) r.

(** The body of the loop of [test_week_of_month_formatting]: the same with
    fields 8 and 9 exchanged. *)
Definition week_of_month_formatting_step (r : response) (is_valid : bool)
  (entry : string) : result bool :=
  let value := str_split "," entry in
  Ok (except_all
        (v10 <- list_get value 10 ;;
         if v10 =? "Week of Month" then
           is_valid <- (v8 <- list_get value 8 ;; Ok (str_isdigit v8))
                       &&& (v9 <- list_get value 9 ;; Ok (v9 =? ""))
                       &&& Ok is_valid ;;
           ((v8 <- list_get value 8 ;;
             words <- dict_get INT_TO_DAY_OF_MONTH v8 ;;
             ordinal_in_original r words)
            ||| (v8 <- list_get value 8 ;; Ok (v8 =? "")))
           &&& Ok is_valid
         else Ok is_valid)
        false).

Definition test_week_of_month_formatting (r : response) : result response :=
  rule_loop (week_of_month_formatting_step r) r.

Definition weekly_formatting_step (is_valid : bool) (entry : string) : result bool :=
  let value := str_split "," entry in
  Ok (except_all
        (v10 <- list_get value 10 ;;
         if (v10 =? "Weekly") || (v10 =? "Every Other Week") then
           (v8 <- list_get value 8 ;; Ok (v8 =? ""))
           &&& (v9 <- list_get value 9 ;; Ok (v9 =? ""))
           &&& Ok is_valid
         else Ok is_valid)
        false).

Definition test_weekly_formatting (r : response) : result response :=
  rule_loop weekly_formatting_step r.

Definition call_for_information_formatting_step (is_valid : bool)
  (entry : string) : result bool :=
  let value := str_split "," entry in
  Ok (except_all
        (v10 <- list_get value 10 ;;
         if v10 =? "Call for Information" then
           Ok ((String.length (str_join "" (slice 0 7 value)) =? 0)%nat
               && (String.length (str_join "" (slice 8 10 value)) =? 0)%nat
               && (String.length (str_join "" (skipn 11 value)) =? 0)%nat
               && is_valid)
         else Ok is_valid)
        false).

Definition test_call_for_information_formatting (r : response) : result response :=
  rule_loop call_for_information_formatting_step r.

Definition all_null_values_empty_string_step (is_valid : bool) (entry : string)
  : result bool :=
  let value := str_split "," entry in
  Ok (except_all
        ((v <- list_get value 3 ;; Ok (v =? ""))
         &&& (v <- list_get value 4 ;; Ok (v =? ""))
         &&& (v <- list_get value 5 ;; Ok (v =? ""))
         &&& (v <- list_get value 6 ;; Ok (v =? ""))
         &&& (v <- list_get value 11 ;; Ok (v =? ""))
         &&& (v <- list_get value 12 ;; Ok (v =? ""))
         &&& (v <- list_get value 13 ;; Ok (v =? ""))
         &&& Ok is_valid)
        false).

Definition test_all_null_values_empty_string (r : response) : result response :=
  rule_loop all_null_values_empty_string_step r.

Definition valid_hour_types_step (is_valid : bool) (entry : string) : result bool :=
  let value := str_split "," entry in
  Ok (except_all
        ((v10 <- list_get value 10 ;; Ok (in_list v10 HOUR_TYPES)) &&& Ok is_valid)
        false).

Definition test_valid_hour_types (r : response) : result response :=
  rule_loop valid_hour_types_step r.

(** ** The battery *)

Definition validation_tests : list (response -> result response) :=
  [test_day_of_month_formatting;
   test_week_of_month_formatting;
   test_weekly_formatting;
   test_valid_hour_types;
   test_valid_day_of_week;
   test_valid_open_closed_hours;
   test_close_hour_greater_than_open_hour;
   test_all_null_values_empty_string;
   test_valid_entry_format;
   test_call_for_information_formatting].

(** [[test(response) for test in validation_tests]]. *)
Definition run_validation_tests (r : response) : result response :=
  for_each (fun r test => test r) validation_tests r.

Definition normalize_input_string {C : Completion} (case : string) : io response :=
  io_bind (format_input_string case) (fun response =>
  io_lift (run_validation_tests response)).

(** ** Predicates on an entry

    What each rule asks of one entry, as a boolean function of the entry
    alone.  The lemmas below show that the loop bodies compute them. *)

Definition entries (r : response) : list string := str_split ";" (formatted r).

Definition hour_type_is (entry : string) (t : string) : bool :=
  field_is (fields entry) 10 (fun v => v =? t).

Definition hour_types_ok (entry : string) : bool :=
  field_is (fields entry) 10 (fun v => in_list v HOUR_TYPES).

Definition weekly_ok (entry : string) : bool :=
  field_is (fields entry) 10 (fun v10 =>
    if (v10 =? "Weekly") || (v10 =? "Every Other Week")
    then field_is (fields entry) 8 is_empty && field_is (fields entry) 9 is_empty
    else true).

Definition call_for_information_ok (entry : string) : bool :=
  field_is (fields entry) 10 (fun v10 =>
    if v10 =? "Call for Information"
    then (str_join "" (slice 0 7 (fields entry)) =? "")
         && (str_join "" (slice 8 10 (fields entry)) =? "")
         && (str_join "" (skipn 11 (fields entry)) =? "")
    else true).

(** The server accepts no entry of type [t] among the two monthly types. *)
Definition not_monthly (t : string) (entry : string) : bool :=
  field_is (fields entry) 10 (fun v10 => negb (v10 =? t)).

(** Both times parse and the closing one is later, or one does not parse
    and the entry is a call for information. *)
Definition close_after_open_ok (entry : string) : bool :=
  match list_get (fields entry) 2, list_get (fields entry) 1 with
  | Ok v2, Ok v1 =>
      match strptime_HM v2, strptime_HM v1 with
      | Ok close, Ok open => datetime_gt close open
      | _, _ => hour_type_is entry "Call for Information"
      end
  | _, _ => false
  end.

Definition time_or_empty (v : string) : bool := is_time v || (v =? "").

Definition times_ok (entry : string) : bool :=
  field_is (fields entry) 1 time_or_empty && field_is (fields entry) 2 time_or_empty.

Definition open_closed_ok (entry : string) : bool :=
  hour_type_is entry "Call for Information" || times_ok entry.

Definition weekday_ok (entry : string) : bool :=
  field_is (fields entry) 0 (fun v => in_list v DAYS_OF_WEEK).

Definition no_day_ok (entry : string) : bool :=
  field_is (fields entry) 0 is_empty && hour_type_is entry "Call for Information".

(** Every entry has at least eleven fields. *)
Definition wide (r : response) : Prop :=
  Forall (fun e => 11 <= length (fields e)) (entries r).

(** [r'] is [r] with [isValid] possibly lowered. *)
Definition lowers (r r' : response) : Prop :=
  base r' = base r /\ formatted r' = formatted r /\
  (isValid r' = true -> isValid r = true).

(** A response after a rule of outcome [b]: untouched when it was
    invalid already. *)
Definition gate (b : bool) (r : response) : response :=
  if isValid r then set_isValid r b else r.

(** A response after a rule whose outcome on an entry is [chk]. *)
Definition checked (chk : string -> bool) (r : response) : response :=
  gate (forallb chk (entries r)) r.

(** The state of the loop of [test_valid_day_of_week] after one entry. *)
Definition day_of_week_next (valid : bool) (entry : string) : bool :=
  weekday_ok entry || (no_day_ok entry && valid).

(** The outcome of the ten rules on a response that was valid, in the
    order [normalize_input_string] runs them. *)
Definition all_checks (r : response) : bool :=
  forallb (not_monthly "Day of Month") (entries r)
  && forallb (not_monthly "Week of Month") (entries r)
  && forallb weekly_ok (entries r)
  && forallb hour_types_ok (entries r)
  && fold_left day_of_week_next (entries r) true
  && forallb open_closed_ok (entries r)
  && forallb close_after_open_ok (entries r)
  && forallb null_values_ok (entries r)
  && entry_format_ok (formatted r)
  && forallb call_for_information_ok (entries r).

(** ** The loop bodies compute the predicates *)

(** The shape shared by the type-specific rules: read field 10, and test
    the entry only when its type is the rule's. *)
Lemma guarded_step (value : list string) (T : string -> bool)
  (X : string -> result bool) (b : bool) :
  except_all (v10 <- list_get value 10 ;;
              if T v10 then X v10 &&& Ok b else Ok b) false
  = field_is value 10 (fun v10 => if T v10 then except_all (X v10) false else true)
    && b.
Proof.
  unfold list_get, field_is. destruct (nth_error value 10) as [v10|]; simpl;
    [|reflexivity].
  destruct (T v10); autorewrite with pyrw; reflexivity.
Qed.

Lemma valid_hour_types_step_eq (b : bool) (e : string) :
  valid_hour_types_step b e = Ok (hour_types_ok e && b).
Proof.
  unfold valid_hour_types_step, hour_types_ok, fields.
  autorewrite with pyrw. rewrite except_all_get. reflexivity.
Qed.

Lemma all_null_values_empty_string_step_eq (b : bool) (e : string) :
  all_null_values_empty_string_step b e = Ok (null_values_ok e && b).
Proof.
  unfold all_null_values_empty_string_step, null_values_ok, fields.
  autorewrite with pyrw. rewrite !except_all_get. simpl forallb.
  unfold is_empty. rewrite andb_true_r, !andb_assoc. reflexivity.
Qed.

(** Rewrites a loop body of the guarded shape with [guarded_step], given
    the guard and the test. *)
Ltac use_guarded_step T X :=
  f_equal; etransitivity; [apply (guarded_step _ T X)|];
  f_equal; apply field_is_ext; intros v10 _;
  destruct (T v10); autorewrite with pyrw; rewrite ?except_all_get;
  try reflexivity.

Lemma weekly_formatting_step_eq (b : bool) (e : string) :
  weekly_formatting_step b e = Ok (weekly_ok e && b).
Proof.
  unfold weekly_formatting_step, weekly_ok, fields.
  use_guarded_step
    (fun v10 => (v10 =? "Weekly") || (v10 =? "Every Other Week"))
    (fun _ : string => (v8 <- list_get (str_split "," e) 8 ;; Ok (v8 =? ""))
              &&& (v9 <- list_get (str_split "," e) 9 ;; Ok (v9 =? ""))).
Qed.

Lemma call_for_information_formatting_step_eq (b : bool) (e : string) :
  call_for_information_formatting_step b e = Ok (call_for_information_ok e && b).
Proof.
  unfold call_for_information_formatting_step, call_for_information_ok, fields.
  set (value := str_split "," e).
  replace (fun v10 : string => if v10 =? "Call for Information"
     then Ok ((String.length (str_join "" (slice 0 7 value)) =? 0)%nat
              && (String.length (str_join "" (slice 8 10 value)) =? 0)%nat
              && (String.length (str_join "" (skipn 11 value)) =? 0)%nat && b)
     else Ok b)
    with (fun v10 : string => if v10 =? "Call for Information"
     then Ok ((str_join "" (slice 0 7 value) =? "")
              && (str_join "" (slice 8 10 value) =? "")
              && (str_join "" (skipn 11 value) =? "")) &&& Ok b
     else Ok b).
  - use_guarded_step (fun v10 => v10 =? "Call for Information")
      (fun _ : string => Ok ((str_join "" (slice 0 7 value) =? "")
              && (str_join "" (slice 8 10 value) =? "")
              && (str_join "" (skipn 11 value) =? ""))).
  - rewrite and_then_ok, !length_zero_eqb. reflexivity.
Qed.

(** ** The two monthly rules *)

(** The dictionary has no key ["original"]. *)
Lemma response_get_original (r : response) :
  response_get r "original" = Raise KeyError.
Proof. reflexivity. Qed.

(** Looking the ordinal up in the original text never answers [True]: the
    lookup of ["original"] raises as soon as there is a word to look for. *)
Lemma ordinal_lookup (r : response) (v : string) :
  (v = "" /\
   (words <- dict_get INT_TO_DAY_OF_MONTH v ;; ordinal_in_original r words)
   = Ok false)
  \/ (v <> "" /\
      (words <- dict_get INT_TO_DAY_OF_MONTH v ;; ordinal_in_original r words)
      = Raise KeyError).
Proof.
  unfold INT_TO_DAY_OF_MONTH, dict_get.
  repeat match goal with
  | |- context [String.eqb v ?k] =>
      destruct (String.eqb_spec v k) as [->|?];
      [solve [right; split; [discriminate | reflexivity]
             | left; split; reflexivity] |]
  end.
  right; split; [assumption | reflexivity].
Qed.

(** The test a monthly rule runs on an entry of its type never passes. *)
Lemma monthly_test_fails (r : response) (ord other : result string) (b : bool) :
  except_all
    (is_valid <- (v <- ord ;; Ok (str_isdigit v))
                 &&& (v <- other ;; Ok (v =? "")) &&& Ok b ;;
     ((v <- ord ;;
       words <- dict_get INT_TO_DAY_OF_MONTH v ;;
       ordinal_in_original r words)
      ||| (v <- ord ;; Ok (v =? ""))) &&& Ok is_valid)
    false = false.
Proof.
  destruct ord as [v|e]; [|reflexivity]. rewrite !rbind_ok.
  destruct (ordinal_lookup r v) as [[-> ->]|[Hv ->]].
  - reflexivity.
  - destruct ((Ok (str_isdigit v) &&& (v0 <- other ;; Ok (v0 =? ""))) &&& Ok b);
      reflexivity.
Qed.

Lemma day_of_month_formatting_step_eq (r : response) (b : bool) (e : string) :
  day_of_month_formatting_step r b e = Ok (not_monthly "Day of Month" e && b).
Proof.
  unfold day_of_month_formatting_step, not_monthly, fields, list_get at 1, field_is.
  destruct (nth_error (str_split "," e) 10) as [v10|]; [|reflexivity].
  simpl of_option. rewrite rbind_ok.
  destruct (v10 =? "Day of Month"); [|reflexivity].
  rewrite monthly_test_fails. reflexivity.
Qed.

Lemma week_of_month_formatting_step_eq (r : response) (b : bool) (e : string) :
  week_of_month_formatting_step r b e = Ok (not_monthly "Week of Month" e && b).
Proof.
  unfold week_of_month_formatting_step, not_monthly, fields, list_get at 1, field_is.
  destruct (nth_error (str_split "," e) 10) as [v10|]; [|reflexivity].
  simpl of_option. rewrite rbind_ok.
  destruct (v10 =? "Week of Month"); [|reflexivity].
  rewrite monthly_test_fails. reflexivity.
Qed.

(** ** The frame *)

Lemma rule_loop_invalid (step : bool -> string -> result bool) (r : response) :
  isValid r = false -> rule_loop step r = Ok r.
Proof. unfold rule_loop. intros ->. reflexivity. Qed.

Lemma set_isValid_same (r : response) : set_isValid r (isValid r) = r.
Proof. destruct r; reflexivity. Qed.

Lemma lowers_refl (r : response) : lowers r r.
Proof. unfold lowers; auto. Qed.

Lemma lowers_trans (r1 r2 r3 : response) :
  lowers r1 r2 -> lowers r2 r3 -> lowers r1 r3.
Proof. unfold lowers. intros (? & ? & ?) (? & ? & ?). repeat split; try congruence; auto. Qed.

Lemma lowers_set (r : response) (b : bool) :
  (b = true -> isValid r = true) -> lowers r (set_isValid r b).
Proof. unfold lowers; simpl; auto. Qed.

Lemma lowers_gate (b : bool) (r : response) : lowers r (gate b r).
Proof.
  unfold gate. destruct (isValid r) eqn:E; [|apply lowers_refl].
  apply lowers_set; auto.
Qed.

Lemma lowers_checked (chk : string -> bool) (r : response) :
  lowers r (checked chk r).
Proof. apply lowers_gate. Qed.

Lemma isValid_gate (b : bool) (r : response) : isValid (gate b r) = isValid r && b.
Proof. unfold gate. destruct (isValid r) eqn:E; simpl; [reflexivity | exact E]. Qed.

Lemma formatted_gate (b : bool) (r : response) : formatted (gate b r) = formatted r.
Proof. unfold gate. destruct (isValid r); reflexivity. Qed.

Lemma entries_gate (b : bool) (r : response) : entries (gate b r) = entries r.
Proof. unfold entries. rewrite formatted_gate. reflexivity. Qed.

Lemma gate_gate (b1 b2 : bool) (r : response) :
  gate b2 (gate b1 r) = gate (b1 && b2) r.
Proof. unfold gate. destruct r as [bs f [|]]; simpl; destruct b1; reflexivity. Qed.

Lemma checked_gate (chk : string -> bool) (b : bool) (r : response) :
  checked chk (gate b r) = gate (b && forallb chk (entries r)) r.
Proof. unfold checked. rewrite entries_gate. apply gate_gate. Qed.

Lemma lowers_entries (r r' : response) : lowers r r' -> entries r' = entries r.
Proof. unfold entries. intros (_ & -> & _). reflexivity. Qed.

Lemma lowers_wide (r r' : response) : lowers r r' -> wide r -> wide r'.
Proof. unfold wide. intros H. rewrite (lowers_entries _ _ H). auto. Qed.

#[local] Hint Resolve lowers_refl lowers_checked lowers_set : py.

(** A rule whose loop body computes [chk] on an entry returns the response
    with [isValid] set to whether every entry passes [chk]. *)
Lemma rule_loop_checked (step : bool -> string -> result bool)
  (chk : string -> bool) (r : response) :
  (forall b e, In e (entries r) -> step b e = Ok (chk e && b)) ->
  rule_loop step r = Ok (checked chk r).
Proof.
  intros Hstep. unfold rule_loop, checked, gate. destruct (isValid r) eqn:E; simpl;
    [|reflexivity].
  rewrite (for_each_total_in _ (fun b e => chk e && b)) by exact Hstep.
  simpl. rewrite fold_left_andb_forallb, andb_true_r. reflexivity.
Qed.

Lemma test_valid_hour_types_eq (r : response) :
  test_valid_hour_types r = Ok (checked hour_types_ok r).
Proof. apply rule_loop_checked; intros; apply valid_hour_types_step_eq. Qed.

Lemma test_all_null_values_empty_string_eq (r : response) :
  test_all_null_values_empty_string r = Ok (checked null_values_ok r).
Proof. apply rule_loop_checked; intros; apply all_null_values_empty_string_step_eq. Qed.

Lemma test_weekly_formatting_eq (r : response) :
  test_weekly_formatting r = Ok (checked weekly_ok r).
Proof. apply rule_loop_checked; intros; apply weekly_formatting_step_eq. Qed.

Lemma test_call_for_information_formatting_eq (r : response) :
  test_call_for_information_formatting r = Ok (checked call_for_information_ok r).
Proof. apply rule_loop_checked; intros; apply call_for_information_formatting_step_eq. Qed.

Lemma test_day_of_month_formatting_eq (r : response) :
  test_day_of_month_formatting r = Ok (checked (not_monthly "Day of Month") r).
Proof. apply rule_loop_checked; intros; apply day_of_month_formatting_step_eq. Qed.

Lemma test_week_of_month_formatting_eq (r : response) :
  test_week_of_month_formatting r = Ok (checked (not_monthly "Week of Month") r).
Proof. apply rule_loop_checked; intros; apply week_of_month_formatting_step_eq. Qed.

(** ** The counting rule *)

Lemma test_valid_entry_format_eq (r : response) :
  test_valid_entry_format r =
  Ok (gate (entry_format_ok (formatted r)) r).
Proof.
  unfold test_valid_entry_format, entry_format_ok, gate.
  destruct (isValid r) eqn:E; [|reflexivity].
  change (Bool.eqb true false) with false. cbv beta iota zeta.
  rewrite andb_true_l, entry_format_formula. reflexivity.
Qed.

(** ** The weekday rule *)

Lemma valid_day_of_week_step_eq (valid : bool) (e : string) :
  valid_day_of_week_step valid e = Ok (day_of_week_next valid e).
Proof.
  unfold valid_day_of_week_step, day_of_week_next, weekday_ok, no_day_ok,
    hour_type_is. fold (fields e).
  destruct (fields_head e) as (v0 & H0). f_equal.
  rewrite <- !except_all_get. rewrite H0. rewrite !rbind_ok.
  autorewrite with pyrw. rewrite except_all_get. reflexivity.
Qed.

Lemma test_valid_day_of_week_eq (r : response) :
  test_valid_day_of_week r =
  Ok (gate (fold_left day_of_week_next (entries r) true) r).
Proof.
  unfold test_valid_day_of_week, gate. destruct (isValid r) eqn:E; simpl; [|reflexivity].
  rewrite (for_each_total _ day_of_week_next)
    by (intros; apply valid_day_of_week_step_eq).
  reflexivity.
Qed.

(** ** The two rules that read field 10 outside a handler *)

(** Rewrites the reads of fields 1, 2 and 10 of a wide entry. *)
Ltac read_fields e Hw :=
  let go i := (let v := fresh "v" in let Hn := fresh "Hn" in let Hg := fresh "Hg" in
               destruct (wide_field e i Hw) as (v & Hn & Hg); [lia|];
               unfold field_is; rewrite ?Hn, ?Hg; simpl rbind) in
  go 10; go 2; go 1.

Lemma close_hour_greater_than_open_hour_step_wide (b : bool) (e : string) :
  11 <= length (fields e) ->
  close_hour_greater_than_open_hour_step b e = Ok (close_after_open_ok e && b).
Proof.
  intros Hw. unfold close_hour_greater_than_open_hour_step, close_after_open_ok,
    hour_type_is. fold (fields e). read_fields e Hw.
  destruct (strptime_HM v0) as [c|x] eqn:E2; simpl.
  - destruct (strptime_HM v1) as [o|x] eqn:E1; simpl; [reflexivity|].
    apply strptime_HM_raise in E1 as ->. reflexivity.
  - apply strptime_HM_raise in E2 as ->. reflexivity.
Qed.

Lemma test_close_hour_greater_than_open_hour_eq (r : response) :
  (isValid r = true -> wide r) ->
  test_close_hour_greater_than_open_hour r = Ok (checked close_after_open_ok r).
Proof.
  intros Hw. destruct (isValid r) eqn:E.
  - apply rule_loop_checked. intros b e He.
    apply close_hour_greater_than_open_hour_step_wide.
    specialize (Hw eq_refl). unfold wide in Hw. rewrite Forall_forall in Hw. auto.
  - unfold test_close_hour_greater_than_open_hour, checked, gate.
    rewrite rule_loop_invalid, E by exact E. reflexivity.
Qed.

Lemma valid_open_closed_hours_step_wide (st : bool * bool) (e : string) :
  11 <= length (fields e) ->
  valid_open_closed_hours_step st e =
  Ok (if hour_type_is e "Call for Information" then st
      else (times_ok e && fst st, snd st && (times_ok e && fst st))).
Proof.
  intros Hw. unfold valid_open_closed_hours_step, times_ok, hour_type_is,
    time_or_empty. fold (fields e). read_fields e Hw.
  destruct (v =? "Call for Information"); [reflexivity|].
  autorewrite with pyrw. reflexivity.
Qed.

Lemma valid_open_closed_hours_loop (l : list string) (b : bool) :
  Forall (fun e => 11 <= length (fields e)) l ->
  for_each valid_open_closed_hours_step l (b, b) =
  Ok (forallb open_closed_ok l && b, forallb open_closed_ok l && b).
Proof.
  intros Hw. revert b. induction Hw as [|e l He _ IH]; intros b.
  - reflexivity.
  - cbn [for_each forallb]. rewrite valid_open_closed_hours_step_wide by exact He.
    rewrite rbind_ok. unfold open_closed_ok at 1 3.
    destruct (hour_type_is e "Call for Information"); cbn [orb andb fst snd].
    + apply IH.
    + replace (b && (times_ok e && b)) with (times_ok e && b)
        by (destruct (times_ok e), b; reflexivity).
      rewrite IH.
      replace (forallb open_closed_ok l && (times_ok e && b))
        with (times_ok e && forallb open_closed_ok l && b)
        by (destruct (times_ok e), b, (forallb open_closed_ok l); reflexivity).
      reflexivity.
Qed.

Lemma test_valid_open_closed_hours_eq (r : response) :
  (isValid r = true -> wide r) ->
  test_valid_open_closed_hours r = Ok (checked open_closed_ok r).
Proof.
  intros Hw. unfold test_valid_open_closed_hours, checked, gate.
  destruct (isValid r) eqn:E; simpl; [|reflexivity].
  fold (entries r). rewrite valid_open_closed_hours_loop by (apply Hw; reflexivity).
  simpl. rewrite andb_true_r. reflexivity.
Qed.

(** ** The battery *)

Lemma hour_types_ok_wide (e : string) :
  hour_types_ok e = true -> 11 <= length (fields e).
Proof. unfold hour_types_ok. intros H. apply field_is_lt in H. lia. Qed.

Lemma forallb_hour_types_wide (r : response) :
  forallb hour_types_ok (entries r) = true -> wide r.
Proof.
  unfold wide. rewrite forallb_forall, Forall_forall.
  intros H e He. apply hour_types_ok_wide; auto.
Qed.

(** Once the rule on hour types has passed, every entry has a field 10. *)
Lemma gate_wide (b : bool) (r : response) :
  (b = true -> forallb hour_types_ok (entries r) = true) ->
  isValid (gate b r) = true -> wide (gate b r).
Proof.
  intros Hb H. rewrite isValid_gate in H. apply andb_true_iff in H as [_ H].
  eapply lowers_wide; [apply lowers_gate|]. apply forallb_hour_types_wide; auto.
Qed.

(** Runs the next rule of the battery with the equation [L] and brings the
    state back to the form [gate _ r]. *)
Ltac next_rule L :=
  cbn [for_each]; rewrite L; rewrite rbind_ok;
  unfold checked; rewrite ?entries_gate, ?formatted_gate, ?gate_gate.

Lemma run_validation_tests_eq (r : response) :
  run_validation_tests r = Ok (gate (all_checks r) r).
Proof.
  unfold run_validation_tests, validation_tests, all_checks.
  next_rule test_day_of_month_formatting_eq.
  next_rule test_week_of_month_formatting_eq.
  next_rule test_weekly_formatting_eq.
  next_rule test_valid_hour_types_eq.
  next_rule test_valid_day_of_week_eq.
  cbn [for_each]. rewrite test_valid_open_closed_hours_eq
    by (apply gate_wide; intros H; repeat (apply andb_true_iff in H as [H ?]); assumption).
  rewrite rbind_ok. unfold checked. rewrite ?entries_gate, ?gate_gate.
  cbn [for_each]. rewrite test_close_hour_greater_than_open_hour_eq
    by (apply gate_wide; intros H; repeat (apply andb_true_iff in H as [H ?]); assumption).
  rewrite rbind_ok. unfold checked. rewrite ?entries_gate, ?gate_gate.
  next_rule test_all_null_values_empty_string_eq.
  next_rule test_valid_entry_format_eq.
  next_rule test_call_for_information_formatting_eq.
  reflexivity.
Qed.

(** C1. The ten rules, run in the order of [normalize_input_string], never
    raise: an invalid response is returned as it is, and a valid one with
    [isValid] set to the conjunction [all_checks] of the ten outcomes. *)
Theorem run_validation_tests_spec (r : response) :
  run_validation_tests r =
  Ok (if isValid r then set_isValid r (all_checks r) else r).
Proof. rewrite run_validation_tests_eq. reflexivity. Qed.

(** [test_valid_entry_format] passes a valid response exactly when
    its candidate has thirteen commas per entry. *)
Theorem test_valid_entry_format_spec (r : response) :
  isValid r = true ->
  test_valid_entry_format r =
  Ok (set_isValid r
        (str_count "," (formatted r) =? 13 * (str_count ";" (formatted r) + 1))%nat).
Proof.
  intros H. rewrite test_valid_entry_format_eq. unfold gate, entry_format_ok.
  rewrite H. reflexivity.
Qed.

(** ** What a valid response guarantees *)

Lemma gate_valid (b : bool) (r : response) :
  isValid (gate b r) = true -> isValid r = true /\ b = true.
Proof. rewrite isValid_gate. apply andb_true_iff. Qed.

(** A candidate that passes the ten rules has fourteen fields in every
    entry. *)
Lemma all_checks_arity (r : response) :
  all_checks r = true -> Forall (fun e => length (fields e) = 14) (entries r).
Proof.
  unfold all_checks. intros H. repeat (apply andb_true_iff in H as [H ?]).
  apply exact_arity; [assumption|].
  apply Forall_forall. intros e He. apply null_values_ok_fields.
  match goal with Hn : forallb null_values_ok _ = true |- _ =>
    rewrite forallb_forall in Hn; apply Hn, He end.
Qed.

(** C4. When the battery leaves a response valid, every entry of the
    candidate has exactly fourteen fields. *)
Theorem valid_entries_have_14_fields (r r' : response) :
  run_validation_tests r = Ok r' -> isValid r' = true ->
  Forall (fun e => length (fields e) = 14) (entries r).
Proof.
  rewrite run_validation_tests_eq. intros [= <-] H.
  apply gate_valid in H as [_ H]. apply all_checks_arity, H.
Qed.

(** ** The weekday rule is not a conjunction *)

(** One entry with a recognised weekday makes the loop of
    [test_valid_day_of_week] forget every failure before it: the flag goes
    from false back to true. *)
Theorem valid_day_of_week_step_resets (e : string) :
  weekday_ok e = true -> valid_day_of_week_step false e = Ok true.
Proof.
  intros H. rewrite valid_day_of_week_step_eq. unfold day_of_week_next.
  rewrite H. reflexivity.
Qed.

(** C10. [test_valid_day_of_week] passes every candidate whose last entry
    starts with a weekday, whatever the entries before it hold. *)
Theorem test_valid_day_of_week_last (r : response) (l : list string) (e : string) :
  isValid r = true -> entries r = (l ++ [e])%list -> weekday_ok e = true ->
  test_valid_day_of_week r = Ok r.
Proof.
  intros Hv He Hw. rewrite test_valid_day_of_week_eq, He, fold_left_app.
  simpl. unfold day_of_week_next at 1. rewrite Hw. simpl.
  unfold gate. rewrite Hv, <- Hv. apply f_equal, set_isValid_same.
Qed.

(** What the rule is meant to check of every entry. *)
Lemma day_of_week_intended (l : list string) :
  forallb (fun e => weekday_ok e || no_day_ok e) l = true ->
  fold_left day_of_week_next l true = true.
Proof.
  assert (G : forall b, b = true ->
    forallb (fun e => weekday_ok e || no_day_ok e) l = true ->
    fold_left day_of_week_next l b = true); [|apply G; reflexivity].
  induction l as [|e l IH]; intros b Hb H; simpl in *; [exact Hb|].
  apply andb_true_iff in H as [He Hl]. apply IH; [|exact Hl].
  unfold day_of_week_next. subst b. rewrite andb_true_r. exact He.
Qed.

(** ** The monthly hour types are never accepted *)

Lemma hour_type_is_not_monthly (e t : string) :
  hour_type_is e t = true -> not_monthly t e = false.
Proof.
  unfold hour_type_is, not_monthly, field_is.
  destruct (nth_error (fields e) 10); [intros ->; reflexivity | discriminate].
Qed.

(** C8. A candidate with an entry of type [Day of Month] or
    [Week of Month] is never valid after the battery. *)
Theorem monthly_entry_rejected (r r' : response) (e : string) :
  In e (entries r) ->
  hour_type_is e "Day of Month" = true \/ hour_type_is e "Week of Month" = true ->
  run_validation_tests r = Ok r' -> isValid r' = false.
Proof.
  intros He Ht. rewrite run_validation_tests_eq. intros [= <-].
  rewrite isValid_gate. unfold all_checks.
  destruct Ht as [Ht|Ht]; apply hour_type_is_not_monthly in Ht;
    rewrite (forallb_false_in _ _ e He Ht); simpl;
    rewrite ?andb_false_r; reflexivity.
Qed.

(** ** Running the battery again *)

Lemma all_checks_gate (b : bool) (r : response) :
  all_checks (gate b r) = all_checks r.
Proof. unfold all_checks. rewrite entries_gate, formatted_gate. reflexivity. Qed.

(** The battery is idempotent: run on its own result, it returns
    that result. *)
Theorem run_validation_tests_idempotent (r r' : response) :
  run_validation_tests r = Ok r' -> run_validation_tests r' = Ok r'.
Proof.
  rewrite !run_validation_tests_eq. intros [= <-].
  rewrite all_checks_gate, gate_gate, andb_diag. reflexivity.
Qed.

(** The battery only ever lowers [isValid], and changes neither the
    original text nor the candidate. *)
Theorem run_validation_tests_lowers (r r' : response) :
  run_validation_tests r = Ok r' -> lowers r r'.
Proof. rewrite run_validation_tests_eq. intros [= <-]. apply lowers_gate. Qed.

(** ** Rules out of the battery's order *)

Lemma valid_open_closed_hours_step_narrow (st : bool * bool) (e : string) :
  length (fields e) < 11 -> valid_open_closed_hours_step st e = Raise IndexError.
Proof.
  intros H. unfold valid_open_closed_hours_step. fold (fields e).
  rewrite (proj2 (list_get_raise (fields e) 10 IndexError)) by (split; [reflexivity|lia]).
  reflexivity.
Qed.

Lemma valid_open_closed_hours_loop_narrow (l : list string) (st : bool * bool) :
  Exists (fun e => length (fields e) < 11) l ->
  for_each valid_open_closed_hours_step l st = Raise IndexError.
Proof.
  intros H. revert st. induction l as [|e l IH]; intros st; [inversion H|].
  simpl. destruct (Nat.lt_ge_cases (length (fields e)) 11) as [Hn|Hw].
  - rewrite valid_open_closed_hours_step_narrow by exact Hn. reflexivity.
  - rewrite valid_open_closed_hours_step_wide by exact Hw. simpl.
    apply IH. inv H; [lia | assumption].
Qed.

(** C32. Run on its own, [test_valid_open_closed_hours] raises
    [IndexError] on every valid response with an entry of fewer than
    eleven fields. *)
Theorem test_valid_open_closed_hours_raises (r : response) :
  isValid r = true -> Exists (fun e => length (fields e) < 11) (entries r) ->
  test_valid_open_closed_hours r = Raise IndexError.
Proof.
  intros Hv Hn. unfold test_valid_open_closed_hours. rewrite Hv. simpl.
  fold (entries r). rewrite valid_open_closed_hours_loop_narrow by exact Hn.
  reflexivity.
Qed.

(** ** The text adapter *)

(** What [preprocess_string] sends to the service has no slash, and a
    comma for every comma and every slash of the stripped clause. *)
Lemma preprocess_string_counts (case : string) :
  str_count "/" (preprocess_string case) = 0 /\
  str_count "," (preprocess_string case)
  = str_count "/" (str_strip case) + str_count "," (str_strip case).
Proof.
  unfold preprocess_string. rewrite !str_count_replace. simpl. lia.
Qed.

(** A clause with no slash is sent as it is, stripped. *)
Lemma preprocess_string_plain (case : string) :
  str_count "/" case = 0 -> preprocess_string case = str_strip case.
Proof.
  intros H. unfold preprocess_string. apply str_replace_absent.
  destruct (str_strip_split case) as (p & q & Hc & _).
  rewrite Hc, !str_count_app in H. lia.
Qed.

(** The guard of the first correction, as a predicate on the fields. *)
Definition info_only (case : list string) : bool :=
  field_is case 7 (fun c7 =>
    negb (c7 =? "") && (str_join "" (slice 0 7 case) =? "")
    && (str_join "" (skipn 8 case) =? "")).

Lemma postprocess_string_unfold (s : string) (c7 : string) :
  nth_error (str_split "," s) 7 = Some c7 ->
  postprocess_string s =
  (case1 <- (if info_only (str_split "," s)
             then list_set (str_split "," s) 10 "Call for Information"
             else Ok (str_split "," s)) ;;
   c7' <- list_get case1 7 ;;
   case2 <- (if c7' =? "For information"
             then list_set case1 7 "Call for Information" else Ok case1) ;;
   Ok (str_join "," case2)).
Proof.
  intros H. unfold postprocess_string, info_only, field_is.
  unfold list_get at 1. rewrite H. reflexivity.
Qed.

(** [postprocess_string] raises [IndexError] on every reply of fewer
    than eight fields. *)
Theorem postprocess_string_short (s : string) :
  str_count "," s < 7 -> postprocess_string s = Raise IndexError.
Proof.
  intros H. unfold postprocess_string.
  rewrite (proj2 (list_get_raise _ 7 IndexError)); [reflexivity|].
  rewrite length_str_split. split; [reflexivity | lia].
Qed.

(** On a reply of at least eleven fields every read and every
    assignment of [postprocess_string] is in range. *)
Lemma postprocess_string_wide (s : string) :
  10 <= str_count "," s -> exists r, postprocess_string s = Ok r.
Proof.
  intros Hc. set (case := str_split "," s).
  assert (Hlen : 11 <= length case) by (unfold case; rewrite length_str_split; lia).
  destruct (list_get_lt case 7) as (c7 & H7); [lia|].
  rewrite (postprocess_string_unfold s c7) by (apply list_get_ok; exact H7).
  fold case.
  assert (H1 : exists case1, (if info_only case
                then list_set case 10 "Call for Information" else Ok case)
               = Ok case1 /\ length case1 = length case).
  { destruct (info_only case); [|eauto].
    rewrite list_set_ok by lia. eexists; split; [reflexivity|].
    apply length_list_update. }
  destruct H1 as (case1 & -> & Hl1); simpl.
  destruct (list_get_lt case1 7) as (c7' & ->); [lia|]; simpl.
  destruct (c7' =? "For information"); simpl; [|eauto].
  rewrite list_set_ok by lia; simpl; eauto.
Qed.


(** A reply whose field 7 is empty is returned as it is. *)
Lemma postprocess_string_plain (s : string) :
  nth_error (str_split "," s) 7 = Some "" -> postprocess_string s = Ok s.
Proof.
  intros H. rewrite (postprocess_string_unfold s "" H).
  unfold info_only, field_is. rewrite H. cbn [String.eqb negb andb].
  rewrite rbind_ok, (proj2 (list_get_ok _ 7 "") H), rbind_ok.
  cbn [String.eqb]. rewrite rbind_ok. f_equal. apply (str_join_split ","%char).
Qed.

Lemma list_set_count (case case' : list string) (i : nat) (v : string) :
  list_set case i v = Ok case' ->
  Forall (fun w => str_count "," w = 0) case -> str_count "," v = 0 ->
  str_count "," (str_join "," case') = str_count "," (str_join "," case) /\
  Forall (fun w => str_count "," w = 0) case' /\ length case' = length case.
Proof.
  unfold list_set. destruct (Nat.ltb_spec i (length case)) as [Hi|]; [|discriminate].
  intros [= <-] Hall Hv.
  destruct (nth_error case i) as [w|] eqn:Hw; [|apply nth_error_None in Hw; lia].
  assert (Hw0 : str_count "," w = 0).
  { rewrite Forall_forall in Hall. apply Hall. eapply nth_error_In; eauto. }
  split; [apply (str_count_join_update _ _ _ _ _ w); congruence|].
  split; [|apply length_list_update].
  clear Hw Hi. revert i. induction Hall as [|x l Hx Hl IH]; intros [|i]; simpl;
    constructor; auto.
Qed.

(** The corrections of [postprocess_string] keep the number of commas
    of the reply. *)
Theorem postprocess_string_commas (s r : string) :
  postprocess_string s = Ok r -> str_count "," r = str_count "," s.
Proof.
  unfold postprocess_string. intros H.
  apply rbind_ok_inv in H as (c7 & _ & H).
  apply rbind_ok_inv in H as (case1 & H1 & H).
  apply rbind_ok_inv in H as (c7' & _ & H).
  apply rbind_ok_inv in H as (case2 & H2 & [= <-]).
  pose proof (str_split_fields "," s) as Hall.
  assert (C1 : str_count "," (str_join "," case1) = str_count "," s /\
               Forall (fun w => str_count "," w = 0) case1).
  { destruct (_ && _) in H1.
    - apply list_set_count in H1 as (-> & ? & _); auto.
      rewrite (str_join_split ","%char). auto.
    - inv H1. rewrite (str_join_split ","%char). auto. }
  destruct C1 as [<- Hall1].
  destruct (c7' =? "For information").
  - apply list_set_count in H2 as (-> & _); auto.
  - inv H2. reflexivity.
Qed.

(** Run on its own, [test_close_hour_greater_than_open_hour] raises
    [IndexError] when the first entry has a closing time that does not
    parse and fewer than eleven fields: field 10 is read in the handler of
    [ValueError]. *)
Theorem test_close_hour_greater_than_open_hour_raises (r : response)
  (e : string) (l : list string) (v2 : string) :
  isValid r = true -> entries r = e :: l -> length (fields e) < 11 ->
  list_get (fields e) 2 = Ok v2 -> strptime_HM v2 = Raise ValueError ->
  test_close_hour_greater_than_open_hour r = Raise IndexError.
Proof.
  intros Hv He Hn H2 Hp.
  unfold test_close_hour_greater_than_open_hour, rule_loop. rewrite Hv. simpl.
  fold (entries r). rewrite He. simpl.
  unfold close_hour_greater_than_open_hour_step. fold (fields e).
  rewrite H2. simpl. rewrite Hp. simpl.
  rewrite (proj2 (list_get_raise (fields e) 10 IndexError)) by (split; [reflexivity|lia]).
  reflexivity.
Qed.

(** ** The generation client and the assembler *)

Section Assembler.
Context {C : Completion}.

Lemma call_oai_ok (p : string) (e e' : env) (t : string) :
  call_oai p e = (Ok t, e') -> slept_ms e' = slept_ms e + 50.
Proof.
  unfold call_oai, io_bind, sleep, io_ret.
  destruct (create p e) as [[t0|x] e1] eqn:E; [|discriminate].
  intros [= _ <-]. simpl. apply create_slept in E. lia.
Qed.

Lemma call_oai_raise (p : string) (e e' : env) (x : exn) :
  call_oai p e = (Raise x, e') -> x = UpstreamUnavailable.
Proof.
  unfold call_oai, io_bind, sleep, io_ret.
  destruct (create p e) as [[t0|x0] e1] eqn:E; [discriminate|].
  intros [= <- _]. eapply create_raises; eauto.
Qed.

Lemma postprocess_string_raise (s : string) (x : exn) :
  postprocess_string s = Raise x -> x = IndexError.
Proof.
  unfold postprocess_string, list_get, list_set.
  repeat match goal with
  | |- context [of_option _ ?o] => destruct o; simpl
  | |- context [if ?b then _ else _] => destruct b; simpl
  end; congruence.
Qed.

Lemma clause_ok (x : string) (e e' : env) (y : string) :
  clause x e = (Ok y, e') -> slept_ms e' = slept_ms e + 50.
Proof.
  unfold clause, io_bind, io_lift.
  destruct (call_oai (preprocess_string x) e) as [[t|z] e1] eqn:E; [|discriminate].
  intros [= _ <-]. eapply call_oai_ok; eauto.
Qed.

Lemma clause_raise (x : string) (e e' : env) (z : exn) :
  clause x e = (Raise z, e') -> z = UpstreamUnavailable \/ z = IndexError.
Proof.
  unfold clause, io_bind, io_lift.
  destruct (call_oai (preprocess_string x) e) as [[t|z0] e1] eqn:E.
  - intros [= H _]. right. eapply postprocess_string_raise; eauto.
  - intros [= <- _]. left. eapply call_oai_raise; eauto.
Qed.

(** A candidate that [format_input_string] returns carries the input
    unchanged as its original text, starts valid, joins one corrected reply
    per clause of the input, and has cost 50 ms of sleep per clause. *)
Theorem format_input_string_ok (case : string) (e e' : env) (r : response) :
  format_input_string case e = (Ok r, e') ->
  base r = case /\ isValid r = true /\
  slept_ms e' = slept_ms e + 50 * length (str_split ";" case) /\
  exists replies, formatted r = str_join ";" replies /\
                  length replies = length (str_split ";" case).
Proof.
  unfold format_input_string. unfold io_bind at 1.
  destruct (io_map clause (str_split ";" case) e) as [[ys|z] e1] eqn:E;
    [|discriminate].
  unfold io_ret. intros [= <- <-]. simpl. repeat split.
  - eapply (io_map_measure clause slept_ms 50); eauto using clause_ok.
  - exists ys. split; [reflexivity|]. eapply io_map_length; eauto.
Qed.

(** [format_input_string] raises nothing but the failure of the service
    and the [IndexError] of [postprocess_string]. *)
Lemma format_input_string_raises (case : string) (e e' : env) (z : exn) :
  format_input_string case e = (Raise z, e') ->
  z = UpstreamUnavailable \/ z = IndexError.
Proof.
  unfold format_input_string. unfold io_bind at 1.
  destruct (io_map clause (str_split ";" case) e) as [[ys|z0] e1] eqn:E;
    [unfold io_ret; discriminate|].
  intros [= <- _].
  eapply (io_map_raises clause (fun z => z = UpstreamUnavailable \/ z = IndexError));
    eauto using clause_raise.
Qed.

(** C23. [normalize_input_string] raises nothing else either: the ten
    rules never raise on the candidate it builds. *)
Theorem normalize_input_string_raises (case : string) (e e' : env) (z : exn) :
  normalize_input_string case e = (Raise z, e') ->
  z = UpstreamUnavailable \/ z = IndexError.
Proof.
  unfold normalize_input_string, io_bind, io_lift.
  destruct (format_input_string case e) as [[r|z0] e1] eqn:E.
  - rewrite run_validation_tests_eq. discriminate.
  - intros [= <- _]. eapply format_input_string_raises; eauto.
Qed.

(** A run of [normalize_input_string] that returns: the candidate comes
    from [format_input_string], which sets [base] to the input, and the
    response is that candidate after the ten rules. *)
Lemma normalize_input_string_ok_inv (case : string) (e e' : env) (r : response) :
  normalize_input_string case e = (Ok r, e') ->
  exists r0, format_input_string case e = (Ok r0, e') /\
             base r0 = case /\ isValid r0 = true /\ r = gate (all_checks r0) r0.
Proof.
  unfold normalize_input_string, io_bind, io_lift.
  destruct (format_input_string case e) as [[r0|z0] e1] eqn:E; [|discriminate].
  rewrite run_validation_tests_eq. intros [= <- <-].
  exists r0. split; [reflexivity|].
  unfold format_input_string, io_bind, io_ret in E.
  destruct (io_map clause (str_split ";" case) e) as [[ys|z] e2]; [|discriminate].
  injection E as <- _. auto.
Qed.

(** *** What the service is asked

    One request per clause of the input, in the order of the clauses,
    each the clause after [preprocess_string]. *)

Definition prompts (case : string) : list event :=
  map (fun x => Sent (preprocess_string x)) (str_split ";" case).

Lemma call_oai_trace (p : string) (e e' : env) (r : result string) :
  call_oai p e = (r, e') -> trace e' = (trace e ++ [Sent p])%list.
Proof.
  unfold call_oai, io_bind, sleep, io_ret.
  destruct (create p e) as [[t0|x] e1] eqn:E; intros [= _ <-];
    apply create_trace in E; exact E.
Qed.

Lemma clause_trace (x : string) (e e' : env) (r : result string) :
  clause x e = (r, e') ->
  trace e' = (trace e ++ [Sent (preprocess_string x)])%list.
Proof.
  unfold clause, io_bind, io_lift.
  destruct (call_oai (preprocess_string x) e) as [[t|z] e1] eqn:E;
    intros [= _ <-]; eapply call_oai_trace; eauto.
Qed.

Lemma prompts_flat_map (l : list string) :
  flat_map (fun x => [Sent (preprocess_string x)]) l
  = map (fun x => Sent (preprocess_string x)) l.
Proof. apply flat_map_singleton. reflexivity. Qed.

Lemma format_input_string_trace (case : string) (e e' : env) (r : response) :
  format_input_string case e = (Ok r, e') -> trace e' = (trace e ++ prompts case)%list.
Proof.
  unfold format_input_string. unfold io_bind at 1.
  destruct (io_map clause (str_split ";" case) e) as [[ys|z] e1] eqn:E;
    [|discriminate].
  unfold io_ret. intros [= _ <-]. unfold prompts. rewrite <- prompts_flat_map.
  eapply io_map_trace; [|exact E]. intros; eapply clause_trace; eauto.
Qed.

Lemma format_input_string_trace_raise (case : string) (e e' : env) (z : exn) :
  format_input_string case e = (Raise z, e') ->
  exists k, k < length (str_split ";" case)
            /\ trace e' = (trace e ++ firstn (S k) (prompts case))%list.
Proof.
  unfold format_input_string. unfold io_bind at 1.
  destruct (io_map clause (str_split ";" case) e) as [[ys|z0] e1] eqn:E;
    [unfold io_ret; discriminate|].
  intros [= _ <-].
  destruct (io_map_trace_raise clause (fun x => [Sent (preprocess_string x)])
              _ _ _ _ (fun x e r e1 => clause_trace x e e1 r) E) as (k & Hk & Ht).
  exists k. split; [exact Hk|]. unfold prompts.
  rewrite Ht, prompts_flat_map, firstn_map. reflexivity.
Qed.

(** C30. A run of [normalize_input_string] that returns has sent every
    clause of the input to the service: one request per clause, in the
    order of the clauses, each the clause after [preprocess_string], and
    nothing else. *)
Theorem normalize_input_string_sends_every_clause (case : string) (e e' : env)
  (r : response) :
  normalize_input_string case e = (Ok r, e') ->
  trace e' = (trace e ++ prompts case)%list.
Proof.
  intros H. apply normalize_input_string_ok_inv in H as (r0 & H & _).
  eapply format_input_string_trace, H.
Qed.

(** A run that raises stopped at the clause that failed: the clauses
    up to it were sent, in order, and no later one. *)
Theorem normalize_input_string_stops_at_failure (case : string) (e e' : env)
  (z : exn) :
  normalize_input_string case e = (Raise z, e') ->
  exists k, k < length (str_split ";" case)
            /\ trace e' = (trace e ++ firstn (S k) (prompts case))%list.
Proof.
  unfold normalize_input_string, io_bind, io_lift.
  destruct (format_input_string case e) as [[r|z0] e1] eqn:E.
  - rewrite run_validation_tests_eq. discriminate.
  - intros [= _ <-]. eapply format_input_string_trace_raise, E.
Qed.

(** The service answers every prompt, with a reply of at least eleven
    fields. *)
Definition answers_wide : Prop :=
  forall p w, exists t w',
    completion_create p w = (Ok t, w') /\ 10 <= str_count "," t.

Lemma clause_returns (x : string) (e : env) :
  answers_wide -> exists y e', clause x e = (Ok y, e') /\ True.
Proof.
  intros Ha. unfold clause, call_oai, create, sleep, io_bind, io_ret, io_lift.
  destruct (Ha (preprocess_string x) (env_world e)) as (t & w' & -> & Ht).
  destruct (postprocess_string_wide t Ht) as (y & ->). eauto.
Qed.

Lemma normalize_input_string_total (case : string) (e : env) :
  answers_wide ->
  exists r e', normalize_input_string case e = (Ok r, e') /\ base r = case.
Proof.
  intros Ha. unfold normalize_input_string, format_input_string.
  destruct (io_map_returns clause (fun _ => True) (str_split ";" case) e)
    as (ys & e' & E & _); [intros; apply clause_returns, Ha|].
  unfold io_bind, io_ret, io_lift. rewrite E, run_validation_tests_eq.
  eexists _, _. split; [reflexivity|]. unfold gate. simpl. reflexivity.
Qed.

(** C27. When the service answers every prompt with a reply of at least
    eleven fields, [normalize_input_string] returns a response for the
    input, whatever the input and the fields hold. *)
Theorem normalize_input_string_returns (case : string) (e : env) :
  answers_wide ->
  exists r e', normalize_input_string case e = (Ok r, e') /\ base r = case.
Proof. apply normalize_input_string_total. Qed.

End Assembler.

End Server.

(** * Runs and witnesses *)

Import Server.

(** Scenario A of the specification: a weekly entry. *)
Definition scenario_A : response :=
  {| base := "Every Monday, from 3pm-5pm";
     formatted := "Monday,15:00,17:00,,,,,,,,Weekly,,,";
     isValid := true |}.

(** Scenario B: the closing time is before the opening time. *)
Definition scenario_B : response :=
  {| base := "Every Monday, from 2pm-1pm";
     formatted := "Monday,14:00,13:00,,,,,,,,Weekly,,,";
     isValid := true |}.

(** Scenario C: an ordinal that the original text holds. *)
Definition scenario_C : response :=
  {| base := "3rd Tuesday, 9am-10am";
     formatted := "Tuesday,09:00,10:00,,,,,,,3,Day of Month,,,";
     isValid := true |}.

(** Scenario E after [postprocess_string]. *)
Definition scenario_E : response :=
  {| base := "Call for hours";
     formatted := ",,,,,,,Call for Information,,,Call for Information,,,";
     isValid := true |}.

(** A candidate whose first entry has no weekday. *)
Definition bad_weekday : response :=
  {| base := "Mondays and Thursdays 3pm-5pm";
     formatted := "Mursday,15:00,17:00,,,,,,,,Weekly,,,;Monday,15:00,17:00,,,,,,,,Weekly,,,";
     isValid := true |}.

(** A candidate of one field. *)
Definition narrow : response :=
  {| base := "x"; formatted := "a"; isValid := true |}.

(** A candidate of three fields with a closing time that does not parse. *)
Definition three_fields : response :=
  {| base := "x"; formatted := "Monday,9:00,noon"; isValid := true |}.

Example scenario_A_valid : run_validation_tests scenario_A = Ok scenario_A.
Proof. vm_compute. reflexivity. Qed.

Example scenario_B_invalid :
  run_validation_tests scenario_B = Ok (set_isValid scenario_B false) /\
  forallb close_after_open_ok (entries scenario_B) = false.
Proof. split; vm_compute; reflexivity. Qed.

(** The specification expects scenario C to pass; the server rejects it. *)
Example scenario_C_invalid :
  run_validation_tests scenario_C = Ok (set_isValid scenario_C false).
Proof. vm_compute. reflexivity. Qed.

Example scenario_E_valid :
  postprocess_string ",,,,,,,For information,,,,,," = Ok (formatted scenario_E) /\
  run_validation_tests scenario_E = Ok scenario_E.
Proof. split; vm_compute; reflexivity. Qed.

(** The battery accepts a candidate whose first entry starts with a word
    that is no weekday. *)
Example bad_weekday_accepted :
  run_validation_tests bad_weekday = Ok bad_weekday /\
  forallb weekday_ok (entries bad_weekday) = false.
Proof. split; vm_compute; reflexivity. Qed.

(** Field 7 is looked at by no rule. *)
Example field_7_unchecked :
  rmap isValid (run_validation_tests
    {| base := "x";
       formatted := "Monday,15:00,17:00,,,,,anything at all,,,Weekly,,,";
       isValid := true |}) = Ok true.
Proof. vm_compute. reflexivity. Qed.

Lemma valid_entries_have_14_fields_witness :
  Forall (fun e => length (fields e) = 14) (entries scenario_A).
Proof.
  apply (valid_entries_have_14_fields scenario_A scenario_A);
    vm_compute; reflexivity.
Defined.

Lemma monthly_entry_rejected_witness :
  isValid (set_isValid scenario_C false) = false.
Proof.
  apply (monthly_entry_rejected scenario_C _
           "Tuesday,09:00,10:00,,,,,,,3,Day of Month,,,").
  - vm_compute. left. reflexivity.
  - left. vm_compute. reflexivity.
  - vm_compute. reflexivity.
Defined.

Lemma test_valid_day_of_week_last_witness :
  test_valid_day_of_week bad_weekday = Ok bad_weekday.
Proof.
  apply (test_valid_day_of_week_last bad_weekday
           ["Mursday,15:00,17:00,,,,,,,,Weekly,,,"]
           "Monday,15:00,17:00,,,,,,,,Weekly,,,");
    vm_compute; reflexivity.
Defined.

Lemma valid_day_of_week_step_resets_witness :
  valid_day_of_week_step false "Monday,15:00,17:00,,,,,,,,Weekly,,," = Ok true.
Proof. apply valid_day_of_week_step_resets. vm_compute. reflexivity. Defined.

Lemma test_valid_open_closed_hours_raises_witness :
  test_valid_open_closed_hours narrow = Raise IndexError.
Proof.
  apply test_valid_open_closed_hours_raises; [reflexivity|].
  apply Exists_cons_hd. vm_compute. lia.
Defined.

Lemma test_close_hour_greater_than_open_hour_raises_witness :
  test_close_hour_greater_than_open_hour three_fields = Raise IndexError.
Proof.
  apply (test_close_hour_greater_than_open_hour_raises three_fields
           "Monday,9:00,noon" [] "noon");
    try (vm_compute; reflexivity). vm_compute. lia.
Defined.

Lemma run_validation_tests_idempotent_witness :
  run_validation_tests (set_isValid scenario_B false)
  = Ok (set_isValid scenario_B false).
Proof.
  apply (run_validation_tests_idempotent scenario_B). vm_compute. reflexivity.
Defined.

Lemma run_validation_tests_lowers_witness :
  lowers scenario_B (set_isValid scenario_B false).
Proof. apply run_validation_tests_lowers. vm_compute. reflexivity. Defined.

Lemma test_valid_entry_format_spec_witness :
  test_valid_entry_format bad_weekday
  = Ok (set_isValid bad_weekday
          (str_count "," (formatted bad_weekday)
           =? 13 * (str_count ";" (formatted bad_weekday) + 1))%nat).
Proof. apply test_valid_entry_format_spec. reflexivity. Defined.

Lemma postprocess_string_short_witness :
  postprocess_string "Monday,9:00,17:00" = Raise IndexError.
Proof. apply postprocess_string_short. vm_compute. lia. Defined.


Lemma postprocess_string_commas_witness :
  str_count "," (formatted scenario_E) = str_count "," ",,,,,,,For information,,,,,,".
Proof. apply postprocess_string_commas. vm_compute. reflexivity. Defined.

(** The service answers two clauses from a script. *)
Definition two_replies : @env Scripted :=
  @start Scripted
    [Some "Monday,9:00,17:00,,,,,,,,Weekly,,,"; Some ",,,,,,,By appointment,,,,,,"].

Definition two_clauses : response :=
  {| base := " Mon 9-5 ; Tue by appointment";
     formatted := "Monday,9:00,17:00,,,,,,,,Weekly,,,;,,,,,,,By appointment,,,Call for Information,,,";
     isValid := true |}.

Lemma format_input_string_ok_witness :
  base two_clauses = " Mon 9-5 ; Tue by appointment" /\
  isValid two_clauses = true /\
  @slept_ms Scripted
    (@Build_env Scripted [] 100 [Sent "Mon 9-5"; Sent "Tue by appointment"])
  = slept_ms two_replies + 50 * length (str_split ";" " Mon 9-5 ; Tue by appointment") /\
  exists replies, formatted two_clauses = str_join ";" replies /\
    length replies = length (str_split ";" " Mon 9-5 ; Tue by appointment").
Proof.
  apply (@format_input_string_ok Scripted " Mon 9-5 ; Tue by appointment"
           two_replies).
  vm_compute. reflexivity.
Defined.

(** A reply of two fields makes [postprocess_string] raise. *)
Lemma normalize_input_string_raises_witness :
  IndexError = UpstreamUnavailable \/ IndexError = IndexError.
Proof.
  apply (@normalize_input_string_raises Scripted "x"
           (@start Scripted [Some "a,b"]) (@Build_env Scripted [] 50 [Sent "x"])).
  vm_compute. reflexivity.
Defined.


(** A service that answers every prompt with the same weekly entry. *)
Definition always_monday : Completion :=
  Pure (fun _ => Some "Monday,15:00,17:00,,,,,,,,Weekly,,,").

Lemma always_monday_wide : @answers_wide always_monday.
Proof. intros p w. eexists _, _. split; [reflexivity | vm_compute; lia]. Qed.

Lemma normalize_input_string_returns_witness :
  exists r e',
    @normalize_input_string always_monday "Mondays 3 to 5; Mondays again"
      (@start always_monday tt) = (Ok r, e')
    /\ base r = "Mondays 3 to 5; Mondays again".
Proof.
  apply (@normalize_input_string_returns always_monday). exact always_monday_wide.
Defined.

(** Two clauses, two requests, in the order of the clauses. *)
Lemma normalize_input_string_sends_every_clause_witness :
  [Sent "Mon 3-5"; Sent "Tue 9-10"] = ([] ++ prompts "Mon 3-5; Tue 9-10")%list.
Proof.
  eapply (@normalize_input_string_sends_every_clause Scripted "Mon 3-5; Tue 9-10"
            (@start Scripted [Some "Monday,15:00,17:00,,,,,,,,Weekly,,,";
                              Some "Tuesday,9:00,10:00,,,,,,,,Weekly,,,"])
            (@Build_env Scripted [] 100 [Sent "Mon 3-5"; Sent "Tue 9-10"])).
  vm_compute. reflexivity.
Defined.

(** The service fails at the second of three clauses: the third is not
    sent. *)
Lemma normalize_input_string_stops_at_failure_witness :
  exists k, k < length (str_split ";" "Mon 3-5; Tue 9-10; Wed 1-2")
            /\ [Sent "Mon 3-5"; Sent "Tue 9-10"]
               = ([] ++ firstn (S k) (prompts "Mon 3-5; Tue 9-10; Wed 1-2"))%list.
Proof.
  apply (@normalize_input_string_stops_at_failure Scripted
           "Mon 3-5; Tue 9-10; Wed 1-2"
           (@start Scripted [Some "Monday,15:00,17:00,,,,,,,,Weekly,,,"; None;
                             Some "Wednesday,13:00,14:00,,,,,,,,Weekly,,,"])
           (@Build_env Scripted [Some "Wednesday,13:00,14:00,,,,,,,,Weekly,,,"] 50
              [Sent "Mon 3-5"; Sent "Tue 9-10"])
           UpstreamUnavailable).
  vm_compute. reflexivity.
Defined.
