(* ===== verification/App.v ===== *)
(** * App: the HTTP wrapper of the single-record pipeline

    Module [Http] models the handlers of [src/clean-hours/server/app.py]:
    what each returns to the framework as a pair of a body and a status
    code.  The route of the pipeline catches every exception of
    [normalize_input_string] and aborts with status 400; the framework
    then calls the handler registered for 400.  Routing, the transport
    and the rendering of the body as JSON belong to the framework and
    are not modelled; the text of an error message is represented by the
    exception it describes. *)

From Stdlib Require Import String Ascii List Bool Arith Lia.
From S2P Require Import Prelude.
From S2P Require Import PyString.
From S2P Require Import Entry.
From S2P Require Import Generator.
From S2P Require Import NormalizeHours.
Import ListNotations.
Local Open Scope string_scope.
Local Open Scope py_scope.

Module Http.
Import Server.

(** The body of a reply: the response dictionary, [{"Error": str(e)}] or
    [{"message": text}]. *)
Inductive payload : Type :=
  | Response (r : response)
  | Error (description : exn)
  | Message (text : string).

(** What a handler returns: [body, status]. *)
Record http_response : Type := {
  body : payload;
  status : nat
}.

(** ** Error handlers *)

Definition bad_request (e : exn) : http_response :=
  {| body := Error e; status := 400 |}.

Definition not_found (e : exn) : http_response :=
  {| body := Error e; status := 404 |}.

Definition internal_server_error (e : exn) : http_response :=
  {| body := Error e; status := 500 |}.

(** ** Routes *)

Definition root : http_response :=
  {| body := Message "Hello, World!"; status := 200 |}.

(** [abort(400, description=str(e))] in the handler of [Exception] ends
    the route with the reply of [bad_request]. *)
Definition normalize_hours {C : Completion} (inputString : string)
  : env -> http_response * env :=
  fun e =>
    match normalize_input_string inputString e with
    | (Ok response, e') => ({| body := Response response; status := 200 |}, e')
    | (Raise x, e') => (bad_request x, e')
    end.

Section Route.
Context {C : Completion}.

(** C34. The route of the pipeline answers 200 with the response of
    [normalize_input_string] when it returns, and 400 when it raises,
    which is when the service fails or a reply is too short for
    [postprocess_string]; it answers nothing else. *)
Theorem normalize_hours_status (inputString : string) (e e' : env)
  (reply : http_response) :
  normalize_hours inputString e = (reply, e') ->
  (status reply = 200 /\
   exists r, body reply = Response r /\
             normalize_input_string inputString e = (Ok r, e')) \/
  (status reply = 400 /\
   exists x, body reply = Error x /\ (x = UpstreamUnavailable \/ x = IndexError)).
Proof.
  unfold normalize_hours.
  destruct (normalize_input_string inputString e) as [[r|x] e1] eqn:E;
    intros [= <- <-].
  - left. simpl. eauto.
  - right. simpl. split; [reflexivity|]. exists x. split; [reflexivity|].
    unfold normalize_input_string, io_bind, io_lift in E.
    destruct (format_input_string inputString e) as [[r|z0] e2] eqn:F.
    + rewrite run_validation_tests_eq in E. discriminate.
    + injection E as <- _. eapply format_input_string_raises; eauto.
Qed.

(** A reply of status 200 whose response is valid carries the input
    as [base] and a candidate of fourteen fields in every entry. *)
Theorem normalize_hours_valid (inputString : string) (e e' : env)
  (reply : http_response) (r : response) :
  normalize_hours inputString e = (reply, e') ->
  body reply = Response r -> isValid r = true ->
  status reply = 200 /\ base r = inputString /\
  Forall (fun entry => length (fields entry) = 14) (entries r).
Proof.
  unfold normalize_hours.
  destruct (normalize_input_string inputString e) as [[r1|x] e1] eqn:E;
    intros [= <- <-]; simpl; [|discriminate].
  intros [= ->] Hv.
  apply normalize_input_string_ok_inv in E as (r0 & _ & Hb & _ & ->).
  apply gate_valid in Hv as [_ Hv].
  rewrite entries_gate. unfold gate. destruct (isValid r0); simpl; auto using all_checks_arity.
Qed.

(** When the service answers every prompt with a reply of at least
    eleven fields the route answers 200, whatever the input. *)
Theorem normalize_hours_ok (inputString : string) (e : env) :
  answers_wide ->
  exists r e', normalize_hours inputString e
               = ({| body := Response r; status := 200 |}, e')
               /\ base r = inputString.
Proof.
  intros Ha. unfold normalize_hours.
  destruct (normalize_input_string_total inputString e Ha) as (r & e' & -> & Hb).
  eauto.
Qed.

End Route.

End Http.

Import Server.
Import Http.

(** ** The route on scripted replies *)

Example route_ok :
  fst (normalize_hours "Every Monday, from 3pm-5pm"
         (@start Scripted [Some "Monday,15:00,17:00,,,,,,,,Weekly,,,"]))
  = {| body := Response {| base := "Every Monday, from 3pm-5pm";
                           formatted := "Monday,15:00,17:00,,,,,,,,Weekly,,,";
                           isValid := true |};
       status := 200 |}.
Proof. vm_compute. reflexivity. Qed.

(** A candidate that the rules reject is a reply of status 200 all the
    same. *)
Example route_invalid_is_200 :
  fst (normalize_hours "Mondays"
         (@start Scripted [Some "Monday,17:00,15:00,,,,,,,,Weekly,,,"]))
  = {| body := Response {| base := "Mondays";
                           formatted := "Monday,17:00,15:00,,,,,,,,Weekly,,,";
                           isValid := false |};
       status := 200 |}.
Proof. vm_compute. reflexivity. Qed.

Example route_service_down :
  fst (normalize_hours "Mondays" (@start Scripted [None]))
  = bad_request UpstreamUnavailable.
Proof. vm_compute. reflexivity. Qed.

Lemma normalize_hours_status_witness :
  (status (bad_request IndexError) = 200 /\
   exists r, body (bad_request IndexError) = Response r /\
             normalize_input_string "Mondays" (@start Scripted [Some "a,b"])
             = (Ok r, @Build_env Scripted [] 50 [Sent "Mondays"])) \/
  (status (bad_request IndexError) = 400 /\
   exists x, body (bad_request IndexError) = Error x /\
             (x = UpstreamUnavailable \/ x = IndexError)).
Proof.
  apply (@normalize_hours_status Scripted "Mondays").
  vm_compute. reflexivity.
Defined.

Lemma normalize_hours_valid_witness :
  status {| body := Response scenario_A; status := 200 |} = 200 /\
  base scenario_A = "Every Monday, from 3pm-5pm" /\
  Forall (fun entry => length (fields entry) = 14) (entries scenario_A).
Proof.
  apply (@normalize_hours_valid Scripted "Every Monday, from 3pm-5pm"
           (@start Scripted [Some "Monday,15:00,17:00,,,,,,,,Weekly,,,"])
           (@Build_env Scripted [] 50 [Sent "Every Monday, from 3pm-5pm"])).
  - vm_compute. reflexivity.
  - reflexivity.
  - reflexivity.
Defined.
