(* ===== verification/CleanHours.v ===== *)
(** * CleanHours: the batch pipeline

    Module [Batch] models [src/clean_hours.py] statement by statement:
    the constants, [create_id_hours_dict], [call_oai],
    [format_hours_iteratively], the nine rules over the three
    dictionaries, [filter_invalid_values], [convert_id_hours_dict_to_df]
    and the body of the script ([main]): from the table read to the
    table written, with the lines it prints and the call of [to_csv] as
    events of the trace of the run.

    The three dictionaries are keyed by the program identifier.  A rule
    mutates [is_valid_dict] in place and returns it; here it takes the
    dictionary and returns the new one, inside [result]: but for
    [test_close_hour_greater_than_open_hour] and the ordinal cross-check,
    the rules read the fields of an entry with no handler around them, so
    an entry that is too short raises [IndexError] out of the rule.  The
    body of each rule's inner loop is a definition of its own
    ([..._step]); the frame the rules share is [record_loop] and
    [rule_loop]. *)

From Stdlib Require Import String Ascii List Bool Arith ZArith Lia.
From S2P Require Import Prelude.
From S2P Require Import PyString.
From S2P Require Import PyDict.
From S2P Require Import DataFrame.
From S2P Require Import Regex.
From S2P Require Import TimeFormat.
From S2P Require Import Entry.
From S2P Require Import Generator.
Import ListNotations.
Local Open Scope string_scope.
Local Open Scope py_scope.

Module Batch.

(** ** Constants *)

(** The value of the key [""] is the empty string, which has no element
    to iterate over. *)
Definition INT_TO_DAY_OF_MONTH : dict (list string) :=
  [("1", ["1st"; "First"]); ("2", ["2nd"]); ("3", ["3rd"]); ("4", ["4th"]);
   ("5", ["5th"]); ("", [])].

Definition DAYS_OF_WEEK : list string :=
  ["Monday"; "Tuesday"; "Wednesday"; "Thursday"; "Friday"; "Saturday"; "Sunday"].

Definition HOUR_TYPES : list string :=
  ["Weekly"; "Every Other Week"; "Day of Month"; "Week of Month"].

(** ** From the table to the dictionaries *)

(** [id_hours_dict[row["Program External ID"]] =
     str(row["Hours Uncleaned"]).strip()]: the right-hand side of the
    assignment is evaluated before the key.  [str] makes the text [nan]
    of a missing cell.  The key of an identifier is its text. *)
Definition create_id_hours_dict (df : DataFrame) : result (dict string) :=
  for_each (fun id_hours_dict row =>
              hours <- row_get df row "Hours Uncleaned" ;;
              id <- row_get df row "Program External ID" ;;
              Ok (dict_set id_hours_dict (cell_str id) (str_strip (cell_str hours))))
           (values df) [].

(** One completion request. *)
Definition call_oai {C : Completion} (prompt : string) : io string :=
  create prompt.

Definition format_hours_iteratively {C : Completion} (id_hours_dict : dict string)
  : io (dict string) :=
  io_for_each (fun cleaned_hours_dict kv =>
                 io_bind (call_oai (snd kv)) (fun new_value =>
                 io_ret (dict_set cleaned_hours_dict (fst kv) new_value)))
              id_hours_dict [].

(** [{key: True for key, _ in id_hours_dict.items()}]. *)
Definition all_valid (id_hours_dict : dict string) : dict bool :=
  dict_from_pairs (map (fun kv => (fst kv, true)) id_hours_dict).

(** ** The frame of a rule *)

(** [for key, value in cleaned_hours_dict.items():] compute [is_valid],
    then [is_valid_dict[key] = is_valid_dict[key] and is_valid]. *)
Definition record_loop (check : string -> string -> result bool)
  (cleaned_hours_dict : dict string) (is_valid_dict : dict bool)
  : result (dict bool) :=
  for_each (fun is_valid_dict kv =>
              is_valid <- check (fst kv) (snd kv) ;;
              old <- dict_get is_valid_dict (fst kv) ;;
              Ok (dict_set is_valid_dict (fst kv) (old && is_valid)))
           cleaned_hours_dict is_valid_dict.

(** The rules that loop over the entries of a record start from
    [is_valid = True]. *)
Definition rule_loop (step : string -> bool -> string -> result bool)
  : dict string -> dict bool -> result (dict bool) :=
  record_loop (fun key value => for_each (step key) (str_split ";" value) true).

(** ** The rules *)

Definition valid_day_of_week_step (is_valid : bool) (entry : string) : result bool :=
  let value := str_split "," entry in
  (v0 <- list_get value 0 ;; Ok (in_list v0 DAYS_OF_WEEK)) &&& Ok is_valid.

Definition test_valid_day_of_week (_ : dict string)
  : dict string -> dict bool -> result (dict bool) :=
  rule_loop (fun _ => valid_day_of_week_step).

Definition test_valid_entry_format (_ : dict string)
  : dict string -> dict bool -> result (dict bool) :=
  record_loop (fun _ value =>
    let count_semicolons := str_count ";" value in
    let count_commas := str_count "," value in
    let is_valid := (13 + count_semicolons * 13 =? count_commas)%nat in
    let is_valid :=
      ((count_semicolons <? 1)%nat && (count_commas =? 13)%nat)
      || ((1 <=? count_semicolons)%nat && (13 <? count_commas)%nat) && is_valid in
    Ok is_valid).

(** Nothing is caught here: fields 1 and 2 are read as they are. *)
Definition valid_open_closed_hours_step (is_valid : bool) (entry : string)
  : result bool :=
  let value := str_split "," entry in
  is_valid <- (v1 <- list_get value 1 ;; Ok (negb (v1 =? "")))
              &&& (v2 <- list_get value 2 ;; Ok (negb (v2 =? "")))
              &&& Ok is_valid ;;
  v1 <- list_get value 1 ;;
  let is_open_hour_valid := is_time v1 in
  v2 <- list_get value 2 ;;
  let is_closed_hour_valid := is_time v2 in
  Ok (is_open_hour_valid && is_closed_hour_valid && is_valid).

Definition test_valid_open_closed_hours (_ : dict string)
  : dict string -> dict bool -> result (dict bool) :=
  rule_loop (fun _ => valid_open_closed_hours_step).

Definition close_hour_greater_than_open_hour_step (is_valid : bool)
  (entry : string) : result bool :=
  let value := str_split "," entry in
  Ok (except_all
        (v2 <- list_get value 2 ;;
         close <- strptime_HM v2 ;;
         v1 <- list_get value 1 ;;
         open <- strptime_HM v1 ;;
         Ok (datetime_gt close open && is_valid))
        false).

Definition test_close_hour_greater_than_open_hour (_ : dict string)
  : dict string -> dict bool -> result (dict bool) :=
  rule_loop (fun _ => close_hour_greater_than_open_hour_step).

(** [any(w in id_hours_dict[key] for w in words)]: the original text is
    looked up once per word, inside the generator, and compared as it
    is. *)
Definition ordinal_in_original (id_hours_dict : dict string) (key : string)
  (words : list string) : result bool :=
  any_r (fun day_of_month_value =>
           original <- dict_get id_hours_dict key ;;
           Ok (str_in day_of_month_value original))
        words.

(** The body of the loop of [test_day_of_month_formatting]: the test of
    the hour type is outside the [try], the cross-check with the original
    text inside, for an entry of any type. *)
Definition day_of_month_formatting_step (id_hours_dict : dict string)
  (key : string) (is_valid : bool) (entry : string) : result bool :=
  let value := str_split "," entry in
  v10 <- list_get value 10 ;;
  is_valid <- (if v10 =? "Day of Month"
               then (v9 <- list_get value 9 ;; Ok (str_isdigit v9))
                    &&& (v8 <- list_get value 8 ;; Ok (v8 =? ""))
                    &&& Ok is_valid
               else Ok is_valid) ;;
  Ok (except_all
        (((v9 <- list_get value 9 ;;
           words <- dict_get INT_TO_DAY_OF_MONTH v9 ;;
           ordinal_in_original id_hours_dict key words)
          ||| (v9 <- list_get value 9 ;; Ok (v9 =? "")))
         &&& Ok is_valid)
        false).

Definition test_day_of_month_formatting (id_hours_dict : dict string)
  : dict string -> dict bool -> result (dict bool) :=
  rule_loop (day_of_month_formatting_step id_hours_dict).

(** The same with fields 8 and 9 exchanged. *)
Definition week_of_month_formatting_step (id_hours_dict : dict string)
  (key : string) (is_valid : bool) (entry : string) : result bool :=
  let value := str_split "," entry in
  v10 <- list_get value 10 ;;
  is_valid <- (if v10 =? "Week of Month"
               then (v8 <- list_get value 8 ;; Ok (str_isdigit v8))
                    &&& (v9 <- list_get value 9 ;; Ok (v9 =? ""))
                    &&& Ok is_valid
               else Ok is_valid) ;;
  Ok (except_all
        (((v8 <- list_get value 8 ;;
           words <- dict_get INT_TO_DAY_OF_MONTH v8 ;;
           ordinal_in_original id_hours_dict key words)
          ||| (v8 <- list_get value 8 ;; Ok (v8 =? "")))
         &&& Ok is_valid)
        false).

Definition test_week_of_month_formatting (id_hours_dict : dict string)
  : dict string -> dict bool -> result (dict bool) :=
  rule_loop (week_of_month_formatting_step id_hours_dict).

Definition weekly_formatting_step (is_valid : bool) (entry : string) : result bool :=
  let value := str_split "," entry in
  v10 <- list_get value 10 ;;
  if (v10 =? "Weekly") || (v10 =? "Every Other Week") then
    (v8 <- list_get value 8 ;; Ok (v8 =? ""))
    &&& (v9 <- list_get value 9 ;; Ok (v9 =? ""))
    &&& Ok is_valid
  else Ok is_valid.

Definition test_weekly_formatting (_ : dict string)
  : dict string -> dict bool -> result (dict bool) :=
  rule_loop (fun _ => weekly_formatting_step).

Definition all_null_values_empty_string_step (is_valid : bool) (entry : string)
  : result bool :=
  let value := str_split "," entry in
  (v <- list_get value 3 ;; Ok (v =? ""))
  &&& (v <- list_get value 4 ;; Ok (v =? ""))
  &&& (v <- list_get value 5 ;; Ok (v =? ""))
  &&& (v <- list_get value 6 ;; Ok (v =? ""))
  &&& (v <- list_get value 11 ;; Ok (v =? ""))
  &&& (v <- list_get value 12 ;; Ok (v =? ""))
  &&& (v <- list_get value 13 ;; Ok (v =? ""))
  &&& Ok is_valid.

Definition test_all_null_values_empty_string (_ : dict string)
  : dict string -> dict bool -> result (dict bool) :=
  rule_loop (fun _ => all_null_values_empty_string_step).

Definition valid_hour_types_step (is_valid : bool) (entry : string) : result bool :=
  let value := str_split "," entry in
  (v10 <- list_get value 10 ;; Ok (in_list v10 HOUR_TYPES)) &&& Ok is_valid.

Definition test_valid_hour_types (_ : dict string)
  : dict string -> dict bool -> result (dict bool) :=
  rule_loop (fun _ => valid_hour_types_step).

(** ** The battery *)

Definition validation_tests
  : list (dict string -> dict string -> dict bool -> result (dict bool)) :=
  [test_day_of_month_formatting;
   test_week_of_month_formatting;
   test_weekly_formatting;
   test_valid_hour_types;
   test_valid_day_of_week;
   test_valid_open_closed_hours;
   test_close_hour_greater_than_open_hour;
   test_all_null_values_empty_string;
   test_valid_entry_format].

(** [[test(id_hours_dict, cleaned_hours_dict, is_valid_hours_dict)
     for test in validation_tests]]. *)
Definition run_validation_tests (id_hours_dict cleaned_hours_dict : dict string)
  (is_valid_hours_dict : dict bool) : result (dict bool) :=
  for_each (fun is_valid_dict test => test id_hours_dict cleaned_hours_dict is_valid_dict)
           validation_tests is_valid_hours_dict.

(** ** Reconciliation *)

Definition filter_invalid_values (id_hours_dict cleaned_hours_dict : dict string)
  (is_valid_hours_dict : dict bool) : result (dict string) :=
  for_each (fun valid_hours_dict kv =>
              let key := fst kv in
              valid <- dict_get is_valid_hours_dict key ;;
              if valid then
                v <- dict_get cleaned_hours_dict key ;;
                Ok (dict_set valid_hours_dict key v)
              else
                v <- dict_get id_hours_dict key ;;
                Ok (dict_set valid_hours_dict key v))
           cleaned_hours_dict [].

(** The rows that one identifier of the table contributes: the row cut
    before its last fifteen cells, and one new row per entry. *)
Definition new_entries_of (df : DataFrame) (row : list cell) (cleaned : string)
  : list cell * list (list cell) :=
  let row := slice_to (Z.of_nat (length (columns df)) - 15) row in
  (row, map (fun entry => row ++ map Text (str_split "," entry) ++ [Text ""])%list
            (str_split ";" cleaned)).

(** [try: df.loc[len(df)] = entry / except ValueError: df.loc[len(df)] =
    row + [""] * 15]. *)
Definition append_entry (row : list cell) (cleaned_hours_df : DataFrame)
  (entry : list cell) : result DataFrame :=
  match df_append cleaned_hours_df entry with
  | Ok df' => Ok df'
  | Raise ValueError => df_append cleaned_hours_df (row ++ repeat (Text "") 15)%list
  | Raise e => Raise e
  end.

(** The body of the loop of [convert_id_hours_dict_to_df]. *)
Definition convert_step (cleaned_hours_dict : dict string)
  (is_valid_hours_dict : dict bool) (df : DataFrame)
  (cleaned_hours_df : DataFrame) (id : cell) : result DataFrame :=
  rows <- df_loc_eq df "Program External ID" id ;;
  row <- first_row rows ;;
  valid <- dict_get is_valid_hours_dict (cell_str id) ;;
  st <- (if valid then
           cleaned <- dict_get cleaned_hours_dict (cell_str id) ;;
           Ok (new_entries_of df row cleaned)
         else Ok (row, [])) ;;
  let row := fst st in
  let new_entries := snd st in
  valid <- dict_get is_valid_hours_dict (cell_str id) ;;
  if valid then for_each (append_entry row) new_entries cleaned_hours_df
  else df_append cleaned_hours_df row.

Definition convert_id_hours_dict_to_df (cleaned_hours_dict : dict string)
  (is_valid_hours_dict : dict bool) (df : DataFrame) : result DataFrame :=
  let cleaned_hours_df := df_empty (columns df) in
  ids <- df_column df "Program External ID" ;;
  for_each (convert_step cleaned_hours_dict is_valid_hours_dict df)
           ids cleaned_hours_df.

(** ** The script *)

(** [args.file.replace(".csv", "") + "_HOURS_CLEANED.csv"]. *)
Definition output_path (file : string) : string :=
  str_replace_sub ".csv" "" file ++ "_HOURS_CLEANED.csv".

(** [for key, value in cleaned_hours_dict.items():
      print(cleaned_hours_dict[key].split(";"))]. *)
Definition print_candidates {C : Completion} (cleaned_hours_dict : dict string)
  : io unit :=
  io_for_each (fun _ kv =>
                 io_bind (io_lift (dict_get cleaned_hours_dict (fst kv)))
                   (fun value => print (PList (str_split ";" value))))
              cleaned_hours_dict tt.

(** The body of the script, from the table that [pd.read_csv(args.file)]
    returned to the call of [to_csv]; the table written is returned. *)
Definition main {C : Completion} (file : string) (df : DataFrame) : io DataFrame :=
  io_bind (io_lift (create_id_hours_dict df)) (fun id_hours_dict =>
  let is_valid_hours_dict := all_valid id_hours_dict in
  io_bind (format_hours_iteratively id_hours_dict) (fun cleaned_hours_dict =>
  io_bind (print_candidates cleaned_hours_dict) (fun _ =>
  io_bind (io_lift (run_validation_tests id_hours_dict cleaned_hours_dict
                      is_valid_hours_dict)) (fun is_valid_hours_dict =>
  io_bind (print (PFlags is_valid_hours_dict)) (fun _ =>
  io_bind (io_lift (filter_invalid_values id_hours_dict cleaned_hours_dict
                      is_valid_hours_dict)) (fun valid_id_hours_dict =>
  io_bind (io_lift (convert_id_hours_dict_to_df cleaned_hours_dict
                      is_valid_hours_dict df)) (fun cleaned_hours_df =>
  io_bind (to_csv cleaned_hours_df (output_path file)) (fun _ =>
  io_ret cleaned_hours_df)))))))).

(** The arguments of the script: [parser.add_argument("file", ...)],
    as [parser.parse_args()] returns them. *)
Record args : Type := {
  file : string
}.

(** The script: the table is read from [args.file], and the output is
    written beside it. *)
Definition script {C : Completion} {F : Files} (a : args) : io DataFrame :=
  io_bind (io_lift (read_csv (file a))) (fun df => main (file a) df).

(** ** What each rule asks of an entry

    The outcome of each loop body on one entry, as a boolean function of
    the entry, and the test that tells whether the body returns at all. *)

(** The entry has the eleven fields up to the hour type. *)
Definition wide11 (entry : string) : bool := (11 <=? length (fields entry))%nat.

Definition weekday_ok (entry : string) : bool :=
  field_is (fields entry) 0 (fun v => in_list v DAYS_OF_WEEK).

Definition hour_types_ok (entry : string) : bool :=
  field_is (fields entry) 10 (fun v => in_list v HOUR_TYPES).

Definition weekly_ok (entry : string) : bool :=
  field_is (fields entry) 10 (fun v10 =>
    if (v10 =? "Weekly") || (v10 =? "Every Other Week")
    then field_is (fields entry) 8 is_empty && field_is (fields entry) 9 is_empty
    else true).

(** The ordinal [v] is empty, or one of its spellings occurs in the
    original text of the record. *)
Definition ordinal_ok (id_hours_dict : dict string) (key : string) (v : string)
  : bool :=
  except_all
    ((words <- dict_get INT_TO_DAY_OF_MONTH v ;;
      ordinal_in_original id_hours_dict key words)
     ||| Ok (v =? ""))
    false.

(** The rule of a monthly type [t], whose ordinal is field [digit] and
    whose other ordinal, field [blank], is to be empty. *)
Definition monthly_ok (t : string) (digit blank : nat)
  (id_hours_dict : dict string) (key : string) (entry : string) : bool :=
  field_is (fields entry) 10 (fun v10 =>
    if v10 =? t
    then field_is (fields entry) digit str_isdigit
         && field_is (fields entry) blank is_empty
    else true)
  && field_is (fields entry) digit (ordinal_ok id_hours_dict key).

Definition day_of_month_ok : dict string -> string -> string -> bool :=
  monthly_ok "Day of Month" 9 8.

Definition week_of_month_ok : dict string -> string -> string -> bool :=
  monthly_ok "Week of Month" 8 9.

Definition times_ok (entry : string) : bool :=
  field_is (fields entry) 1 is_time && field_is (fields entry) 2 is_time.

Definition close_after_open_ok (entry : string) : bool :=
  except_all
    (v2 <- list_get (fields entry) 2 ;;
     close <- strptime_HM v2 ;;
     v1 <- list_get (fields entry) 1 ;;
     open <- strptime_HM v1 ;;
     Ok (datetime_gt close open))
    false.

(** Reading the fields [idx] in turn, as long as each is empty, stays
    inside the entry. *)
Fixpoint chain_reads_ok (value : list string) (idx : list nat) : bool :=
  match idx with
  | [] => true
  | i :: idx' =>
      match nth_error value i with
      | None => false
      | Some v => if v =? "" then chain_reads_ok value idx' else true
      end
  end.

Definition null_reads_ok (entry : string) : bool :=
  chain_reads_ok (fields entry) [3; 4; 5; 6; 11; 12; 13].

(** The conjunction [value[i] == "" and ... and rest] over the fields
    [idx]. *)
Fixpoint empty_chain (value : list string) (idx : list nat) (rest : result bool)
  : result bool :=
  match idx with
  | [] => rest
  | i :: idx' =>
      (v <- list_get value i ;; Ok (v =? "")) &&& empty_chain value idx' rest
  end.

(** The entries of a record. *)
Definition entries (value : string) : list string := str_split ";" value.

(** The conjunction of the nine rules on a record, in the order of the
    script. *)
Definition all_checks (id_hours_dict : dict string) (key value : string) : bool :=
  forallb (day_of_month_ok id_hours_dict key) (entries value)
  && forallb (week_of_month_ok id_hours_dict key) (entries value)
  && forallb weekly_ok (entries value)
  && forallb hour_types_ok (entries value)
  && forallb weekday_ok (entries value)
  && forallb times_ok (entries value)
  && forallb close_after_open_ok (entries value)
  && forallb null_values_ok (entries value)
  && entry_format_ok value.

(** [is_valid_dict] with the flag of every record of [cleaned_hours_dict]
    conjoined with the outcome [P] of a rule on that record. *)
Definition lower (P : string -> string -> bool) (cleaned_hours_dict : dict string)
  (is_valid_dict : dict bool) : dict bool :=
  dict_update_all (fun key value old => old && P key value)
    cleaned_hours_dict is_valid_dict.

(** ** The loop bodies compute the predicates *)

Lemma wide11_spec (e : string) :
  BoolSpec (11 <= length (fields e)) (length (fields e) <= 10) (wide11 e).
Proof.
  unfold wide11. destruct (Nat.leb_spec 11 (length (fields e))); constructor; lia.
Qed.

Lemma valid_day_of_week_step_batch_eq (b : bool) (e : string) :
  valid_day_of_week_step b e = Ok (weekday_ok e && b).
Proof.
  unfold valid_day_of_week_step, weekday_ok, field_is. fold (fields e).
  destruct (fields_head e) as (v0 & H0). rewrite H0.
  apply list_get_ok in H0. rewrite H0, rbind_ok. apply and_then_ok.
Qed.

Lemma valid_hour_types_step_batch_eq (b : bool) (e : string) :
  valid_hour_types_step b e
  = if wide11 e then Ok (hour_types_ok e && b) else Raise IndexError.
Proof.
  unfold valid_hour_types_step, hour_types_ok. fold (fields e).
  destruct (wide11_spec e) as [Hw|Hn].
  - read_field e Hw 10. apply and_then_ok.
  - rewrite (narrow_field e 10 Hn). reflexivity.
Qed.

Lemma weekly_formatting_step_batch_eq (b : bool) (e : string) :
  weekly_formatting_step b e
  = if wide11 e then Ok (weekly_ok e && b) else Raise IndexError.
Proof.
  unfold weekly_formatting_step, weekly_ok. fold (fields e).
  destruct (wide11_spec e) as [Hw|Hn].
  - read_field e Hw 10. read_field e Hw 9. read_field e Hw 8.
    destruct ((v =? "Weekly") || (v =? "Every Other Week")); [|reflexivity].
    rewrite !and_then_ok. reflexivity.
  - rewrite (narrow_field e 10 Hn). reflexivity.
Qed.

(** The two monthly rules are one body, up to the type and the two
    ordinal fields. *)
Lemma monthly_step_eq (t : string) (digit blank : nat) (id_hours_dict : dict string)
  (key : string) (b : bool) (e : string) :
  digit <= 10 -> blank <= 10 ->
  (v10 <- list_get (fields e) 10 ;;
   is_valid <- (if v10 =? t
                then (v <- list_get (fields e) digit ;; Ok (str_isdigit v))
                     &&& (v <- list_get (fields e) blank ;; Ok (v =? ""))
                     &&& Ok b
                else Ok b) ;;
   Ok (except_all
         (((v <- list_get (fields e) digit ;;
            words <- dict_get INT_TO_DAY_OF_MONTH v ;;
            ordinal_in_original id_hours_dict key words)
           ||| (v <- list_get (fields e) digit ;; Ok (v =? "")))
          &&& Ok is_valid)
         false))
  = if wide11 e then Ok (monthly_ok t digit blank id_hours_dict key e && b)
    else Raise IndexError.
Proof.
  intros Hd Hb. unfold monthly_ok. destruct (wide11_spec e) as [Hw|Hn].
  - read_field e Hw 10. read_field e Hw digit. read_field e Hw blank.
    fold (ordinal_ok id_hours_dict key v0).
    assert (E : forall x, except_all
                  (((words <- dict_get INT_TO_DAY_OF_MONTH v0 ;;
                     ordinal_in_original id_hours_dict key words)
                    ||| Ok (v0 =? "")) &&& Ok x) false
                = ordinal_ok id_hours_dict key v0 && x).
    { intros x. rewrite except_all_and_then. reflexivity. }
    destruct (v =? t); rewrite ?and_then_ok, rbind_ok, E; f_equal.
    unfold is_empty.
    destruct (ordinal_ok _ _ _), (str_isdigit v0), (v1 =? ""), b; reflexivity.
  - rewrite (narrow_field e 10 Hn). reflexivity.
Qed.

Lemma day_of_month_formatting_step_batch_eq (id_hours_dict : dict string) (key : string)
  (b : bool) (e : string) :
  day_of_month_formatting_step id_hours_dict key b e
  = if wide11 e then Ok (day_of_month_ok id_hours_dict key e && b)
    else Raise IndexError.
Proof. apply (monthly_step_eq "Day of Month" 9 8); lia. Qed.

Lemma week_of_month_formatting_step_batch_eq (id_hours_dict : dict string) (key : string)
  (b : bool) (e : string) :
  week_of_month_formatting_step id_hours_dict key b e
  = if wide11 e then Ok (week_of_month_ok id_hours_dict key e && b)
    else Raise IndexError.
Proof. apply (monthly_step_eq "Week of Month" 8 9); lia. Qed.

(** A time that the pattern accepts is not empty. *)
Lemma is_time_nonempty (v : string) : is_time v = true -> (v =? "") = false.
Proof. destruct v; [discriminate | reflexivity]. Qed.

Lemma valid_open_closed_hours_step_batch_eq (b : bool) (e : string) :
  3 <= length (fields e) ->
  valid_open_closed_hours_step b e = Ok (times_ok e && b).
Proof.
  intros Hw. unfold valid_open_closed_hours_step, times_ok, field_is. fold (fields e).
  destruct (list_get_lt (fields e) 1) as (v1 & H1); [lia|].
  destruct (list_get_lt (fields e) 2) as (v2 & H2); [lia|].
  rewrite H1, H2. apply list_get_ok in H1, H2. rewrite H1, H2, !rbind_ok.
  rewrite !and_then_ok, !rbind_ok. f_equal.
  destruct (is_time v1) eqn:E1; [|reflexivity].
  destruct (is_time v2) eqn:E2; [|reflexivity].
  rewrite (is_time_nonempty _ E1), (is_time_nonempty _ E2). reflexivity.
Qed.

Lemma valid_open_closed_hours_step_batch_narrow (b : bool) (e : string) :
  length (fields e) < 3 -> valid_open_closed_hours_step b e = Raise IndexError.
Proof.
  intros Hn. unfold valid_open_closed_hours_step. fold (fields e).
  destruct (list_get (fields e) 1) as [v1|x] eqn:H1.
  - rewrite (narrow_field e 2) by lia. rewrite !rbind_ok.
    destruct (negb (v1 =? "")); reflexivity.
  - apply list_get_raise in H1 as [-> _]. reflexivity.
Qed.

Lemma close_hour_greater_than_open_hour_step_batch_eq (b : bool) (e : string) :
  close_hour_greater_than_open_hour_step b e = Ok (close_after_open_ok e && b).
Proof.
  unfold close_hour_greater_than_open_hour_step, close_after_open_ok.
  fold (fields e). f_equal.
  destruct (list_get (fields e) 2) as [v2|]; [|reflexivity]. rewrite !rbind_ok.
  destruct (strptime_HM v2) as [c|]; [|reflexivity]. rewrite !rbind_ok.
  destruct (list_get (fields e) 1) as [v1|]; [|reflexivity]. rewrite !rbind_ok.
  destruct (strptime_HM v1) as [o|]; reflexivity.
Qed.

Lemma empty_chain_eq (value : list string) (idx : list nat) (b : bool) :
  empty_chain value idx (Ok b)
  = if chain_reads_ok value idx
    then Ok (forallb (fun i => field_is value i is_empty) idx && b)
    else Raise IndexError.
Proof.
  induction idx as [|i idx IH]; [reflexivity|].
  cbn [empty_chain chain_reads_ok forallb]. unfold list_get, field_is at 1.
  destruct (nth_error value i) as [v|]; [|reflexivity].
  cbn [of_option]. rewrite rbind_ok. unfold is_empty at 1.
  destruct (v =? ""); [|reflexivity].
  rewrite and_then_true. exact IH.
Qed.

Lemma all_null_values_empty_string_step_batch_eq (b : bool) (e : string) :
  all_null_values_empty_string_step b e
  = if null_reads_ok e then Ok (null_values_ok e && b) else Raise IndexError.
Proof.
  unfold all_null_values_empty_string_step, null_reads_ok, null_values_ok.
  fold (fields e). rewrite <- empty_chain_eq, !and_then_assoc. reflexivity.
Qed.

(** ** The rules in closed form *)

(** The test [g] holds of every entry of every record. *)
Definition guard (g : string -> bool) (cleaned_hours_dict : dict string) : bool :=
  forallb (fun kv => forallb g (entries (snd kv))) cleaned_hours_dict.

(** What the script establishes before the first rule: the dictionaries
    have distinct keys, and every record has a flag. *)
Definition ready (cleaned_hours_dict : dict string) (is_valid_dict : dict bool)
  : Prop :=
  dict_wf cleaned_hours_dict /\ dict_wf is_valid_dict /\
  incl (dict_keys cleaned_hours_dict) (dict_keys is_valid_dict).

(** A guard fails at some entry of some record. *)
Lemma guard_false_ex (g : string -> bool) (c : dict string) :
  guard g c = false ->
  exists k v e, In (k, v) c /\ In e (entries v) /\ g e = false.
Proof.
  unfold guard. intros H. apply forallb_false_ex in H as ([k v] & Hkv & H).
  apply forallb_false_ex in H as (e & He & H). eauto 6.
Qed.

Lemma dict_keys_lower (P : string -> string -> bool) (c : dict string)
  (iv : dict bool) :
  dict_keys (lower P c iv) = dict_keys iv.
Proof. apply dict_keys_update_all. Qed.

Lemma ready_lower (P : string -> string -> bool) (c : dict string) (iv : dict bool) :
  ready c iv -> ready c (lower P c iv).
Proof.
  unfold ready, dict_wf. rewrite dict_keys_lower. tauto.
Qed.

Lemma lower_lower (P Q : string -> string -> bool) (c : dict string) (iv : dict bool) :
  lower Q c (lower P c iv) = lower (fun k v => P k v && Q k v) c iv.
Proof.
  unfold lower. rewrite dict_update_all_twice. apply dict_update_all_ext.
  intros k x v _. symmetry. apply andb_assoc.
Qed.

Lemma lower_ext (P Q : string -> string -> bool) (c : dict string) (iv : dict bool) :
  (forall k v, In (k, v) c -> P k v = Q k v) -> lower P c iv = lower Q c iv.
Proof.
  intros H. apply dict_update_all_ext. intros k x v Hin. rewrite H; auto.
Qed.

Lemma guard_true (c : dict string) : guard (fun _ => true) c = true.
Proof.
  unfold guard. apply forallb_forall. intros kv _.
  apply forallb_forall. reflexivity.
Qed.

Lemma guard_forall (g : string -> bool) (c : dict string) :
  guard g c = true <->
  forall k v e, In (k, v) c -> In e (entries v) -> g e = true.
Proof.
  unfold guard. rewrite forallb_forall. split.
  - intros H k v e Hkv He. specialize (H (k, v) Hkv). simpl in H.
    rewrite forallb_forall in H. auto.
  - intros H [k v] Hkv. apply forallb_forall. intros e He. eapply H; eauto.
Qed.

(** The frame, for a check that returns or raises depending on the record
    alone. *)
Lemma record_loop_eq (check : string -> string -> result bool)
  (g : string -> string -> bool) (P : string -> string -> bool)
  (c : dict string) (iv : dict bool) :
  (forall k v, In (k, v) c ->
               check k v = if g k v then Ok (P k v) else Raise IndexError) ->
  ready c iv ->
  record_loop check c iv
  = if forallb (fun kv => g (fst kv) (snd kv)) c then Ok (lower P c iv)
    else Raise IndexError.
Proof.
  intros Hc (Hwc & Hwi & Hin). unfold record_loop, lower.
  apply (for_each_dict_update (fun key value old => old && P key value)
           check g P andb IndexError); auto.
Qed.

(** The frame, for a loop body that returns or raises depending on the
    entry alone. *)
Lemma rule_loop_eq (step : string -> bool -> string -> result bool)
  (g : string -> bool) (p : string -> string -> bool)
  (c : dict string) (iv : dict bool) :
  (forall k v e b, In (k, v) c -> In e (entries v) ->
                   step k b e = if g e then Ok (p k e && b) else Raise IndexError) ->
  ready c iv ->
  rule_loop step c iv
  = if guard g c then Ok (lower (fun k v => forallb (p k) (entries v)) c iv)
    else Raise IndexError.
Proof.
  intros Hs Hr. unfold rule_loop, guard.
  apply (record_loop_eq _ (fun _ v => forallb g (entries v))); [|exact Hr].
  intros k v Hkv. fold (entries v).
  rewrite (for_each_guarded _ g (p k) IndexError) by (intros; eapply Hs; eauto).
  rewrite andb_true_r. reflexivity.
Qed.

(** The entry has the three fields up to the closing time. *)
Definition wide3 (entry : string) : bool := (3 <=? length (fields entry))%nat.

Lemma test_day_of_month_formatting_batch_eq (id_hours_dict c : dict string)
  (iv : dict bool) :
  ready c iv ->
  test_day_of_month_formatting id_hours_dict c iv
  = if guard wide11 c
    then Ok (lower (fun k v => forallb (day_of_month_ok id_hours_dict k) (entries v))
               c iv)
    else Raise IndexError.
Proof.
  apply rule_loop_eq. intros; apply day_of_month_formatting_step_batch_eq.
Qed.

Lemma test_week_of_month_formatting_batch_eq (id_hours_dict c : dict string)
  (iv : dict bool) :
  ready c iv ->
  test_week_of_month_formatting id_hours_dict c iv
  = if guard wide11 c
    then Ok (lower (fun k v => forallb (week_of_month_ok id_hours_dict k) (entries v))
               c iv)
    else Raise IndexError.
Proof.
  apply rule_loop_eq. intros; apply week_of_month_formatting_step_batch_eq.
Qed.

Lemma test_weekly_formatting_batch_eq (id_hours_dict c : dict string) (iv : dict bool) :
  ready c iv ->
  test_weekly_formatting id_hours_dict c iv
  = if guard wide11 c
    then Ok (lower (fun _ v => forallb weekly_ok (entries v)) c iv)
    else Raise IndexError.
Proof.
  apply (rule_loop_eq _ wide11 (fun _ => weekly_ok)).
  intros; apply weekly_formatting_step_batch_eq.
Qed.

Lemma test_valid_hour_types_batch_eq (id_hours_dict c : dict string) (iv : dict bool) :
  ready c iv ->
  test_valid_hour_types id_hours_dict c iv
  = if guard wide11 c
    then Ok (lower (fun _ v => forallb hour_types_ok (entries v)) c iv)
    else Raise IndexError.
Proof.
  apply (rule_loop_eq _ wide11 (fun _ => hour_types_ok)).
  intros; apply valid_hour_types_step_batch_eq.
Qed.

Lemma test_valid_day_of_week_batch_eq (id_hours_dict c : dict string) (iv : dict bool) :
  ready c iv ->
  test_valid_day_of_week id_hours_dict c iv
  = Ok (lower (fun _ v => forallb weekday_ok (entries v)) c iv).
Proof.
  intros Hr. unfold test_valid_day_of_week.
  rewrite (rule_loop_eq _ (fun _ => true) (fun _ => weekday_ok)), ?guard_true; auto.
  intros; apply valid_day_of_week_step_batch_eq.
Qed.

Lemma test_valid_open_closed_hours_batch_eq (id_hours_dict c : dict string)
  (iv : dict bool) :
  ready c iv ->
  test_valid_open_closed_hours id_hours_dict c iv
  = if guard wide3 c
    then Ok (lower (fun _ v => forallb times_ok (entries v)) c iv)
    else Raise IndexError.
Proof.
  apply (rule_loop_eq _ wide3 (fun _ => times_ok)). intros k v e b _ _.
  unfold wide3. destruct (Nat.leb_spec 3 (length (fields e))).
  - apply valid_open_closed_hours_step_batch_eq. assumption.
  - apply valid_open_closed_hours_step_batch_narrow. assumption.
Qed.

Lemma test_close_hour_greater_than_open_hour_batch_eq (id_hours_dict c : dict string)
  (iv : dict bool) :
  ready c iv ->
  test_close_hour_greater_than_open_hour id_hours_dict c iv
  = Ok (lower (fun _ v => forallb close_after_open_ok (entries v)) c iv).
Proof.
  intros Hr. unfold test_close_hour_greater_than_open_hour.
  rewrite (rule_loop_eq _ (fun _ => true) (fun _ => close_after_open_ok)),
    ?guard_true; auto.
  intros; apply close_hour_greater_than_open_hour_step_batch_eq.
Qed.

Lemma test_all_null_values_empty_string_batch_eq (id_hours_dict c : dict string)
  (iv : dict bool) :
  ready c iv ->
  test_all_null_values_empty_string id_hours_dict c iv
  = if guard null_reads_ok c
    then Ok (lower (fun _ v => forallb null_values_ok (entries v)) c iv)
    else Raise IndexError.
Proof.
  apply (rule_loop_eq _ null_reads_ok (fun _ => null_values_ok)).
  intros; apply all_null_values_empty_string_step_batch_eq.
Qed.

Lemma test_valid_entry_format_batch_eq (id_hours_dict c : dict string) (iv : dict bool) :
  ready c iv ->
  test_valid_entry_format id_hours_dict c iv
  = Ok (lower (fun _ v => entry_format_ok v) c iv).
Proof.
  intros Hr. unfold test_valid_entry_format.
  rewrite (record_loop_eq _ (fun _ _ => true) (fun _ v => entry_format_ok v));
    [|intros k v _|exact Hr].
  - replace (forallb _ c) with true; [reflexivity|].
    symmetry. apply forallb_forall. reflexivity.
  - cbv beta zeta. rewrite entry_format_formula. reflexivity.
Qed.

(** ** The battery in closed form *)

Lemma guard_weaken (g g' : string -> bool) (c : dict string) :
  (forall e, g e = true -> g' e = true) -> guard g c = true -> guard g' c = true.
Proof. rewrite !guard_forall. eauto. Qed.

Lemma guard_wide3 (c : dict string) : guard wide11 c = true -> guard wide3 c = true.
Proof.
  apply guard_weaken. unfold wide11, wide3. intros e H.
  apply Nat.leb_le in H. apply Nat.leb_le. lia.
Qed.

(** Rewrites the next rule of the battery with its closed form [L]. *)
Ltac next_rule L :=
  cbn [for_each]; rewrite ?rbind_ok; cbv beta;
  rewrite L by auto using ready_lower;
  try match goal with
      | H : guard ?g ?c = true |- context [guard ?g ?c] => rewrite H
      end;
  rewrite ?rbind_ok, ?lower_lower.

Lemma run_validation_tests_batch_eq (id_hours_dict c : dict string) (iv : dict bool) :
  ready c iv ->
  run_validation_tests id_hours_dict c iv
  = if guard wide11 c && guard null_reads_ok c
    then Ok (lower (all_checks id_hours_dict) c iv)
    else Raise IndexError.
Proof.
  intros Hr. unfold run_validation_tests, validation_tests.
  next_rule test_day_of_month_formatting_batch_eq.
  destruct (guard wide11 c) eqn:G; [|reflexivity].
  next_rule test_week_of_month_formatting_batch_eq.
  next_rule test_weekly_formatting_batch_eq.
  next_rule test_valid_hour_types_batch_eq.
  next_rule test_valid_day_of_week_batch_eq.
  next_rule test_valid_open_closed_hours_batch_eq. rewrite (guard_wide3 c G).
  next_rule test_close_hour_greater_than_open_hour_batch_eq.
  next_rule test_all_null_values_empty_string_batch_eq.
  destruct (guard null_reads_ok c); [|reflexivity].
  next_rule test_valid_entry_format_batch_eq. reflexivity.
Qed.

(** [ready], as a test. *)
Definition readyb (c : dict string) (iv : dict bool) : bool :=
  dict_wfb c && dict_wfb iv && has_keys_of iv c.

Lemma readyb_ready (c : dict string) (iv : dict bool) :
  readyb c iv = true -> ready c iv.
Proof.
  unfold readyb, ready. rewrite !andb_true_iff, !dict_wfb_spec, has_keys_of_spec.
  tauto.
Qed.

(** The flag of a record after a rule of outcome [P]. *)
Lemma dict_get_lower (P : string -> string -> bool) (c : dict string)
  (iv : dict bool) (k v : string) :
  dict_wf c -> In (k, v) c ->
  dict_get (lower P c iv) k = (old <- dict_get iv k ;; Ok (old && P k v)).
Proof.
  intros Hw Hin. unfold lower. rewrite dict_get_update_all.
  rewrite (dict_get_wf c k v Hw Hin). reflexivity.
Qed.

(** A flag that is set after a rule was set before it, and the rule
    passed the record. *)
Lemma lower_true (P : string -> string -> bool) (c : dict string)
  (iv : dict bool) (k v : string) :
  dict_wf c -> In (k, v) c -> dict_get (lower P c iv) k = Ok true ->
  dict_get iv k = Ok true /\ P k v = true.
Proof.
  intros Hw Hin. rewrite (dict_get_lower P c iv k v Hw Hin).
  destruct (dict_get iv k) as [[|]|]; simpl; try discriminate.
  intros [= ->]. auto.
Qed.

Lemma guard_false (g : string -> bool) (c : dict string) (k v e : string) :
  In (k, v) c -> In e (entries v) -> g e = false -> guard g c = false.
Proof.
  intros Hkv He Hg. unfold guard. apply (forallb_false_in _ _ (k, v) Hkv).
  simpl. apply (forallb_false_in _ _ e He Hg).
Qed.

(** A record that passes the nine rules has fourteen fields in every
    entry. *)
Lemma all_checks_14_fields (id_hours_dict : dict string) (k v : string) :
  all_checks id_hours_dict k v = true ->
  Forall (fun e => length (fields e) = 14) (entries v).
Proof.
  unfold all_checks. intros H. repeat (apply andb_true_iff in H as [H ?]).
  apply exact_arity; [assumption|].
  apply Forall_forall. intros e He. apply null_values_ok_fields.
  match goal with Hn : forallb null_values_ok _ = true |- _ =>
    rewrite forallb_forall in Hn; apply Hn, He end.
Qed.

(** It has a weekday in every entry. *)
Lemma all_checks_weekday (id_hours_dict : dict string) (k v e : string) :
  all_checks id_hours_dict k v = true -> In e (entries v) -> weekday_ok e = true.
Proof.
  unfold all_checks. intros H. repeat (apply andb_true_iff in H as [H ?]).
  match goal with Hn : forallb weekday_ok _ = true |- _ =>
    rewrite forallb_forall in Hn; apply Hn end.
Qed.

(** A flag that is set after the battery belongs to a record that passes
    the nine rules. *)
Lemma accepted_all_checks (id_hours_dict c : dict string) (iv iv' : dict bool)
  (k v : string) :
  ready c iv -> run_validation_tests id_hours_dict c iv = Ok iv' ->
  In (k, v) c -> dict_get iv' k = Ok true -> all_checks id_hours_dict k v = true.
Proof.
  intros Hr Hrun Hkv Hk. rewrite run_validation_tests_batch_eq in Hrun by exact Hr.
  destruct (guard wide11 c && guard null_reads_ok c); [|discriminate].
  injection Hrun as <-. apply (lower_true _ c iv k v) in Hk as [_ H];
    [exact H|apply Hr|exact Hkv].
Qed.

(** ** The battery: what it returns, and when *)

(** C2. On dictionaries as the script builds them, the nine rules in the
    order of the script raise [IndexError] when some entry of some record
    has fewer than eleven fields or ends inside the reserved fields that
    the null rule reads; otherwise they return the flags, each conjoined
    with the outcome of the nine rules on its record. *)
Theorem battery_spec (id_hours_dict c : dict string) (iv : dict bool) :
  ready c iv ->
  run_validation_tests id_hours_dict c iv
  = if guard wide11 c && guard null_reads_ok c
    then Ok (lower (all_checks id_hours_dict) c iv)
    else Raise IndexError.
Proof. apply run_validation_tests_batch_eq. Qed.

(** C9. One entry of fewer than eleven fields, in any record, makes the
    battery raise [IndexError]: the first rule reads the hour type with no
    handler around it. *)
Theorem battery_raises_on_short_entry (id_hours_dict c : dict string)
  (iv : dict bool) (k v e : string) :
  ready c iv -> In (k, v) c -> In e (entries v) -> length (fields e) < 11 ->
  run_validation_tests id_hours_dict c iv = Raise IndexError.
Proof.
  intros Hr Hkv He Hn. rewrite run_validation_tests_batch_eq by exact Hr.
  rewrite (guard_false wide11 c k v e Hkv He); [reflexivity|].
  unfold wide11. apply Nat.leb_gt. exact Hn.
Qed.

(** A record that the battery leaves valid has exactly fourteen fields
    in every entry. *)
Theorem battery_valid_14_fields (id_hours_dict c : dict string)
  (iv iv' : dict bool) (k v : string) :
  ready c iv -> run_validation_tests id_hours_dict c iv = Ok iv' ->
  In (k, v) c -> dict_get iv' k = Ok true ->
  Forall (fun e => length (fields e) = 14) (entries v).
Proof.
  intros Hr Hrun Hkv Hk. eapply all_checks_14_fields.
  eapply accepted_all_checks; eauto.
Qed.

(** The battery keeps the keys of the flags and only ever lowers a
    flag. *)
Theorem battery_lowers (id_hours_dict c : dict string) (iv iv' : dict bool) :
  ready c iv -> run_validation_tests id_hours_dict c iv = Ok iv' ->
  dict_keys iv' = dict_keys iv /\
  forall k, dict_get iv' k = Ok true -> dict_get iv k = Ok true.
Proof.
  intros Hr Hrun. rewrite run_validation_tests_batch_eq in Hrun by exact Hr.
  destruct (guard wide11 c && guard null_reads_ok c); [|discriminate].
  injection Hrun as <-. split; [apply dict_keys_lower|].
  intros k. unfold lower. rewrite dict_get_update_all.
  destruct (dict_get iv k) as [[|]|]; simpl; try discriminate; [reflexivity|].
  destruct (dict_get c k); discriminate.
Qed.

(** The batch rules accept no entry of type [Call for Information]:
    the type is not among the [HOUR_TYPES] of the script. *)
Theorem battery_rejects_call_for_information (id_hours_dict c : dict string)
  (iv iv' : dict bool) (k v e : string) :
  ready c iv -> run_validation_tests id_hours_dict c iv = Ok iv' ->
  In (k, v) c -> In e (entries v) ->
  nth_error (fields e) 10 = Some "Call for Information" ->
  dict_get iv' k = Ok false.
Proof.
  intros Hr Hrun Hkv He H10. rewrite run_validation_tests_batch_eq in Hrun by exact Hr.
  destruct (guard wide11 c && guard null_reads_ok c); [|discriminate].
  injection Hrun as <-. rewrite (dict_get_lower _ c iv k v); [|apply Hr|exact Hkv].
  destruct (dict_get_in iv k) as (old & ->).
  { apply Hr. apply (in_map fst) in Hkv. exact Hkv. }
  simpl. f_equal. rewrite andb_false_iff. right.
  unfold all_checks.
  rewrite (forallb_false_in hour_types_ok (entries v) e He);
    [repeat rewrite ?andb_false_r, ?andb_false_l; reflexivity|].
  unfold hour_types_ok, field_is. rewrite H10. reflexivity.
Qed.

(** ** Reconciliation in closed form *)

(** The first row of the table with the identifier [id]. *)
Definition original_row (df : DataFrame) (id : cell) : list cell :=
  except_all (rows <- df_loc_eq df "Program External ID" id ;; first_row rows) [].

Definition is_valid_of (is_valid_hours_dict : dict bool) (id : string) : bool :=
  except_all (dict_get is_valid_hours_dict id) false.

Definition cleaned_of (cleaned_hours_dict : dict string) (id : string) : string :=
  except_all (dict_get cleaned_hours_dict id) "".

(** The output row of one entry: the cells before the last fifteen, then
    the fourteen fields and an empty cell, or fifteen empty cells when
    the entry does not have fourteen fields. *)
Definition entry_row (df : DataFrame) (row : list cell) (entry : string)
  : list cell :=
  let kept := firstn (length (columns df) - 15) row in
  if (length (fields entry) =? 14)%nat
  then (kept ++ map Text (fields entry) ++ [Text ""])%list
  else (kept ++ repeat (Text "") 15)%list.

(** The output rows of one identifier. *)
Definition rows_of (cleaned_hours_dict : dict string) (is_valid_hours_dict : dict bool)
  (df : DataFrame) (id : cell) : list (list cell) :=
  if is_valid_of is_valid_hours_dict (cell_str id)
  then map (entry_row df (original_row df id))
           (entries (cleaned_of cleaned_hours_dict (cell_str id)))
  else [original_row df id].

(** No identifier of the table is missing. *)
Definition identified (df : DataFrame) : bool :=
  match df_column df "Program External ID" with
  | Ok ids => forallb present ids
  | Raise _ => false
  end.

Lemma identified_column (df : DataFrame) :
  identified df = true -> In "Program External ID" (columns df).
Proof.
  unfold identified, df_column.
  destruct (index_of "Program External ID" (columns df)) as [i|] eqn:E;
    [|discriminate].
  intros _. apply index_of_lt in E as [_ E]. eapply nth_error_In, E.
Qed.

(** [out] with [rows] appended. *)
Definition extend (out : DataFrame) (rows : list (list cell)) : DataFrame :=
  {| columns := columns out; values := values out ++ rows |}.

Lemma extend_nil (out : DataFrame) : extend out [] = out.
Proof. unfold extend. rewrite app_nil_r. destruct out; reflexivity. Qed.

Lemma extend_extend (out : DataFrame) (r1 r2 : list (list cell)) :
  extend (extend out r1) r2 = extend out (r1 ++ r2).
Proof. unfold extend. simpl. rewrite app_assoc. reflexivity. Qed.

Section Convert.
Variable df : DataFrame.
Hypothesis Hwide : 15 <= length (columns df).

Lemma length_kept (row : list cell) :
  length row = length (columns df) ->
  length (firstn (length (columns df) - 15) row) = length (columns df) - 15.
Proof. intros H. rewrite length_firstn. lia. Qed.

(** One entry appends one row, whatever its number of fields. *)
Lemma append_entry_eq (out : DataFrame) (row : list cell) (e : string) :
  columns out = columns df -> length row = length (columns df) ->
  append_entry (firstn (length (columns df) - 15) row) out
    (firstn (length (columns df) - 15) row
     ++ map Text (str_split "," e) ++ [Text ""])%list
  = Ok (extend out [entry_row df row e]).
Proof.
  intros Hc Hr. unfold append_entry, entry_row. fold (fields e).
  pose proof (length_kept row Hr) as Hk.
  destruct (Nat.eqb_spec (length (fields e)) 14) as [E|E].
  - rewrite df_append_ok; [reflexivity|].
    rewrite Hc, !length_app, length_map, Hk, E. simpl. lia.
  - rewrite df_append_raise, df_append_ok; [reflexivity| |].
    + rewrite Hc, length_app, Hk, repeat_length. lia.
    + rewrite Hc, !length_app, length_map, Hk. simpl. lia.
Qed.

Lemma append_entries_eq (out : DataFrame) (row : list cell) (es : list string) :
  columns out = columns df -> length row = length (columns df) ->
  for_each (append_entry (firstn (length (columns df) - 15) row))
    (map (fun entry => firstn (length (columns df) - 15) row
                       ++ map Text (str_split "," entry) ++ [Text ""])%list es) out
  = Ok (extend out (map (entry_row df row) es)).
Proof.
  intros Hc Hr. revert out Hc; induction es as [|e es IH]; intros out Hc; simpl.
  - rewrite extend_nil. reflexivity.
  - rewrite append_entry_eq by assumption. rewrite rbind_ok, IH by exact Hc.
    rewrite extend_extend. reflexivity.
Qed.

End Convert.

Section ConvertLoop.
Variables (cleaned_hours_dict : dict string) (is_valid_hours_dict : dict bool).
Variables (df : DataFrame) (ids : list cell).
Hypothesis Hwf : df_wf df.
Hypothesis Hwide : 15 <= length (columns df).
Hypothesis Hids : df_column df "Program External ID" = Ok ids.
Hypothesis Hflag : forall id,
  In id ids -> In (cell_str id) (dict_keys is_valid_hours_dict).
Hypothesis Hclean : forall id,
  In id ids -> is_valid_of is_valid_hours_dict (cell_str id) = true ->
  In (cell_str id) (dict_keys cleaned_hours_dict).

(** The row of an identifier of the table is there, and as wide as the
    table, when the identifier is not missing. *)
Lemma original_row_found (id : cell) :
  In id ids -> present id = true ->
  exists rows,
    df_loc_eq df "Program External ID" id = Ok (original_row df id :: rows) /\
    length (original_row df id) = length (columns df).
Proof.
  intros Hin Hp.
  destruct (df_loc_eq_column df _ ids id Hids Hin Hp) as (row & rows & E & Hr).
  exists rows. unfold original_row. rewrite E. simpl. split; [reflexivity|].
  unfold df_wf in Hwf. rewrite Forall_forall in Hwf. auto.
Qed.

Lemma convert_step_eq (out : DataFrame) (id : cell) :
  In id ids -> present id = true -> columns out = columns df ->
  convert_step cleaned_hours_dict is_valid_hours_dict df out id
  = Ok (extend out (rows_of cleaned_hours_dict is_valid_hours_dict df id)).
Proof.
  intros Hin Hp Hc. unfold convert_step, rows_of.
  destruct (original_row_found id Hin Hp) as (rows & -> & Hlen).
  pose proof (Hclean id Hin) as Hcl. unfold is_valid_of in *.
  destruct (dict_get_in _ _ (Hflag id Hin)) as (valid & Hv). rewrite Hv in *.
  cbn [first_row rbind except_all] in *. destruct valid.
  - destruct (dict_get_in _ _ (Hcl eq_refl)) as (cleaned & Hg).
    unfold cleaned_of. rewrite Hg. cbn [rbind except_all new_entries_of fst snd].
    change 15%Z with (Z.of_nat 15). rewrite slice_to_sub by exact Hwide.
    apply append_entries_eq; assumption.
  - cbn [rbind fst snd]. rewrite df_append_ok; [reflexivity | congruence].
Qed.

(** A missing identifier selects no row, and [[0]] raises. *)
Lemma convert_step_missing (out : DataFrame) (id : cell) :
  present id = false ->
  convert_step cleaned_hours_dict is_valid_hours_dict df out id = Raise IndexError.
Proof.
  intros Hp. destruct id; [discriminate|]. unfold convert_step, df_loc_eq.
  apply df_column_index in Hids as (i & -> & _). cbn [of_option rbind].
  rewrite (forallb_filter_nil _ (values df)); [reflexivity|].
  intros row _. apply cell_eqb_NaN.
Qed.

Lemma convert_loop_eq (l : list cell) (out : DataFrame) :
  incl l ids -> forallb present l = true -> columns out = columns df ->
  for_each (convert_step cleaned_hours_dict is_valid_hours_dict df) l out
  = Ok (extend out
          (flat_map (rows_of cleaned_hours_dict is_valid_hours_dict df) l)).
Proof.
  revert out; induction l as [|id l IH]; intros out Hl Hp Hc; simpl.
  - rewrite extend_nil. reflexivity.
  - simpl in Hp. apply andb_true_iff in Hp as [Hp Hpl].
    rewrite convert_step_eq; [|apply Hl; left; reflexivity|exact Hp|exact Hc].
    rewrite rbind_ok, IH, extend_extend; [reflexivity| |exact Hpl|exact Hc].
    intros x Hx. apply Hl. right. exact Hx.
Qed.

(** The loop stops at the first identifier that is missing. *)
Lemma convert_loop_missing (pre post : list cell) (id : cell) (out : DataFrame) :
  incl pre ids -> forallb present pre = true -> present id = false ->
  columns out = columns df ->
  for_each (convert_step cleaned_hours_dict is_valid_hours_dict df)
    (pre ++ id :: post) out
  = Raise IndexError.
Proof.
  intros Hl Hp Hid Hc. rewrite for_each_app, convert_loop_eq by assumption.
  simpl. rewrite convert_step_missing by exact Hid. reflexivity.
Qed.

Lemma convert_id_hours_dict_to_df_eq :
  convert_id_hours_dict_to_df cleaned_hours_dict is_valid_hours_dict df
  = if forallb present ids
    then Ok {| columns := columns df;
               values := flat_map (rows_of cleaned_hours_dict is_valid_hours_dict df)
                           ids |}
    else Raise IndexError.
Proof.
  unfold convert_id_hours_dict_to_df. rewrite Hids, rbind_ok.
  destruct (forallb present ids) eqn:Hp.
  - rewrite convert_loop_eq; [reflexivity | apply incl_refl | exact Hp | reflexivity].
  - destruct (forallb_false_split _ _ Hp) as (pre & x & post & E & Hpre & Hx).
    rewrite E. apply convert_loop_missing; [|exact Hpre|exact Hx|reflexivity].
    rewrite E. apply incl_appl, incl_refl.
Qed.

(** Every output row of an identifier is as wide as the table. *)
Lemma rows_of_width (id : cell) (row : list cell) :
  In id ids -> present id = true ->
  In row (rows_of cleaned_hours_dict is_valid_hours_dict df id) ->
  length row = length (columns df).
Proof.
  intros Hin Hp. destruct (original_row_found id Hin Hp) as (_ & _ & Hlen).
  pose proof (length_kept df Hwide _ Hlen) as Hk.
  unfold rows_of. destruct (is_valid_of is_valid_hours_dict (cell_str id)).
  - intros Hr. apply in_map_iff in Hr as (e & <- & _). unfold entry_row.
    destruct (Nat.eqb_spec (length (fields e)) 14) as [E|E];
      rewrite !length_app, ?length_map, Hk, ?repeat_length, ?E; simpl; lia.
  - intros [<-|[]]. exact Hlen.
Qed.

End ConvertLoop.

Lemma original_rows_distinct (df : DataFrame) (ids : list cell) :
  df_column df "Program External ID" = Ok ids -> NoDup ids ->
  forallb present ids = true ->
  map (original_row df) ids = values df.
Proof.
  intros Hids Hn Hp. unfold original_row.
  rewrite <- (map_map (df_loc_eq df "Program External ID")
                (fun r => except_all (rows <- r ;; first_row rows) [])).
  rewrite (df_loc_eq_distinct df _ ids Hids Hn Hp), map_map. apply map_id.
Qed.

(** ** Reconciliation: what the output table holds *)

(** C7. On a rectangular table of at least fifteen columns whose
    identifiers all have a flag, and a candidate when the flag is set,
    [convert_id_hours_dict_to_df] raises [IndexError] when an identifier
    is missing, and otherwise returns the table of the same columns
    whose rows are, identifier by identifier in the order of the table:
    the original row when the flag is not set, and otherwise one row per
    entry of the candidate. *)
Theorem reconciliation_spec (c : dict string) (iv : dict bool) (df : DataFrame)
  (ids : list cell) :
  df_wf df -> 15 <= length (columns df) ->
  df_column df "Program External ID" = Ok ids ->
  (forall id, In id ids -> In (cell_str id) (dict_keys iv)) ->
  (forall id, In id ids -> is_valid_of iv (cell_str id) = true ->
              In (cell_str id) (dict_keys c)) ->
  convert_id_hours_dict_to_df c iv df
  = if forallb present ids
    then Ok {| columns := columns df; values := flat_map (rows_of c iv df) ids |}
    else Raise IndexError.
Proof. apply convert_id_hours_dict_to_df_eq. Qed.

(** What the reconciliation returns, when it returns. *)
Lemma convert_ok_inv (c : dict string) (iv : dict bool) (df out : DataFrame)
  (ids : list cell) :
  df_wf df -> 15 <= length (columns df) ->
  df_column df "Program External ID" = Ok ids ->
  (forall id, In id ids -> In (cell_str id) (dict_keys iv)) ->
  (forall id, In id ids -> is_valid_of iv (cell_str id) = true ->
              In (cell_str id) (dict_keys c)) ->
  convert_id_hours_dict_to_df c iv df = Ok out ->
  forallb present ids = true /\
  out = {| columns := columns df; values := flat_map (rows_of c iv df) ids |}.
Proof.
  intros Hwf Hw Hids Hf Hc.
  rewrite (convert_id_hours_dict_to_df_eq c iv df ids) by assumption.
  destruct (forallb present ids); [intros [= <-]; auto | discriminate].
Qed.

(** C11. When no flag is set, the identifiers of the table are distinct
    and none is missing, the output is the input table, cell for
    cell. *)
Theorem reconciliation_all_invalid (c : dict string) (iv : dict bool)
  (df : DataFrame) (ids : list cell) :
  df_wf df -> 15 <= length (columns df) ->
  df_column df "Program External ID" = Ok ids -> NoDup ids ->
  forallb present ids = true ->
  (forall id, In id ids -> dict_get iv (cell_str id) = Ok false) ->
  convert_id_hours_dict_to_df c iv df = Ok df.
Proof.
  intros Hwf Hw Hids Hn Hp Hf.
  assert (Hv : forall id, In id ids -> is_valid_of iv (cell_str id) = false).
  { intros id Hin. unfold is_valid_of. rewrite (Hf id Hin). reflexivity. }
  rewrite (convert_id_hours_dict_to_df_eq c iv df ids), Hp; auto.
  - rewrite (flat_map_singleton _ (original_row df)).
    + rewrite original_rows_distinct by assumption. destruct df; reflexivity.
    + intros id Hin. unfold rows_of. rewrite (Hv id Hin). reflexivity.
  - intros id Hin. destruct (dict_get iv (cell_str id)) as [b|x] eqn:E.
    + apply dict_get_ok, (in_map fst) in E. exact E.
    + rewrite (Hf id Hin) in E. discriminate.
  - intros id Hin Ht. rewrite (Hv id Hin) in Ht. discriminate.
Qed.

(** The output has one row per entry of every accepted candidate and
    one row per rejected one. *)
Theorem reconciliation_row_count (c : dict string) (iv : dict bool)
  (df out : DataFrame) (ids : list cell) :
  df_wf df -> 15 <= length (columns df) ->
  df_column df "Program External ID" = Ok ids ->
  (forall id, In id ids -> In (cell_str id) (dict_keys iv)) ->
  (forall id, In id ids -> is_valid_of iv (cell_str id) = true ->
              In (cell_str id) (dict_keys c)) ->
  convert_id_hours_dict_to_df c iv df = Ok out ->
  df_len out
  = list_sum (map (fun id => if is_valid_of iv (cell_str id)
                             then length (entries (cleaned_of c (cell_str id)))
                             else 1) ids).
Proof.
  intros Hwf Hw Hids Hf Hc H.
  destruct (convert_ok_inv c iv df out ids Hwf Hw Hids Hf Hc H) as (_ & ->).
  unfold df_len. simpl. rewrite length_flat_map_sum.
  f_equal. apply map_ext. intros id. unfold rows_of.
  destruct (is_valid_of iv (cell_str id)); [apply length_map | reflexivity].
Qed.

(** The output keeps the columns of the input and is rectangular. *)
Theorem reconciliation_wf (c : dict string) (iv : dict bool)
  (df out : DataFrame) (ids : list cell) :
  df_wf df -> 15 <= length (columns df) ->
  df_column df "Program External ID" = Ok ids ->
  (forall id, In id ids -> In (cell_str id) (dict_keys iv)) ->
  (forall id, In id ids -> is_valid_of iv (cell_str id) = true ->
              In (cell_str id) (dict_keys c)) ->
  convert_id_hours_dict_to_df c iv df = Ok out ->
  columns out = columns df /\ df_wf out.
Proof.
  intros Hwf Hw Hids Hf Hc H.
  destruct (convert_ok_inv c iv df out ids Hwf Hw Hids Hf Hc H) as (Hp & ->).
  split; [reflexivity|]. unfold df_wf. simpl.
  apply Forall_forall. intros row Hrow. apply in_flat_map in Hrow as (id & Hin & Hr).
  rewrite forallb_forall in Hp. eapply rows_of_width; eauto.
Qed.

(** Every output row keeps the cells of a source row before the last
    fifteen columns. *)
Theorem reconciliation_keeps_columns (c : dict string) (iv : dict bool)
  (df out : DataFrame) (ids : list cell) (r : list cell) :
  df_wf df -> 15 <= length (columns df) ->
  df_column df "Program External ID" = Ok ids ->
  (forall id, In id ids -> In (cell_str id) (dict_keys iv)) ->
  (forall id, In id ids -> is_valid_of iv (cell_str id) = true ->
              In (cell_str id) (dict_keys c)) ->
  convert_id_hours_dict_to_df c iv df = Ok out -> In r (values out) ->
  exists id, In id ids /\
    firstn (length (columns df) - 15) r
    = firstn (length (columns df) - 15) (original_row df id).
Proof.
  intros Hwf Hw Hids Hf Hc H.
  destruct (convert_ok_inv c iv df out ids Hwf Hw Hids Hf Hc H) as (Hp & ->).
  intros Hr. simpl in Hr. apply in_flat_map in Hr as (id & Hin & Hr).
  exists id. split; [exact Hin|]. rewrite forallb_forall in Hp.
  destruct (original_row_found df ids Hwf Hids id Hin (Hp id Hin)) as (_ & _ & Hlen).
  pose proof (length_kept df Hw _ Hlen) as Hk.
  unfold rows_of in Hr. destruct (is_valid_of iv (cell_str id)).
  - apply in_map_iff in Hr as (e & <- & _). unfold entry_row.
    destruct (length (fields e) =? 14)%nat;
      rewrite firstn_app, Hk, Nat.sub_diag, firstn_O, app_nil_r;
      apply firstn_all2; lia.
  - destruct Hr as [<-|[]]. reflexivity.
Qed.

(** ** The dictionaries of the script *)

Lemma create_loop_keys (df : DataFrame) (i : nat) (rows : list (list cell))
  (acc d : dict string) :
  index_of "Program External ID" (columns df) = Some i ->
  for_each (fun id_hours_dict row =>
              hours <- row_get df row "Hours Uncleaned" ;;
              id <- row_get df row "Program External ID" ;;
              Ok (dict_set id_hours_dict (cell_str id) (str_strip (cell_str hours))))
           rows acc = Ok d ->
  dict_wf acc ->
  dict_wf d /\
  (forall k, In k (dict_keys acc) -> In k (dict_keys d)) /\
  (forall row, In row rows -> In (cell_str (nth i row (Text ""))) (dict_keys d)).
Proof.
  intros Hi. revert acc; induction rows as [|row rows IH]; intros acc; simpl.
  - intros [= <-] Hw. split; [exact Hw | split; [auto | tauto]].
  - intros H Hw. apply rbind_ok_inv in H as (acc' & Hb & H).
    apply rbind_ok_inv in Hb as (hours & _ & Hb).
    apply rbind_ok_inv in Hb as (id & Hid & [= <-]).
    unfold row_get in Hid. rewrite Hi in Hid. simpl in Hid.
    apply list_get_ok in Hid. apply (nth_error_nth _ _ (Text "")) in Hid.
    destruct (IH _ H (dict_set_wf _ _ _ Hw)) as (Hd & Hk & Hr).
    split; [exact Hd | split].
    + intros k Hin. apply Hk, dict_keys_set_iff. auto.
    + intros r [<-|Hin]; [|auto]. apply Hk, dict_keys_set_iff. rewrite Hid. auto.
Qed.

(** The dictionary of the original texts has distinct keys, among them
    every identifier of the table. *)
Lemma create_id_hours_dict_keys (df : DataFrame) (d : dict string)
  (ids : list cell) :
  create_id_hours_dict df = Ok d -> df_column df "Program External ID" = Ok ids ->
  dict_wf d /\ forall id, In id ids -> In (cell_str id) (dict_keys d).
Proof.
  intros Hc Hids. apply df_column_index in Hids as (i & Hi & ->).
  destruct (create_loop_keys df i _ _ _ Hi Hc) as (Hd & _ & Hr); [constructor|].
  split; [exact Hd|]. intros k Hk. apply in_map_iff in Hk as (row & <- & Hin). auto.
Qed.

Lemma all_valid_eq (d : dict string) :
  dict_wf d -> all_valid d = map (fun kv => (fst kv, true)) d.
Proof.
  intros Hd. unfold all_valid. apply dict_from_pairs_wf.
  rewrite map_map. exact Hd.
Qed.

Lemma dict_keys_all_valid (d : dict string) :
  dict_wf d -> dict_keys (all_valid d) = dict_keys d.
Proof.
  intros Hd. rewrite (all_valid_eq d Hd). unfold dict_keys. apply map_map.
Qed.

Section Format.
Context {C : Completion}.

(** The candidates have the keys of the original texts, in the same
    order. *)
Lemma format_hours_iteratively_keys (d c : dict string) (e e' : env) :
  dict_wf d -> format_hours_iteratively d e = (Ok c, e') ->
  dict_keys c = dict_keys d.
Proof. apply (io_dict_values_keys call_oai). Qed.

(** The only failure of the generation loop is that of the service. *)
Lemma format_hours_iteratively_raises (d : dict string) (e e' : env) (x : exn) :
  format_hours_iteratively d e = (Raise x, e') -> x = UpstreamUnavailable.
Proof.
  apply (io_dict_values_raises call_oai (fun x => x = UpstreamUnavailable)).
  intros p e0 z e1. apply create_raises.
Qed.

End Format.

(** The flags of the script and the candidates are ready for the rules. *)
Lemma main_ready (d c : dict string) :
  dict_wf d -> dict_keys c = dict_keys d -> ready c (all_valid d).
Proof.
  intros Hd Hk. unfold ready, dict_wf. rewrite dict_keys_all_valid, Hk by exact Hd.
  repeat split; [exact Hd | exact Hd | apply incl_refl].
Qed.

(** ** The accept-or-revert dictionary *)

(** The final text of a record: the candidate when its flag is set, the
    original text otherwise. *)
Definition final_text (id_hours_dict : dict string) (iv : dict bool)
  (kv : string * string) : string * string :=
  (fst kv, if is_valid_of iv (fst kv) then snd kv
           else except_all (dict_get id_hours_dict (fst kv)) "").

Lemma filter_loop_eq (id_hours_dict c : dict string) (iv : dict bool)
  (l : list (string * string)) (acc : dict string) :
  dict_wf c -> incl l c ->
  incl (map fst l) (dict_keys iv) -> incl (map fst l) (dict_keys id_hours_dict) ->
  NoDup (dict_keys acc ++ map fst l) ->
  for_each (fun valid_hours_dict kv =>
              let key := fst kv in
              valid <- dict_get iv key ;;
              if valid then
                v <- dict_get c key ;;
                Ok (dict_set valid_hours_dict key v)
              else
                v <- dict_get id_hours_dict key ;;
                Ok (dict_set valid_hours_dict key v)) l acc
  = Ok (acc ++ map (final_text id_hours_dict iv) l)%list.
Proof.
  intros Hc. revert acc; induction l as [|[k v] l IH]; intros acc Hl Hiv Hid Hn.
  - simpl. rewrite app_nil_r. reflexivity.
  - cbn [for_each fst snd map] in *. unfold final_text at 1, is_valid_of.
    destruct (dict_get_in iv k) as (b & Hb); [apply Hiv; left; reflexivity|].
    destruct (dict_get_in id_hours_dict k) as (o & Ho); [apply Hid; left; reflexivity|].
    rewrite Hb, Ho, (dict_get_wf c k v Hc) by (apply Hl; left; reflexivity).
    cbn [rbind except_all fst snd].
    assert (Hk : ~ In k (dict_keys acc)).
    { apply NoDup_remove_2 in Hn. intros Hin. apply Hn, in_or_app. auto. }
    assert (E : forall x, dict_set acc k x = (acc ++ [(k, x)])%list)
      by (intros; apply dict_set_new, Hk).
    assert (Hn' : forall x : string,
               NoDup (dict_keys (acc ++ [(k, x)]) ++ map fst l)%list).
    { intros x. unfold dict_keys. rewrite map_app, <- app_assoc. exact Hn. }
    apply incl_cons_inv in Hl as [_ Hl], Hiv as [_ Hiv], Hid as [_ Hid].
    destruct b; cbn [rbind]; rewrite E, IH, <- app_assoc, ?Hb, ?Ho; auto.
Qed.

Lemma filter_invalid_values_eq (id_hours_dict c : dict string) (iv : dict bool) :
  dict_wf c -> incl (dict_keys c) (dict_keys iv) ->
  incl (dict_keys c) (dict_keys id_hours_dict) ->
  filter_invalid_values id_hours_dict c iv
  = Ok (map (final_text id_hours_dict iv) c).
Proof.
  intros Hc Hiv Hid. unfold filter_invalid_values.
  rewrite filter_loop_eq; auto using incl_refl.
Qed.

(** ** The script from end to end *)

Lemma create_id_hours_dict_wf (df : DataFrame) (d : dict string) :
  create_id_hours_dict df = Ok d -> dict_wf d.
Proof.
  apply (for_each_invariant _ dict_wf); [|constructor].
  intros acc row acc' _ Hw H.
  apply rbind_ok_inv in H as (hours & _ & H).
  apply rbind_ok_inv in H as (id & _ & [= <-]). apply dict_set_wf, Hw.
Qed.

Section Main.
Context {C : Completion}.

(** What the loop over the candidates prints. *)
Definition candidates_printed (c : dict string) : list event :=
  map (fun kv => Printed (PList (str_split ";" (snd kv)))) c.

Lemma print_loop_eq (c l : dict string) (e : env) :
  dict_wf c -> incl l c ->
  io_for_each (fun _ kv =>
                 io_bind (io_lift (dict_get c (fst kv)))
                   (fun value => print (PList (str_split ";" value))))
    l tt e
  = (Ok tt, after (candidates_printed l) e).
Proof.
  intros Hc. revert e. induction l as [|[k v] l IH]; intros e Hl; simpl.
  - unfold io_ret. rewrite after_nil. reflexivity.
  - apply incl_cons_inv in Hl as [Hkv Hl].
    unfold io_bind at 1. unfold io_bind at 1, io_lift. simpl.
    rewrite (dict_get_wf c k v Hc Hkv). unfold print, emit.
    rewrite IH by exact Hl. rewrite after_after. reflexivity.
Qed.

Lemma print_candidates_eq (c : dict string) (e : env) :
  dict_wf c -> print_candidates c e = (Ok tt, after (candidates_printed c) e).
Proof. intros Hc. apply print_loop_eq; [exact Hc | apply incl_refl]. Qed.

(** The script after the generation loop: the rules, the reconciliation
    and what is printed and written on the way. *)
Lemma main_unfold (file : string) (df : DataFrame) (e e1 : env) (d c : dict string) :
  create_id_hours_dict df = Ok d -> format_hours_iteratively d e = (Ok c, e1) ->
  main file df e
  = match run_validation_tests d c (all_valid d) with
    | Raise x => (Raise x, after (candidates_printed c) e1)
    | Ok iv =>
        match convert_id_hours_dict_to_df c iv df with
        | Raise x =>
            (Raise x, after (candidates_printed c ++ [Printed (PFlags iv)]) e1)
        | Ok out =>
            (Ok out,
             after (candidates_printed c
                    ++ [Printed (PFlags iv); Wrote (output_path file) out]) e1)
        end
    end.
Proof.
  intros Hd Hc. unfold main. unfold io_bind at 1. unfold io_lift at 1. rewrite Hd.
  unfold io_bind at 1. rewrite Hc.
  pose proof (create_id_hours_dict_wf df d Hd) as Hwd.
  pose proof (format_hours_iteratively_keys d c e e1 Hwd Hc) as Hk.
  pose proof (main_ready d c Hwd Hk) as Hr.
  unfold io_bind at 1. rewrite print_candidates_eq by apply Hr.
  unfold io_bind at 1. unfold io_lift at 1.
  rewrite run_validation_tests_batch_eq by exact Hr.
  destruct (guard wide11 c && guard null_reads_ok c); [|reflexivity].
  unfold io_bind at 1. unfold print, emit. rewrite after_after.
  unfold io_bind at 1. unfold io_lift at 1.
  rewrite filter_invalid_values_eq;
    [|apply Hr | rewrite dict_keys_lower; apply Hr | rewrite Hk; apply incl_refl].
  unfold io_bind at 1. unfold io_lift at 1.
  destruct (convert_id_hours_dict_to_df c _ df) as [out|x]; [|reflexivity].
  unfold io_bind, to_csv, emit, io_ret. rewrite after_after, <- app_assoc. reflexivity.
Qed.

(** A run of the script that returns went through its stages. *)
Lemma main_ok_inv (file : string) (df out : DataFrame) (e e' : env) :
  main file df e = (Ok out, e') ->
  exists d c iv e1,
    create_id_hours_dict df = Ok d /\
    format_hours_iteratively d e = (Ok c, e1) /\
    run_validation_tests d c (all_valid d) = Ok iv /\
    convert_id_hours_dict_to_df c iv df = Ok out /\
    e' = after (candidates_printed c
                ++ [Printed (PFlags iv); Wrote (output_path file) out]) e1.
Proof.
  destruct (create_id_hours_dict df) as [d|x] eqn:Hd;
    [|unfold main, io_bind, io_lift; rewrite Hd; discriminate].
  destruct (format_hours_iteratively d e) as [[c|x] e1] eqn:Hc;
    [|unfold main, io_bind, io_lift; rewrite Hd, Hc; discriminate].
  rewrite (main_unfold file df e e1 d c Hd Hc).
  destruct (run_validation_tests d c (all_valid d)) as [iv|] eqn:Hiv; [|discriminate].
  destruct (convert_id_hours_dict_to_df c iv df) as [o|] eqn:Ho; [|discriminate].
  intros [= <- <-]. exists d, c, iv, e1. auto.
Qed.

(** What the stages establish: the flags after the rules are those of the
    closed form, every identifier of the table has a flag and a candidate,
    and the output is the table of the rows of each identifier. *)
Lemma main_stages (file : string) (df out : DataFrame) (e e' : env) :
  df_wf df -> 15 <= length (columns df) -> main file df e = (Ok out, e') ->
  exists ids d c,
    df_column df "Program External ID" = Ok ids /\
    forallb present ids = true /\
    ready c (all_valid d) /\
    (forall id, In id ids -> In (cell_str id) (dict_keys c)) /\
    out = {| columns := columns df;
             values := flat_map (rows_of c (lower (all_checks d) c (all_valid d)) df)
                         ids |}.
Proof.
  intros Hwf Hw H.
  apply main_ok_inv in H as (d & c & iv & e1 & Hd & Hc & Hiv & Hout & _).
  destruct (df_column df "Program External ID") as [ids|] eqn:Hids;
    [|unfold convert_id_hours_dict_to_df in Hout; rewrite Hids in Hout; discriminate].
  destruct (create_id_hours_dict_keys df d ids Hd Hids) as (Hwd & Hin).
  pose proof (format_hours_iteratively_keys d c e e1 Hwd Hc) as Hk.
  pose proof (main_ready d c Hwd Hk) as Hr.
  rewrite run_validation_tests_batch_eq in Hiv by exact Hr.
  destruct (guard wide11 c && guard null_reads_ok c); [|discriminate].
  injection Hiv as <-.
  destruct (convert_ok_inv c (lower (all_checks d) c (all_valid d)) df out ids
              Hwf Hw Hids) as (Hp & E); try assumption.
  - intros id Hid. rewrite dict_keys_lower, dict_keys_all_valid by exact Hwd. auto.
  - intros id Hid _. rewrite Hk. auto.
  - exists ids, d, c. rewrite Hk. repeat split; try assumption; apply Hr.
Qed.

End Main.

Lemma create_id_hours_dict_raises (df : DataFrame) (x : exn) :
  create_id_hours_dict df = Raise x -> x = KeyError \/ x = IndexError.
Proof.
  assert (Hg : forall row name z, row_get df row name = Raise z ->
                                  z = KeyError \/ z = IndexError).
  { intros row name z. unfold row_get.
    destruct (index_of name (columns df)); simpl; [|intros [= <-]; auto].
    intros H. apply list_get_raise in H as [-> _]. auto. }
  apply (for_each_raises _ (fun z => z = KeyError \/ z = IndexError)).
  intros acc row z _ H.
  apply rbind_raise_inv in H as [H|(hours & _ & H)]; [eauto|].
  apply rbind_raise_inv in H as [H|(id & _ & H)]; [eauto | discriminate].
Qed.

Section MainTheorems.
Context {C : Completion}.

(** The flag of an identifier after a rule of outcome [P] is set only
    when its candidate passed the rule. *)
Lemma accepted_candidate (P : string -> string -> bool) (c : dict string)
  (iv : dict bool) (id : string) :
  dict_wf c -> In id (dict_keys c) ->
  is_valid_of (lower P c iv) id = true -> P id (cleaned_of c id) = true.
Proof.
  intros Hc Hin. destruct (dict_get_in c id Hin) as (v & Hv).
  unfold is_valid_of, cleaned_of. rewrite Hv. simpl.
  destruct (dict_get (lower P c iv) id) as [[|]|] eqn:E; try discriminate.
  intros _. apply (lower_true _ c iv id v) in E; [tauto | exact Hc|].
  apply dict_get_ok, Hv.
Qed.

(** C33. When the script returns, its output has the columns of the input,
    is rectangular, and has at least as many rows as the input. *)
Theorem main_table (file : string) (df out : DataFrame) (e e' : env) :
  df_wf df -> 15 <= length (columns df) -> main file df e = (Ok out, e') ->
  columns out = columns df /\ df_wf out /\ df_len df <= df_len out.
Proof.
  intros Hwf Hw H.
  destruct (main_stages file df out e e' Hwf Hw H)
    as (ids & d & c & Hids & Hp & Hr & Hin & ->).
  set (iv := lower (all_checks d) c (all_valid d)).
  rewrite forallb_forall in Hp.
  split; [reflexivity|]. split.
  - apply Forall_forall. intros row Hrow. simpl in Hrow.
    apply in_flat_map in Hrow as (id & Hid & Hrow).
    eapply (rows_of_width c iv df ids); eauto.
  - unfold df_len at 2. simpl. rewrite length_flat_map_sum.
    rewrite <- (length_df_column df _ ids Hids).
    rewrite <- (Nat.mul_1_l (length ids)), <- (length_map (fun id => length (rows_of c iv df id))).
    apply list_sum_ge. apply Forall_map, Forall_forall. intros id _.
    unfold rows_of. destruct (is_valid_of iv (cell_str id)); [|simpl; lia].
    rewrite length_map. unfold entries. rewrite length_str_split. lia.
Qed.

(** C6. In a run of the script, the [ValueError] fallback of the
    reconciliation is never taken: every output row is a row of the input
    or the kept cells of one followed by the fourteen fields of an entry
    that starts with a weekday, and an empty cell. *)
Theorem main_rows (file : string) (df out : DataFrame) (e e' : env)
  (r : list cell) :
  df_wf df -> 15 <= length (columns df) -> main file df e = (Ok out, e') ->
  In r (values out) ->
  In r (values df) \/
  exists row entry,
    In row (values df) /\ length (fields entry) = 14 /\ weekday_ok entry = true /\
    r = (firstn (length (columns df) - 15) row
         ++ map Text (fields entry) ++ [Text ""])%list.
Proof.
  intros Hwf Hw H.
  destruct (main_stages file df out e e' Hwf Hw H)
    as (ids & d & c & Hids & Hp & Hr & Hin & ->).
  simpl. intros Hrow. apply in_flat_map in Hrow as (id & Hid & Hrow).
  rewrite forallb_forall in Hp.
  destruct (df_loc_eq_column df _ ids id Hids Hid (Hp id Hid)) as (row & rows & E & Hdf).
  assert (Hrow0 : original_row df id = row) by (unfold original_row; rewrite E; reflexivity).
  unfold rows_of in Hrow. rewrite Hrow0 in Hrow.
  destruct (is_valid_of _ (cell_str id)) eqn:Hv.
  - right. apply in_map_iff in Hrow as (entry & <- & He).
    apply accepted_candidate in Hv; [|apply Hr|apply Hin, Hid].
    pose proof (all_checks_weekday _ _ _ entry Hv He) as Hday.
    apply all_checks_14_fields in Hv.
    rewrite Forall_forall in Hv. specialize (Hv entry He).
    exists row, entry. unfold entry_row. rewrite Hv. auto.
  - left. destruct Hrow as [<-|[]]. exact Hdf.
Qed.

End MainTheorems.


Section MainErrors.
Context {C : Completion}.

(** C24. On a rectangular table of at least fifteen columns the script can
    fail in three ways only: [KeyError] for a missing column,
    [UpstreamUnavailable] from the service, and [IndexError], from a
    rule that reads past the end of a short entry or from the
    reconciliation at an identifier that is missing. *)
Theorem main_raises (file : string) (df : DataFrame) (e e' : env) (x : exn) :
  df_wf df -> 15 <= length (columns df) -> main file df e = (Raise x, e') ->
  x = KeyError \/ x = UpstreamUnavailable \/ x = IndexError.
Proof.
  intros Hwf Hw.
  destruct (create_id_hours_dict df) as [d|z] eqn:Hd;
    [|unfold main, io_bind, io_lift; rewrite Hd; intros [= <- _];
      apply create_id_hours_dict_raises in Hd; tauto].
  destruct (format_hours_iteratively d e) as [[c|z] e1] eqn:Hc;
    [|unfold main, io_bind, io_lift; rewrite Hd, Hc; intros [= <- _];
      apply format_hours_iteratively_raises in Hc; tauto].
  rewrite (main_unfold file df e e1 d c Hd Hc).
  pose proof (create_id_hours_dict_wf df d Hd) as Hwd.
  pose proof (format_hours_iteratively_keys d c e e1 Hwd Hc) as Hk.
  pose proof (main_ready d c Hwd Hk) as Hr.
  rewrite run_validation_tests_batch_eq by exact Hr.
  destruct (guard wide11 c && guard null_reads_ok c); [|intros [= <- _]; tauto].
  destruct (df_column df "Program External ID") as [ids|z] eqn:Hids.
  - destruct (create_id_hours_dict_keys df d ids Hd Hids) as (_ & Hin).
    rewrite (convert_id_hours_dict_to_df_eq c _ df ids); try assumption.
    + destruct (forallb present ids); [discriminate | intros [= <- _]; tauto].
    + intros id Hid. rewrite dict_keys_lower, dict_keys_all_valid by exact Hwd. auto.
    + intros id Hid _. rewrite Hk. auto.
  - unfold convert_id_hours_dict_to_df. rewrite Hids. intros [= <- _].
    apply df_column_raises in Hids. tauto.
Qed.

(** C36. The generation loop stops at the first failure of the service:
    the candidates obtained before it are lost and the records after it
    are not sent. *)
Theorem format_hours_iteratively_aborts (d d' c : dict string) (k v : string)
  (e e1 e2 : env) :
  format_hours_iteratively d e = (Ok c, e1) ->
  call_oai v e1 = (Raise UpstreamUnavailable, e2) ->
  format_hours_iteratively (d ++ (k, v) :: d')%list e
  = (Raise UpstreamUnavailable, e2).
Proof.
  unfold format_hours_iteratively. intros Hc Hv.
  rewrite io_for_each_app. unfold io_bind at 1. rewrite Hc.
  simpl. unfold io_bind. rewrite Hv. reflexivity.
Qed.

End MainErrors.

(** ** What a run sends, prints and writes *)

(** The name of the file of the output when the name of the input has
    one [.csv], at its end. *)
Lemma output_path_suffix (stem : string) :
  str_count "." stem = 0 ->
  output_path (stem ++ ".csv") = stem ++ "_HOURS_CLEANED.csv".
Proof.
  intros H. unfold output_path.
  change (stem ++ ".csv") with (stem ++ ".csv" ++ "").
  rewrite (str_replace_sub_after "." "csv" "" stem "" H). simpl.
  rewrite str_append_empty_r. reflexivity.
Qed.

(** A name without [.csv] is kept whole. *)
Lemma output_path_plain (file : string) :
  str_in ".csv" file = false -> output_path file = file ++ "_HOURS_CLEANED.csv".
Proof. intros H. unfold output_path. rewrite str_replace_sub_absent; auto. Qed.

Section MainTrace.
Context {C : Completion}.

(** The requests of the generation loop: the original texts, in the
    order of the records. *)
Definition requests (d : dict string) : list event :=
  map (fun kv => Sent (snd kv)) d.

Lemma format_hours_iteratively_trace (d c : dict string) (e e' : env) :
  format_hours_iteratively d e = (Ok c, e') ->
  trace e' = (trace e ++ requests d)%list.
Proof.
  intros H. unfold requests.
  rewrite <- (flat_map_singleton (fun kv => [Sent (snd kv)])) by reflexivity.
  apply (io_dict_values_trace call_oai (fun p => [Sent p]) d c e e');
    [|exact H].
  intros p e0 v e1. apply create_trace.
Qed.

Lemma format_hours_iteratively_adds (d : dict string) (e e' : env)
  (r : result (dict string)) :
  format_hours_iteratively d e = (r, e') -> adds (fun ev => negb (is_wrote ev)) e e'.
Proof.
  apply (io_dict_values_adds call_oai). intros p e0 r0 e1.
  apply create_adds. reflexivity.
Qed.

Lemma candidates_printed_not_wrote (c : dict string) (tl : list event) :
  forallb (fun ev => negb (is_wrote ev)) tl = true ->
  forallb (fun ev => negb (is_wrote ev)) (candidates_printed c ++ tl) = true.
Proof.
  intros H. rewrite forallb_app, H, andb_true_r. unfold candidates_printed.
  rewrite forallb_forall. intros ev Hin. apply in_map_iff in Hin as (kv & <- & _).
  reflexivity.
Qed.

(** C29. A run of the script that returns has sent one request for each
    record, in the order of the records, and with the original text as
    the prompt; has then printed the entries of each candidate and the
    verdicts; and has last of all written the table it returns, to the
    file named after the input. *)
Theorem main_trace (file : string) (df out : DataFrame) (e e' : env) :
  main file df e = (Ok out, e') ->
  exists d c iv,
    create_id_hours_dict df = Ok d /\
    fst (format_hours_iteratively d e) = Ok c /\
    run_validation_tests d c (all_valid d) = Ok iv /\
    trace e' = (trace e ++ requests d ++ candidates_printed c
                ++ [Printed (PFlags iv); Wrote (output_path file) out])%list.
Proof.
  intros H. apply main_ok_inv in H as (d & c & iv & e1 & Hd & Hc & Hiv & _ & ->).
  exists d, c, iv. rewrite Hc, trace_after, (format_hours_iteratively_trace _ _ _ _ Hc).
  rewrite <- !app_assoc. auto.
Qed.

(** An event that is no write, added by a run, was in the trace
    before. *)
Lemma not_wrote_old (e e' : env) (path : string) (table : DataFrame) :
  adds (fun ev => negb (is_wrote ev)) e e' ->
  In (Wrote path table) (trace e') -> In (Wrote path table) (trace e).
Proof.
  intros H. apply (adds_old (fun ev => negb (is_wrote ev)) is_wrote);
    [intros ev; destruct (is_wrote ev); simpl; congruence | exact H | reflexivity].
Qed.

(** A run that raises has added requests and prints only. *)
Lemma main_raise_adds (file : string) (df : DataFrame) (e e' : env) (x : exn) :
  main file df e = (Raise x, e') -> adds (fun ev => negb (is_wrote ev)) e e'.
Proof.
  destruct (create_id_hours_dict df) as [d|z] eqn:Hd;

    [|unfold main, io_bind, io_lift; rewrite Hd; intros [= _ <-]; apply adds_refl].
  destruct (format_hours_iteratively d e) as [[c|z] e1] eqn:Hc;
    [|unfold main, io_bind, io_lift; rewrite Hd, Hc; intros [= _ <-];
      exact (format_hours_iteratively_adds _ _ _ _ Hc)].
  rewrite (main_unfold file df e e1 d c Hd Hc).
  pose proof (format_hours_iteratively_adds _ _ _ _ Hc) as Ha.
  destruct (run_validation_tests d c (all_valid d)) as [iv|z].
  - destruct (convert_id_hours_dict_to_df c iv df); [discriminate|].
    intros [= _ <-]. eapply adds_trans; [exact Ha|].
    apply adds_after, candidates_printed_not_wrote. reflexivity.
  - intros [= _ <-]. eapply adds_trans; [exact Ha|].
    apply adds_after. rewrite <- (app_nil_r (candidates_printed c)).
    apply candidates_printed_not_wrote. reflexivity.
Qed.

(** A run of the script that raises has written no file: every
    file in its trace was written before the run. *)
Theorem main_failure_writes_nothing (file : string) (df : DataFrame) (e e' : env)
  (x : exn) (path : string) (table : DataFrame) :
  main file df e = (Raise x, e') ->
  In (Wrote path table) (trace e') -> In (Wrote path table) (trace e).
Proof. intros H. apply not_wrote_old, (main_raise_adds file df e e' x H). Qed.

End MainTrace.

(** ** The script, from its argument *)

Section Script.
Context {C : Completion} {F : Files}.

Lemma script_unfold (a : args) (e : env) :
  script a e
  = match read_csv (file a) with
    | Ok df => main (file a) df e
    | Raise x => (Raise x, e)
    end.
Proof. unfold script, io_bind, io_lift. destruct (read_csv (file a)); reflexivity. Qed.

(** A file that cannot be read ends the script before anything is sent
    or printed. *)
Theorem script_unreadable (a : args) (e : env) (x : exn) :
  read_csv (file a) = Raise x -> script a e = (Raise x, e).
Proof. intros H. rewrite script_unfold, H. reflexivity. Qed.

(** A run of the script that returns has read its argument, and has
    written one file: the table it returns, last of all, to the path
    named after its argument. *)
Theorem script_writes_once (a : args) (out : DataFrame) (e e' : env) :
  script a e = (Ok out, e') ->
  exists df evs,
    read_csv (file a) = Ok df /\
    forallb (fun ev => negb (is_wrote ev)) evs = true /\
    trace e' = (trace e ++ evs ++ [Wrote (output_path (file a)) out])%list.
Proof.
  rewrite script_unfold. destruct (read_csv (file a)) as [df|]; [|discriminate].
  intros H. apply main_ok_inv in H as (d & c & iv & e1 & _ & Hc & _ & _ & ->).
  destruct (format_hours_iteratively_adds _ _ _ _ Hc) as (evs & Ht & Hp).
  exists df, (evs ++ candidates_printed c ++ [Printed (PFlags iv)])%list.
  split; [reflexivity|]. split.
  - rewrite forallb_app, Hp. apply candidates_printed_not_wrote. reflexivity.
  - rewrite trace_after, Ht, <- !app_assoc. reflexivity.
Qed.

(** C31. A run of the script that raises has written no file: every
    file in its trace was written before the run, whether the input
    could not be read or a later stage failed.  The write is the last
    statement and is taken to succeed. *)
Theorem script_failure_writes_nothing (a : args) (e e' : env) (x : exn)
  (path : string) (table : DataFrame) :
  script a e = (Raise x, e') ->
  In (Wrote path table) (trace e') -> In (Wrote path table) (trace e).
Proof.
  rewrite script_unfold. destruct (read_csv (file a)) as [df|z].
  - intros H. apply not_wrote_old, (main_raise_adds _ _ _ _ _ H).
  - intros [= _ <-]. auto.
Qed.

End Script.

(** ** When the script returns *)

(** Every entry of the reply can be read by every rule: it has eleven
    fields, and the reserved fields as far as the rule that tests them
    reads. *)
Definition readable (reply : string) : bool :=
  forallb (fun e => wide11 e && null_reads_ok e) (entries reply).

(** The record of a row: its key and its text. *)
Definition record_of (df : DataFrame) (row : list cell) : string * string :=
  (cell_str (except_all (row_get df row "Program External ID") NaN),
   str_strip (cell_str (except_all (row_get df row "Hours Uncleaned") NaN))).

(** On a rectangular table that has the two columns, the dictionary of
    the texts is the comprehension over the records of the rows. *)
Lemma create_id_hours_dict_eq (df : DataFrame) :
  df_wf df -> In "Program External ID" (columns df) ->
  In "Hours Uncleaned" (columns df) ->
  create_id_hours_dict df = Ok (dict_from_pairs (map (record_of df) (values df))).
Proof.
  intros Hwf Hid Hh. unfold create_id_hours_dict, dict_from_pairs.
  rewrite fold_left_map. apply for_each_total_in. intros d row Hrow.
  unfold record_of.
  destruct (row_get_wf df row _ Hwf Hrow Hh) as (hours & ->).
  destruct (row_get_wf df row _ Hwf Hrow Hid) as (id & ->). reflexivity.
Qed.

Lemma create_id_hours_dict_returns (df : DataFrame) :
  df_wf df -> In "Program External ID" (columns df) ->
  In "Hours Uncleaned" (columns df) ->
  exists d, create_id_hours_dict df = Ok d.
Proof. intros Hwf Hid Hh. rewrite create_id_hours_dict_eq by assumption. eauto. Qed.

(** When the identifiers are distinct and none is missing, the
    dictionary has one record per row, in the order of the rows. *)
Lemma create_id_hours_dict_distinct (df : DataFrame) (ids : list cell) :
  df_wf df -> In "Hours Uncleaned" (columns df) ->
  df_column df "Program External ID" = Ok ids -> NoDup ids ->
  forallb present ids = true ->
  create_id_hours_dict df = Ok (map (record_of df) (values df)).
Proof.
  intros Hwf Hh Hids Hn Hp.
  destruct (df_column_index df _ ids Hids) as (i & Hi & ->).
  assert (Hid : In "Program External ID" (columns df))
    by (apply index_of_lt in Hi as [_ Hi]; exact (nth_error_In _ _ Hi)).
  rewrite create_id_hours_dict_eq by assumption. f_equal.
  apply dict_from_pairs_wf. rewrite map_map.
  rewrite (map_ext_in _ (fun row => cell_str (nth i row (Text "")))).
  - rewrite <- (map_map (fun row => nth i row (Text "")) cell_str).
    apply NoDup_cell_str; assumption.
  - intros row Hrow. unfold record_of.
    rewrite (row_get_nth df row _ i Hwf Hrow Hi). reflexivity.
Qed.

Lemma guard_readable (c : dict string) :
  Forall (fun kv => readable (snd kv) = true) c ->
  guard wide11 c = true /\ guard null_reads_ok c = true.
Proof.
  intros H. rewrite !guard_forall.
  rewrite Forall_forall in H. unfold readable in H.
  split; intros k v e Hkv He; specialize (H (k, v) Hkv); simpl in H;
    rewrite forallb_forall in H; specialize (H e He);
    apply andb_true_iff in H; tauto.
Qed.

Section MainReturns.
Context {C : Completion}.

(** The service answers every prompt, with a readable reply. *)
Definition answers_readable : Prop :=
  forall p w, exists t w', completion_create p w = (Ok t, w') /\ readable t = true.

Lemma format_hours_iteratively_returns (d : dict string) (e : env) :
  answers_readable ->
  exists c e', format_hours_iteratively d e = (Ok c, e')
               /\ Forall (fun kv => readable (snd kv) = true) c.
Proof.
  intros Ha. apply (io_dict_values_returns call_oai (fun v => readable v = true)).
  intros p e0. unfold call_oai, create.
  destruct (Ha p (env_world e0)) as (t & w' & -> & Ht). eauto.
Qed.

(** The run up to the reconciliation, which decides: the script returns
    when no identifier is missing, and raises [IndexError] otherwise,
    after every request has been sent. *)
Lemma main_total (file : string) (df : DataFrame) (e : env) :
  df_wf df -> 15 <= length (columns df) ->
  In "Program External ID" (columns df) -> In "Hours Uncleaned" (columns df) ->
  answers_readable ->
  exists d e', create_id_hours_dict df = Ok d /\
    trace e' = (trace e ++ map (fun kv => Sent (snd kv)) d)%list /\
    if identified df
    then exists out evs, main file df e = (Ok out, after evs e')
    else exists evs, main file df e = (Raise IndexError, after evs e').
Proof.
  intros Hwf Hw Hid Hh Ha.
  destruct (create_id_hours_dict_returns df Hwf Hid Hh) as (d & Hd).
  destruct (format_hours_iteratively_returns d e Ha) as (c & e1 & Hc & Hread).
  exists d, e1. split; [exact Hd|]. split.
  { rewrite <- (flat_map_singleton (fun kv => [Sent (snd kv)])) by reflexivity.
    apply (io_dict_values_trace call_oai (fun p => [Sent p]) d c e e1); [|exact Hc].
    intros p e0 v e2. apply create_trace. }
  rewrite (main_unfold file df e e1 d c Hd Hc).
  pose proof (create_id_hours_dict_wf df d Hd) as Hwd.
  pose proof (format_hours_iteratively_keys d c e e1 Hwd Hc) as Hk.
  pose proof (main_ready d c Hwd Hk) as Hr.
  destruct (guard_readable c Hread) as (G1 & G2).
  rewrite run_validation_tests_batch_eq, G1, G2 by exact Hr. cbn [andb].
  destruct (df_column_returns df _ Hid) as (ids & Hids).
  destruct (create_id_hours_dict_keys df d ids Hd Hids) as (_ & Hin).
  unfold identified. rewrite Hids.
  rewrite (convert_id_hours_dict_to_df_eq c _ df ids); try assumption.
  - destruct (forallb present ids); eauto.
  - intros id Hi. rewrite dict_keys_lower, dict_keys_all_valid by exact Hwd. auto.
  - intros id Hi _. rewrite Hk. auto.
Qed.

(** C28. On a rectangular table of at least fifteen columns that has the
    two columns the script reads and no missing identifier, and with a
    service that answers every prompt with a reply every rule can read,
    the script returns a table. *)
Theorem main_returns (file : string) (df : DataFrame) (e : env) :
  df_wf df -> 15 <= length (columns df) ->
  identified df = true -> In "Hours Uncleaned" (columns df) ->
  answers_readable ->
  exists out e', main file df e = (Ok out, e').
Proof.
  intros Hwf Hw Hi Hh Ha.
  destruct (main_total file df e Hwf Hw (identified_column df Hi) Hh Ha)
    as (d & e1 & _ & _ & H).
  rewrite Hi in H. destruct H as (out & evs & H). eauto.
Qed.

(** C25. A row without identifier makes the script fail at the very end:
    on a table that has the two columns, with a service that answers
    every prompt with a readable reply, the run sends a request for
    every record and then raises [IndexError] in the reconciliation. *)
Theorem main_missing_identifier (file : string) (df : DataFrame) (e : env) :
  df_wf df -> 15 <= length (columns df) ->
  In "Program External ID" (columns df) -> In "Hours Uncleaned" (columns df) ->
  answers_readable -> identified df = false ->
  exists d e1 evs,
    create_id_hours_dict df = Ok d /\
    trace e1 = (trace e ++ map (fun kv => Sent (snd kv)) d)%list /\
    main file df e = (Raise IndexError, after evs e1).
Proof.
  intros Hwf Hw Hid Hh Ha Hi.
  destruct (main_total file df e Hwf Hw Hid Hh Ha) as (d & e1 & Hd & Ht & H).
  rewrite Hi in H. destruct H as (evs & H). eauto 6.
Qed.

End MainReturns.

End Batch.

Import Batch.

(** ** The script on a small table *)

(** A table of two leading columns, the fourteen columns of the hours and
    the column of the text to clean. *)
Definition sample_columns : list string :=
  ["Program External ID"; "Name"; "Day"; "Open"; "Close"; "Detail 1"; "Detail 2";
   "Detail 3"; "Detail 4"; "Information"; "Week"; "Day of Month"; "Type";
   "Reserved 1"; "Reserved 2"; "Reserved 3"; "Hours Uncleaned"].

(** A row as [pd.read_csv] gives it: the cells of the hours are empty in
    the file, so they are missing in the table. *)
Definition sample_row (id name hours : string) : list cell :=
  (Text id :: Text name :: repeat NaN 14 ++ [Text hours])%list.

Definition sample_df : DataFrame :=
  {| columns := sample_columns;
     values := [sample_row "ID1" "Food Bank" "Every Monday, from 3pm-5pm ";
                sample_row "ID2" "Pantry" "1st Tuesday and Wednesday 9-10";
                sample_row "ID3" "Kitchen" "whenever"] |}.

Definition sample_replies : list (option string) :=
  [Some "Monday,15:00,17:00,,,,,,,,Weekly,,,";
   Some ("Tuesday,9:00,10:00,,,,,,,1,Day of Month,,,;"
         ++ "Wednesday,9:00,10:00,,,,,,,1,Day of Month,,,");
   Some "Mursday,9:00,10:00,,,,,,,,Weekly,,,"].

Definition sample_env : @env Scripted := @start Scripted sample_replies.

Definition sample_ids : dict string :=
  [("ID1", "Every Monday, from 3pm-5pm"); ("ID2", "1st Tuesday and Wednesday 9-10");
   ("ID3", "whenever")].

Definition sample_cleaned : dict string :=
  [("ID1", "Monday,15:00,17:00,,,,,,,,Weekly,,,");
   ("ID2", "Tuesday,9:00,10:00,,,,,,,1,Day of Month,,,;"
           ++ "Wednesday,9:00,10:00,,,,,,,1,Day of Month,,,");
   ("ID3", "Mursday,9:00,10:00,,,,,,,,Weekly,,,")].

Definition sample_flags : dict bool := [("ID1", true); ("ID2", true); ("ID3", false)].

(** The output of the script on the sample: one row for the first
    record, two for the second, and the third as it was. *)
Definition sample_out : DataFrame :=
  {| columns := sample_columns;
     values :=
       [map Text
          ["ID1"; "Food Bank"; "Monday"; "15:00"; "17:00"; ""; ""; ""; ""; ""; "";
           ""; "Weekly"; ""; ""; ""; ""];
        map Text
          ["ID2"; "Pantry"; "Tuesday"; "9:00"; "10:00"; ""; ""; ""; ""; ""; "";
           "1"; "Day of Month"; ""; ""; ""; ""];
        map Text
          ["ID2"; "Pantry"; "Wednesday"; "9:00"; "10:00"; ""; ""; ""; ""; ""; "";
           "1"; "Day of Month"; ""; ""; ""; ""];
        sample_row "ID3" "Kitchen" "whenever"] |}.

Example sample_dictionaries :
  create_id_hours_dict sample_df = Ok sample_ids /\
  fst (format_hours_iteratively sample_ids sample_env) = Ok sample_cleaned /\
  run_validation_tests sample_ids sample_cleaned (all_valid sample_ids)
  = Ok sample_flags.
Proof. repeat split; vm_compute; reflexivity. Qed.

(** What the run leaves behind: the three prompts in the order of the
    rows, the candidates as lists of entries, the verdicts, and the
    table written beside the input file. *)
Definition sample_trace : list event :=
  [Sent "Every Monday, from 3pm-5pm"; Sent "1st Tuesday and Wednesday 9-10";
   Sent "whenever";
   Printed (PList ["Monday,15:00,17:00,,,,,,,,Weekly,,,"]);
   Printed (PList ["Tuesday,9:00,10:00,,,,,,,1,Day of Month,,,";
                   "Wednesday,9:00,10:00,,,,,,,1,Day of Month,,,"]);
   Printed (PList ["Mursday,9:00,10:00,,,,,,,,Weekly,,,"]);
   Printed (PFlags sample_flags);
   Wrote "hours_HOURS_CLEANED.csv" sample_out].

Example sample_run :
  main "hours.csv" sample_df sample_env
  = (Ok sample_out, @Build_env Scripted [] 0 sample_trace).
Proof. vm_compute. reflexivity. Qed.

(** A reply that stops after the closing time makes the whole run fail. *)
Example short_reply_fails :
  fst (main "hours.csv" sample_df
         (@start Scripted
            [Some "Monday,15:00,17:00,,,,,,,,Weekly,,,"; Some "Tuesday,9:00,10:00";
             Some "Mursday,9:00,10:00,,,,,,,,Weekly,,,"]))
  = Raise IndexError.
Proof. vm_compute. reflexivity. Qed.

(** So does a reply that has the hour type and lacks the reserved fields
    after it. *)
Example reply_without_reserved_fields_fails :
  run_validation_tests [("a", "x")] [("a", "Monday,9:00,10:00,,,,,,,,Weekly")]
    [("a", true)]
  = Raise IndexError.
Proof. vm_compute. reflexivity. Qed.

(** The ordinal of a monthly entry is looked for in the original text as
    it is written in [INT_TO_DAY_OF_MONTH]: [First] is found, [first] is
    not, and [Second] is not a spelling the batch rules know. *)
Example ordinal_is_case_sensitive :
  run_validation_tests [("a", "First Monday")]
    [("a", "Monday,9:00,10:00,,,,,,,1,Day of Month,,,")] [("a", true)]
  = Ok [("a", true)] /\
  run_validation_tests [("a", "first Monday")]
    [("a", "Monday,9:00,10:00,,,,,,,1,Day of Month,,,")] [("a", true)]
  = Ok [("a", false)] /\
  run_validation_tests [("a", "Second Monday")]
    [("a", "Monday,9:00,10:00,,,,,,,2,Day of Month,,,")] [("a", true)]
  = Ok [("a", false)].
Proof. repeat split; vm_compute; reflexivity. Qed.

(** Two rows with the same identifier: both output rows are copies of
    the first. *)
Example duplicate_identifier_rows :
  convert_id_hours_dict_to_df [("ID1", "x")] [("ID1", false)]
    {| columns := sample_columns;
       values := [sample_row "ID1" "Food Bank" "Mondays";
                  sample_row "ID1" "Pantry" "Tuesdays"] |}
  = Ok {| columns := sample_columns;
          values := [sample_row "ID1" "Food Bank" "Mondays";
                     sample_row "ID1" "Food Bank" "Mondays"] |}.
Proof. vm_compute. reflexivity. Qed.

(** On a table of fewer than fifteen columns an accepted record raises
    [ValueError]: neither the new row nor the fallback has the width of
    the table. *)
Example narrow_table_fails :
  convert_id_hours_dict_to_df [("ID1", "Monday,15:00,17:00,,,,,,,,Weekly,,,")]
    [("ID1", true)]
    {| columns := ["Program External ID"; "Hours Uncleaned"];
       values := [map Text ["ID1"; "Mondays 3-5"]] |}
  = Raise ValueError.
Proof. vm_compute. reflexivity. Qed.

(** ** The theorems on the sample *)

Lemma sample_ready : ready sample_cleaned (all_valid sample_ids).
Proof. apply readyb_ready. vm_compute. reflexivity. Qed.

Lemma sample_df_wf : df_wf sample_df.
Proof. repeat constructor. Qed.

Lemma sample_wide : 15 <= length (columns sample_df).
Proof. cbn. lia. Qed.

Definition sample_id_cells : list cell := [Text "ID1"; Text "ID2"; Text "ID3"].

Lemma sample_flagged (id : cell) :
  In id sample_id_cells -> In (cell_str id) (dict_keys sample_flags).
Proof. intros [<-|[<-|[<-|[]]]]; simpl; auto. Qed.

Lemma sample_candidates (id : cell) :
  In id sample_id_cells -> is_valid_of sample_flags (cell_str id) = true ->
  In (cell_str id) (dict_keys sample_cleaned).
Proof. intros H _. exact (sample_flagged id H). Qed.

Lemma battery_spec_witness :
  run_validation_tests sample_ids sample_cleaned (all_valid sample_ids)
  = if guard wide11 sample_cleaned && guard null_reads_ok sample_cleaned
    then Ok (lower (all_checks sample_ids) sample_cleaned (all_valid sample_ids))
    else Raise IndexError.
Proof. apply (battery_spec sample_ids). exact sample_ready. Defined.

Lemma battery_raises_on_short_entry_witness :
  run_validation_tests [("a", "x")] [("a", "Monday,9:00,10:00")] [("a", true)]
  = Raise IndexError.
Proof.
  apply (battery_raises_on_short_entry _ _ _ "a" "Monday,9:00,10:00"
           "Monday,9:00,10:00").
  - apply readyb_ready. vm_compute. reflexivity.
  - left. reflexivity.
  - left. reflexivity.
  - vm_compute. lia.
Defined.

Lemma battery_valid_14_fields_witness :
  Forall (fun e => length (fields e) = 14)
    (entries ("Tuesday,9:00,10:00,,,,,,,1,Day of Month,,,;"
              ++ "Wednesday,9:00,10:00,,,,,,,1,Day of Month,,,")).
Proof.
  apply (battery_valid_14_fields sample_ids sample_cleaned (all_valid sample_ids)
           sample_flags "ID2").
  - exact sample_ready.
  - vm_compute. reflexivity.
  - right. left. reflexivity.
  - vm_compute. reflexivity.
Defined.

Lemma battery_lowers_witness :
  dict_keys sample_flags = dict_keys (all_valid sample_ids) /\
  forall k, dict_get sample_flags k = Ok true ->
            dict_get (all_valid sample_ids) k = Ok true.
Proof.
  apply (battery_lowers sample_ids sample_cleaned).
  - exact sample_ready.
  - vm_compute. reflexivity.
Defined.

Lemma battery_rejects_call_for_information_witness :
  dict_get [("a", false)] "a" = Ok false.
Proof.
  apply (battery_rejects_call_for_information [("a", "Call the office")]
           [("a", ",,,,,,,Call for Information,,,Call for Information,,,")]
           [("a", true)] [("a", false)] "a"
           ",,,,,,,Call for Information,,,Call for Information,,,"
           ",,,,,,,Call for Information,,,Call for Information,,,").
  - apply readyb_ready. vm_compute. reflexivity.
  - vm_compute. reflexivity.
  - left. reflexivity.
  - left. reflexivity.
  - vm_compute. reflexivity.
Defined.

Lemma reconciliation_spec_witness :
  convert_id_hours_dict_to_df sample_cleaned sample_flags sample_df
  = if forallb present sample_id_cells
    then Ok {| columns := columns sample_df;
               values := flat_map (rows_of sample_cleaned sample_flags sample_df)
                           sample_id_cells |}
    else Raise IndexError.
Proof.
  apply (reconciliation_spec sample_cleaned sample_flags sample_df).
  - exact sample_df_wf.
  - exact sample_wide.
  - vm_compute. reflexivity.
  - exact sample_flagged.
  - exact sample_candidates.
Defined.

Lemma reconciliation_all_invalid_witness :
  convert_id_hours_dict_to_df sample_cleaned
    [("ID1", false); ("ID2", false); ("ID3", false)] sample_df
  = Ok sample_df.
Proof.
  apply (reconciliation_all_invalid _ _ sample_df sample_id_cells).
  - exact sample_df_wf.
  - exact sample_wide.
  - vm_compute. reflexivity.
  - repeat constructor; simpl; intuition discriminate.
  - reflexivity.
  - intros id [<-|[<-|[<-|[]]]]; vm_compute; reflexivity.
Defined.

Lemma reconciliation_row_count_witness :
  df_len sample_out
  = list_sum (map (fun id => if is_valid_of sample_flags (cell_str id)
                             then length (entries (cleaned_of sample_cleaned
                                                     (cell_str id)))
                             else 1) sample_id_cells).
Proof.
  apply (reconciliation_row_count sample_cleaned sample_flags sample_df).
  - exact sample_df_wf.
  - exact sample_wide.
  - vm_compute. reflexivity.
  - exact sample_flagged.
  - exact sample_candidates.
  - vm_compute. reflexivity.
Defined.

Lemma reconciliation_wf_witness :
  columns sample_out = columns sample_df /\ df_wf sample_out.
Proof.
  apply (reconciliation_wf sample_cleaned sample_flags sample_df sample_out
           sample_id_cells).
  - exact sample_df_wf.
  - exact sample_wide.
  - vm_compute. reflexivity.
  - exact sample_flagged.
  - exact sample_candidates.
  - vm_compute. reflexivity.
Defined.

Lemma reconciliation_keeps_columns_witness :
  exists id, In id sample_id_cells /\
    firstn (length (columns sample_df) - 15)
      (map Text
         ["ID2"; "Pantry"; "Wednesday"; "9:00"; "10:00"; ""; ""; ""; ""; ""; "";
          "1"; "Day of Month"; ""; ""; ""; ""])
    = firstn (length (columns sample_df) - 15) (original_row sample_df id).
Proof.
  apply (reconciliation_keeps_columns sample_cleaned sample_flags sample_df
           sample_out).
  - exact sample_df_wf.
  - exact sample_wide.
  - vm_compute. reflexivity.
  - exact sample_flagged.
  - exact sample_candidates.
  - vm_compute. reflexivity.
  - right. right. left. reflexivity.
Defined.

Lemma main_table_witness :
  columns sample_out = columns sample_df /\ df_wf sample_out /\
  df_len sample_df <= df_len sample_out.
Proof.
  apply (@main_table Scripted "hours.csv" sample_df sample_out sample_env
           (@Build_env Scripted [] 0 sample_trace)).
  - exact sample_df_wf.
  - exact sample_wide.
  - vm_compute. reflexivity.
Defined.

Lemma main_rows_witness :
  In (sample_row "ID3" "Kitchen" "whenever") (values sample_df) \/
  exists row entry,
    In row (values sample_df) /\ length (fields entry) = 14 /\
    weekday_ok entry = true /\
    sample_row "ID3" "Kitchen" "whenever"
    = (firstn (length (columns sample_df) - 15) row
       ++ map Text (fields entry) ++ [Text ""])%list.
Proof.
  apply (@main_rows Scripted "hours.csv" sample_df sample_out sample_env
           (@Build_env Scripted [] 0 sample_trace)).
  - exact sample_df_wf.
  - exact sample_wide.
  - vm_compute. reflexivity.
  - right. right. right. left. reflexivity.
Defined.

Lemma main_raises_witness :
  IndexError = KeyError \/ IndexError = UpstreamUnavailable \/ IndexError = IndexError.
Proof.
  apply (@main_raises Scripted "hours.csv" sample_df
           (@start Scripted [Some "Monday,15:00"; Some "x"; Some "y"])
           (@Build_env Scripted [] 0
              [Sent "Every Monday, from 3pm-5pm";
               Sent "1st Tuesday and Wednesday 9-10"; Sent "whenever";
               Printed (PList ["Monday,15:00"]); Printed (PList ["x"]);
               Printed (PList ["y"])])).
  - exact sample_df_wf.
  - exact sample_wide.
  - vm_compute. reflexivity.
Defined.

Lemma format_hours_iteratively_aborts_witness :
  format_hours_iteratively
    ([("ID1", "Mondays")] ++ ("ID2", "Tuesdays") :: [("ID3", "Fridays")])%list
    (@start Scripted [Some "Monday,15:00,17:00,,,,,,,,Weekly,,,"; None])
  = (Raise UpstreamUnavailable,
     @Build_env Scripted [] 0 [Sent "Mondays"; Sent "Tuesdays"]).
Proof.
  apply (@format_hours_iteratively_aborts Scripted [("ID1", "Mondays")]
           [("ID3", "Fridays")] [("ID1", "Monday,15:00,17:00,,,,,,,,Weekly,,,")]
           "ID2" "Tuesdays" _ (@Build_env Scripted [None] 0 [Sent "Mondays"])).
  - vm_compute. reflexivity.
  - vm_compute. reflexivity.
Defined.

(** A service that answers every prompt with the same weekly entry. *)
Definition weekly_service : Completion :=
  Pure (fun _ => Some "Monday,15:00,17:00,,,,,,,,Weekly,,,").

Lemma weekly_service_readable : @answers_readable weekly_service.
Proof. intros p w. eexists _, _. split; [reflexivity | vm_compute; reflexivity]. Qed.

Lemma main_returns_witness :
  exists out e', @main weekly_service "hours.csv" sample_df (@start weekly_service tt)
                 = (Ok out, e').
Proof.
  apply (@main_returns weekly_service).
  - exact sample_df_wf.
  - exact sample_wide.
  - vm_compute. reflexivity.
  - vm_compute. auto 20.
  - exact weekly_service_readable.
Defined.

(** The sample with a second row whose identifier is missing: the three
    prompts are sent, and the run fails in the reconciliation. *)
Definition unidentified_df : DataFrame :=
  {| columns := sample_columns;
     values := [sample_row "ID1" "Food Bank" "Every Monday, from 3pm-5pm ";
                (NaN :: Text "Pantry" :: repeat NaN 14 ++ [Text "Tuesdays 9-10"])%list;
                sample_row "ID3" "Kitchen" "whenever"] |}.

Example unidentified_run :
  create_id_hours_dict unidentified_df
  = Ok [("ID1", "Every Monday, from 3pm-5pm"); ("nan", "Tuesdays 9-10");
        ("ID3", "whenever")] /\
  exists evs,
    @main weekly_service "hours.csv" unidentified_df (@start weekly_service tt)
    = (Raise IndexError,
       @Build_env weekly_service tt 0
         ([Sent "Every Monday, from 3pm-5pm"; Sent "Tuesdays 9-10"; Sent "whenever"]
          ++ evs)) /\
    forallb (fun ev => negb (is_wrote ev)) evs = true.
Proof. split; [|eexists; split]; vm_compute; reflexivity. Qed.

Lemma main_missing_identifier_witness :
  exists d e1 evs,
    create_id_hours_dict unidentified_df = Ok d /\
    trace e1 = (trace (@start weekly_service tt) ++ map (fun kv => Sent (snd kv)) d)%list /\
    @main weekly_service "hours.csv" unidentified_df (@start weekly_service tt)
    = (Raise IndexError, after evs e1).
Proof.
  apply (@main_missing_identifier weekly_service).
  - repeat constructor.
  - cbn. lia.
  - vm_compute. auto.
  - vm_compute. auto 20.
  - exact weekly_service_readable.
  - vm_compute. reflexivity.
Defined.

(** A missing cell of the hours is sent to the service as the text
    [nan]. *)
Example missing_hours_sent_as_nan :
  create_id_hours_dict
    {| columns := sample_columns;
       values := [(Text "ID1" :: Text "Food Bank" :: repeat NaN 15)%list] |}
  = Ok [("ID1", "nan")].
Proof. vm_compute. reflexivity. Qed.

(** ** The file of the output *)

(** [str.replace] removes every [.csv] of the name, not only the one at
    its end, and leaves a name of another extension whole. *)
Example output_path_names :
  output_path "hours.csv" = "hours_HOURS_CLEANED.csv" /\
  output_path "2023.csv.backup.csv" = "2023.backup_HOURS_CLEANED.csv" /\
  output_path "exports.csv/march.csv" = "exports/march_HOURS_CLEANED.csv" /\
  output_path "hours.txt" = "hours.txt_HOURS_CLEANED.csv" /\
  output_path ".csv" = "_HOURS_CLEANED.csv".
Proof. repeat split; vm_compute; reflexivity. Qed.

Lemma main_trace_witness :
  exists d c iv,
    create_id_hours_dict sample_df = Ok d /\
    fst (format_hours_iteratively d sample_env) = Ok c /\
    run_validation_tests d c (all_valid d) = Ok iv /\
    sample_trace
    = ([] ++ requests d ++ candidates_printed c
       ++ [Printed (PFlags iv); Wrote (output_path "hours.csv") sample_out])%list.
Proof.
  apply (@main_trace Scripted "hours.csv" sample_df sample_out sample_env
           (@Build_env Scripted [] 0 sample_trace)).
  vm_compute. reflexivity.
Defined.

Lemma main_failure_writes_nothing_witness :
  In (Wrote "old.csv" sample_df) [Wrote "old.csv" sample_df].
Proof.
  apply (@main_failure_writes_nothing Scripted "hours.csv" sample_df
           (@Build_env Scripted [None] 0 [Wrote "old.csv" sample_df])
           (@Build_env Scripted [] 0
              [Wrote "old.csv" sample_df; Sent "Every Monday, from 3pm-5pm"])
           UpstreamUnavailable).
  - vm_compute. reflexivity.
  - left. reflexivity.
Defined.

(** ** The script on a file system of one file *)

Definition sample_files : Files := one_file "hours.csv" sample_df.

Example sample_script :
  @script Scripted sample_files {| file := "hours.csv" |} sample_env
  = (Ok sample_out, @Build_env Scripted [] 0 sample_trace) /\
  @script Scripted sample_files {| file := "march.csv" |} sample_env
  = (Raise FileNotFoundError, sample_env).
Proof. split; vm_compute; reflexivity. Qed.

Lemma script_writes_once_witness :
  exists df evs,
    @read_csv sample_files "hours.csv" = Ok df /\
    forallb (fun ev => negb (is_wrote ev)) evs = true /\
    sample_trace = ([] ++ evs ++ [Wrote (output_path "hours.csv") sample_out])%list.
Proof.
  apply (@script_writes_once Scripted sample_files {| file := "hours.csv" |}
           sample_out sample_env (@Build_env Scripted [] 0 sample_trace)).
  vm_compute. reflexivity.
Defined.

Lemma script_unreadable_witness :
  @script Scripted sample_files {| file := "march.csv" |} sample_env
  = (Raise FileNotFoundError, sample_env).
Proof.
  apply (@script_unreadable Scripted sample_files {| file := "march.csv" |}).
  reflexivity.
Defined.

Lemma script_failure_writes_nothing_witness :
  In (Wrote "old.csv" sample_df) [Wrote "old.csv" sample_df].
Proof.
  apply (@script_failure_writes_nothing Scripted sample_files {| file := "hours.csv" |}
           (@Build_env Scripted [None] 0 [Wrote "old.csv" sample_df])
           (@Build_env Scripted [] 0
              [Wrote "old.csv" sample_df; Sent "Every Monday, from 3pm-5pm"])
           UpstreamUnavailable).
  - vm_compute. reflexivity.
  - left. reflexivity.
Defined.
