(* ===== verification/PrimaryContact.v ===== *)
(** * PrimaryContact: the contact script

    Module [Contacts] models [src/primary_contact.py]: the parser of the
    column list given on the command line, the dictionary from the key
    of a row to the text of its contact columns, the generation call
    (with its pause of 50 milliseconds and the line it prints) and the
    loop that sends every text to the service, and the script from its
    arguments ([args], [parse_args], [script]).  The script stops there:
    it writes no file, and the flags it creates are never read.  The
    contact cells are joined as they are, so a row with an empty contact
    cell, which the reader of the file turns into a missing value, makes
    the script raise [TypeError] before any request. *)

From Stdlib Require Import String Ascii List Bool Arith Lia.
From S2P Require Import Prelude.
From S2P Require Import PyString.
From S2P Require Import PyDict.
From S2P Require Import DataFrame.
From S2P Require Import Generator.
Import ListNotations.
Local Open Scope string_scope.
Local Open Scope py_scope.

Module Contacts.

(** The prompt of the script is empty and unread: [call_oai] sends the
    text of the record alone. *)
Definition PROMPT : string := "".

(** [arg.split(',')]. *)
Definition list_of_strings (arg : string) : list string := str_split "," arg.

(** [row[contact_columns].tolist()]: the cells of the given columns, in
    the order given.  The columns are those of [--columns], or [None]
    when the option is not given: [row[None]] looks for a column of that
    label and raises [KeyError]. *)
Definition row_select (df : DataFrame) (row : list cell)
  (contact_columns : option (list string)) : result (list cell) :=
  match contact_columns with
  | Some names => map_r (row_get df row) names
  | None => Raise KeyError
  end.

(** An item handed to [str.join], which takes texts only and raises
    [TypeError] at a missing value. *)
Definition cell_text (c : cell) : result string :=
  match c with
  | Text s => Ok s
  | NaN => Raise TypeError
  end.

(** [sep.join(cells)]. *)
Definition join_cells (sep : string) (cells : list cell) : result string :=
  texts <- map_r cell_text cells ;;
  Ok (str_join sep texts).

(** The right-hand side of the assignment is evaluated before the key.
    The key is the cell of the row; the dictionaries of the model are
    keyed by text, and the key is recorded as the text of the cell. *)
Definition create_id_contacts_dict (df : DataFrame) (primary_key : string)
  (contact_columns : option (list string)) : result (dict string) :=
  for_each (fun id_contacts_dict row =>
              cells <- row_select df row contact_columns ;;
              contacts <- join_cells ", " cells ;;
              id <- row_get df row primary_key ;;
              Ok (dict_set id_contacts_dict (cell_str id) (str_strip contacts)))
           (values df) [].

(** The line printed after each answer: a tab, a label, the answer. *)
Definition response_line (text : string) : printable :=
  PText (String (ascii_of_nat 9) "OAI API Response: " ++ text).

(** One completion request, then [time.sleep(0.05)], then the answer
    is printed and returned. *)
Definition call_oai {C : Completion} (prompt : string) : io string :=
  io_bind (create prompt) (fun text =>
  io_bind (sleep 50) (fun _ =>
  io_bind (print (response_line text)) (fun _ => io_ret text))).

Definition format_contacts_iteratively {C : Completion} (id_contacts_dict : dict string)
  : io (dict string) :=
  io_for_each (fun primary_contacts_dict kv =>
                 io_bind (call_oai (snd kv)) (fun new_value =>
                 io_ret (dict_set primary_contacts_dict (fst kv) new_value)))
              id_contacts_dict [].

(** The body of the script between reading the table and its end. *)
Definition main {C : Completion} (df : DataFrame) (primary_key : string)
  (columns : option (list string)) : io (dict string) :=
  io_bind (io_lift (create_id_contacts_dict df primary_key columns))
    (fun id_contacts_dict =>
  let is_valid_contact_dict :=
    dict_from_pairs (map (fun kv => (fst kv, true)) id_contacts_dict) in
  io_bind (print (PText "Calling OpenAI Fine-Tuned Model...")) (fun _ =>
  format_contacts_iteratively id_contacts_dict)).

(** ** The column list *)

(** Joining the parsed column list with commas gives back the argument. *)
Lemma list_of_strings_join (arg : string) :
  str_join "," (list_of_strings arg) = arg.
Proof. apply str_join_split. Qed.

(** A list of names without commas is what parsing its joined form
    returns. *)
Theorem list_of_strings_of_join (names : list string) :
  names <> [] -> Forall (fun n => str_count "," n = 0) names ->
  list_of_strings (str_join "," names) = names.
Proof. intros Hne Hn. apply str_split_join; assumption. Qed.

(** ** The dictionary of contact texts *)

Lemma create_id_contacts_dict_wf (df : DataFrame) (primary_key : string)
  (columns : option (list string)) (d : dict string) :
  create_id_contacts_dict df primary_key columns = Ok d -> dict_wf d.
Proof.
  apply (for_each_invariant _ dict_wf); [|constructor].
  intros acc row acc' _ Hw H.
  apply rbind_ok_inv in H as (cells & _ & H).
  apply rbind_ok_inv in H as (contacts & _ & H).
  apply rbind_ok_inv in H as (id & _ & [= <-]). apply dict_set_wf, Hw.
Qed.

(** Joining returns when every item is a text, and raises [TypeError]
    otherwise. *)
Lemma join_cells_eq (sep : string) (cells : list cell) :
  join_cells sep cells
  = if forallb present cells then Ok (str_join sep (map cell_str cells))
    else Raise TypeError.
Proof.
  unfold join_cells.
  rewrite (map_r_guarded cell_text present cell_str TypeError).
  - destruct (forallb present cells); reflexivity.
  - intros [s|] _; reflexivity.
Qed.

(** The cells of a row under the contact columns, on a table that has
    them. *)
Definition selected (df : DataFrame) (contact_columns : list string)
  (row : list cell) : list cell :=
  map (fun name => except_all (row_get df row name) NaN) contact_columns.

(** No contact cell of the table is missing. *)
Definition contacts_present (df : DataFrame) (contact_columns : list string) : bool :=
  forallb (fun row => forallb present (selected df contact_columns row)) (values df).

(** What a row adds to the dictionary when its contact cells are texts. *)
Definition contacts_step (df : DataFrame) (primary_key : string)
  (contact_columns : list string) (d : dict string) (row : list cell) : dict string :=
  dict_set d (cell_str (except_all (row_get df row primary_key) NaN))
    (str_strip (str_join ", " (map cell_str (selected df contact_columns row)))).

Lemma row_select_wf (df : DataFrame) (contact_columns : list string)
  (row : list cell) :
  df_wf df -> In row (values df) -> incl contact_columns (DataFrame.columns df) ->
  row_select df row (Some contact_columns) = Ok (selected df contact_columns row).
Proof.
  intros Hwf Hrow Hc. unfold row_select. apply map_r_total. intros name Hn.
  destruct (row_get_wf df row name Hwf Hrow (Hc name Hn)) as (v & ->). reflexivity.
Qed.

(** On a rectangular table that has the key column and the contact
    columns, the dictionary is built when no contact cell is missing,
    and otherwise the first row with a missing one raises
    [TypeError]. *)
Lemma create_id_contacts_dict_eq (df : DataFrame) (primary_key : string)
  (contact_columns : list string) :
  df_wf df -> In primary_key (DataFrame.columns df) ->
  incl contact_columns (DataFrame.columns df) ->
  create_id_contacts_dict df primary_key (Some contact_columns)
  = if contacts_present df contact_columns
    then Ok (fold_left (contacts_step df primary_key contact_columns) (values df) [])
    else Raise TypeError.
Proof.
  intros Hwf Hk Hc. unfold create_id_contacts_dict, contacts_present.
  apply for_each_guarded_fold. intros d row Hrow.
  rewrite (row_select_wf df contact_columns row Hwf Hrow Hc). cbn [rbind].
  rewrite join_cells_eq.
  destruct (forallb present (selected df contact_columns row)); [|reflexivity].
  unfold contacts_step.
  destruct (row_get_wf df row _ Hwf Hrow Hk) as (id & ->). reflexivity.
Qed.

(** ** The generation loop *)

Section Loop.
Context {C : Completion}.

(** The call as one step: what the request returns decides the rest. *)
Lemma call_oai_eq (p : string) (e : env) :
  call_oai p e
  = match create p e with
    | (Ok text, e0) =>
        (Ok text, after [Printed (response_line text)]
                    (Build_env (env_world e0) (slept_ms e0 + 50) (trace e0)))
    | (Raise z, e0) => (Raise z, e0)
    end.
Proof.
  unfold call_oai, io_bind, sleep, print, emit, io_ret.
  destruct (create p e) as [[t|x] e0]; reflexivity.
Qed.

Lemma call_oai_slept (p : string) (e e1 : env) (v : string) :
  call_oai p e = (Ok v, e1) -> slept_ms e1 = slept_ms e + 50.
Proof.
  rewrite call_oai_eq. destruct (create p e) as [[t|x] e0] eqn:E; [|discriminate].
  intros [= _ <-]. simpl. rewrite (create_slept _ _ _ _ E). reflexivity.
Qed.

Lemma call_oai_raises (p : string) (e e1 : env) (z : exn) :
  call_oai p e = (Raise z, e1) -> z = UpstreamUnavailable.
Proof.
  rewrite call_oai_eq. destruct (create p e) as [[t|x] e0] eqn:E; [discriminate|].
  intros [= <- _]. eapply create_raises; eauto.
Qed.

(** A call that returns has sent the prompt and then printed the
    answer. *)
Lemma contacts_call_oai_trace (p : string) (e e1 : env) (v : string) :
  call_oai p e = (Ok v, e1) ->
  trace e1 = (trace e ++ [Sent p; Printed (response_line v)])%list.
Proof.
  rewrite call_oai_eq. destruct (create p e) as [[t|x] e0] eqn:E; [|discriminate].
  intros [= <- <-]. rewrite trace_after. simpl.
  rewrite (create_trace _ _ _ _ E), <- app_assoc. reflexivity.
Qed.

(** When the generation loop returns, it has one answer per record,
    under the keys of the records in their order, and has paused 50
    milliseconds per record. *)
Theorem format_contacts_iteratively_returns (d c : dict string) (e e' : env) :
  dict_wf d -> format_contacts_iteratively d e = (Ok c, e') ->
  dict_keys c = dict_keys d /\ slept_ms e' = slept_ms e + 50 * length d.
Proof.
  intros Hd H. split.
  - apply (io_dict_values_keys call_oai d c e e' Hd H).
  - apply (io_dict_values_measure call_oai slept_ms 50 d c e e'); [|exact H].
    intros p e0 v e1. apply call_oai_slept.
Qed.

(** The dictionary of the contacts fails in three ways: a missing
    column ([KeyError]), a row narrower than the table ([IndexError]),
    a missing contact cell ([TypeError]). *)
Lemma create_id_contacts_dict_raises (df : DataFrame) (primary_key : string)
  (columns : option (list string)) (x : exn) :
  create_id_contacts_dict df primary_key columns = Raise x ->
  x = KeyError \/ x = IndexError \/ x = TypeError.
Proof.
  assert (Hg : forall row name z, row_get df row name = Raise z ->
                                  z = KeyError \/ z = IndexError).
  { intros row name z0. unfold row_get.
    destruct (index_of name (DataFrame.columns df)); simpl; [|intros [= <-]; auto].
    intros H. apply list_get_raise in H as [-> _]. auto. }
  apply (for_each_raises _ (fun z => z = KeyError \/ z = IndexError \/ z = TypeError)).
  intros acc row z0 _ H.
  apply rbind_raise_inv in H as [H|(cells & _ & H)].
  - destruct columns as [names|]; [|inv H; auto].
    apply (map_r_raises _ (fun z => z = KeyError \/ z = IndexError)) in H;
      [tauto | intros name z1 _; apply Hg].
  - apply rbind_raise_inv in H as [H|(contacts & _ & H)].
    + rewrite join_cells_eq in H. destruct (forallb present cells); inv H; auto.
    + apply rbind_raise_inv in H as [H|(id & _ & H)]; [|discriminate].
      apply Hg in H. tauto.
Qed.

(** The script fails in four ways only: a missing column
    ([KeyError]), a row narrower than the table ([IndexError]), a
    missing contact cell ([TypeError]), and the service. *)
Theorem contacts_main_raises (df : DataFrame) (primary_key : string)
  (columns : option (list string)) (e e' : env) (x : exn) :
  main df primary_key columns e = (Raise x, e') ->
  x = KeyError \/ x = IndexError \/ x = TypeError \/ x = UpstreamUnavailable.
Proof.
  unfold main, io_bind, io_lift.
  destruct (create_id_contacts_dict df primary_key columns) as [d|z] eqn:Hd.
  - unfold print, emit. intros H. right. right. right.
    apply (io_dict_values_raises call_oai (fun x => x = UpstreamUnavailable)) in H;
      [exact H|].
    intros p e0 z e1. apply call_oai_raises.
  - intros [= <- _]. apply create_id_contacts_dict_raises in Hd. tauto.
Qed.

(** A run of the loop that returns has sent every text, in the order of
    the records, and printed each answer before the next request. *)
Lemma format_contacts_iteratively_trace (d c : dict string) (e e' : env) :
  dict_wf d -> format_contacts_iteratively d e = (Ok c, e') ->
  length c = length d /\
  trace e' = (trace e
              ++ flat_map (fun qa => [Sent (snd (fst qa));
                                      Printed (response_line (snd (snd qa)))])
                   (combine d c))%list.
Proof.
  apply (io_dict_values_pairs call_oai
           (fun p v => [Sent p; Printed (response_line v)])).
  intros p e0 v e1. apply contacts_call_oai_trace.
Qed.

(** The service answers every prompt. *)
Definition answers_all : Prop :=
  forall p w, exists t w', completion_create p w = (Ok t, w').

(** On a rectangular table that has the key column and the contact
    columns and no missing contact cell, and with a service that
    answers, the script returns. *)
Lemma contacts_main_returns (df : DataFrame) (primary_key : string)
  (columns : list string) (e : env) :
  df_wf df -> In primary_key (DataFrame.columns df) ->
  incl columns (DataFrame.columns df) -> contacts_present df columns = true ->
  answers_all ->
  exists c e', main df primary_key (Some columns) e = (Ok c, e').
Proof.
  intros Hwf Hk Hc Hp Ha.
  pose proof (create_id_contacts_dict_eq df primary_key columns Hwf Hk Hc) as Hd.
  rewrite Hp in Hd.
  unfold main, io_bind, io_lift, print, emit. rewrite Hd.
  set (d := fold_left _ _ _).
  destruct (io_dict_values_returns call_oai (fun _ => True) d
              (after [Printed (PText "Calling OpenAI Fine-Tuned Model...")] e))
    as (c & e' & H & _); [|eauto].
  intros p e0. rewrite call_oai_eq. unfold create.
  destruct (Ha p (env_world e0)) as (t & w' & ->). eauto.
Qed.

(** C26. A row with a missing contact cell stops the script before anything
    is printed or sent: on a rectangular table that has the key column
    and the contact columns, the script raises [TypeError] and leaves
    the environment as it was. *)
Theorem contacts_main_missing_cell (df : DataFrame) (primary_key : string)
  (columns : list string) (e : env) :
  df_wf df -> In primary_key (DataFrame.columns df) ->
  incl columns (DataFrame.columns df) -> contacts_present df columns = false ->
  main df primary_key (Some columns) e = (Raise TypeError, e).
Proof.
  intros Hwf Hk Hc Hp. unfold main, io_bind, io_lift.
  rewrite (create_id_contacts_dict_eq df primary_key columns Hwf Hk Hc), Hp.
  reflexivity.
Qed.

End Loop.

(** ** The script, from its arguments *)

(** The arguments of the script: the positional [file] and
    [primary_key], and the option [--columns], which is [None] when it
    is not given. *)
Record args : Type := {
  file : string;
  primary_key : string;
  columns : option (list string)
}.

(** [parser.parse_args()] on the two positional arguments and the text
    given to [--columns], if any: the option has [type=list_of_strings]
    and no default. *)
Definition parse_args (file primary_key : string) (columns_arg : option string)
  : args :=
  {| file := file; primary_key := primary_key;
     columns := option_map list_of_strings columns_arg |}.

(** The script: the table is read from [args.file]. *)
Definition script {C : Completion} {F : Files} (a : args) : io (dict string) :=
  io_bind (io_lift (read_csv (file a)))
    (fun df => main df (primary_key a) (columns a)).

Section Script.
Context {C : Completion} {F : Files}.

Lemma contacts_script_unfold (a : args) (e : env) :
  script a e
  = match read_csv (file a) with
    | Ok df => main df (primary_key a) (columns a) e
    | Raise x => (Raise x, e)
    end.
Proof. unfold script, io_bind, io_lift. destruct (read_csv (file a)); reflexivity. Qed.

(** Without [--columns] the script stops at the first row of the table,
    with [KeyError], before anything is printed or sent. *)
Theorem contacts_script_without_columns (a : args) (df : DataFrame) (e : env) :
  columns a = None -> read_csv (file a) = Ok df -> values df <> [] ->
  script a e = (Raise KeyError, e).
Proof.
  intros Hc Hr Hv. rewrite contacts_script_unfold, Hr, Hc.
  unfold main, io_bind, io_lift, create_id_contacts_dict.
  destruct (values df) as [|row rows]; [congruence | reflexivity].
Qed.

(** On a table without rows the columns are never read. *)
Lemma contacts_script_no_rows (a : args) (df : DataFrame) (e : env) :
  read_csv (file a) = Ok df -> values df = [] ->
  script a e
  = (Ok [], after [Printed (PText "Calling OpenAI Fine-Tuned Model...")] e).
Proof.
  intros Hr Hv. rewrite contacts_script_unfold, Hr.
  unfold main, io_bind, io_lift, create_id_contacts_dict. rewrite Hv. reflexivity.
Qed.

End Script.

End Contacts.

Import Contacts.

(** ** The script on a small table *)

Definition contacts_df : DataFrame :=
  {| DataFrame.columns := ["Key"; "Name"; "Phone"; "Email"];
     values := [map Text ["K1"; "Ada"; "555-0100"; "ada@example.org"];
                [Text "K2"; Text "Grace"; NaN; Text "grace@example.org "]] |}.

Example contacts_dictionary :
  create_id_contacts_dict contacts_df "Key" (Some (list_of_strings "Name,Email"))
  = Ok [("K1", "Ada, ada@example.org"); ("K2", "Grace, grace@example.org")].
Proof. vm_compute. reflexivity. Qed.

(** The second record has no phone number: selecting the column makes the
    script fail, whatever the first record holds. *)
Example contacts_missing_cell :
  create_id_contacts_dict contacts_df "Key" (Some (list_of_strings "Name,Email,Phone"))
  = Raise TypeError.
Proof. vm_compute. reflexivity. Qed.

Example contacts_run :
  main contacts_df "Key" (Some ["Name"; "Email"])
    (@start Scripted [Some "Ada"; Some "Grace"])
  = (Ok [("K1", "Ada"); ("K2", "Grace")],
     @Build_env Scripted [] 100
       [Printed (PText "Calling OpenAI Fine-Tuned Model...");
        Sent "Ada, ada@example.org"; Printed (response_line "Ada");
        Sent "Grace, grace@example.org"; Printed (response_line "Grace")]).
Proof. vm_compute. reflexivity. Qed.

Example contacts_missing_column :
  create_id_contacts_dict contacts_df "Key" (Some ["Fax"]) = Raise KeyError.
Proof. vm_compute. reflexivity. Qed.

(** The script on a file system of one file, with and without
    [--columns]. *)
Definition contacts_files : Files := one_file "contacts.csv" contacts_df.

Example contacts_script_runs :
  @script Scripted contacts_files (parse_args "contacts.csv" "Key" (Some "Name,Email"))
    (@start Scripted [Some "Ada"; Some "Grace"])
  = (Ok [("K1", "Ada"); ("K2", "Grace")],
     @Build_env Scripted [] 100
       [Printed (PText "Calling OpenAI Fine-Tuned Model...");
        Sent "Ada, ada@example.org"; Printed (response_line "Ada");
        Sent "Grace, grace@example.org"; Printed (response_line "Grace")]) /\
  @script Scripted contacts_files (parse_args "contacts.csv" "Key" None)
    (@start Scripted [Some "Ada"; Some "Grace"])
  = (Raise KeyError, @start Scripted [Some "Ada"; Some "Grace"]).
Proof. split; vm_compute; reflexivity. Qed.

Lemma contacts_script_without_columns_witness :
  @script Scripted contacts_files (parse_args "contacts.csv" "Key" None)
    (@start Scripted [])
  = (Raise KeyError, @start Scripted []).
Proof.
  apply (@contacts_script_without_columns Scripted contacts_files
           (parse_args "contacts.csv" "Key" None) contacts_df).
  - reflexivity.
  - reflexivity.
  - discriminate.
Defined.

Lemma list_of_strings_of_join_witness :
  list_of_strings (str_join "," ["Name"; "Phone"]) = ["Name"; "Phone"].
Proof.
  apply (list_of_strings_of_join ["Name"; "Phone"]).
  - discriminate.
  - repeat constructor.
Defined.

Lemma format_contacts_iteratively_returns_witness :
  dict_keys [("K1", "Ada"); ("K2", "Grace")] = dict_keys [("K1", "a"); ("K2", "g")] /\
  slept_ms (@Build_env Scripted [] 100
              [Sent "a"; Printed (response_line "Ada");
               Sent "g"; Printed (response_line "Grace")])
  = slept_ms (@start Scripted [Some "Ada"; Some "Grace"])
    + 50 * length [("K1", "a"); ("K2", "g")].
Proof.
  apply (@format_contacts_iteratively_returns Scripted [("K1", "a"); ("K2", "g")]).
  - apply dict_wfb_spec. vm_compute. reflexivity.
  - vm_compute. reflexivity.
Defined.

Lemma contacts_main_raises_witness :
  KeyError = KeyError \/ KeyError = IndexError \/ KeyError = TypeError
  \/ KeyError = UpstreamUnavailable.
Proof.
  apply (@contacts_main_raises Scripted contacts_df "Key" (Some ["Fax"])
           (@start Scripted []) (@start Scripted [])).
  vm_compute. reflexivity.
Defined.

Lemma contacts_main_missing_cell_witness :
  main contacts_df "Key" (Some ["Name"; "Phone"])
    (@start Scripted [Some "Ada"; Some "Grace"])
  = (Raise TypeError, @start Scripted [Some "Ada"; Some "Grace"]).
Proof.
  apply (@contacts_main_missing_cell Scripted contacts_df "Key" ["Name"; "Phone"]).
  - repeat constructor.
  - left. reflexivity.
  - intros name [<-|[<-|[]]]; simpl; auto.
  - vm_compute. reflexivity.
Defined.
