(* ===== verification/Refinement.v ===== *)
(** * Refinement: the candidates the rules accept are schedules

    The rules of the two pipelines work on the wire form.  This file
    relates them to the values of [Schedule]: an entry of a record that
    the batch rules accept decodes to an opening, well formed by
    [decode_some]; an entry of a response that the server's rules accept
    decodes when its first field is a weekday or it is a call for
    information, which the server's weekday rule checks of the last
    entry only; so the last entry of an accepted response always
    decodes. *)

From Stdlib Require Import String Ascii List Bool Arith Lia.
From S2P Require Import Prelude.
From S2P Require Import PyString.
From S2P Require Import PyDict.
From S2P Require Import Regex.
From S2P Require Import TimeFormat.
From S2P Require Import Entry.
From S2P Require Import Schedule.
From S2P Require Import Generator.
From S2P Require Import NormalizeHours.
From S2P Require Import CleanHours.
Import ListNotations.
Local Open Scope string_scope.
Local Open Scope py_scope.

(** ** Entries of fourteen fields *)

Lemma fourteen_fields (l : list string) :
  length l = 14 ->
  exists f0 f1 f2 f3 f4 f5 f6 f7 f8 f9 f10 f11 f12 f13,
    l = [f0; f1; f2; f3; f4; f5; f6; f7; f8; f9; f10; f11; f12; f13].
Proof.
  intros H.
  do 14 (destruct l as [|? l]; [discriminate|]).
  destruct l; [|discriminate]. repeat eexists.
Qed.

(** Names the fourteen fields of an entry and computes the reads of the
    hypotheses on them. *)
Ltac name_fields e Hlen :=
  destruct (fourteen_fields (fields e) Hlen)
    as (f0 & f1 & f2 & f3 & f4 & f5 & f6 & f7 & f8 & f9 & f10 & f11 & f12 & f13 & Hf);
  unfold decode; rewrite ?Hf in *.

(** A text that is one of the weekday names is the name of a weekday. *)
Lemma weekday_of_name_in (s : string) :
  in_list s Batch.DAYS_OF_WEEK = true -> exists d, weekday_of_name s = Some d.
Proof.
  unfold in_list. rewrite existsb_exists. intros (x & Hin & E).
  apply String.eqb_eq in E. subst x. simpl in Hin.
  repeat (destruct Hin as [<-|Hin]; [eexists; reflexivity|]). destruct Hin.
Qed.

(** A time that both the pattern and [strptime] accept. *)
Lemma parse_time_both (v : string) (t : nat * nat) :
  is_time v = true -> strptime_HM v = Ok t -> parse_time v = Some t.
Proof. intros Hi Hs. unfold parse_time. rewrite Hi, Hs. reflexivity. Qed.

(** An ordinal that is a digit string and a key of the table of ordinal
    words is one of 1 to 5. *)
Lemma ordinal_of_name_key (v : string) (words : list string) :
  str_isdigit v = true -> dict_get Batch.INT_TO_DAY_OF_MONTH v = Ok words ->
  exists n, ordinal_of_name v = Some n.
Proof.
  intros Hd Hk. apply dict_get_ok in Hk. simpl in Hk.
  repeat (destruct Hk as [[= <- _]|Hk]; [eexists; reflexivity|]).
  destruct Hk as [[= <- _]|[]]. discriminate.
Qed.

Lemma ordinal_ok_key (id_hours_dict : dict string) (key v : string) :
  str_isdigit v = true -> Batch.ordinal_ok id_hours_dict key v = true ->
  exists n, ordinal_of_name v = Some n.
Proof.
  unfold Batch.ordinal_ok. intros Hd.
  destruct (dict_get Batch.INT_TO_DAY_OF_MONTH v) as [words|] eqn:E; [|discriminate].
  intros _. eapply ordinal_of_name_key; eauto.
Qed.

(** ** The batch rules *)

(** The hour type and the two ordinals of an entry that passes the
    type-specific rules of the batch script write a recurrence. *)
Lemma batch_recurrence (id_hours_dict : dict string) (k f8 f9 f10 : string) :
  in_list f10 Batch.HOUR_TYPES = true ->
  (if f10 =? "Day of Month" then str_isdigit f9 && is_empty f8 else true) = true ->
  Batch.ordinal_ok id_hours_dict k f9 = true ->
  (if f10 =? "Week of Month" then str_isdigit f8 && is_empty f9 else true) = true ->
  Batch.ordinal_ok id_hours_dict k f8 = true ->
  (if (f10 =? "Weekly") || (f10 =? "Every Other Week")
   then is_empty f8 && is_empty f9 else true) = true ->
  exists r, recurrence_of f10 f8 f9 = Some r /\
            (f10 =? "Call for Information") = false.
Proof.
  unfold in_list, is_empty. intros Htypes Hdom Hdo Hwom Hwo Hweekly.
  apply existsb_exists in Htypes as (x & Hin & E).
  apply String.eqb_eq in E. subst x. simpl in Hin.
  destruct Hin as [<-|[<-|[<-|[<-|[]]]]];
    cbn [String.eqb Ascii.eqb Bool.eqb orb] in *; unfold recurrence_of;
    cbn [String.eqb Ascii.eqb Bool.eqb].
  - rewrite Hweekly. eauto.
  - rewrite Hweekly. eauto.
  - apply andb_true_iff in Hdom as [Hd He]. rewrite He.
    destruct (ordinal_ok_key _ _ _ Hd Hdo) as (n & ->). simpl. eauto.
  - apply andb_true_iff in Hwom as [Hd He]. rewrite He.
    destruct (ordinal_ok_key _ _ _ Hd Hwo) as (n & ->). simpl. eauto.
Qed.

(** An entry of fourteen fields that passes the per-entry tests of the
    nine rules decodes to an opening. *)
Lemma batch_entry_decodes (id_hours_dict : dict string) (k e : string) :
  length (fields e) = 14 ->
  Batch.day_of_month_ok id_hours_dict k e = true ->
  Batch.week_of_month_ok id_hours_dict k e = true ->
  Batch.weekly_ok e = true -> Batch.hour_types_ok e = true ->
  Batch.weekday_ok e = true -> Batch.times_ok e = true ->
  Batch.close_after_open_ok e = true -> null_values_ok e = true ->
  exists d o c r, decode e = Some (Opening d o c r (nth 7 (fields e) "")).
Proof.
  intros Hlen Hdom Hwom Hweekly Htypes Hday Htimes Hgt Hnull.
  unfold Batch.day_of_month_ok, Batch.week_of_month_ok, Batch.monthly_ok,
    Batch.weekly_ok, Batch.hour_types_ok, Batch.weekday_ok, Batch.times_ok,
    Batch.close_after_open_ok, null_values_ok in *.
  name_fields e Hlen.
  cbn [field_is nth_error forallb list_get of_option rbind nth] in *.
  apply andb_true_iff in Hdom as [Hdom Hdo], Hwom as [Hwom Hwo].
  destruct (batch_recurrence _ _ _ _ _ Htypes Hdom Hdo Hwom Hwo Hweekly)
    as (r & Hr & Hcfi).
  destruct (weekday_of_name_in f0 Hday) as (d & Hd).
  apply andb_true_iff in Htimes as [Ht1 Ht2].
  destruct (strptime_HM f2) as [c|] eqn:Ec; [|discriminate].
  destruct (strptime_HM f1) as [o|] eqn:Eo; [|discriminate].
  cbn [rbind except_all] in Hgt.
  exists d, o, c, r. unfold decode_fields.
  cbn [length Nat.eqb negb nth]. unfold is_empty in Hnull. cbn [forallb].
  rewrite Hnull, Hcfi, Hd, (parse_time_both f1 o), (parse_time_both f2 c), Hr, Hgt
    by assumption.
  reflexivity.
Qed.

(** What a record that passes the nine rules says of one of its
    entries. *)
Lemma all_checks_entry (id_hours_dict : dict string) (k v e : string) :
  Batch.all_checks id_hours_dict k v = true -> In e (Batch.entries v) ->
  exists d o c r, decode e = Some (Opening d o c r (nth 7 (fields e) "")).
Proof.
  intros H He.
  pose proof (Batch.all_checks_14_fields _ _ _ H) as Hlen.
  rewrite Forall_forall in Hlen. specialize (Hlen e He).
  unfold Batch.all_checks in H. repeat (apply andb_true_iff in H as [H ?]).
  repeat match goal with
         | Hf : forallb _ (Batch.entries v) = true |- _ =>
             rewrite forallb_forall in Hf; specialize (Hf e He)
         end.
  eapply batch_entry_decodes; eauto.
Qed.

(** C12. A record that the batch rules accept denotes a schedule: every
    entry of its candidate decodes to a well-formed opening, with a
    weekday, two times of the day of which the second is later, and one
    of the four recurrences. *)
Theorem battery_accepts_schedules (id_hours_dict c : dict string)
  (iv iv' : dict bool) (k v : string) :
  Batch.ready c iv -> Batch.run_validation_tests id_hours_dict c iv = Ok iv' ->
  In (k, v) c -> dict_get iv' k = Ok true ->
  exists ss,
    decode_all (Batch.entries v) = Some ss /\
    Forall (fun s => wf s = true /\ exists d o c r m, s = Opening d o c r m) ss /\
    length ss = length (Batch.entries v).
Proof.
  intros Hr Hrun Hkv Hk. apply decode_all_forall.
  pose proof (Batch.accepted_all_checks _ _ _ _ _ _ Hr Hrun Hkv Hk) as H.
  apply Forall_forall. intros e He.
  destruct (all_checks_entry _ _ _ _ H He) as (d & o & c0 & r & Hd).
  eexists. split; [exact Hd|]. split; [apply (decode_some e), Hd | eauto 6].
Qed.

(** ** The server's rules *)

Section ServerEntries.
Import Server.

(** A time that is a time or empty, and that [strptime] reads, is a time. *)
Lemma time_or_empty_parsed (v : string) (t : nat * nat) :
  time_or_empty v = true -> strptime_HM v = Ok t -> parse_time v = Some t.
Proof.
  unfold time_or_empty. intros H Hs. apply parse_time_both; [|exact Hs].
  destruct (is_time v); [reflexivity|]. simpl in H.
  apply String.eqb_eq in H. subst v. discriminate.
Qed.

(** The hour types the server accepts, the monthly ones apart. *)
Lemma server_hour_type (f10 : string) :
  in_list f10 HOUR_TYPES = true ->
  negb (f10 =? "Day of Month") = true -> negb (f10 =? "Week of Month") = true ->
  f10 = "Weekly" \/ f10 = "Every Other Week" \/ f10 = "Call for Information".
Proof.
  unfold in_list. intros H Hd Hw. apply existsb_exists in H as (x & Hin & E).
  apply String.eqb_eq in E. subst x. simpl in Hin.
  repeat (destruct Hin as [<-|Hin]; [auto; discriminate|]). destruct Hin.
Qed.

(** Decodes an entry of type [Weekly] or [Every Other Week] from what the
    rules say of its weekday, its times and its ordinals. *)
Ltac weekly_entry f0 f1 f2 Hday Hoc Hgt Hweekly :=
  destruct Hday as [Hday|Hday]; [discriminate|];
  let d := fresh "d" in
  destruct (weekday_of_name_in f0 Hday) as (d & ->);
  let c := fresh "c" in let o := fresh "o" in
  destruct (strptime_HM f2) as [c|] eqn:?; [|discriminate];
  destruct (strptime_HM f1) as [o|] eqn:?; [|discriminate];
  apply andb_true_iff in Hoc as [? ?];
  rewrite (time_or_empty_parsed f1 o), (time_or_empty_parsed f2 c) by assumption;
  unfold recurrence_of, is_empty in *; cbn [String.eqb Ascii.eqb Bool.eqb];
  rewrite Hweekly, Hgt; eauto.

(** An entry of fourteen fields that passes the per-entry tests of the
    server's rules decodes, when its first field is a weekday or it is a
    call for information. *)
Lemma server_entry_decodes (e : string) :
  length (fields e) = 14 ->
  not_monthly "Day of Month" e = true -> not_monthly "Week of Month" e = true ->
  weekly_ok e = true -> hour_types_ok e = true -> open_closed_ok e = true ->
  close_after_open_ok e = true -> null_values_ok e = true ->
  call_for_information_ok e = true ->
  hour_type_is e "Call for Information" = true \/ weekday_ok e = true ->
  exists s, decode e = Some s.
Proof.
  intros Hlen Hdom Hwom Hweekly Htypes Hoc Hgt Hnull Hcfi Hday.
  unfold not_monthly, weekly_ok, hour_types_ok, open_closed_ok, close_after_open_ok,
    null_values_ok, call_for_information_ok, hour_type_is, weekday_ok, times_ok in *.
  name_fields e Hlen.
  cbn [field_is nth_error forallb list_get of_option rbind nth slice skipn firstn
       Nat.sub] in *.
  unfold decode_fields. cbn [length Nat.eqb negb nth forallb].
  unfold is_empty in Hnull. rewrite Hnull. cbn [negb].
  destruct (server_hour_type f10 Htypes Hdom Hwom) as [-> | [-> | ->]];
    cbn [String.eqb Ascii.eqb Bool.eqb orb] in *;
    [weekly_entry f0 f1 f2 Hday Hoc Hgt Hweekly ..|].
  apply andb_true_iff in Hcfi as [Hcfi _]. apply andb_true_iff in Hcfi as [H06 H89].
  apply String.eqb_eq, str_join_empty_iff in H06, H89.
  inv H06. inv H89.
  repeat match goal with H : Forall _ (_ :: _) |- _ => inv H end.
  cbn [String.eqb andb]. eauto.
Qed.

(** What a response that passes the ten rules says of one of its
    entries. *)
Lemma server_all_checks_entry (r : response) (e : string) :
  all_checks r = true -> In e (entries r) ->
  hour_type_is e "Call for Information" = true \/ weekday_ok e = true ->
  exists s, decode e = Some s /\ wf s = true.
Proof.
  intros H He Hday.
  pose proof (all_checks_arity r H) as Hlen. rewrite Forall_forall in Hlen.
  specialize (Hlen e He).
  unfold all_checks in H. repeat (apply andb_true_iff in H as [H ?]).
  repeat match goal with
         | Hf : forallb _ (entries r) = true |- _ =>
             rewrite forallb_forall in Hf; specialize (Hf e He)
         end.
  destruct (server_entry_decodes e) as (s & Hs); auto.
  exists s. split; [exact Hs | apply (decode_some e), Hs].
Qed.

(** The loop of the weekday rule ends true only on a last entry that
    starts with a weekday or is a call for information. *)
Lemma day_of_week_last (l : list string) (e : string) (b : bool) :
  fold_left day_of_week_next (l ++ [e]) b = true ->
  hour_type_is e "Call for Information" = true \/ weekday_ok e = true.
Proof.
  rewrite fold_left_app. cbn [fold_left]. unfold day_of_week_next, no_day_ok.
  destruct (weekday_ok e); [auto|]. cbn [orb]. intros H.
  apply andb_true_iff in H as [H _]. apply andb_true_iff in H as [_ H]. auto.
Qed.

(** The last entry of a response that passes the ten rules decodes. *)
Lemma server_all_checks_last (r : response) :
  all_checks r = true ->
  exists s, decode (last (entries r) "") = Some s /\ wf s = true.
Proof.
  intros H. destruct (exists_last (str_split_nonempty ";" (formatted r)))
    as (l & e & Hl).
  fold (entries r) in Hl. rewrite Hl, last_last.
  apply (server_all_checks_entry r); [exact H | rewrite Hl; apply in_or_app; simpl; auto|].
  apply (day_of_week_last l e true). rewrite <- Hl.
  unfold all_checks in H. repeat (apply andb_true_iff in H as [H ?]). assumption.
Qed.

End ServerEntries.

(** C13. A response that the server's rules accept denotes a schedule as
    far as its weekdays go: every entry that is a call for information
    or starts with a weekday decodes to a well-formed value. *)
Theorem server_accepts_schedules (r r' : Server.response) :
  Server.run_validation_tests r = Ok r' -> Server.isValid r' = true ->
  Forall (fun e =>
            Server.hour_type_is e "Call for Information" = true \/
            Server.weekday_ok e = true ->
            exists s, decode e = Some s /\ wf s = true)
    (Server.entries r).
Proof.
  rewrite Server.run_validation_tests_eq. intros [= <-] H.
  apply Server.gate_valid in H as [_ H].
  apply Forall_forall. intros e He. apply (server_all_checks_entry r e H He).
Qed.

(** The weekday rule guarantees that much of the last entry: the last
    entry of a response that the server's rules accept always decodes. *)
Theorem server_last_entry_decodes (r r' : Server.response) :
  Server.run_validation_tests r = Ok r' -> Server.isValid r' = true ->
  exists s, decode (last (Server.entries r) "") = Some s /\ wf s = true.
Proof.
  rewrite Server.run_validation_tests_eq. intros [= <-] H.
  apply Server.gate_valid in H as [_ H]. apply server_all_checks_last, H.
Qed.

(** ** Runs *)

(** The candidate of the batch sample denotes three openings. *)
Example sample_schedule :
  map (fun kv => decode_all (Batch.entries (snd kv))) sample_cleaned
  = [Some [Opening Monday (15, 0) (17, 0) Weekly ""];
     Some [Opening Tuesday (9, 0) (10, 0) (DayOfMonth 1) "";
           Opening Wednesday (9, 0) (10, 0) (DayOfMonth 1) ""];
     None].
Proof. vm_compute. reflexivity. Qed.

(** The server accepts a candidate whose first entry names no weekday;
    that entry denotes nothing. *)
Example accepted_without_schedule :
  rmap Server.isValid (Server.run_validation_tests bad_weekday) = Ok true /\
  decode_all (Server.entries bad_weekday) = None.
Proof. split; vm_compute; reflexivity. Qed.

(** Its last entry does. *)
Example accepted_last_entry :
  decode (last (Server.entries bad_weekday) "")
  = Some (Opening Monday (15, 0) (17, 0) Weekly "").
Proof. vm_compute. reflexivity. Qed.

Lemma battery_accepts_schedules_witness :
  exists ss,
    decode_all (Batch.entries ("Tuesday,9:00,10:00,,,,,,,1,Day of Month,,,;"
                               ++ "Wednesday,9:00,10:00,,,,,,,1,Day of Month,,,"))
    = Some ss /\
    Forall (fun s => wf s = true /\ exists d o c r m, s = Opening d o c r m) ss /\
    length ss = length (Batch.entries
                          ("Tuesday,9:00,10:00,,,,,,,1,Day of Month,,,;"
                           ++ "Wednesday,9:00,10:00,,,,,,,1,Day of Month,,,")).
Proof.
  apply (battery_accepts_schedules sample_ids sample_cleaned
           (Batch.all_valid sample_ids) sample_flags "ID2").
  - exact sample_ready.
  - vm_compute. reflexivity.
  - right. left. reflexivity.
  - vm_compute. reflexivity.
Defined.

Lemma server_accepts_schedules_witness :
  Forall (fun e =>
            Server.hour_type_is e "Call for Information" = true \/
            Server.weekday_ok e = true ->
            exists s, decode e = Some s /\ wf s = true)
    (Server.entries scenario_A).
Proof.
  apply (server_accepts_schedules scenario_A scenario_A); vm_compute; reflexivity.
Defined.
