(* ===== verification/RuleOrder.v ===== *)
(** * RuleOrder: the order of the rules

    Both pipelines run their rules from a list, [validation_tests].  This
    file asks what the order of that list contributes.  The batch rules
    commute: each lowers the flags by a test of the record and raises by
    a test of the candidates alone.  The server's rules commute on the
    responses whose entries have eleven fields; on a narrower entry the
    two rules that read field 10 outside a handler raise unless the rule
    on hour types has run before them. *)

From Stdlib Require Import String Ascii List Bool Arith Lia Permutation.
From S2P Require Import Prelude.
From S2P Require Import PyString.
From S2P Require Import PyDict.
From S2P Require Import Entry.
From S2P Require Import Generator.
From S2P Require Import NormalizeHours.
From S2P Require Import CleanHours.
Import ListNotations.
Local Open Scope string_scope.
Local Open Scope py_scope.

(** ** The server's rules *)

Lemma gate_isValid (r : Server.response) : Server.gate (Server.isValid r) r = r.
Proof. destruct r as [bs f [|]]; reflexivity. Qed.

Section ServerOrder.
Import Server.
Variable r0 : response.
Hypothesis r0_wide : wide r0.

(** The rule [t] lowers [isValid] by a test of [r0] that does not depend
    on the flag. *)
Definition gating (t : response -> result response) : Prop :=
  exists c : bool, forall b, t (gate b r0) = Ok (gate (b && c) r0).

Lemma gate_wide_kept (b : bool) : isValid (gate b r0) = true -> wide (gate b r0).
Proof. intros _. eapply lowers_wide; [apply lowers_gate | exact r0_wide]. Qed.

Lemma gating_gate (t : response -> result response) (c : response -> bool) :
  (forall r, (isValid r = true -> wide r) -> t r = Ok (gate (c r) r)) ->
  (forall b, c (gate b r0) = c r0) ->
  gating t.
Proof.
  intros Ht Hc. exists (c r0). intros b.
  rewrite Ht by apply gate_wide_kept. rewrite Hc, gate_gate. reflexivity.
Qed.

Lemma gating_checked (t : response -> result response) (chk : string -> bool) :
  (forall r, (isValid r = true -> wide r) -> t r = Ok (checked chk r)) ->
  gating t.
Proof.
  intros Ht. apply (gating_gate t (fun r => forallb chk (entries r))); [exact Ht|].
  intros b. rewrite entries_gate. reflexivity.
Qed.

Lemma validation_tests_gating : Forall gating validation_tests.
Proof.
  unfold validation_tests. repeat apply Forall_cons; try apply Forall_nil.
  - eapply gating_checked. intros r _. apply test_day_of_month_formatting_eq.
  - eapply gating_checked. intros r _. apply test_week_of_month_formatting_eq.
  - eapply gating_checked. intros r _. apply test_weekly_formatting_eq.
  - eapply gating_checked. intros r _. apply test_valid_hour_types_eq.
  - eapply gating_gate; [intros r _; apply test_valid_day_of_week_eq|].
    intros b. cbv beta. rewrite entries_gate. reflexivity.
  - eapply gating_checked. apply test_valid_open_closed_hours_eq.
  - eapply gating_checked. apply test_close_hour_greater_than_open_hour_eq.
  - eapply gating_checked. intros r _. apply test_all_null_values_empty_string_eq.
  - eapply gating_gate; [intros r _; apply test_valid_entry_format_eq|].
    intros b. cbv beta. rewrite formatted_gate. reflexivity.
  - eapply gating_checked. intros r _. apply test_call_for_information_formatting_eq.
Qed.

Lemma gating_commute (s : response) (x y : response -> result response) :
  gating x -> gating y -> (exists b, s = gate b r0) ->
  (s' <- x s ;; y s') = (s' <- y s ;; x s').
Proof.
  intros (cx & Hx) (cy & Hy) (b & ->).
  rewrite Hx, Hy, !rbind_ok, Hx, Hy. do 2 f_equal.
  rewrite <- !andb_assoc. f_equal. apply andb_comm.
Qed.

Lemma gating_preserved (s : response) (x : response -> result response)
  (s' : response) :
  gating x -> (exists b, s = gate b r0) -> x s = Ok s' -> exists b, s' = gate b r0.
Proof. intros (c & Hx) (b & ->). rewrite Hx. intros [= <-]. eauto. Qed.

End ServerOrder.

(** C15. On a response whose entries have at least eleven fields each, the
    ten rules of the server give the result of [run_validation_tests] in
    whatever order they are run. *)
Theorem run_validation_tests_any_order
  (p : list (Server.response -> result Server.response)) (r : Server.response) :
  Permutation p Server.validation_tests -> Server.wide r ->
  for_each (fun r test => test r) p r = Server.run_validation_tests r.
Proof.
  intros Hp Hw. unfold Server.run_validation_tests.
  apply (for_each_Permutation _ (gating r) (fun s => exists b, s = Server.gate b r)
           (gating_commute r) (gating_preserved r) _ _ _ Hp).
  - eapply Permutation_Forall;
      [symmetry; exact Hp | apply validation_tests_gating; exact Hw].
  - exists (Server.isValid r). symmetry. apply gate_isValid.
Qed.

(** ** Any sequence of the server's rules

    The battery is one run of the rules.  The relation below has them
    all: any number of rules of the list, in any order and with
    repetitions, each applied to the response the one before returned. *)

Inductive rule_step : Server.response -> Server.response -> Prop :=
| rule_step_intro (t : Server.response -> result Server.response)
    (r r' : Server.response) :
    In t Server.validation_tests -> t r = Ok r' -> rule_step r r'.

Inductive rule_steps : Server.response -> Server.response -> Prop :=
| rule_steps_refl (r : Server.response) : rule_steps r r
| rule_steps_cons (r r' r'' : Server.response) :
    rule_step r r' -> rule_steps r' r'' -> rule_steps r r''.

Section ServerSteps.
Import Server.

(** What a rule may have done when it returns: nothing, or written the
    flag of a response that was valid. *)
Definition wrote_flag (r r' : response) : Prop :=
  r' = r \/ (isValid r = true /\ exists b, r' = set_isValid r b).

Lemma rule_loop_wrote_flag (step : bool -> string -> result bool)
  (r r' : response) :
  rule_loop step r = Ok r' -> wrote_flag r r'.
Proof.
  unfold rule_loop, wrote_flag. destruct (isValid r) eqn:E; cbn [Bool.eqb];
    [|intros [= <-]; auto].
  destruct (for_each step _ true) as [b|x]; [|discriminate].
  intros [= <-]. eauto.
Qed.

Lemma rule_wrote_flag (t : response -> result response) (r r' : response) :
  In t validation_tests -> t r = Ok r' -> wrote_flag r r'.
Proof.
  intros Ht. unfold validation_tests in Ht. simpl in Ht.
  repeat (destruct Ht as [<-|Ht]; [try apply rule_loop_wrote_flag|]);
    try contradiction.
  all: unfold test_valid_day_of_week, test_valid_entry_format,
         test_valid_open_closed_hours, wrote_flag;
       destruct (isValid r) eqn:E; cbn [Bool.eqb]; [|intros [= <-]; auto].
  - destruct (for_each _ _ true) as [b|x]; [|discriminate]. intros [= <-]. eauto.
  - destruct (for_each _ _ (true, true)) as [b|x]; [|discriminate].
    intros [= <-]. eauto.
  - intros [= <-]. eauto.
Qed.

Lemma wrote_flag_lowers (r r' : response) : wrote_flag r r' -> lowers r r'.
Proof.
  intros [->|(E & b & ->)]; [apply lowers_refl|]. apply lowers_set. auto.
Qed.

Lemma rule_step_lowers (r r' : response) : rule_step r r' -> lowers r r'.
Proof. intros [t r1 r2 Ht Hr]. eapply wrote_flag_lowers, rule_wrote_flag; eauto. Qed.

(** A run of the battery is one of the sequences. *)
Lemma for_each_rule_steps (p : list (response -> result response))
  (r r' : response) :
  incl p validation_tests -> for_each (fun r test => test r) p r = Ok r' ->
  rule_steps r r'.
Proof.
  revert r. induction p as [|t p IH]; intros r Hp; simpl.
  - intros [= <-]. constructor.
  - destruct (t r) as [r1|x] eqn:E; [|discriminate]. simpl. intros H.
    apply incl_cons_inv in Hp as [Ht Hp].
    econstructor; [econstructor; eassumption | auto].
Qed.

End ServerSteps.

(** Whatever rules of the server are applied to a response, in
    whatever order and however often, the original text and the
    candidate stay as they were and [isValid] never goes from false to
    true. *)
Theorem rule_steps_lower (r r' : Server.response) :
  rule_steps r r' -> Server.lowers r r'.
Proof.
  induction 1 as [r|r r1 r2 Hstep _ IH]; [apply Server.lowers_refl|].
  eapply Server.lowers_trans; [apply rule_step_lowers, Hstep | exact IH].
Qed.

(** An invalid response is a final state: no rule changes it. *)
Theorem rule_steps_invalid (r r' : Server.response) :
  rule_steps r r' -> Server.isValid r = false -> r' = r.
Proof.
  induction 1 as [r|r r1 r2 [t ra rb Ht Hr] _ IH]; intros E; [reflexivity|].
  destruct (rule_wrote_flag t ra rb Ht Hr) as [->|(E' & _)]; [auto | congruence].
Qed.

(** ** The batch rules *)

Section BatchOrder.
Import Batch.
Variables id_hours_dict c : dict string.

(** The rule [t] raises by a test of the candidates and lowers the flags
    by a test of the record. *)
Definition lowering
  (t : dict string -> dict string -> dict bool -> result (dict bool)) : Prop :=
  exists (g : bool) (P : string -> string -> bool),
    forall iv, ready c iv ->
      t id_hours_dict c iv = if g then Ok (lower P c iv) else Raise IndexError.

Lemma validation_tests_lowering : Forall lowering validation_tests.
Proof.
  unfold validation_tests. repeat apply Forall_cons; try apply Forall_nil.
  - eexists _, _. intros iv. apply test_day_of_month_formatting_batch_eq.
  - eexists _, _. intros iv. apply test_week_of_month_formatting_batch_eq.
  - eexists _, _. intros iv. apply test_weekly_formatting_batch_eq.
  - eexists _, _. intros iv. apply test_valid_hour_types_batch_eq.
  - exists true. eexists. intros iv. apply test_valid_day_of_week_batch_eq.
  - eexists _, _. intros iv. apply test_valid_open_closed_hours_batch_eq.
  - exists true. eexists. intros iv.
    apply test_close_hour_greater_than_open_hour_batch_eq.
  - eexists _, _. intros iv. apply test_all_null_values_empty_string_batch_eq.
  - exists true. eexists. intros iv. apply test_valid_entry_format_batch_eq.
Qed.

Lemma lower_comm (P Q : string -> string -> bool) (iv : dict bool) :
  lower Q c (lower P c iv) = lower P c (lower Q c iv).
Proof. rewrite !lower_lower. apply lower_ext. intros; apply andb_comm. Qed.

Lemma lowering_commute (iv : dict bool)
  (x y : dict string -> dict string -> dict bool -> result (dict bool)) :
  lowering x -> lowering y -> ready c iv ->
  (iv' <- x id_hours_dict c iv ;; y id_hours_dict c iv')
  = (iv' <- y id_hours_dict c iv ;; x id_hours_dict c iv').
Proof.
  intros (gx & P & Hx) (gy & Q & Hy) Hr. rewrite Hx, Hy by exact Hr.
  destruct gx, gy; simpl; rewrite ?Hx, ?Hy by (apply ready_lower; exact Hr);
    try reflexivity.
  f_equal. symmetry. apply lower_comm.
Qed.

Lemma lowering_preserved (iv : dict bool)
  (x : dict string -> dict string -> dict bool -> result (dict bool))
  (iv' : dict bool) :
  lowering x -> ready c iv -> x id_hours_dict c iv = Ok iv' -> ready c iv'.
Proof.
  intros (g & P & Hx) Hr. rewrite Hx by exact Hr.
  destruct g; [|discriminate]. intros [= <-]. apply ready_lower. exact Hr.
Qed.

End BatchOrder.

(** C16. The nine rules of the batch script give the result of
    [run_validation_tests], the flags or the [IndexError], in whatever
    order they are run. *)
Theorem battery_any_order
  (p : list (dict string -> dict string -> dict bool -> result (dict bool)))
  (id_hours_dict c : dict string) (iv : dict bool) :
  Permutation p Batch.validation_tests -> Batch.ready c iv ->
  for_each (fun is_valid_dict test => test id_hours_dict c is_valid_dict) p iv
  = Batch.run_validation_tests id_hours_dict c iv.
Proof.
  intros Hp Hr. unfold Batch.run_validation_tests.
  apply (for_each_Permutation _ (lowering id_hours_dict c) (Batch.ready c)
           (lowering_commute id_hours_dict c) (lowering_preserved id_hours_dict c)
           _ _ _ Hp); [|exact Hr].
  eapply Permutation_Forall; [symmetry; exact Hp | apply validation_tests_lowering].
Qed.

(** ** Runs *)

(** The server's list with the rule on opening and closing times moved to
    the front. *)
Definition times_first : list (Server.response -> result Server.response) :=
  Server.test_valid_open_closed_hours
  :: [Server.test_day_of_month_formatting;
      Server.test_week_of_month_formatting;
      Server.test_weekly_formatting;
      Server.test_valid_hour_types;
      Server.test_valid_day_of_week]
  ++ [Server.test_close_hour_greater_than_open_hour;
      Server.test_all_null_values_empty_string;
      Server.test_valid_entry_format;
      Server.test_call_for_information_formatting].

Lemma times_first_Permutation : Permutation times_first Server.validation_tests.
Proof. apply Permutation_middle. Qed.

(** On a candidate of one field the order shows: the source's order
    returns the response with [isValid] false, and with the rule on times
    first the run raises. *)
Example order_matters_on_a_narrow_entry :
  Server.run_validation_tests narrow = Ok (Server.set_isValid narrow false) /\
  for_each (fun r test => test r) times_first narrow = Raise IndexError.
Proof. split; vm_compute; reflexivity. Qed.

Lemma run_validation_tests_any_order_witness :
  for_each (fun r test => test r) times_first scenario_A
  = Server.run_validation_tests scenario_A.
Proof.
  apply (run_validation_tests_any_order times_first scenario_A).
  - exact times_first_Permutation.
  - unfold Server.wide. vm_compute. repeat constructor.
Defined.

Lemma battery_any_order_witness :
  for_each (fun is_valid_dict test => test sample_ids sample_cleaned is_valid_dict)
    (rev Batch.validation_tests) (Batch.all_valid sample_ids)
  = Batch.run_validation_tests sample_ids sample_cleaned (Batch.all_valid sample_ids).
Proof.
  apply (battery_any_order (rev Batch.validation_tests)).
  - symmetry. apply Permutation_rev.
  - exact sample_ready.
Defined.

(** The weekday rule and then the rule on hour types, on the candidate
    with an unknown weekday: a sequence that is not the battery. *)
Example two_rules_run :
  rule_steps bad_weekday bad_weekday.
Proof.
  apply (for_each_rule_steps
           [Server.test_valid_day_of_week; Server.test_valid_hour_types]).
  - intros t [<-|[<-|[]]]; simpl; auto 10.
  - vm_compute. reflexivity.
Qed.

Lemma rule_steps_lower_witness :
  Server.lowers scenario_B (Server.set_isValid scenario_B false).
Proof.
  apply rule_steps_lower.
  apply (for_each_rule_steps Server.validation_tests);
    [apply incl_refl | vm_compute; reflexivity].
Defined.
