(* ===== verification/RecordOrder.v ===== *)
(** * RecordOrder: the batch rules do not see the order of insertion

    The rules of [clean_hours.py] visit the records in the order of
    [cleaned_hours_dict.items()] and assign the flags in place, keeping
    the order of [is_valid_dict].  This file shows that the order is not
    part of the result: dictionaries that are equal as Python
    dictionaries, whatever the order in which their keys were inserted,
    get equal dictionaries of flags, or the same exception. *)

From stdpp Require Import base option list fin_maps gmap strings.
From Stdlib Require Import String List Bool Arith.
From S2P Require Import Prelude.
From S2P Require Import PyDict.
From S2P Require Import DictMap.
From S2P Require Import CleanHours.
Import ListNotations.
Local Open Scope string_scope.

Section RecordOrder.
Implicit Types (c : dict string) (iv : dict bool).

(** The test that decides whether a rule raises reads every record. *)
Lemma guard_equiv (g : string → bool) c c' :
  dict_wf c → dict_wf c' → c ≡ c' → Batch.guard g c = Batch.guard g c'.
Proof. apply forallb_dict_equiv. Qed.

#[export] Instance lower_proper (P : string → string → bool) :
  Proper ((≡) ==> (≡) ==> (≡)) (Batch.lower P).
Proof. unfold Batch.lower. solve_proper. Qed.

Lemma ready_wf c iv : Batch.ready c iv → dict_wf c.
Proof. by intros [? _]. Qed.

End RecordOrder.

(** C17. The batch rules return equal dictionaries of flags, or raise the
    same exception, on dictionaries that are equal as Python dictionaries:
    the order in which the records and the flags were inserted is not
    part of the result. *)
Theorem battery_respects_equality (id_hours_dict c c' : dict string)
  (iv iv' : dict bool) :
  Batch.ready c iv → Batch.ready c' iv' → c ≡ c' → iv ≡ iv' →
  Batch.run_validation_tests id_hours_dict c iv
  ≡ Batch.run_validation_tests id_hours_dict c' iv'.
Proof.
  intros Hr Hr' Hc Hiv. rewrite !Batch.run_validation_tests_batch_eq by done.
  rewrite !(guard_equiv _ c c') by eauto using ready_wf.
  destruct (_ && _); [|done].
  unfold equiv, result_equiv. by rewrite Hc, Hiv.
Qed.

(** ** Runs *)

Example flags_in_reverse_order :
  Batch.run_validation_tests sample_ids (rev sample_cleaned)
    (rev (Batch.all_valid sample_ids))
  = Ok (rev sample_flags).
Proof. vm_compute. reflexivity. Qed.

Lemma battery_respects_equality_witness :
  Batch.run_validation_tests sample_ids sample_cleaned (Batch.all_valid sample_ids)
  ≡ Batch.run_validation_tests sample_ids (rev sample_cleaned)
      (rev (Batch.all_valid sample_ids)).
Proof.
  apply battery_respects_equality.
  - exact sample_ready.
  - apply Batch.readyb_ready. vm_compute. reflexivity.
  - apply dict_equiv_Permutation; [vm_compute; repeat constructor; simpl; intuition discriminate..|].
    apply Permutation_rev.
  - apply dict_equiv_Permutation; [vm_compute; repeat constructor; simpl; intuition discriminate..|].
    apply Permutation_rev.
Defined.
