(* ===== verification/Agreement.v ===== *)
(** * Agreement: where the two pipelines give the same verdict

    [src/normalizeHours.py] and [src/clean_hours.py] validate the same
    wire form with two copies of the rules that have drifted apart: the
    server accepts no monthly entry and lets an entry without a day
    through when it is a call for information; the script knows no call
    for information, wants a weekday and two times in every entry, and
    checks the ordinal of a monthly entry against the original text.

    This file states what is left in common.  On a candidate whose
    entries all name a weekday and none of which is monthly, the server
    and the script give the same verdict ([verdicts_agree]); a candidate
    on which the script raises is one the server rejects
    ([batch_raises_server_rejects]). *)

From Stdlib Require Import String Ascii List Bool Arith Lia Btauto.
From S2P Require Import Prelude.
From S2P Require Import PyString.
From S2P Require Import PyDict.
From S2P Require Import Regex.
From S2P Require Import TimeFormat.
From S2P Require Import Entry.
From S2P Require Import Generator.
From S2P Require Import NormalizeHours.
From S2P Require Import CleanHours.
Import ListNotations.
Local Open Scope string_scope.
Local Open Scope py_scope.

Module Agreement.

(** The response the server builds for a candidate, before the rules. *)
Definition as_response (original candidate : string) : Server.response :=
  {| Server.base := original; Server.formatted := candidate; Server.isValid := true |}.

(** No entry of the candidate is of a monthly type. *)
Definition no_monthly (candidate : string) : bool :=
  forallb (Server.not_monthly "Day of Month") (Batch.entries candidate)
  && forallb (Server.not_monthly "Week of Month") (Batch.entries candidate).

(** Every entry of the candidate names a weekday. *)
Definition all_weekdays (candidate : string) : bool :=
  forallb Server.weekday_ok (Batch.entries candidate).

(** The rules of the server that look at one entry alone, and those of
    the script. *)
Definition server_entry (e : string) : bool :=
  Server.not_monthly "Day of Month" e && Server.not_monthly "Week of Month" e
  && Server.weekly_ok e && Server.hour_types_ok e && Server.open_closed_ok e
  && Server.close_after_open_ok e && null_values_ok e
  && Server.call_for_information_ok e.

Definition batch_entry (id_hours_dict : dict string) (key e : string) : bool :=
  Batch.day_of_month_ok id_hours_dict key e
  && Batch.week_of_month_ok id_hours_dict key e
  && Batch.weekly_ok e && Batch.hour_types_ok e && Batch.weekday_ok e
  && Batch.times_ok e && Batch.close_after_open_ok e && null_values_ok e.

(** ** One entry *)

(** An entry that has field 10 has the ten before it. *)
Lemma fields_upto_10 (f : list string) (v10 : string) :
  nth_error f 10 = Some v10 ->
  exists v0 v1 v2 v3 v4 v5 v6 v7 v8 v9 rest,
    f = (v0 :: v1 :: v2 :: v3 :: v4 :: v5 :: v6 :: v7 :: v8 :: v9 :: v10 :: rest)%list.
Proof.
  intros H. do 10 (destruct f as [|? f]; [discriminate|]).
  destruct f as [|? f]; [discriminate|]. injection H as ->. repeat eexists.
Qed.

(** The hour types of the server, one by one. *)
Lemma server_hour_types (v : string) :
  in_list v Server.HOUR_TYPES = true ->
  v = "Weekly" \/ v = "Every Other Week" \/ v = "Day of Month"
  \/ v = "Week of Month" \/ v = "Call for Information".
Proof.
  unfold in_list. rewrite existsb_exists. intros (x & Hin & E).
  apply String.eqb_eq in E. subst x. simpl in Hin. intuition auto.
Qed.

(** A type that the server does not know, the script does not know. *)
Lemma batch_hour_types (v : string) :
  in_list v Server.HOUR_TYPES = false -> in_list v Batch.HOUR_TYPES = false.
Proof.
  unfold in_list. simpl. intros H.
  repeat (apply orb_false_elim in H as [-> H]). reflexivity.
Qed.

(** A time that [strptime] reads is not the empty text, so the server's
    [time_or_empty] asks of it what the script asks. *)
Lemma time_or_empty_read (v : string) (t : nat * nat) :
  strptime_HM v = Ok t -> Server.time_or_empty v = is_time v.
Proof.
  intros H. unfold Server.time_or_empty.
  destruct v; [discriminate | simpl; apply orb_false_r].
Qed.

(** A weekday is not the empty text. *)
Lemma weekday_not_empty (v : string) :
  in_list v Server.DAYS_OF_WEEK = true -> (v =? "") = false.
Proof. destruct v; [discriminate | reflexivity]. Qed.

(** The rules on the times, for an entry that is no call for
    information. *)
Lemma times_agree (v1 v2 : string) :
  Server.time_or_empty v1 && Server.time_or_empty v2
  && match strptime_HM v2, strptime_HM v1 with
     | Ok close, Ok open => datetime_gt close open
     | _, _ => false
     end
  = is_time v1 && is_time v2
    && except_all (close <- strptime_HM v2 ;; open <- strptime_HM v1 ;;
                   Ok (datetime_gt close open)) false.
Proof.
  destruct (strptime_HM v2) as [c|] eqn:E2; simpl; [|btauto].
  destruct (strptime_HM v1) as [o|] eqn:E1; simpl; [|btauto].
  rewrite (time_or_empty_read _ _ E1), (time_or_empty_read _ _ E2).
  reflexivity.
Qed.

(** An empty ordinal passes the cross-check with the original text. *)
Lemma ordinal_ok_empty (id_hours_dict : dict string) (key : string) :
  Batch.ordinal_ok id_hours_dict key "" = true.
Proof. reflexivity. Qed.

(** The case of an entry of a weekly type: the ordinals are empty or
    both sides fail, the times are read or both sides fail. *)
Ltac weekly_case v1 v2 v8 v9 :=
  let E1 := fresh "E" in
  let E2 := fresh "E" in
  destruct (strptime_HM v2) eqn:E2; destruct (strptime_HM v1) eqn:E1;
  cbn [rbind except_all];
  rewrite ?(time_or_empty_read _ _ E1), ?(time_or_empty_read _ _ E2);
  destruct v8, v9; cbn; rewrite ?ordinal_ok_empty; btauto.

Section Entry.
Variables (id_hours_dict : dict string) (key : string).

(** On an entry that names a weekday and is of no monthly type, the
    rules of the server and those of the script have the same outcome. *)
Lemma entry_agree (e : string) :
  server_entry e && Server.weekday_ok e
  = batch_entry id_hours_dict key e
    && (Server.not_monthly "Day of Month" e && Server.not_monthly "Week of Month" e).
Proof.
  unfold server_entry, batch_entry.
  generalize (null_values_ok e). intros nv.
  unfold Server.not_monthly, Server.weekly_ok, Server.hour_types_ok,
    Server.open_closed_ok, Server.close_after_open_ok, Server.times_ok,
    Server.call_for_information_ok, Server.weekday_ok, Server.hour_type_is,
    Batch.day_of_month_ok, Batch.week_of_month_ok, Batch.monthly_ok,
    Batch.weekly_ok, Batch.hour_types_ok, Batch.weekday_ok, Batch.times_ok,
    Batch.close_after_open_ok.
  destruct (nth_error (fields e) 10) as [v10|] eqn:E10;
    [|unfold field_is; rewrite E10; simpl; btauto].
  destruct (fields_upto_10 _ _ E10)
    as (v0 & v1 & v2 & v3 & v4 & v5 & v6 & v7 & v8 & v9 & rest & ->).
  cbn [field_is nth_error list_get rbind].
  change Batch.DAYS_OF_WEEK with Server.DAYS_OF_WEEK.
  destruct (in_list v10 Server.HOUR_TYPES) eqn:Hty.
  - apply server_hour_types in Hty as [-> | [-> | [-> | [-> | ->]]]];
      cbn -[in_list strptime_HM is_time Batch.ordinal_ok Server.DAYS_OF_WEEK].
    + weekly_case v1 v2 v8 v9.
    + weekly_case v1 v2 v8 v9.
    + btauto.
    + btauto.
    + destruct v0; cbn; btauto.
  - rewrite (batch_hour_types _ Hty). btauto.
Qed.

End Entry.

(** An entry whose reserved fields are there and empty is one the null
    rule of the script reads to its end. *)
Lemma null_values_reads (e : string) :
  null_values_ok e = true -> Batch.null_reads_ok e = true.
Proof.
  unfold null_values_ok, Batch.null_reads_ok.
  cbn [forallb Batch.chain_reads_ok]. unfold field_is, is_empty. intros H.
  repeat (apply andb_true_iff in H as [H1 H];
          destruct (nth_error (fields e) _) as [v|]; [|discriminate];
          rewrite H1; clear H1 v).
  reflexivity.
Qed.

(** ** One candidate *)

Section Candidate.
Variables (id_hours_dict : dict string) (key original candidate : string).

Let l := Batch.entries candidate.

(** When every entry names a weekday the weekday rule of the server,
    which remembers only the last entry, passes. *)
Lemma day_of_week_all :
  all_weekdays candidate = true ->
  fold_left Server.day_of_week_next l true = true.
Proof.
  intros H. apply Server.day_of_week_intended. unfold all_weekdays in H.
  rewrite forallb_forall in *. intros e He. rewrite (H e He). reflexivity.
Qed.

Lemma server_by_entry :
  Server.all_checks (as_response original candidate) && all_weekdays candidate
  = forallb (fun e => server_entry e && Server.weekday_ok e) l
    && entry_format_ok candidate.
Proof.
  unfold Server.all_checks, server_entry. rewrite !forallb_andb.
  change (Server.entries (as_response original candidate)) with l.
  change (Server.formatted (as_response original candidate)) with candidate.
  pose proof day_of_week_all as Hd. unfold all_weekdays in *. fold l in Hd |- *.
  destruct (forallb Server.weekday_ok l); [rewrite Hd by reflexivity|]; btauto.
Qed.

Lemma batch_by_entry :
  Batch.all_checks id_hours_dict key candidate && no_monthly candidate
  = forallb (fun e => batch_entry id_hours_dict key e
                      && (Server.not_monthly "Day of Month" e
                          && Server.not_monthly "Week of Month" e)) l
    && entry_format_ok candidate.
Proof.
  unfold Batch.all_checks, batch_entry, no_monthly. rewrite !forallb_andb.
  fold l. btauto.
Qed.

(** The conjunction of the ten rules of the server and that of the nine
    rules of the script differ by the two conditions only. *)
Lemma all_checks_agree :
  Server.all_checks (as_response original candidate) && all_weekdays candidate
  = Batch.all_checks id_hours_dict key candidate && no_monthly candidate.
Proof.
  rewrite server_by_entry, batch_by_entry. f_equal.
  apply forallb_ext_in. intros e _. apply entry_agree.
Qed.

End Candidate.

(** ** Candidates the server rejects *)

Section Rejected.
Variables (original candidate e : string).
Hypothesis He : In e (Batch.entries candidate).

(** An entry without its hour type fails the first rule of the server. *)
Lemma narrow_rejected :
  Batch.wide11 e = false ->
  Server.all_checks (as_response original candidate) = false.
Proof.
  intros Hw. unfold Server.all_checks.
  change (Server.entries (as_response original candidate))
    with (Batch.entries candidate).
  rewrite (forallb_false_in (Server.not_monthly "Day of Month") _ e He);
    [reflexivity|].
  unfold Server.not_monthly, field_is.
  destruct (nth_error (fields e) 10) eqn:E; [|reflexivity].
  assert (10 < length (fields e)) by (apply nth_error_Some; congruence).
  unfold Batch.wide11 in Hw. apply Nat.leb_gt in Hw. lia.
Qed.

(** An entry that ends inside its reserved fields fails the null rule
    of the server. *)
Lemma unread_rejected :
  Batch.null_reads_ok e = false ->
  Server.all_checks (as_response original candidate) = false.
Proof.
  intros Hn. unfold Server.all_checks.
  change (Server.entries (as_response original candidate))
    with (Batch.entries candidate).
  rewrite (forallb_false_in null_values_ok _ e He); [btauto|].
  destruct (null_values_ok e) eqn:E; [|reflexivity].
  apply null_values_reads in E. congruence.
Qed.

End Rejected.

(** ** The two verdicts *)

(** C18. The verdicts of the two pipelines on a candidate differ by two
    conditions only: the script accepts the candidate and none of its
    entries is monthly exactly when the server accepts it and every
    entry names a weekday. *)
Theorem verdicts_agree (id_hours_dict c : dict string) (iv iv' : dict bool)
  (k v original : string) (r' : Server.response) :
  Batch.ready c iv -> In (k, v) c -> dict_get iv k = Ok true ->
  Batch.run_validation_tests id_hours_dict c iv = Ok iv' ->
  Server.run_validation_tests (as_response original v) = Ok r' ->
  (dict_get iv' k = Ok true /\ no_monthly v = true)
  <-> (Server.isValid r' = true /\ all_weekdays v = true).
Proof.
  intros Hr Hin Hk Hb Hs.
  rewrite Batch.run_validation_tests_batch_eq in Hb by exact Hr.
  destruct (Batch.guard Batch.wide11 c && Batch.guard Batch.null_reads_ok c);
    [|discriminate].
  injection Hb as <-. rewrite Server.run_validation_tests_eq in Hs.
  injection Hs as <-.
  rewrite (Batch.dict_get_lower _ c iv k v (proj1 Hr) Hin), Hk. cbn.
  pose proof (all_checks_agree id_hours_dict k original v) as H.
  destruct (Server.all_checks _), (all_weekdays v), (Batch.all_checks _ _ _),
    (no_monthly v); simpl in H; try discriminate; intuition congruence.
Qed.

(** When the rules of the script raise, on an entry that is too
    short, the dictionary holds a candidate that the server rejects
    without raising. *)
Theorem batch_raises_server_rejects (id_hours_dict c : dict string)
  (iv : dict bool) (x : exn) :
  Batch.ready c iv -> Batch.run_validation_tests id_hours_dict c iv = Raise x ->
  exists k v,
    In (k, v) c /\
    forall original,
      Server.run_validation_tests (as_response original v)
      = Ok (Server.set_isValid (as_response original v) false).
Proof.
  intros Hr Hb. rewrite Batch.run_validation_tests_batch_eq in Hb by exact Hr.
  destruct (Batch.guard Batch.wide11 c && Batch.guard Batch.null_reads_ok c) eqn:G;
    [discriminate|].
  apply andb_false_iff in G as [G|G];
    apply Batch.guard_false_ex in G as (k & v & e & Hkv & He & Hg);
    exists k, v; (split; [exact Hkv|]); intros original;
    rewrite Server.run_validation_tests_eq; unfold Server.gate; cbn [Server.isValid as_response].
  - rewrite (narrow_rejected original v e He Hg). reflexivity.
  - rewrite (unread_rejected original v e He Hg). reflexivity.
Qed.

End Agreement.

Import Agreement.

(** ** Where the verdicts differ *)

(** A monthly candidate whose ordinal is in the original text: the
    script accepts it, the server does not. *)
Example monthly_candidate :
  Batch.run_validation_tests [("a", "First Monday 9-10")]
    [("a", "Monday,9:00,10:00,,,,,,,1,Day of Month,,,")] [("a", true)]
  = Ok [("a", true)] /\
  rmap Server.isValid
    (Server.run_validation_tests
       (as_response "First Monday 9-10" "Monday,9:00,10:00,,,,,,,1,Day of Month,,,"))
  = Ok false.
Proof. split; vm_compute; reflexivity. Qed.

(** A call for information: the server accepts it, the script does
    not. *)
Example information_candidate :
  Batch.run_validation_tests [("a", "Call us")]
    [("a", ",,,,,,,Call us,,,Call for Information,,,")] [("a", true)]
  = Ok [("a", false)] /\
  rmap Server.isValid
    (Server.run_validation_tests
       (as_response "Call us" ",,,,,,,Call us,,,Call for Information,,,"))
  = Ok true.
Proof. split; vm_compute; reflexivity. Qed.

Lemma verdicts_agree_witness :
  (dict_get [("a", true)] "a" = Ok true
   /\ no_monthly "Monday,15:00,17:00,,,,,,,,Weekly,,," = true)
  <-> (Server.isValid (as_response "Mondays 3-5" "Monday,15:00,17:00,,,,,,,,Weekly,,,")
       = true
       /\ all_weekdays "Monday,15:00,17:00,,,,,,,,Weekly,,," = true).
Proof.
  apply (verdicts_agree [("a", "Mondays 3-5")]
           [("a", "Monday,15:00,17:00,,,,,,,,Weekly,,,")] [("a", true)]
           [("a", true)] "a" "Monday,15:00,17:00,,,,,,,,Weekly,,," "Mondays 3-5").
  - apply Batch.readyb_ready. vm_compute. reflexivity.
  - left. reflexivity.
  - reflexivity.
  - vm_compute. reflexivity.
  - vm_compute. reflexivity.
Defined.

Lemma batch_raises_server_rejects_witness :
  exists k v,
    In (k, v) [("a", "Monday,15:00,17:00")] /\
    forall original,
      Server.run_validation_tests (as_response original v)
      = Ok (Server.set_isValid (as_response original v) false).
Proof.
  apply (batch_raises_server_rejects [("a", "Mondays 3-5")]
           [("a", "Monday,15:00,17:00")] [("a", true)] IndexError).
  - apply Batch.readyb_ready. vm_compute. reflexivity.
  - vm_compute. reflexivity.
Defined.
