(* ===== verification/Stateless.v ===== *)
(** * Stateless: the pipelines as functions of their input

    The design notes of the repository ask that the generation service
    be seen as a function from a text to a reply.  For such a service
    ([answers reply]) the two pipelines are functions too, and this file
    gives them in closed form:

    - the response of [normalize_input_string] is [normalized case]: the
      replies to the preprocessed clauses, corrected by
      [postprocess_string] and joined, with the verdict of the ten
      rules;
    - the table of the batch script is, identifier by identifier, the
      group of rows [row_group], which depends on the text of the
      record, on its row and on nothing else of the table: the work on a
      record is independent of the other records. *)

From Stdlib Require Import String Ascii List Bool Arith Lia.
From S2P Require Import Prelude.
From S2P Require Import PyString.
From S2P Require Import PyDict.
From S2P Require Import DataFrame.
From S2P Require Import Entry.
From S2P Require Import Generator.
From S2P Require Import NormalizeHours.
From S2P Require Import CleanHours.
Import ListNotations.
Local Open Scope string_scope.
Local Open Scope py_scope.

Module Stateless.

(** ** The rules of the script on one record *)

(** The verdict of the nine rules on a candidate, given the original
    text of its record. *)
Definition accepts (original candidate : string) : bool :=
  Batch.all_checks [("", original)] "" candidate.

(** The cross-check of an ordinal reads the dictionary of the original
    texts at the key of the record only. *)
Lemma ordinal_ok_local (d : dict string) (k text v : string) :
  dict_get d k = Ok text ->
  Batch.ordinal_ok d k v = Batch.ordinal_ok [("", text)] "" v.
Proof.
  intros H. unfold Batch.ordinal_ok, Batch.ordinal_in_original.
  destruct (dict_get Batch.INT_TO_DAY_OF_MONTH v) as [words|]; [|reflexivity].
  cbn [rbind]. f_equal. f_equal.
  rewrite (any_r_total _ (fun w => str_in w text)),
          (any_r_total _ (fun w => str_in w text)); [reflexivity| |];
    intros w _; [|rewrite H]; reflexivity.
Qed.

Lemma all_checks_local (d : dict string) (k text v : string) :
  dict_get d k = Ok text -> Batch.all_checks d k v = accepts text v.
Proof.
  intros H. unfold accepts, Batch.all_checks.
  do 2 f_equal. f_equal. f_equal. f_equal. f_equal. f_equal.
  f_equal; apply forallb_ext_in; intros e _;
    unfold Batch.day_of_month_ok, Batch.week_of_month_ok, Batch.monthly_ok;
    f_equal; apply field_is_ext; intros x _; apply ordinal_ok_local, H.
Qed.

Section Service.
Context {C : Completion}.
Variable reply : string -> string.
Hypothesis Hreply : answers reply.

(** ** The server *)

(** The reply to a clause after [postprocess_string]. *)
Definition corrected (x : string) : string :=
  except_all (Server.postprocess_string (reply (Server.preprocess_string x))) "".

Definition candidate (case : string) : string :=
  str_join ";" (map corrected (str_split ";" case)).

(** The response to [case]: the candidate with the verdict of the ten
    rules. *)
Definition normalized (case : string) : Server.response :=
  let r := {| Server.base := case; Server.formatted := candidate case;
              Server.isValid := true |} in
  Server.set_isValid r (Server.all_checks r).

Lemma clause_answers (x : string) (e : env) :
  10 <= str_count "," (reply (Server.preprocess_string x)) ->
  exists e', Server.clause x e = (Ok (corrected x), e').
Proof.
  intros Hw. unfold Server.clause, Server.call_oai, corrected, io_bind, sleep,
    io_ret, io_lift.
  destruct (create_answers reply (Server.preprocess_string x) e Hreply) as (e1 & ->).
  destruct (Server.postprocess_string_wide _ Hw) as (y & ->). simpl. eauto.
Qed.

Lemma normalize_input_string_answers (case : string) (e : env) :
  (forall x, In x (str_split ";" case) ->
             10 <= str_count "," (reply (Server.preprocess_string x))) ->
  exists e', Server.normalize_input_string case e = (Ok (normalized case), e').
Proof.
  intros Hw. unfold Server.normalize_input_string, Server.format_input_string.
  destruct (io_map_answers Server.clause corrected (str_split ";" case) e)
    as (e' & E); [intros; apply clause_answers; auto|].
  unfold io_bind, io_ret, io_lift. rewrite E, Server.run_validation_tests_eq.
  exists e'. reflexivity.
Qed.

(** ** The script *)

(** The rows written for a record of text [text] whose row is [row]. *)
Definition row_group (df : DataFrame) (text : string) (row : list cell)
  : list (list cell) :=
  if accepts text (reply text)
  then map (Batch.entry_row df row) (Batch.entries (reply text))
  else [row].

(** The candidates: the reply to every text. *)
Definition replies (d : dict string) : dict string :=
  map (fun kv => (fst kv, reply (snd kv))) d.

Lemma format_hours_iteratively_answers (d : dict string) (e : env) :
  dict_wf d -> exists e', Batch.format_hours_iteratively d e = (Ok (replies d), e').
Proof.
  intros Hd. apply (io_dict_values_answers Batch.call_oai reply d e); [|exact Hd].
  intros p e0. apply create_answers, Hreply.
Qed.

Lemma replies_in (d : dict string) (k text : string) :
  In (k, text) d -> In (k, reply text) (replies d).
Proof. intros H. apply (in_map (fun kv => (fst kv, reply (snd kv))) _ _ H). Qed.

Lemma dict_keys_replies (d : dict string) : dict_keys (replies d) = dict_keys d.
Proof. unfold replies, dict_keys. rewrite map_map. reflexivity. Qed.

(** The rows of a record after the rules and the reconciliation. *)
Lemma rows_of_answers (df : DataFrame) (d : dict string) (id : cell)
  (text : string) :
  dict_wf d -> In (cell_str id, text) d ->
  Batch.rows_of (replies d)
    (Batch.lower (Batch.all_checks d) (replies d) (Batch.all_valid d)) df id
  = row_group df text (Batch.original_row df id).
Proof.
  intros Hd Hin. unfold Batch.rows_of, row_group, Batch.is_valid_of, Batch.cleaned_of.
  set (k := cell_str id) in *.
  assert (Hc : dict_wf (replies d)) by (unfold dict_wf; rewrite dict_keys_replies; exact Hd).
  rewrite (Batch.dict_get_lower _ _ _ k (reply text) Hc (replies_in d k text Hin)).
  rewrite (dict_get_wf _ _ _ Hc (replies_in d k text Hin)).
  rewrite (Batch.all_valid_eq d Hd).
  rewrite (dict_get_wf (map (fun kv => (fst kv, true)) d) k true).
  - cbn [rbind except_all andb].
    rewrite (all_checks_local d k text _ (dict_get_wf _ _ _ Hd Hin)). reflexivity.
  - unfold dict_wf, dict_keys. rewrite map_map. exact Hd.
  - apply (in_map (fun kv => (fst kv, true)) _ _ Hin).
Qed.

(** The text of a record. *)
Definition text_of (d : dict string) (id : string) : string :=
  except_all (dict_get d id) "".

(** The table the script writes. *)
Definition cleaned_table (df : DataFrame) (d : dict string) (ids : list cell)
  : DataFrame :=
  {| columns := columns df;
     values := flat_map (fun id => row_group df (text_of d (cell_str id))
                                    (Batch.original_row df id)) ids |}.

Lemma replies_readable (d : dict string) :
  (forall k text, In (k, text) d -> Batch.readable (reply text) = true) ->
  Forall (fun kv => Batch.readable (snd kv) = true) (replies d).
Proof.
  intros H. apply Forall_forall. intros kv Hin.
  apply in_map_iff in Hin as ([k text] & <- & Hin). exact (H k text Hin).
Qed.

Lemma main_answers (file : string) (df : DataFrame) (d : dict string)
  (ids : list cell) (e : env) :
  df_wf df -> 15 <= length (columns df) ->
  Batch.create_id_hours_dict df = Ok d ->
  df_column df "Program External ID" = Ok ids -> forallb present ids = true ->
  (forall k text, In (k, text) d -> Batch.readable (reply text) = true) ->
  exists e', Batch.main file df e = (Ok (cleaned_table df d ids), e').
Proof.
  intros Hwf Hw Hd Hids Hp Hread.
  destruct (Batch.create_id_hours_dict_keys df d ids Hd Hids) as (Hwd & Hin).
  destruct (format_hours_iteratively_answers d e Hwd) as (e1 & Hc).
  rewrite (Batch.main_unfold file df e e1 d (replies d) Hd Hc).
  pose proof (Batch.main_ready d (replies d) Hwd (dict_keys_replies d)) as Hr.
  destruct (Batch.guard_readable _ (replies_readable d Hread)) as (G1 & G2).
  rewrite Batch.run_validation_tests_batch_eq, G1, G2 by exact Hr. cbn [andb].
  rewrite (Batch.convert_id_hours_dict_to_df_eq (replies d) _ df ids), Hp;
    try assumption.
  - eexists. f_equal. f_equal. unfold cleaned_table. f_equal.
    apply flat_map_ext_in. intros id Hid.
    destruct (dict_get_in d _ (Hin id Hid)) as (text & Ht).
    unfold text_of. rewrite Ht. apply rows_of_answers; [exact Hwd|].
    apply dict_get_ok, Ht.
  - intros id Hi. rewrite Batch.dict_keys_lower, Batch.dict_keys_all_valid by exact Hwd.
    auto.
  - intros id Hi _. rewrite dict_keys_replies. auto.
Qed.

(** For a service that is a function of the prompt, the response of
    the server is a function of the input: the replies to the
    preprocessed clauses, corrected and joined, with the verdict of the
    ten rules on them. *)
Theorem normalize_input_string_stateless (case : string) (e : env) :
  (forall x, In x (str_split ";" case) ->
             10 <= str_count "," (reply (Server.preprocess_string x))) ->
  exists e', Server.normalize_input_string case e = (Ok (normalized case), e').
Proof. apply normalize_input_string_answers. Qed.

(** For a service that is a function of the prompt, the table the
    script writes on a table without missing identifier is a function of
    the input table: identifier by identifier, the rows of the entries of
    the reply to the text of the record when the nine rules accept it,
    and the row of the record otherwise.  The rows of a record depend on
    its text and its row alone. *)
Theorem main_stateless (file : string) (df : DataFrame) (d : dict string)
  (ids : list cell) (e : env) :
  df_wf df -> 15 <= length (columns df) ->
  Batch.create_id_hours_dict df = Ok d ->
  df_column df "Program External ID" = Ok ids -> forallb present ids = true ->
  (forall k text, In (k, text) d -> Batch.readable (reply text) = true) ->
  exists e', Batch.main file df e = (Ok (cleaned_table df d ids), e').
Proof. apply main_answers. Qed.

(** ** The script, row by row *)

(** What the script writes for one row of a table of distinct
    identifiers: the rows of the record of the row. *)
Definition row_out (df : DataFrame) (row : list cell) : list (list cell) :=
  row_group df (snd (Batch.record_of df row)) row.

(** It depends on the columns of the table and not on its other rows. *)
Lemma row_out_columns (df df' : DataFrame) (row : list cell) :
  columns df = columns df' -> row_out df row = row_out df' row.
Proof.
  intros H. unfold row_out, row_group, Batch.record_of, row_get, Batch.entry_row.
  rewrite H. reflexivity.
Qed.

Section Rowwise.
Variables (df : DataFrame) (ids : list cell).
Hypothesis Hwf : df_wf df.
Hypothesis Hh : In "Hours Uncleaned" (columns df).
Hypothesis Hids : df_column df "Program External ID" = Ok ids.
Hypothesis Hn : NoDup ids.
Hypothesis Hp : forallb present ids = true.

(** With distinct identifiers, the rows written for the identifier of a
    row are those of the row. *)
Lemma row_group_of_row (row : list cell) (id : cell) :
  In row (values df) ->
  Batch.record_of df row = (cell_str id, snd (Batch.record_of df row)) ->
  Batch.original_row df id = row ->
  row_group df (text_of (map (Batch.record_of df) (values df)) (cell_str id))
    (Batch.original_row df id)
  = row_out df row.
Proof.
  intros Hrow Hk ->. unfold row_out, text_of.
  rewrite (dict_get_wf _ (cell_str id) (snd (Batch.record_of df row))); [reflexivity| |].
  - apply (Batch.create_id_hours_dict_wf df).
    apply (Batch.create_id_hours_dict_distinct df ids); assumption.
  - rewrite <- Hk. apply in_map, Hrow.
Qed.

(** The table of the closed form, read row by row. *)
Lemma cleaned_table_rowwise :
  cleaned_table df (map (Batch.record_of df) (values df)) ids
  = {| columns := columns df; values := flat_map (row_out df) (values df) |}.
Proof.
  unfold cleaned_table. f_equal.
  pose proof (Batch.original_rows_distinct df ids Hids Hn Hp) as Ho.
  destruct (df_column_index df _ ids Hids) as (i & Hi & E). rewrite E in Ho |- *.
  rewrite map_map in Ho. rewrite flat_map_map. apply flat_map_ext_in. intros row Hrow.
  apply row_group_of_row; [exact Hrow | | exact (map_fixed_in _ _ row Ho Hrow)].
  unfold Batch.record_of. rewrite (row_get_nth df row _ i Hwf Hrow Hi). reflexivity.
Qed.

End Rowwise.

(** The table the script writes, row by row. *)
Lemma main_rows_of_rows (file : string) (df : DataFrame) (ids : list cell) (e : env) :
  df_wf df -> 15 <= length (columns df) -> In "Hours Uncleaned" (columns df) ->
  df_column df "Program External ID" = Ok ids -> NoDup ids ->
  forallb present ids = true ->
  (forall row, In row (values df) ->
               Batch.readable (reply (snd (Batch.record_of df row))) = true) ->
  exists e', Batch.main file df e
             = (Ok {| columns := columns df;
                      values := flat_map (row_out df) (values df) |}, e').
Proof.
  intros Hwf Hw Hh Hids Hn Hp Hread.
  rewrite <- (cleaned_table_rowwise df ids) by assumption.
  apply main_answers; try assumption.
  - apply (Batch.create_id_hours_dict_distinct df ids); assumption.
  - intros k text Hin. apply in_map_iff in Hin as (row & E & Hrow).
    specialize (Hread row Hrow). rewrite E in Hread. exact Hread.
Qed.

(** C19. Every row's work is independent of the other rows when the
    identifiers are distinct: for a service that is a function of the
    prompt, on a rectangular table of at least fifteen columns whose
    identifiers are distinct and none missing, the table the script
    writes is the concatenation, over the rows of the input in order, of
    [row_out], a function of the row and of the columns of the table. *)
Theorem main_rowwise (file : string) (df : DataFrame) (ids : list cell) (e : env) :
  df_wf df -> 15 <= length (columns df) -> In "Hours Uncleaned" (columns df) ->
  df_column df "Program External ID" = Ok ids -> NoDup ids ->
  forallb present ids = true ->
  (forall row, In row (values df) ->
               Batch.readable (reply (snd (Batch.record_of df row))) = true) ->
  exists e', Batch.main file df e
             = (Ok {| columns := columns df;
                      values := flat_map (row_out df) (values df) |}, e').
Proof. apply main_rows_of_rows. Qed.

End Service.

End Stateless.

Import Stateless.

(** ** A service that knows two texts *)

Definition two_texts (p : string) : string :=
  if p =? "Every Monday, from 3pm-5pm" then "Monday,15:00,17:00,,,,,,,,Weekly,,,"
  else if p =? "1st Tuesday and Wednesday 9-10"
       then "Tuesday,9:00,10:00,,,,,,,1,Day of Month,,,;"
            ++ "Wednesday,9:00,10:00,,,,,,,1,Day of Month,,,"
       else "Mursday,9:00,10:00,,,,,,,,Weekly,,,".

Definition two_texts_service : Completion := Pure (fun p => Some (two_texts p)).

Lemma two_texts_answers : @answers two_texts_service two_texts.
Proof. intros p w. exists w. reflexivity. Qed.

Lemma two_texts_wide (p : string) : 10 <= str_count "," (two_texts p).
Proof.
  unfold two_texts. destruct (p =? _); [vm_compute; lia|].
  destruct (p =? _); vm_compute; lia.
Qed.

Lemma two_texts_readable (p : string) : Batch.readable (two_texts p) = true.
Proof.
  unfold two_texts. destruct (p =? _); [reflexivity|].
  destruct (p =? _); reflexivity.
Qed.

(** The table of the stateless run is the table of the scripted run. *)
Example sample_table :
  cleaned_table two_texts sample_df sample_ids sample_id_cells = sample_out.
Proof. vm_compute. reflexivity. Qed.

Lemma normalize_input_string_stateless_witness :
  exists e',
    @Server.normalize_input_string two_texts_service "Every Monday, from 3pm-5pm"
      (@start two_texts_service tt)
    = (Ok (normalized two_texts "Every Monday, from 3pm-5pm"), e').
Proof.
  apply (@normalize_input_string_stateless two_texts_service two_texts
           two_texts_answers).
  intros x _. apply two_texts_wide.
Defined.

Lemma main_stateless_witness :
  exists e',
    @Batch.main two_texts_service "hours.csv" sample_df (@start two_texts_service tt)
    = (Ok (cleaned_table two_texts sample_df sample_ids sample_id_cells), e').
Proof.
  apply (@main_stateless two_texts_service two_texts two_texts_answers).
  - exact sample_df_wf.
  - exact sample_wide.
  - vm_compute. reflexivity.
  - vm_compute. reflexivity.
  - reflexivity.
  - intros k text _. apply two_texts_readable.
Defined.

Lemma main_rowwise_witness :
  exists e',
    @Batch.main two_texts_service "hours.csv" sample_df (@start two_texts_service tt)
    = (Ok {| columns := columns sample_df;
             values := flat_map (row_out two_texts sample_df) (values sample_df) |}, e').
Proof.
  apply (@main_rowwise two_texts_service two_texts two_texts_answers) with
    (ids := sample_id_cells).
  - exact sample_df_wf.
  - exact sample_wide.
  - vm_compute. auto 20.
  - vm_compute. reflexivity.
  - repeat constructor; simpl; intuition discriminate.
  - reflexivity.
  - intros row _. apply two_texts_readable.
Defined.

(** The rows of the second record of the sample, computed from its row
    alone. *)
Example sample_row_out :
  row_out two_texts sample_df (sample_row "ID2" "Pantry" "1st Tuesday and Wednesday 9-10")
  = [map Text
       ["ID2"; "Pantry"; "Tuesday"; "9:00"; "10:00"; ""; ""; ""; ""; ""; "";
        "1"; "Day of Month"; ""; ""; ""; ""];
     map Text
       ["ID2"; "Pantry"; "Wednesday"; "9:00"; "10:00"; ""; ""; ""; ""; ""; "";
        "1"; "Day of Month"; ""; ""; ""; ""]].
Proof. vm_compute. reflexivity. Qed.
