(* ===== verification/RuleNeeded.v ===== *)
(** * RuleNeeded: no rule of either battery follows from the others

    The rules overlap: the reserved fields are tested by the null rule
    and, for a call for information, by the rule of that type; the
    arity is tested by counting commas and, in effect, by the reads of
    the other rules.  This file shows that the overlap is partial in
    both pipelines: for every rule of [validation_tests] there is a
    candidate that the rule rejects and that the other rules, run
    without it, accept.  Removing any rule changes a verdict. *)

From Stdlib Require Import String Ascii List Bool Arith Lia.
From S2P Require Import Prelude.
From S2P Require Import PyString.
From S2P Require Import PyDict.
From S2P Require Import Entry.
From S2P Require Import NormalizeHours.
From S2P Require Import CleanHours.
Import ListNotations.
Local Open Scope string_scope.
Local Open Scope py_scope.

(** The list without its element of index [i]. *)
Definition without {A : Type} (i : nat) (l : list A) : list A :=
  (firstn i l ++ skipn (S i) l)%list.

Module ServerRules.

(** The server accepts [r] without its rule of index [i] and rejects it
    with all ten. *)
Definition only_rejected_by (i : nat) (r : Server.response) : bool :=
  match for_each (fun r test => test r) (without i Server.validation_tests) r,
        Server.run_validation_tests r with
  | Ok r1, Ok r2 => Server.isValid r1 && negb (Server.isValid r2)
  | _, _ => false
  end.

Definition candidate (formatted : string) : Server.response :=
  {| Server.base := "Mondays"; Server.formatted := formatted; Server.isValid := true |}.

(** One candidate per rule, in the order of [validation_tests]: a
    monthly entry of each kind, a weekly entry with an ordinal, an
    unknown type, an unknown weekday, a time of one-digit minutes, a
    closing time before the opening one, a reserved field that is not
    empty, a fifteenth field, a call for information with a day. *)
Definition candidates : list Server.response :=
  map candidate
    ["Monday,9:00,10:00,,,,,,,1,Day of Month,,,";
     "Monday,9:00,10:00,,,,,,1,,Week of Month,,,";
     "Monday,9:00,10:00,,,,,,1,,Weekly,,,";
     "Monday,9:00,10:00,,,,,,,,Sometimes,,,";
     "Mursday,9:00,10:00,,,,,,,,Weekly,,,";
     "Monday,9:5,10:00,,,,,,,,Weekly,,,";
     "Monday,14:00,13:00,,,,,,,,Weekly,,,";
     "Monday,9:00,10:00,x,,,,,,,Weekly,,,";
     "Monday,9:00,10:00,,,,,,,,Weekly,,,,";
     "Monday,9:00,10:00,,,,,,,,Call for Information,,,"].

Lemma server_candidates_only_rejected :
  forallb (fun i => only_rejected_by i (nth i candidates (candidate "")))
          (seq 0 (length Server.validation_tests)) = true.
Proof. vm_compute. reflexivity. Qed.

End ServerRules.

Module BatchRules.

(** The same for the script, on the record [a] of a dictionary of one
    record. *)
Definition only_rejected_by (i : nat) (original candidate : string) : bool :=
  match for_each (fun is_valid_dict test =>
                    test [("a", original)] [("a", candidate)] is_valid_dict)
                 (without i Batch.validation_tests) [("a", true)],
        Batch.run_validation_tests [("a", original)] [("a", candidate)] [("a", true)]
  with
  | Ok iv1, Ok iv2 =>
      except_all (dict_get iv1 "a") false && negb (except_all (dict_get iv2 "a") true)
  | _, _ => false
  end.

(** One record per rule, in the order of [validation_tests]: an ordinal
    that the original text does not have, of each kind; a weekly entry
    with an ordinal that the text has; then as for the server. *)
Definition candidates : list (string * string) :=
  [("Mondays", "Monday,9:00,10:00,,,,,,,1,Day of Month,,,");
   ("Mondays", "Monday,9:00,10:00,,,,,,1,,Week of Month,,,");
   ("1st Monday", "Monday,9:00,10:00,,,,,,1,,Weekly,,,");
   ("Mondays", "Monday,9:00,10:00,,,,,,,,Sometimes,,,");
   ("Mondays", "Mursday,9:00,10:00,,,,,,,,Weekly,,,");
   ("Mondays", "Monday,9:5,10:00,,,,,,,,Weekly,,,");
   ("Mondays", "Monday,14:00,13:00,,,,,,,,Weekly,,,");
   ("Mondays", "Monday,9:00,10:00,x,,,,,,,Weekly,,,");
   ("Mondays", "Monday,9:00,10:00,,,,,,,,Weekly,,,,")].

Lemma batch_candidates_only_rejected :
  forallb (fun i => let c := nth i candidates ("", "") in
                    only_rejected_by i (fst c) (snd c))
          (seq 0 (length Batch.validation_tests)) = true.
Proof. vm_compute. reflexivity. Qed.

End BatchRules.

(** Reading a check over [seq 0 n] at an index below [n]. *)
Lemma forallb_seq (f : nat -> bool) (n i : nat) :
  forallb f (seq 0 n) = true -> i < n -> f i = true.
Proof.
  intros H Hi. rewrite forallb_forall in H. apply H, in_seq. lia.
Qed.

(** C35. No rule of the server follows from the other nine: for every
    rule there is a response that the battery rejects and that the
    battery without the rule accepts. *)
Theorem every_server_rule_needed (i : nat) :
  i < length Server.validation_tests ->
  exists r, ServerRules.only_rejected_by i r = true.
Proof.
  intros Hi. exists (nth i ServerRules.candidates (ServerRules.candidate "")).
  exact (forallb_seq _ _ i ServerRules.server_candidates_only_rejected Hi).
Qed.

(** No rule of the script follows from the other eight. *)
Theorem every_batch_rule_needed (i : nat) :
  i < length Batch.validation_tests ->
  exists original candidate, BatchRules.only_rejected_by i original candidate = true.
Proof.
  intros Hi. exists (fst (nth i BatchRules.candidates ("", ""))),
                    (snd (nth i BatchRules.candidates ("", ""))).
  exact (forallb_seq _ _ i BatchRules.batch_candidates_only_rejected Hi).
Qed.

(** The count of commas is the only rule that rejects a fifteenth
    field. *)
Lemma every_server_rule_needed_witness :
  exists r, ServerRules.only_rejected_by 8 r = true.
Proof. apply (every_server_rule_needed 8). vm_compute. lia. Defined.

(** The null rule is the only one that reads the fourth field. *)
Lemma every_batch_rule_needed_witness :
  exists original candidate, BatchRules.only_rejected_by 7 original candidate = true.
Proof. apply (every_batch_rule_needed 7). vm_compute. lia. Defined.
