(* ===== verification/Validator.v ===== *)
(** * Validator: what the reconciliation needs from the rules

    The reconciliation of [clean_hours.py] trusts the flags: the rows of
    an accepted record are built from the entries of its candidate with
    no further test, and an entry that does not have fourteen fields is
    written as fifteen empty cells by the [except ValueError] handler.
    What keeps that handler from running is one property of the rules:
    an accepted candidate has fourteen fields in every entry.

    That property is the interface [Validator].  The theorems on the
    reconciliation are proved for any validator; the nine rules of the
    script and the ten rules of the server are two instances, so the
    table could be reconciled with either battery. *)

From Stdlib Require Import String Ascii List Bool Arith Lia.
From S2P Require Import Prelude.
From S2P Require Import PyString.
From S2P Require Import PyDict.
From S2P Require Import DataFrame.
From S2P Require Import Entry.
From S2P Require Import Generator.
From S2P Require Import NormalizeHours.
From S2P Require Import CleanHours.
From S2P Require Import Agreement.
From S2P Require Import Stateless.
Import ListNotations.
Local Open Scope string_scope.
Local Open Scope py_scope.

(** The verdict on a candidate, given the original text, and what it
    promises. *)
Class Validator : Type := {
  verdict : string -> string -> bool;
  verdict_arity : forall original candidate,
    verdict original candidate = true ->
    Forall (fun e => length (fields e) = 14) (Batch.entries candidate)
}.

(** ** The two batteries *)

#[export] Instance batch_rules : Validator := {|
  verdict := Stateless.accepts;
  verdict_arity := fun original => Batch.all_checks_14_fields [("", original)] ""
|}.

#[export] Instance server_rules : Validator := {|
  verdict := fun original candidate =>
               Server.all_checks (Agreement.as_response original candidate);
  verdict_arity := fun original candidate =>
                     Server.all_checks_arity (Agreement.as_response original candidate)
|}.

(** ** The reconciliation, for any validator *)

Section Reconciliation.
Context {V : Validator}.
Variables (id_hours_dict cleaned_hours_dict : dict string).

(** The flags after the validator: every record starts valid and keeps
    its flag when the verdict on its candidate is favourable. *)
Definition flags : dict bool :=
  Batch.lower (fun key candidate => verdict (Stateless.text_of id_hours_dict key) candidate)
    cleaned_hours_dict (Batch.all_valid id_hours_dict).

Hypothesis Hd : dict_wf id_hours_dict.
Hypothesis Hkeys : dict_keys cleaned_hours_dict = dict_keys id_hours_dict.

Lemma flags_keys : dict_keys flags = dict_keys id_hours_dict.
Proof. unfold flags. rewrite Batch.dict_keys_lower. apply Batch.dict_keys_all_valid, Hd. Qed.

Lemma cleaned_wf : dict_wf cleaned_hours_dict.
Proof. unfold dict_wf. rewrite Hkeys. exact Hd. Qed.

(** An accepted record has fourteen fields in every entry. *)
Lemma flags_arity (id : string) :
  In id (dict_keys id_hours_dict) -> Batch.is_valid_of flags id = true ->
  Forall (fun e => length (fields e) = 14)
         (Batch.entries (Batch.cleaned_of cleaned_hours_dict id)).
Proof.
  intros Hin Hv. rewrite <- Hkeys in Hin.
  apply (Batch.accepted_candidate _ _ _ id cleaned_wf Hin) in Hv.
  exact (verdict_arity _ _ Hv).
Qed.

Variables (df : DataFrame) (ids : list cell).
Hypothesis Hwf : df_wf df.
Hypothesis Hwide : 15 <= length (columns df).
Hypothesis Hids : df_column df "Program External ID" = Ok ids.
Hypothesis Hin : forall id, In id ids -> In (cell_str id) (dict_keys id_hours_dict).

(** The reconciliation returns, with the rows of [rows_of], when no
    identifier is missing. *)
Lemma reconciled_table :
  Batch.convert_id_hours_dict_to_df cleaned_hours_dict flags df
  = if forallb present ids
    then Ok {| columns := columns df;
               values := flat_map (Batch.rows_of cleaned_hours_dict flags df) ids |}
    else Raise IndexError.
Proof.
  apply Batch.convert_id_hours_dict_to_df_eq; try assumption.
  - intros id Hi. rewrite flags_keys. auto.
  - intros id Hi _. rewrite Hkeys. auto.
Qed.

(** Its rows are rows of the input or rows of entries of fourteen
    fields: the handler of [ValueError] does not run. *)
Lemma reconciled_rows_of (id : cell) (r : list cell) :
  In id ids -> present id = true ->
  In r (Batch.rows_of cleaned_hours_dict flags df id) ->
  In r (values df) \/
  exists row entry,
    In row (values df) /\ length (fields entry) = 14 /\
    r = (firstn (length (columns df) - 15) row
         ++ map Text (fields entry) ++ [Text ""])%list.
Proof.
  intros Hid Hp Hr.
  destruct (df_loc_eq_column df _ ids id Hids Hid Hp) as (row & rows & E & Hdf).
  assert (Hrow : Batch.original_row df id = row)
    by (unfold Batch.original_row; rewrite E; reflexivity).
  unfold Batch.rows_of in Hr. rewrite Hrow in Hr.
  destruct (Batch.is_valid_of flags (cell_str id)) eqn:Hv.
  - right. apply in_map_iff in Hr as (entry & <- & He).
    pose proof (flags_arity _ (Hin id Hid) Hv) as Ha.
    rewrite Forall_forall in Ha. specialize (Ha entry He).
    exists row, entry. unfold Batch.entry_row. rewrite Ha. auto.
  - left. destruct Hr as [<-|[]]. exact Hdf.
Qed.

(** Whatever validator gives the flags, the reconciliation returns
    a table whose rows are rows of the input or the kept cells of one
    followed by the fourteen fields of an entry and an empty cell: the
    fallback of fifteen empty cells is never written. *)
Theorem reconciled_rows (out : DataFrame) (r : list cell) :
  Batch.convert_id_hours_dict_to_df cleaned_hours_dict flags df = Ok out ->
  In r (values out) ->
  In r (values df) \/
  exists row entry,
    In row (values df) /\ length (fields entry) = 14 /\
    r = (firstn (length (columns df) - 15) row
         ++ map Text (fields entry) ++ [Text ""])%list.
Proof.
  rewrite reconciled_table. destruct (forallb present ids) eqn:Hp; [|discriminate].
  intros [= <-]. simpl. intros Hr. rewrite forallb_forall in Hp.
  apply in_flat_map in Hr as (id & Hid & Hr). eapply reconciled_rows_of; eauto.
Qed.

End Reconciliation.

(** ** The rules of the script are the validator [batch_rules] *)

(** When the rules of the script return, the flags are those of the
    validator. *)
Lemma battery_flags (d c : dict string) (iv : dict bool) :
  dict_wf d -> dict_keys c = dict_keys d ->
  Batch.run_validation_tests d c (Batch.all_valid d) = Ok iv ->
  iv = @flags batch_rules d c.
Proof.
  intros Hd Hk H.
  rewrite Batch.run_validation_tests_batch_eq in H by (apply Batch.main_ready; assumption).
  destruct (Batch.guard Batch.wide11 c && Batch.guard Batch.null_reads_ok c);
    [|discriminate].
  injection H as <-. unfold flags. apply Batch.lower_ext. intros k v Hkv.
  assert (Hin : In k (dict_keys d)) by (rewrite <- Hk; apply (in_map fst _ _ Hkv)).
  destruct (dict_get_in d k Hin) as (text & Ht).
  unfold Stateless.text_of. rewrite Ht. apply Stateless.all_checks_local, Ht.
Qed.

(** The table of the sample, reconciled with the rules of the server:
    the monthly record, which the script accepts, is left as it was. *)
Definition sample_server_out : DataFrame :=
  {| columns := sample_columns;
     values :=
       [map Text
          ["ID1"; "Food Bank"; "Monday"; "15:00"; "17:00"; ""; ""; ""; ""; ""; "";
           ""; "Weekly"; ""; ""; ""; ""];
        sample_row "ID2" "Pantry" "1st Tuesday and Wednesday 9-10";
        sample_row "ID3" "Kitchen" "whenever"] |}.

Example sample_with_server_rules :
  Batch.convert_id_hours_dict_to_df sample_cleaned
    (@flags server_rules sample_ids sample_cleaned) sample_df
  = Ok sample_server_out.
Proof. vm_compute. reflexivity. Qed.

Lemma reconciled_rows_witness :
  In (sample_row "ID2" "Pantry" "1st Tuesday and Wednesday 9-10") (values sample_df) \/
  exists row entry,
    In row (values sample_df) /\ length (fields entry) = 14 /\
    sample_row "ID2" "Pantry" "1st Tuesday and Wednesday 9-10"
    = (firstn (length (columns sample_df) - 15) row
       ++ map Text (fields entry) ++ [Text ""])%list.
Proof.
  apply (@reconciled_rows server_rules sample_ids sample_cleaned) with
    (ids := sample_id_cells) (out := sample_server_out).
  - apply dict_wfb_spec. vm_compute. reflexivity.
  - vm_compute. reflexivity.
  - exact sample_df_wf.
  - exact sample_wide.
  - vm_compute. reflexivity.
  - intros id [<-|[<-|[<-|[]]]]; simpl; auto.
  - vm_compute. reflexivity.
  - right. left. reflexivity.
Defined.
