(* ===== verification/Complete.v ===== *)
(** * Complete: the rules accept the wire form of a well-formed schedule

    [Refinement] shows that what the rules accept decodes to
    well-formed schedule entries.  This file is the other direction:
    the wire form [encode] writes for a well-formed entry passes the
    rules of either pipeline, but for the entries each pipeline refuses
    by design: the script knows no call for information and wants the
    ordinal of a monthly entry spelled in the original text, the server
    accepts no monthly entry.  Both verdicts on the encoding of a list
    of entries are given in closed form ([batch_accepts_encoded],
    [server_accepts_encoded]).  The two directions meet: the rules of
    the script keep the flag of a record exactly when the candidate
    decodes to entries it admits ([battery_decides]), and so do the
    rules of the server but for the weekday rule, which remembers the
    last entry only ([server_decides]). *)

From Stdlib Require Import String Ascii List Bool Arith Lia Btauto.
From S2P Require Import Prelude.
From S2P Require Import PyString.
From S2P Require Import PyDict.
From S2P Require Import Regex.
From S2P Require Import TimeFormat.
From S2P Require Import Entry.
From S2P Require Import Schedule.
From S2P Require Import Generator.
From S2P Require Import NormalizeHours.
From S2P Require Import CleanHours.
From S2P Require Import Agreement.
From S2P Require Import Stateless.
From S2P Require Import Refinement.
Import ListNotations.
Local Open Scope string_scope.
Local Open Scope py_scope.

(** ** What each pipeline admits *)

(** The ordinal of a recurrence as the wire form writes it. *)
Definition ordinal_text (r : recurrence) : string :=
  match r with
  | DayOfMonth n | WeekOfMonth n => ordinal_name n
  | Weekly | EveryOtherWeek => ""
  end.

Definition ordinal_of (s : schedule_entry) : string :=
  match s with
  | Opening _ _ _ r _ => ordinal_text r
  | InformationOnly _ => ""
  end.

(** The script admits an opening whose ordinal, when it has one, is
    spelled in the original text. *)
Definition batch_admits (original : string) (s : schedule_entry) : bool :=
  match s with
  | Opening _ _ _ _ _ => Batch.ordinal_ok [("", original)] "" (ordinal_of s)
  | InformationOnly _ => false
  end.

(** The server admits a weekly opening and a call for information. *)
Definition server_admits (s : schedule_entry) : bool :=
  match s with
  | Opening _ _ _ (Weekly | EveryOtherWeek) _ => true
  | Opening _ _ _ _ _ => false
  | InformationOnly _ => true
  end.

(** ** One entry *)

(** A printed time is read back by the pattern and by [strptime]. *)
Lemma show_time_reads (t : nat * nat) :
  time_ok t = true ->
  is_time (show_time t) = true /\ strptime_HM (show_time t) = Ok t.
Proof.
  intros H. apply parse_show_time in H. unfold parse_time in H.
  destruct (is_time (show_time t)); [|discriminate].
  destruct (strptime_HM (show_time t)); [|discriminate].
  injection H as ->. auto.
Qed.

Lemma weekday_name_known (d : weekday) :
  in_list (weekday_name d) Server.DAYS_OF_WEEK = true.
Proof. destruct d; reflexivity. Qed.

(** The ordinal of a well-formed monthly entry is a digit. *)
Lemma ordinal_name_digit (n : nat) :
  (1 <=? n)%nat && (n <=? 5)%nat = true ->
  str_isdigit (ordinal_name n) = true /\ (ordinal_name n =? "") = false.
Proof.
  intros H. apply recurrence_ok_cases in H.
  repeat (destruct H as [<-|H]; [split; reflexivity|]). destruct H.
Qed.

Section Entry.
Variable original : string.
Variable s : schedule_entry.
Hypothesis Hwf : wf s = true.

Lemma server_entry_encode :
  Agreement.server_entry (encode s) = server_admits s.
Proof.
  unfold Agreement.server_entry, Server.not_monthly, Server.weekly_ok,
    Server.hour_types_ok, Server.open_closed_ok, Server.close_after_open_ok,
    Server.times_ok, Server.call_for_information_ok, Server.hour_type_is,
    null_values_ok.
  rewrite (fields_encode s Hwf).
  destruct s as [d o c r m|m]; [|reflexivity].
  simpl in Hwf. apply andb_true_iff in Hwf as [H _]. apply andb_true_iff in H as [H Hr].
  apply andb_true_iff in H as [H Hgt]. apply andb_true_iff in H as [Ho Hc].
  destruct (show_time_reads o Ho) as (Io & So), (show_time_reads c Hc) as (Ic & Sc).
  unfold list_get, Server.time_or_empty.
  cbn [encode_fields field_is nth_error of_option forallb is_empty].
  rewrite Io, Ic, So, Sc, Hgt. destruct r; reflexivity.
Qed.

(** An encoded entry names a weekday or is a call for information
    without one: the weekday rule of the server passes at every entry. *)
Lemma server_day_encode :
  Server.weekday_ok (encode s) || Server.no_day_ok (encode s) = true.
Proof.
  unfold Server.weekday_ok, Server.no_day_ok, Server.hour_type_is.
  rewrite (fields_encode s Hwf).
  destruct s as [d o c r m|m]; [|reflexivity].
  cbn [encode_fields field_is nth_error]. rewrite weekday_name_known. reflexivity.
Qed.

(** Every rule of the script can read an encoded entry to its end. *)
Lemma encode_reads :
  Batch.wide11 (encode s) = true /\ Batch.null_reads_ok (encode s) = true.
Proof.
  unfold Batch.wide11, Batch.null_reads_ok. rewrite (fields_encode s Hwf).
  destruct s; split; reflexivity.
Qed.

(** An encoded entry has thirteen commas. *)
Lemma encode_commas : str_count "," (encode s) = 13.
Proof.
  pose proof (length_str_split "," (encode s)) as H.
  change (str_split "," (encode s)) with (fields (encode s)) in H.
  rewrite (fields_encode s Hwf) in H. destruct s; cbn [encode_fields length] in H; lia.
Qed.

End Entry.

(** ** The rules, entry by entry *)

(** The rules of either pipeline, entry by entry. *)
Lemma batch_all_checks_entries (d : dict string) (k candidate : string) :
  Batch.all_checks d k candidate
  = forallb (Agreement.batch_entry d k) (Batch.entries candidate)
    && entry_format_ok candidate.
Proof.
  unfold Batch.all_checks, Agreement.batch_entry. rewrite !forallb_andb. btauto.
Qed.

Lemma server_all_checks_entries (r : Server.response) :
  Server.all_checks r
  = forallb Agreement.server_entry (Server.entries r)
    && fold_left Server.day_of_week_next (Server.entries r) true
    && entry_format_ok (Server.formatted r).
Proof.
  unfold Server.all_checks, Agreement.server_entry. rewrite !forallb_andb. btauto.
Qed.

(** ** The verdict of the script, exactly *)

(** What the candidate denotes is admitted: its entries decode, and
    everyone is admitted. *)
Definition admitted (original candidate : string) : bool :=
  match decode_all (Batch.entries candidate) with
  | Some ss => forallb (batch_admits original) ss
  | None => false
  end.

(** Every entry names a weekday, or is a call for information without
    one: the weekday rule of the server, entry by entry. *)
Definition all_days (candidate : string) : bool :=
  forallb (fun e => Server.weekday_ok e || Server.no_day_ok e)
    (Batch.entries candidate).

(** What the candidate denotes is admitted by the server. *)
Definition server_admitted (candidate : string) : bool :=
  match decode_all (Batch.entries candidate) with
  | Some ss => forallb server_admits ss
  | None => false
  end.

Section Exact.
Variables (id_hours_dict : dict string) (key : string).

(** An ordinal that is a digit and passes the cross-check is one of the
    five the wire form knows. *)
Lemma ordinal_ok_digit (v : string) :
  str_isdigit v && Batch.ordinal_ok id_hours_dict key v
  = match ordinal_of_name v with
    | Some n => Batch.ordinal_ok id_hours_dict key (ordinal_name n)
    | None => false
    end.
Proof.
  destruct (ordinal_of_name v) as [n|] eqn:E.
  - apply ordinal_of_name_some in E as (Hn & <-).
    destruct (ordinal_name_digit n Hn) as (-> & _). reflexivity.
  - unfold Batch.ordinal_ok.
    destruct (dict_get Batch.INT_TO_DAY_OF_MONTH v) as [words|] eqn:K;
      [|apply andb_false_r].
    apply dict_get_ok in K. simpl in K.
    repeat (destruct K as [[= <- _]|K]; [discriminate E|]).
    destruct K as [[= <- _]|[]]. reflexivity.
Qed.

(** The four rules on the hour type and the ordinals read the
    recurrence of the entry. *)
Lemma recurrence_rules (f8 f9 f10 : string) :
  (if f10 =? "Day of Month" then str_isdigit f9 && is_empty f8 else true)
  && Batch.ordinal_ok id_hours_dict key f9
  && ((if f10 =? "Week of Month" then str_isdigit f8 && is_empty f9 else true)
      && Batch.ordinal_ok id_hours_dict key f8)
  && (if (f10 =? "Weekly") || (f10 =? "Every Other Week")
      then is_empty f8 && is_empty f9 else true)
  && in_list f10 Batch.HOUR_TYPES
  = match recurrence_of f10 f8 f9 with
    | Some r => Batch.ordinal_ok id_hours_dict key (ordinal_text r)
    | None => false
    end.
Proof.
  unfold recurrence_of, in_list, Batch.HOUR_TYPES, is_empty. cbn [existsb].
  rewrite !(String.eqb_sym f10).
  destruct ("Weekly" =? f10) eqn:E1; [apply String.eqb_eq in E1; subst f10|].
  { destruct f8, f9; cbn; btauto. }
  destruct ("Every Other Week" =? f10) eqn:E2; [apply String.eqb_eq in E2; subst f10|].
  { destruct f8, f9; cbn; btauto. }
  destruct ("Day of Month" =? f10) eqn:E3; [apply String.eqb_eq in E3; subst f10|].
  { cbn [String.eqb Ascii.eqb Bool.eqb orb andb].
    destruct (f8 =? "") eqn:E8; [apply String.eqb_eq in E8; subst f8 | btauto].
    rewrite Agreement.ordinal_ok_empty, !andb_true_r, ordinal_ok_digit.
    destruct (ordinal_of_name f9); reflexivity. }
  destruct ("Week of Month" =? f10) eqn:E4; [apply String.eqb_eq in E4; subst f10|].
  { cbn [String.eqb Ascii.eqb Bool.eqb orb andb].
    destruct (f9 =? "") eqn:E9; [apply String.eqb_eq in E9; subst f9 | btauto].
    rewrite Agreement.ordinal_ok_empty, !andb_true_r, ordinal_ok_digit.
    destruct (ordinal_of_name f8); reflexivity. }
  cbn. btauto.
Qed.

(** The two rules on the times read the two times of the entry. *)
Lemma time_rules (f1 f2 : string) :
  is_time f1 && is_time f2
  && except_all (close <- strptime_HM f2 ;; open <- strptime_HM f1 ;;
                 Ok (datetime_gt close open)) false
  = match parse_time f1, parse_time f2 with
    | Some o, Some c => datetime_gt c o
    | _, _ => false
    end.
Proof.
  unfold parse_time.
  destruct (is_time f1), (is_time f2), (strptime_HM f2), (strptime_HM f1);
    reflexivity.
Qed.

(** The weekday rule reads the weekday of the entry. *)
Lemma weekday_rule (f0 : string) :
  in_list f0 Batch.DAYS_OF_WEEK
  = match weekday_of_name f0 with Some _ => true | None => false end.
Proof.
  destruct (weekday_of_name f0) as [d|] eqn:E.
  - apply weekday_of_name_some in E as <-. apply weekday_name_known.
  - destruct (in_list f0 Batch.DAYS_OF_WEEK) eqn:H; [|reflexivity].
    apply weekday_of_name_in in H as (d & H). congruence.
Qed.

(** The four rules of the server on the hour type, for an entry that is
    no call for information: the recurrence is a weekly one. *)
Lemma server_recurrence_rules (f8 f9 f10 : string) :
  (f10 =? "Call for Information") = false ->
  negb (f10 =? "Day of Month") && negb (f10 =? "Week of Month")
  && (if (f10 =? "Weekly") || (f10 =? "Every Other Week")
      then (f8 =? "") && (f9 =? "") else true)
  && in_list f10 Server.HOUR_TYPES
  = match recurrence_of f10 f8 f9 with
    | Some (Weekly | EveryOtherWeek) => true
    | _ => false
    end.
Proof.
  intros E. unfold recurrence_of, in_list, Server.HOUR_TYPES. cbn [existsb].
  rewrite !(String.eqb_sym f10). rewrite String.eqb_sym in E. rewrite E. clear E.
  do 4 (match goal with |- context [?t =? f10] =>
          let H := fresh in
          destruct (t =? f10) eqn:H;
          [apply String.eqb_eq in H; subst f10;
           destruct (f8 =? ""), (f9 =? ""), (ordinal_of_name f9), (ordinal_of_name f8);
           reflexivity|]
        end).
  reflexivity.
Qed.

End Exact.

Section ExactEntry.
Variable original : string.

(** On an entry of fourteen fields, the eight rules on the entry decide
    whether it decodes to an admitted entry. *)
Lemma batch_entry_decode (e : string) :
  length (fields e) = 14 ->
  Agreement.batch_entry [("", original)] "" e
  = match decode e with
    | Some s => batch_admits original s
    | None => false
    end.
Proof.
  intros Hlen.
  pose proof (recurrence_rules [("", original)] "") as Hr.
  unfold Agreement.batch_entry, Batch.day_of_month_ok, Batch.week_of_month_ok,
    Batch.monthly_ok, Batch.weekly_ok, Batch.hour_types_ok, Batch.weekday_ok,
    Batch.times_ok, Batch.close_after_open_ok, null_values_ok.
  name_fields e Hlen. unfold decode_fields, list_get.
  cbn [field_is nth_error of_option rbind forallb nth length Nat.eqb negb].
  rewrite Hr, weekday_rule. clear Hr.
  rewrite <- !andb_assoc, (andb_assoc (is_time f1)), (andb_assoc (is_time f1 && _)).
  rewrite time_rules. unfold is_empty. rewrite !andb_true_r.
  destruct ((f3 =? "") && ((f4 =? "") && ((f5 =? "") && ((f6 =? "")
            && ((f11 =? "") && ((f12 =? "") && (f13 =? ""))))))); cbn [negb];
    [|btauto].
  rewrite andb_true_r.
  destruct (f10 =? "Call for Information") eqn:E.
  - apply String.eqb_eq in E. subst f10. cbn.
    destruct (_ && _); reflexivity.
  - destruct (recurrence_of f10 f8 f9) as [r|], (weekday_of_name f0) as [d|],
      (parse_time f1) as [o|], (parse_time f2) as [c|]; try btauto.
    destruct (datetime_gt c o); [cbn [batch_admits ordinal_of] | ]; btauto.
Qed.

End ExactEntry.

(** On an entry of fourteen fields, the rules of the server on the entry
    and its weekday rule read entry by entry decide whether the entry
    decodes to one the server admits. *)
Lemma server_entry_decode (e : string) :
  length (fields e) = 14 ->
  Agreement.server_entry e && (Server.weekday_ok e || Server.no_day_ok e)
  = match decode e with Some s => server_admits s | None => false end.
Proof.
  intros Hlen.
  unfold Agreement.server_entry, Server.not_monthly, Server.weekly_ok,
    Server.hour_types_ok, Server.open_closed_ok, Server.close_after_open_ok,
    Server.times_ok, Server.call_for_information_ok, Server.weekday_ok,
    Server.no_day_ok, Server.hour_type_is, null_values_ok.
  name_fields e Hlen. unfold decode_fields, list_get.
  cbn [field_is nth_error of_option rbind forallb nth length Nat.eqb negb
       slice skipn firstn Nat.sub].
  rewrite !all_empty_forallb. unfold is_empty. cbn [forallb].
  destruct (f10 =? "Call for Information") eqn:E.
  - apply String.eqb_eq in E. subst f10.
    cbn [String.eqb Ascii.eqb Bool.eqb orb andb negb in_list existsb Server.HOUR_TYPES].
    destruct f0, f1, f2; cbn; rewrite ?andb_false_r; cbn [andb];
      repeat match goal with |- context [?x =? ""] => destruct (x =? "") end;
      reflexivity.
  - match goal with |- context [(f3 =? "") && ?r] =>
      generalize ((f3 =? "") && r); intros reserved end.
    change Server.DAYS_OF_WEEK with Batch.DAYS_OF_WEEK.
    rewrite (server_recurrence_rules f8 f9 f10 E), (weekday_rule f0).
    unfold parse_time.
    destruct (strptime_HM f2) eqn:E2, (strptime_HM f1) eqn:E1;
      rewrite ?(Agreement.time_or_empty_read _ _ E1),
              ?(Agreement.time_or_empty_read _ _ E2);
      destruct (weekday_of_name f0), (recurrence_of f10 f8 f9) as [[]|],
        (is_time f1), (is_time f2), reserved;
      cbn [negb andb orb server_admits]; try reflexivity; try btauto;
      destruct (datetime_gt _ _); reflexivity.
Qed.

(** Decoding a list of entries, as a test of each. *)
Lemma decode_all_forallb (P : schedule_entry -> bool) (es : list string) :
  match decode_all es with
  | Some ss => forallb P ss
  | None => false
  end
  = forallb (fun e => match decode e with Some s => P s | None => false end) es.
Proof.
  induction es as [|e es IH]; simpl; [reflexivity|].
  rewrite <- IH. destruct (decode e) as [s|], (decode_all es) as [ss|]; simpl;
    rewrite ?andb_false_r; reflexivity.
Qed.

(** Fourteen fields in every entry are thirteen commas per entry. *)
Lemma format_of_arity (candidate : string) :
  Forall (fun e => length (fields e) = 14) (Batch.entries candidate) ->
  entry_format_ok candidate = true.
Proof.
  intros H.
  assert (E : list_sum (map (str_count ",") (Batch.entries candidate))
              = 13 * length (Batch.entries candidate)).
  { induction H as [|e l He _ IH]; [reflexivity|].
    cbn [map list_sum fold_right length].
    unfold fields in He. rewrite length_str_split in He.
    unfold list_sum in IH. lia. }
  unfold entry_format_ok. apply Nat.eqb_eq.
  pose proof (length_str_split ";" candidate) as Hl.
  rewrite <- (str_count_split ";" "," candidate) by discriminate.
  change (str_split ";" candidate) with (Batch.entries candidate) in *.
  lia.
Qed.

Section Decides.
Variables (P : string -> bool) (Q : schedule_entry -> bool).
Hypothesis HP : forall e, length (fields e) = 14 ->
  P e = match decode e with Some s => Q s | None => false end.
Hypothesis Hnull : forall e, P e = true -> null_values_ok e = true.

(** A test of the entries that reads an entry of fourteen fields as the
    schema does, and the counting rule, decide whether the candidate
    denotes a schedule of entries that pass. *)
Lemma entries_decide (candidate : string) :
  forallb P (Batch.entries candidate) && entry_format_ok candidate
  = match decode_all (Batch.entries candidate) with
    | Some ss => forallb Q ss
    | None => false
    end.
Proof.
  rewrite (decode_all_forallb Q).
  set (g := fun e => match decode e with Some s => Q s | None => false end).
  assert (Hext : Forall (fun e => length (fields e) = 14) (Batch.entries candidate) ->
                 forallb P (Batch.entries candidate) = forallb g (Batch.entries candidate)).
  { intros H. rewrite Forall_forall in H. apply forallb_ext_in.
    intros e He. apply HP, H, He. }
  destruct (forallb P _ && _) eqn:A.
  - apply andb_true_iff in A as [A F]. rewrite <- Hext, A; [reflexivity|].
    apply exact_arity; [exact F|]. rewrite forallb_forall in A.
    apply Forall_forall. intros e He. apply null_values_ok_fields, Hnull, A, He.
  - destruct (forallb g (Batch.entries candidate)) eqn:G; [|reflexivity].
    assert (H14 : Forall (fun e => length (fields e) = 14) (Batch.entries candidate)).
    { rewrite forallb_forall in G. apply Forall_forall. intros e He.
      specialize (G e He). unfold g in G.
      destruct (decode e) as [s|] eqn:D; [|discriminate].
      apply (decode_some e s D). }
    rewrite (Hext H14), (format_of_arity _ H14) in A. discriminate.
Qed.

End Decides.

Section ExactCandidate.
Variables (original candidate : string).

(** The nine rules of the script decide whether the candidate denotes
    a schedule of admitted entries. *)
Lemma accepts_admitted :
  Stateless.accepts original candidate = admitted original candidate.
Proof.
  unfold Stateless.accepts, admitted. rewrite batch_all_checks_entries.
  apply entries_decide.
  - apply batch_entry_decode.
  - unfold Agreement.batch_entry. intros e H.
    apply andb_true_iff in H as [_ H]. exact H.
Qed.

(** The ten rules of the server, with the weekday rule read entry by
    entry, decide whether the candidate denotes a schedule the server
    admits. *)
Lemma server_checks_admitted :
  Server.all_checks (Agreement.as_response original candidate) && all_days candidate
  = server_admitted candidate.
Proof.
  unfold server_admitted.
  rewrite <- (entries_decide
                (fun e => Agreement.server_entry e
                          && (Server.weekday_ok e || Server.no_day_ok e)) server_admits).
  - rewrite server_all_checks_entries, forallb_andb. fold (all_days candidate).
    change (Server.formatted (Agreement.as_response original candidate)) with candidate.
    change (Server.entries (Agreement.as_response original candidate))
      with (Batch.entries candidate).
    destruct (all_days candidate) eqn:D; [|btauto].
    rewrite (Server.day_of_week_intended _ D). btauto.
  - apply server_entry_decode.
  - unfold Agreement.server_entry. intros e H.
    apply andb_true_iff in H as [H _]. apply andb_true_iff in H as [H _].
    apply andb_true_iff in H as [_ H]. exact H.
Qed.

(** C3. The rules of the script on one record, exactly: they raise
    [IndexError] when an entry of the candidate is too short to read,
    and otherwise the record keeps its flag when, and only when, every
    entry of the candidate decodes to an opening whose ordinal, if it
    has one, is spelled in the original text. *)
Theorem battery_decides (key : string) :
  Batch.run_validation_tests [(key, original)] [(key, candidate)] [(key, true)]
  = if Batch.readable candidate
    then Ok [(key, admitted original candidate)]
    else Raise IndexError.
Proof.
  rewrite Batch.run_validation_tests_batch_eq
    by (repeat split; try (repeat constructor; simpl; tauto); apply incl_refl).
  unfold Batch.guard, Batch.readable. cbn [forallb snd].
  rewrite !andb_true_r, <- forallb_andb.
  destruct (forallb _ (Batch.entries candidate)); [|reflexivity].
  unfold Batch.lower, dict_update_all. cbn. rewrite String.eqb_refl.
  rewrite (Stateless.all_checks_local _ key original)
    by (cbn; rewrite String.eqb_refl; reflexivity).
  rewrite accepts_admitted. reflexivity.
Qed.

(** C14. The rules of the server, exactly: they never raise, and the
    response of a candidate in which every entry names a weekday or is
    a call for information without one stays valid when, and only when,
    every entry of the candidate decodes to a weekly opening or a call
    for information.  A candidate that decodes is always accepted; one
    that is accepted and does not decode has an entry without a weekday
    before its last. *)
Theorem server_decides :
  Server.run_validation_tests (Agreement.as_response original candidate)
  = Ok (Server.set_isValid (Agreement.as_response original candidate)
          (Server.all_checks (Agreement.as_response original candidate)))
  /\ Server.all_checks (Agreement.as_response original candidate)
     && all_days candidate
     = server_admitted candidate.
Proof.
  split; [|apply server_checks_admitted].
  rewrite Server.run_validation_tests_eq. reflexivity.
Qed.

End ExactCandidate.

(** Decoding the entries of the joined form gives the schedule back. *)
Lemma decode_all_encode (ss : list schedule_entry) :
  forallb wf ss = true -> decode_all (map encode ss) = Some ss.
Proof.
  induction ss as [|s ss IH]; simpl; [reflexivity|].
  intros H. apply andb_true_iff in H as [Hs H].
  rewrite (decode_encode s Hs), (IH H). reflexivity.
Qed.

(** ** The wire form of a schedule *)

Section Candidate.
Variables (original candidate : string) (ss : list schedule_entry).
Hypothesis Hwf : forallb wf ss = true.
Hypothesis Hent : Batch.entries candidate = map encode ss.

Lemma wf_in (s : schedule_entry) : In s ss -> wf s = true.
Proof. rewrite forallb_forall in Hwf. apply Hwf. Qed.

(** The counting rule passes: thirteen commas per entry. *)
Lemma format_encoded : entry_format_ok candidate = true.
Proof.
  apply format_of_arity. rewrite Hent. apply Forall_map, Forall_forall.
  intros s Hs. rewrite (fields_encode s (wf_in s Hs)). destruct s; reflexivity.
Qed.

Lemma accepts_encoded :
  Stateless.accepts original candidate = forallb (batch_admits original) ss.
Proof.
  rewrite accepts_admitted. unfold admitted.
  rewrite Hent, (decode_all_encode ss Hwf). reflexivity.
Qed.

Lemma server_all_checks_encoded :
  Server.all_checks (Agreement.as_response original candidate)
  = forallb server_admits ss.
Proof.
  rewrite server_all_checks_entries.
  change (Server.formatted (Agreement.as_response original candidate)) with candidate.
  change (Server.entries (Agreement.as_response original candidate))
    with (Batch.entries candidate).
  rewrite format_encoded, Hent, Server.day_of_week_intended.
  - rewrite !andb_true_r. apply forallb_map_ext_in.
    intros s Hs. apply server_entry_encode, wf_in, Hs.
  - rewrite (forallb_map_ext_in _ _ (fun _ => true)).
    + apply forallb_forall. reflexivity.
    + intros s Hs. apply server_day_encode, wf_in, Hs.
Qed.

(** The rules of the script on the wire form of well-formed
    entries: they return, and the record keeps its flag exactly when
    every entry is an opening whose ordinal, if it has one, is spelled
    in the original text. *)
Theorem batch_accepts_encoded (key : string) :
  Batch.run_validation_tests [(key, original)] [(key, candidate)] [(key, true)]
  = Ok [(key, forallb (batch_admits original) ss)].
Proof.
  rewrite Batch.run_validation_tests_batch_eq
    by (repeat split; try (repeat constructor; simpl; tauto); apply incl_refl).
  assert (G : forall g, (forall s, In s ss -> g (encode s) = true) ->
                        Batch.guard g [(key, candidate)] = true).
  { intros g Hg. unfold Batch.guard. cbn [forallb snd]. rewrite Hent, andb_true_r.
    rewrite (forallb_map_ext_in _ _ (fun _ => true)) by exact Hg.
    apply forallb_forall. reflexivity. }
  rewrite !G by (intros s Hs; apply encode_reads, wf_in, Hs).
  unfold Batch.lower, dict_update_all. cbn. rewrite String.eqb_refl.
  rewrite (Stateless.all_checks_local _ key original) by (cbn; rewrite String.eqb_refl; reflexivity).
  rewrite accepts_encoded. reflexivity.
Qed.

(** The rules of the server on the wire form of well-formed
    entries: the response stays valid exactly when every entry is a
    weekly opening or a call for information. *)
Theorem server_accepts_encoded :
  Server.run_validation_tests (Agreement.as_response original candidate)
  = Ok (Server.set_isValid (Agreement.as_response original candidate)
          (forallb server_admits ss)).
Proof.
  rewrite Server.run_validation_tests_eq, server_all_checks_encoded. reflexivity.
Qed.

End Candidate.

(** ** Joining the entries *)

(** The wire form of a schedule: its entries joined by semicolons. *)
Definition encode_all (ss : list schedule_entry) : string :=
  str_join ";" (map encode ss).

Definition marker_of (s : schedule_entry) : string :=
  match s with
  | Opening _ _ _ _ m | InformationOnly m => m
  end.

(** The marker holds no semicolon, so the entry is one entry of the
    candidate it is joined into. *)
Definition joinable (s : schedule_entry) : bool :=
  (str_count ";" (marker_of s) =? 0)%nat.

Lemma all_times_unsplit :
  forallb (fun h => forallb (fun m => (str_count ";" (show_time (h, m)) =? 0)%nat)
                      (seq 0 60)) (seq 0 24)
  = true.
Proof. vm_compute. reflexivity. Qed.

Lemma show_time_unsplit (t : nat * nat) :
  time_ok t = true -> str_count ";" (show_time t) = 0.
Proof.
  destruct t as [h m]. unfold time_ok. cbn [fst snd].
  rewrite andb_true_iff, !Nat.ltb_lt. intros [Hh Hm].
  pose proof all_times_unsplit as H. rewrite forallb_forall in H.
  specialize (H h). rewrite forallb_forall in H.
  apply Nat.eqb_eq, H; apply in_seq; lia.
Qed.

Lemma ordinal_name_unsplit (n : nat) :
  (1 <=? n)%nat && (n <=? 5)%nat = true -> str_count ";" (ordinal_name n) = 0.
Proof.
  intros H. apply recurrence_ok_cases in H.
  repeat (destruct H as [<-|H]; [reflexivity|]). destruct H.
Qed.

Lemma encode_unsplit (s : schedule_entry) :
  wf s = true -> joinable s = true -> str_count ";" (encode s) = 0.
Proof.
  unfold joinable, encode. rewrite str_count_join. intros Hwf Hj.
  apply Nat.eqb_eq in Hj. destruct s as [d o c r m|m]; simpl in Hj.
  - simpl in Hwf. apply andb_true_iff in Hwf as [H _].
    apply andb_true_iff in H as [H Hr]. apply andb_true_iff in H as [H _].
    apply andb_true_iff in H as [Ho Hc].
    cbn [encode_fields map list_sum length].
    rewrite (show_time_unsplit o Ho), (show_time_unsplit c Hc), Hj.
    destruct d, r; cbn -[ordinal_name]; rewrite ?ordinal_name_unsplit by exact Hr;
      reflexivity.
  - cbn [encode_fields map list_sum length]. rewrite Hj. reflexivity.
Qed.

(** The entries of the joined form are the encoded entries. *)
Lemma entries_encode_all (ss : list schedule_entry) :
  ss <> [] -> forallb wf ss = true -> forallb joinable ss = true ->
  Batch.entries (encode_all ss) = map encode ss.
Proof.
  intros Hne Hwf Hj. unfold Batch.entries, encode_all. apply str_split_join.
  - destruct ss; [congruence | discriminate].
  - rewrite forallb_forall in Hwf, Hj. apply Forall_map, Forall_forall.
    intros s Hs. apply encode_unsplit; auto.
Qed.

(** ** A schedule of two openings and a call for information *)

Definition first_tuesday : schedule_entry :=
  Opening Tuesday (9, 0) (10, 0) (DayOfMonth 1) "".

Definition every_monday : schedule_entry :=
  Opening Monday (15, 0) (17, 0) Weekly "".

Definition by_phone : schedule_entry := InformationOnly "Call for Information".

Example encode_all_runs :
  encode_all [every_monday; first_tuesday]
  = "Monday,15:00,17:00,,,,,,,,Weekly,,,;Tuesday,09:00,10:00,,,,,,,1,Day of Month,,,".
Proof. reflexivity. Qed.

Lemma batch_accepts_encoded_witness :
  Batch.run_validation_tests [("ID1", "Mondays and the 1st Tuesday")]
    [("ID1", encode_all [every_monday; first_tuesday])] [("ID1", true)]
  = Ok [("ID1", forallb (batch_admits "Mondays and the 1st Tuesday")
                  [every_monday; first_tuesday])].
Proof.
  apply (batch_accepts_encoded "Mondays and the 1st Tuesday"
           (encode_all [every_monday; first_tuesday]) [every_monday; first_tuesday]).
  - reflexivity.
  - apply entries_encode_all; [discriminate | reflexivity | reflexivity].
Defined.

Lemma server_accepts_encoded_witness :
  Server.run_validation_tests
    (Agreement.as_response "Mondays, or call" (encode_all [every_monday; by_phone]))
  = Ok (Server.set_isValid
          (Agreement.as_response "Mondays, or call" (encode_all [every_monday; by_phone]))
          (forallb server_admits [every_monday; by_phone])).
Proof.
  apply (server_accepts_encoded "Mondays, or call"
           (encode_all [every_monday; by_phone]) [every_monday; by_phone]).
  - reflexivity.
  - apply entries_encode_all; [discriminate | reflexivity | reflexivity].
Defined.

(** What the two pipelines make of the three entries. *)
Example admitted_entries :
  map (batch_admits "Mondays and the 1st Tuesday") [every_monday; first_tuesday; by_phone]
  = [true; true; false] /\
  batch_admits "Mondays and the first Tuesday" first_tuesday = false /\
  map server_admits [every_monday; first_tuesday; by_phone] = [true; false; true].
Proof. repeat split; vm_compute; reflexivity. Qed.

(** The script reads a time with or without its leading zero, and
    admits neither an entry without a day nor an ordinal that the
    original text does not spell. *)
Example admitted_candidates :
  admitted "Mondays" "Monday,9:00,17:00,,,,,,,,Weekly,,," = true /\
  admitted "Mondays" "Monday,09:00,17:00,,,,,,,,Weekly,,," = true /\
  admitted "Mondays" ",,,,,,,,,,Call for Information,,," = false /\
  admitted "the third Monday" "Monday,9:00,17:00,,,,,,,3,Day of Month,,," = false /\
  admitted "the 3rd Monday" "Monday,9:00,17:00,,,,,,,3,Day of Month,,," = true.
Proof. repeat split; vm_compute; reflexivity. Qed.

(** The server accepts a candidate that denotes no schedule: its first
    entry names no weekday, and the weekday rule remembers the last entry
    only. *)
Example server_accepts_unnamed_day :
  let c := "Mursday,9:00,10:00,,,,,,,,Weekly,,,;Monday,9:00,10:00,,,,,,,,Weekly,,," in
  Server.all_checks (Agreement.as_response "" c) = true /\
  all_days c = false /\ server_admitted c = false.
Proof. repeat split; vm_compute; reflexivity. Qed.
