(* ===== verification/Adapter.v ===== *)
(** * Adapter: the corrections of a generated clause

    [postprocess_string] of [normalizeHours.py] as a function of the
    fields of a reply ([postprocess_fields]), with what the corrections
    are for: a reply that says only that one has to call, in field 7,
    becomes the wire form of a call for information, which the rules of
    the server accept.  Correcting a reply twice changes nothing more
    ([postprocess_string_idempotent]). *)

From Stdlib Require Import String Ascii List Bool Arith Lia.
From S2P Require Import Prelude.
From S2P Require Import PyString.
From S2P Require Import Entry.
From S2P Require Import Schedule.
From S2P Require Import Generator.
From S2P Require Import NormalizeHours.
From S2P Require Import Agreement.
From S2P Require Import Complete.
Import ListNotations.
Local Open Scope string_scope.
Local Open Scope py_scope.

(** ** The corrections on the fields *)

(** The body of [postprocess_string] between [split] and [join]. *)
Definition postprocess_fields (case : list string) : result (list string) :=
  c7 <- list_get case 7 ;;
  case <- (if negb (c7 =? "") && (str_join "" (slice 0 7 case) =? "")
              && (str_join "" (skipn 8 case) =? "")
           then list_set case 10 "Call for Information"
           else Ok case) ;;
  c7 <- list_get case 7 ;;
  if c7 =? "For information"
  then list_set case 7 "Call for Information"
  else Ok case.

Lemma postprocess_string_fields (s : string) :
  Server.postprocess_string s
  = rmap (str_join ",") (postprocess_fields (str_split "," s)).
Proof.
  unfold Server.postprocess_string, postprocess_fields.
  destruct (list_get (str_split "," s) 7) as [c7|]; [|reflexivity]. cbn [rbind].
  match goal with
  | |- context [if ?b then list_set ?l 10 ?v else Ok ?l] =>
      destruct (if b then list_set l 10 v else Ok l) as [case1|]; [|reflexivity]
  end.
  cbn [rbind].
  destruct (list_get case1 7) as [c7'|]; [|reflexivity]. cbn [rbind].
  destruct (c7' =? "For information"); [|reflexivity].
  destruct (list_set case1 7 _); reflexivity.
Qed.

(** A text that is not empty somewhere in a list keeps the
    concatenation of the list from being empty. *)
Lemma join_not_empty (l : list string) (x : string) :
  In x l -> x <> "" -> (str_join "" l =? "") = false.
Proof.
  intros Hin Hx. apply String.eqb_neq. intros E.
  apply str_join_empty_iff in E. rewrite Forall_forall in E. auto.
Qed.

(** A reply of at least eight fields, field by field. *)
Lemma fields_upto_7 (case : list string) (c7 : string) :
  list_get case 7 = Ok c7 ->
  exists v0 v1 v2 v3 v4 v5 v6 rest,
    case = (v0 :: v1 :: v2 :: v3 :: v4 :: v5 :: v6 :: c7 :: rest)%list.
Proof.
  intros H. apply list_get_ok in H.
  do 7 (destruct case as [|? case]; [discriminate|]).
  destruct case as [|? case]; [discriminate|]. injection H as ->. repeat eexists.
Qed.

(** A reply that neither correction applies to is returned as it is. *)
Lemma postprocess_fields_fixed (front rest : list string) (c7 : string) :
  length front = 7 ->
  negb (c7 =? "") && (str_join "" front =? "") && (str_join "" rest =? "") = false ->
  (c7 =? "For information") = false ->
  postprocess_fields (front ++ c7 :: rest) = Ok (front ++ c7 :: rest)%list.
Proof.
  intros Hl Hg Hc.
  do 7 (destruct front as [|? front]; [discriminate|]).
  destruct front; [|discriminate].
  unfold postprocess_fields, list_get, slice.
  cbn [app nth_error of_option rbind skipn firstn Nat.sub].
  rewrite Hg. cbn [rbind nth_error of_option]. rewrite Hc. reflexivity.
Qed.

(** The corrections are idempotent on the fields. *)
Lemma postprocess_fields_idempotent (case case' : list string) :
  postprocess_fields case = Ok case' -> postprocess_fields case' = Ok case'.
Proof.
  unfold postprocess_fields at 1. intros H.
  apply rbind_ok_inv in H as (c7 & H7 & H).
  destruct (fields_upto_7 case c7 H7) as (v0 & v1 & v2 & v3 & v4 & v5 & v6 & rest & ->).
  set (front := [v0; v1; v2; v3; v4; v5; v6]).
  change (slice 0 7 _) with front in H. change (skipn 8 _) with rest in H.
  destruct (negb (c7 =? "") && (str_join "" front =? "") && (str_join "" rest =? ""))
    eqn:G; cbn [rbind] in H.
  - destruct rest as [|v8 [|v9 [|v10 rest]]]; try discriminate.
    cbn in H. destruct (c7 =? "For information") eqn:E; injection H as <-;
      (apply (postprocess_fields_fixed front); [reflexivity | | first [exact E | reflexivity]]);
      rewrite (join_not_empty (v8 :: v9 :: "Call for Information" :: rest)
                 "Call for Information");
      solve [apply andb_false_r | simpl; auto | discriminate].
  - cbn in H. destruct (c7 =? "For information") eqn:E; injection H as <-.
    + apply String.eqb_eq in E. subst c7. cbn [String.eqb Ascii.eqb negb andb] in G.
      apply (postprocess_fields_fixed front); [reflexivity|exact G|reflexivity].
    + apply (postprocess_fields_fixed front); [reflexivity|exact G|exact E].
Qed.

(** The corrections keep the fields free of commas. *)
Lemma postprocess_fields_plain (case case' : list string) :
  Forall (fun w => str_count "," w = 0) case -> postprocess_fields case = Ok case' ->
  Forall (fun w => str_count "," w = 0) case' /\ case' <> [].
Proof.
  unfold postprocess_fields. intros Hall H.
  apply rbind_ok_inv in H as (c7 & H7 & H).
  apply rbind_ok_inv in H as (case1 & H1 & H).
  apply rbind_ok_inv in H as (c7' & H7' & H).
  assert (Hall1 : Forall (fun w => str_count "," w = 0) case1).
  { destruct (_ && _) in H1; [|inv H1; exact Hall].
    apply Server.list_set_count in H1 as (_ & H1 & _); auto. }
  assert (Hne : length case' = length case1).
  { destruct (c7' =? _); [|inv H; reflexivity].
    apply Server.list_set_count in H as (_ & _ & H); auto. }
  split.
  - destruct (c7' =? _); [|inv H; exact Hall1].
    apply Server.list_set_count in H as (_ & H & _); auto.
  - apply list_get_ok in H7'. destruct case1; [discriminate|].
    destruct case'; discriminate.
Qed.

(** C22. Correcting a reply twice changes nothing more: what
    [postprocess_string] returns, it returns unchanged. *)
Theorem postprocess_string_idempotent (s r : string) :
  Server.postprocess_string s = Ok r -> Server.postprocess_string r = Ok r.
Proof.
  rewrite !postprocess_string_fields.
  destruct (postprocess_fields (str_split "," s)) as [case'|] eqn:H; [|discriminate].
  intros [= <-].
  destruct (postprocess_fields_plain _ _ (str_split_fields "," s) H) as (Hall & Hne).
  rewrite (str_split_join ","%char) by assumption.
  rewrite (postprocess_fields_idempotent _ _ H). reflexivity.
Qed.

(** ** A reply that only says to call *)

(** A reply of fourteen fields with text in field 7 alone. *)
Definition information_reply (m : string) : string :=
  str_join "," [""; ""; ""; ""; ""; ""; ""; m; ""; ""; ""; ""; ""; ""].

(** The marker after the second correction. *)
Definition canonical (m : string) : string :=
  if m =? "For information" then "Call for Information" else m.

Lemma canonical_plain (m : string) : plain m = true -> plain (canonical m) = true.
Proof. unfold canonical. destruct (m =? _); auto. Qed.

(** The corrections turn the reply into the wire form of a call for
    information. *)
Lemma postprocess_string_information (m : string) :
  plain m = true -> m <> "" ->
  Server.postprocess_string (information_reply m)
  = Ok (encode (InformationOnly (canonical m))).
Proof.
  intros Hp Hm. rewrite postprocess_string_fields. unfold information_reply.
  rewrite (str_split_join ","%char);
    [|discriminate
     |repeat first [apply Forall_nil | apply Forall_cons]; try reflexivity;
      apply Nat.eqb_eq, Hp].
  apply String.eqb_neq in Hm.
  unfold postprocess_fields, list_get, slice, canonical.
  cbn [nth_error of_option rbind skipn firstn Nat.sub str_join String.append String.eqb
       andb list_set list_update length Nat.ltb Nat.leb].
  rewrite Hm. cbn [negb andb rbind nth_error of_option].
  destruct (m =? "For information"); reflexivity.
Qed.

(** C21. A reply that says only that one has to call, in field 7, is
    corrected into an entry that the ten rules of the server accept. *)
Theorem information_reply_accepted (original m r : string) :
  plain m = true -> str_count ";" m = 0 -> m <> "" ->
  Server.postprocess_string (information_reply m) = Ok r ->
  Server.run_validation_tests (Agreement.as_response original r)
  = Ok (Agreement.as_response original r).
Proof.
  intros Hp Hs Hm. rewrite (postprocess_string_information m Hp Hm). intros [= <-].
  rewrite Server.run_validation_tests_eq.
  rewrite (server_all_checks_encoded original _ [InformationOnly (canonical m)]).
  - reflexivity.
  - cbn [forallb wf]. rewrite canonical_plain by exact Hp. reflexivity.
  - apply (entries_encode_all [InformationOnly (canonical m)]); [discriminate| |].
    + cbn [forallb wf]. rewrite canonical_plain by exact Hp. reflexivity.
    + unfold joinable, canonical. cbn [forallb marker_of].
      destruct (m =? _); [reflexivity | rewrite Hs; reflexivity].
Qed.

(** Scenario E of the specification. *)
Lemma information_reply_accepted_witness :
  Server.run_validation_tests
    (Agreement.as_response "Call us" ",,,,,,,Call for Information,,,Call for Information,,,")
  = Ok (Agreement.as_response "Call us"
          ",,,,,,,Call for Information,,,Call for Information,,,").
Proof.
  apply (information_reply_accepted "Call us" "For information").
  - reflexivity.
  - reflexivity.
  - discriminate.
  - vm_compute. reflexivity.
Defined.

Lemma postprocess_string_idempotent_witness :
  Server.postprocess_string ",,,,,,,Call for Information,,,Call for Information,,,"
  = Ok ",,,,,,,Call for Information,,,Call for Information,,,".
Proof.
  apply (postprocess_string_idempotent ",,,,,,,For information,,,,,,").
  vm_compute. reflexivity.
Defined.

(** The first correction applies only when field 10 is empty too: a
    reply that says to call and carries an hour type is left as it is,
    and the server rejects it. *)
Example information_with_type_kept :
  Server.postprocess_string ",,,,,,,Call us,,,Weekly,,," = Ok ",,,,,,,Call us,,,Weekly,,," /\
  Server.run_validation_tests (Agreement.as_response "Call us" ",,,,,,,Call us,,,Weekly,,,")
  = Ok (Server.set_isValid
          (Agreement.as_response "Call us" ",,,,,,,Call us,,,Weekly,,,") false).
Proof. split; vm_compute; reflexivity. Qed.
