(* ===== verification/Denotation.v ===== *)
(** * Denotation: the table the script writes, read back as schedules

    [Complete] reads a candidate through the schema; this file reads the
    table.  The fourteen hour columns of a row of the output are the
    fields of one entry ([row_entry]), so a table denotes a list of
    entries, row by row.  For a service that is a function of the
    prompt, the table [main] of clean_hours.py writes denotes, record by
    record, the schedule that the reply to the text of the record
    denotes when the script admits it, and what the row of the record
    held before otherwise ([main_denotes]); the cells to the left of the
    hour columns are those of the row of the record ([row_out_keeps]).
    For the server, the route of app.py answers with the response
    [Stateless.normalized], which is valid, when every entry names a
    weekday or is a call for information without one, exactly when the
    candidate denotes a schedule the server admits
    ([normalize_hours_denotes]). *)

From Stdlib Require Import String Ascii List Bool Arith Lia.
From S2P Require Import Prelude.
From S2P Require Import PyString.
From S2P Require Import PyDict.
From S2P Require Import DataFrame.
From S2P Require Import Entry.
From S2P Require Import Schedule.
From S2P Require Import Generator.
From S2P Require Import NormalizeHours.
From S2P Require Import App.
From S2P Require Import CleanHours.
From S2P Require Import Agreement.
From S2P Require Import Stateless.
From S2P Require Import Complete.
Import ListNotations.
Local Open Scope string_scope.
Local Open Scope py_scope.

(** ** Reading a row *)

(** The cells of a row to the left of the last fifteen columns. *)
Definition kept_cells (df : DataFrame) (r : list cell) : list cell :=
  firstn (length (columns df) - 15) r.

(** The cells of a row in the fourteen hour columns: the last fifteen
    but the last. *)
Definition hour_cells (df : DataFrame) (r : list cell) : list cell :=
  firstn 14 (skipn (length (columns df) - 15) r).

(** The entry a row holds, read through the schema. *)
Definition row_entry (df : DataFrame) (r : list cell) : option schedule_entry :=
  decode_fields (map cell_str (hour_cells df r)).

Lemma map_cell_str_Text (l : list string) : map cell_str (map Text l) = l.
Proof. rewrite map_map. apply map_id. Qed.

Section Row.
Variables (df : DataFrame) (row : list cell).
Hypothesis Hrow : length row = length (columns df).

Lemma length_kept_cells : length (kept_cells df row) = length (columns df) - 15.
Proof. unfold kept_cells. apply firstn_length_le. lia. Qed.

(** The cells after the kept ones of a row that starts with them. *)
Lemma hour_cells_app (l : list cell) :
  hour_cells df (kept_cells df row ++ l) = firstn 14 l.
Proof.
  unfold hour_cells. rewrite skipn_app, length_kept_cells, Nat.sub_diag.
  rewrite (skipn_all2 (kept_cells df row)) by (rewrite length_kept_cells; lia).
  reflexivity.
Qed.

Lemma kept_cells_app (l : list cell) :
  kept_cells df (kept_cells df row ++ l) = kept_cells df row.
Proof.
  unfold kept_cells at 1. rewrite firstn_app, length_kept_cells, Nat.sub_diag.
  rewrite firstn_all2 by (rewrite length_kept_cells; lia). apply app_nil_r.
Qed.

(** The row written for an entry holds the entry: it reads back to what
    the entry decodes to, also when the entry has not fourteen fields
    and the row is written empty. *)
Lemma row_entry_entry_row (e : string) :
  row_entry df (Batch.entry_row df row e) = decode e.
Proof.
  unfold row_entry, Batch.entry_row, decode. fold (kept_cells df row).
  destruct (length (fields e) =? 14)%nat eqn:E; rewrite hour_cells_app.
  - apply Nat.eqb_eq in E.
    rewrite firstn_app, length_map, E, firstn_all2 by (rewrite length_map; lia).
    cbn [Nat.sub firstn]. rewrite app_nil_r, map_cell_str_Text. reflexivity.
  - unfold decode_fields at 2. rewrite E. reflexivity.
Qed.

Lemma kept_entry_row (e : string) :
  kept_cells df (Batch.entry_row df row e) = kept_cells df row.
Proof.
  unfold Batch.entry_row. fold (kept_cells df row).
  destruct (length (fields e) =? 14)%nat; apply kept_cells_app.
Qed.

End Row.

(** Decoding a list of entries that all decode. *)
Lemma map_decode_all (es : list string) (ss : list schedule_entry) :
  decode_all es = Some ss -> map decode es = map Some ss.
Proof.
  revert ss. induction es as [|e es IH]; simpl; intros ss H.
  - injection H as <-. reflexivity.
  - destruct (decode e) as [s|]; [|discriminate].
    destruct (decode_all es) as [ss'|]; [|discriminate].
    injection H as <-. simpl. rewrite (IH ss' eq_refl). reflexivity.
Qed.

(** ** The rows of a record *)

Section Denotation.
Variable reply : string -> string.

(** The schedule the reply to a text denotes, when the script admits
    it. *)
Definition schedule_of (text : string) : option (list schedule_entry) :=
  match decode_all (Batch.entries (reply text)) with
  | Some ss => if forallb (batch_admits text) ss then Some ss else None
  | None => None
  end.

(** What the rows written for a row denote: the schedule of its text,
    or what the row held. *)
Definition denoted (df : DataFrame) (row : list cell)
  : list (option schedule_entry) :=
  match schedule_of (snd (Batch.record_of df row)) with
  | Some ss => map Some ss
  | None => [row_entry df row]
  end.

Lemma admitted_schedule_of (text : string) :
  admitted text (reply text)
  = match schedule_of text with Some _ => true | None => false end.
Proof.
  unfold admitted, schedule_of.
  destruct (decode_all _) as [ss|]; [|reflexivity].
  destruct (forallb _ ss); reflexivity.
Qed.

Section Rows.
Variables (df : DataFrame) (row : list cell).
Hypothesis Hrow : length row = length (columns df).

(** The rows written for a row, by the schedule of its text. *)
Lemma row_out_schedule :
  Stateless.row_out reply df row
  = match schedule_of (snd (Batch.record_of df row)) with
    | Some _ => map (Batch.entry_row df row)
                  (Batch.entries (reply (snd (Batch.record_of df row))))
    | None => [row]
    end.
Proof.
  unfold Stateless.row_out, Stateless.row_group.
  rewrite accepts_admitted, admitted_schedule_of.
  destruct (schedule_of _); reflexivity.
Qed.

Lemma row_out_denoted :
  map (row_entry df) (Stateless.row_out reply df row) = denoted df row.
Proof.
  rewrite row_out_schedule. unfold denoted, schedule_of.
  destruct (decode_all _) as [ss|] eqn:D; [|reflexivity].
  destruct (forallb _ ss); [|reflexivity].
  rewrite map_map, <- (map_decode_all _ ss D). apply map_ext.
  intros e. apply row_entry_entry_row, Hrow.
Qed.

(** Every row written for a row keeps its cells to the left of the hour
    columns, the identifier of the record among them. *)
Lemma row_out_keeps (r : list cell) :
  In r (Stateless.row_out reply df row) -> kept_cells df r = kept_cells df row.
Proof.
  rewrite row_out_schedule. destruct (schedule_of _).
  - intros H. apply in_map_iff in H as (e & <- & _). apply kept_entry_row, Hrow.
  - intros [<-|[]]. reflexivity.
Qed.

End Rows.

(** The rows of a table, each with what is written for it. *)
Lemma table_denoted (df : DataFrame) :
  df_wf df ->
  map (row_entry df) (flat_map (Stateless.row_out reply df) (values df))
  = flat_map (denoted df) (values df).
Proof.
  intros Hwf. rewrite map_flat_map. apply flat_map_ext_in. intros row Hrow.
  unfold df_wf in Hwf. rewrite Forall_forall in Hwf.
  apply row_out_denoted, Hwf, Hrow.
Qed.

(** ** The table of the script *)

Context {C : Completion}.
Hypothesis Hreply : answers reply.

(** C5. The table the script writes denotes the schedules of the
    replies: for a service that is a function of the prompt, on a
    rectangular table of at least fifteen columns whose identifiers are
    distinct and none missing, [main] returns a table with the columns
    of the input whose rows, read through the schema, are, over the rows
    of the input in order, the entries of the schedule that the reply to
    the text of the row denotes when the script admits it, and what the
    row held otherwise. *)
Theorem main_denotes (file : string) (df : DataFrame) (ids : list cell) (e : env) :
  df_wf df -> 15 <= length (columns df) -> In "Hours Uncleaned" (columns df) ->
  df_column df "Program External ID" = Ok ids -> NoDup ids ->
  forallb present ids = true ->
  (forall row, In row (values df) ->
               Batch.readable (reply (snd (Batch.record_of df row))) = true) ->
  exists out e',
    Batch.main file df e = (Ok out, e') /\ columns out = columns df /\
    map (row_entry df) (values out) = flat_map (denoted df) (values df).
Proof.
  intros Hwf Hw Hh Hids Hn Hp Hread.
  destruct (Stateless.main_rows_of_rows reply Hreply file df ids e)
    as (e' & E); try assumption.
  eexists _, e'. split; [exact E|]. split; [reflexivity|].
  apply table_denoted, Hwf.
Qed.

(** ** The response of the server *)

(** The verdict in the response to [case], with the weekday rule read
    entry by entry, tells whether its candidate denotes a schedule the
    server admits. *)
Lemma normalized_denotes (case : string) :
  Server.isValid (Stateless.normalized reply case)
  && all_days (Stateless.candidate reply case)
  = server_admitted (Stateless.candidate reply case).
Proof. apply (server_checks_admitted case). Qed.

(** C20. The route of the server, end to end: for a service that is a
    function of the prompt and whose replies have at least eleven
    fields, [normalize_hours] answers 200 with the response made of
    the corrected replies to the clauses of the input, and, when every
    entry of that candidate names a weekday or is a call for information
    without one, the response is valid exactly when the candidate
    decodes to weekly openings and calls for information. *)
Theorem normalize_hours_denotes (inputString : string) (e : env) :
  (forall x, In x (str_split ";" inputString) ->
             10 <= str_count "," (reply (Server.preprocess_string x))) ->
  exists e',
    Http.normalize_hours inputString e
    = ({| Http.body := Http.Response (Stateless.normalized reply inputString);
          Http.status := 200 |}, e')
    /\ Server.isValid (Stateless.normalized reply inputString)
       && all_days (Stateless.candidate reply inputString)
       = server_admitted (Stateless.candidate reply inputString).
Proof.
  intros Hw.
  destruct (Stateless.normalize_input_string_answers reply Hreply inputString e Hw)
    as (e' & E).
  exists e'. split; [|apply normalized_denotes].
  unfold Http.normalize_hours. rewrite E. reflexivity.
Qed.

End Denotation.

(** ** The sample table *)

(** The service of [Stateless] on the three records of the sample: the
    first two texts denote one and two openings, the third reply names
    no weekday and the row is left as it was, without an entry. *)
Example sample_denoted :
  flat_map (denoted two_texts sample_df) (values sample_df)
  = [Some (Opening Monday (15, 0) (17, 0) Weekly "");
     Some (Opening Tuesday (9, 0) (10, 0) (DayOfMonth 1) "");
     Some (Opening Wednesday (9, 0) (10, 0) (DayOfMonth 1) "");
     None].
Proof. vm_compute. reflexivity. Qed.

Lemma main_denotes_witness :
  exists out e',
    @Batch.main two_texts_service "hours.csv" sample_df (@start two_texts_service tt)
    = (Ok out, e') /\ columns out = columns sample_df /\
    map (row_entry sample_df) (values out)
    = flat_map (denoted two_texts sample_df) (values sample_df).
Proof.
  apply (@main_denotes two_texts two_texts_service two_texts_answers) with
    (ids := sample_id_cells).
  - exact sample_df_wf.
  - exact sample_wide.
  - vm_compute. auto 20.
  - vm_compute. reflexivity.
  - repeat constructor; simpl; intuition discriminate.
  - reflexivity.
  - intros row _. apply two_texts_readable.
Defined.

(** The response to the first text of the sample is valid, and its
    candidate is the opening of every Monday. *)
Example sample_response :
  Server.isValid (Stateless.normalized two_texts "Every Monday, from 3pm-5pm") = true /\
  decode_all (Batch.entries
                (Stateless.candidate two_texts "Every Monday, from 3pm-5pm"))
  = Some [Opening Monday (15, 0) (17, 0) Weekly ""].
Proof. split; vm_compute; reflexivity. Qed.

Lemma normalize_hours_denotes_witness :
  exists e',
    @Http.normalize_hours two_texts_service "Every Monday, from 3pm-5pm"
      (@start two_texts_service tt)
    = ({| Http.body := Http.Response
                         (Stateless.normalized two_texts "Every Monday, from 3pm-5pm");
          Http.status := 200 |}, e')
    /\ Server.isValid (Stateless.normalized two_texts "Every Monday, from 3pm-5pm")
       && all_days (Stateless.candidate two_texts "Every Monday, from 3pm-5pm")
       = server_admitted (Stateless.candidate two_texts "Every Monday, from 3pm-5pm").
Proof.
  apply (@normalize_hours_denotes two_texts two_texts_service two_texts_answers).
  intros x _. apply two_texts_wide.
Defined.
