(* ===== verification/Pacing.v ===== *)
(** * Pacing: the delay after a call of the service

    The three [call_oai] of the repository are copies of one function.
    Those of normalizeHours.py and of primary_contact.py end the request
    with [time.sleep(0.05)]; that of clean_hours.py does not.  This file
    follows the time slept through the three programs, on every run,
    returning or raising: the server and the contact script have slept
    50 milliseconds for every request the service answered, and the
    batch script has not slept at all ([delay_after_each_call]). *)

From Stdlib Require Import String Ascii List Bool Arith Lia.
From S2P Require Import Prelude.
From S2P Require Import PyString.
From S2P Require Import PyDict.
From S2P Require Import DataFrame.
From S2P Require Import Generator.
From S2P Require Import NormalizeHours.
From S2P Require Import CleanHours.
From S2P Require Import PrimaryContact.
Import ListNotations.
Local Open Scope string_scope.
Local Open Scope py_scope.

Section Paced.
Context {C : Completion}.

(** ** The delay after a call

    [paced k e r e']: between [e] and [e'] the run has slept [k]
    milliseconds for every request it has sent, but for the request on
    which the service failed, if that is how the run ended. *)

Definition sent_count (e : env) : nat := length (filter is_sent (trace e)).

(** One for the failure of the service, which answers no request. *)
Definition unanswered {A : Type} (r : result A) : nat :=
  match r with
  | Raise UpstreamUnavailable => 1
  | _ => 0
  end.

Definition paced {A : Type} (k : nat) (e : env) (r : result A) (e' : env) : Prop :=
  slept_ms e' + k * sent_count e + k * unanswered r
  = slept_ms e + k * sent_count e'.

(** A computation that keeps the pace on every run. *)
Definition pacing {A : Type} (k : nat) (m : io A) : Prop :=
  forall e r e', m e = (r, e') -> paced k e r e'.

Lemma paced_zero {A : Type} (e e' : env) (r : result A) :
  paced 0 e r e' <-> slept_ms e' = slept_ms e.
Proof. unfold paced. lia. Qed.

Lemma paced_returns {A : Type} (k : nat) (e e' : env) (a : A) :
  paced k e (Ok a) e' ->
  slept_ms e' + k * sent_count e = slept_ms e + k * sent_count e'.
Proof. unfold paced. simpl. lia. Qed.

Lemma sent_count_after (evs : list event) (e : env) :
  sent_count (after evs e) = sent_count e + length (filter is_sent evs).
Proof. unfold sent_count. rewrite trace_after, filter_app, length_app. reflexivity. Qed.

Lemma pacing_ret {A : Type} (k : nat) (a : A) : pacing k (io_ret a).
Proof. intros e r e'. unfold io_ret, paced. intros [= <- <-]. simpl. lia. Qed.

(** Code that does not call the service keeps the pace when it does not
    raise the failure of the service. *)
Lemma pacing_lift {A : Type} (k : nat) (m : result A) :
  unanswered m = 0 -> pacing k (io_lift m).
Proof. intros H e r e'. unfold io_lift, paced. intros [= <- <-]. rewrite H. lia. Qed.

Lemma pacing_lift_zero {A : Type} (m : result A) : pacing 0 (io_lift m).
Proof. intros e r e'. unfold io_lift. intros [= <- <-]. apply paced_zero. reflexivity. Qed.

Lemma pacing_bind {A B : Type} (k : nat) (m : io A) (f : A -> io B) :
  pacing k m -> (forall a, pacing k (f a)) -> pacing k (io_bind m f).
Proof.
  intros Hm Hf e r e'. unfold io_bind.
  destruct (m e) as [[a|x] e1] eqn:E.
  - intros H. apply Hm in E. apply Hf in H. unfold paced in *. simpl in E. lia.
  - intros [= <- <-]. apply Hm in E. exact E.
Qed.

(** An event that is no request. *)
Lemma pacing_emit (k : nat) (ev : event) : is_sent ev = false -> pacing k (emit ev).
Proof.
  intros H e r e'. unfold emit, paced. intros [= <- <-].
  rewrite sent_count_after. simpl. rewrite H. simpl. lia.
Qed.

(** A request followed by its pause. *)
Lemma pacing_call {B : Type} (k : nat) (p : string) (f : string -> io B) :
  (forall text, pacing k (f text)) ->
  pacing k (io_bind (create p) (fun text => io_bind (sleep k) (fun _ => f text))).
Proof.
  intros Hf e r e'. unfold io_bind at 1.
  destruct (create p e) as [[text|x] e1] eqn:E.
  - unfold io_bind, sleep. intros H. apply Hf in H.
    pose proof (create_slept _ _ _ _ E) as Hs. pose proof (create_trace _ _ _ _ E) as Ht.
    unfold paced, sent_count in *. simpl in H. rewrite Ht, filter_app, length_app in H.
    simpl in H. lia.
  - intros [= <- <-]. rewrite (create_raises _ _ _ _ E).
    pose proof (create_slept _ _ _ _ E) as Hs. pose proof (create_trace _ _ _ _ E) as Ht.
    unfold paced, sent_count. rewrite Ht, filter_app, length_app. simpl. lia.
Qed.

(** A request that no pause follows. *)
Lemma pacing_create_zero (p : string) : pacing 0 (create p).
Proof. intros e r e' H. apply paced_zero. eapply create_slept, H. Qed.

Lemma pacing_map {A B : Type} (k : nat) (f : A -> io B) (l : list A) :
  (forall x, pacing k (f x)) -> pacing k (io_map f l).
Proof.
  intros Hf. induction l as [|x l IH]; simpl; [apply pacing_ret|].
  apply pacing_bind; [apply Hf|]. intros y.
  apply pacing_bind; [exact IH|]. intros ys. apply pacing_ret.
Qed.

Lemma pacing_for_each {S A : Type} (k : nat) (body : S -> A -> io S) (l : list A)
  (s : S) :
  (forall s x, pacing k (body s x)) -> pacing k (io_for_each body l s).
Proof.
  intros Hb. revert s. induction l as [|x l IH]; intros s; simpl; [apply pacing_ret|].
  apply pacing_bind; [apply Hb | exact IH].
Qed.

End Paced.

(** A result that is not the failure of the service leaves no request
    unanswered. *)
Lemma unanswered_other {A : Type} (m : result A) :
  (forall x, m = Raise x -> x <> UpstreamUnavailable) -> unanswered m = 0.
Proof.
  destruct m as [a|x]; [reflexivity|]. intros H.
  specialize (H x eq_refl). destruct x; simpl; congruence.
Qed.

(** The steps of a proof that a program keeps the pace: one rule of
    [pacing] per construct of the program. *)
Ltac pace :=
  repeat first
    [ apply pacing_ret
    | apply pacing_bind
    | apply pacing_map
    | apply pacing_for_each
    | apply pacing_lift_zero
    | apply pacing_create_zero
    | apply pacing_emit; reflexivity
    | intro ].

Section Pacing.
Context {C : Completion}.

(** ** The server *)

Lemma server_call_oai_pacing (prompt : string) : pacing 50 (Server.call_oai prompt).
Proof.
  unfold Server.call_oai. apply (pacing_call 50 prompt (fun text => io_ret text)).
  intros text. apply pacing_ret.
Qed.

Lemma clause_pacing (x : string) : pacing 50 (Server.clause x).
Proof.
  unfold Server.clause. apply pacing_bind; [apply server_call_oai_pacing|].
  intros text. apply pacing_lift, unanswered_other. intros z H.
  apply Server.postprocess_string_raise in H. subst z. discriminate.
Qed.

Lemma normalize_input_string_pacing (case : string) :
  pacing 50 (Server.normalize_input_string case).
Proof.
  unfold Server.normalize_input_string, Server.format_input_string.
  apply pacing_bind.
  - apply pacing_bind; [apply pacing_map, clause_pacing | intros; apply pacing_ret].
  - intros r. apply pacing_lift. rewrite Server.run_validation_tests_eq. reflexivity.
Qed.

(** ** The contact script *)

Lemma contacts_call_oai_pacing (prompt : string) :
  pacing 50 (Contacts.call_oai prompt).
Proof.
  unfold Contacts.call_oai.
  apply (pacing_call 50 prompt
           (fun text => io_bind (print (Contacts.response_line text))
                          (fun _ => io_ret text))).
  intros text. unfold print. pace.
Qed.

Lemma contacts_main_pacing (df : DataFrame) (primary_key : string)
  (columns : option (list string)) :
  pacing 50 (Contacts.main df primary_key columns).
Proof.
  unfold Contacts.main, Contacts.format_contacts_iteratively, print.
  apply pacing_bind.
  - apply pacing_lift, unanswered_other. intros z H.
    apply Contacts.create_id_contacts_dict_raises in H.
    destruct H as [->|[->| ->]]; discriminate.
  - intros d. apply pacing_bind; [apply pacing_emit; reflexivity|]. intros _.
    apply pacing_for_each. intros acc kv.
    apply pacing_bind; [apply contacts_call_oai_pacing | intros; apply pacing_ret].
Qed.

(** ** The batch script *)

Lemma main_pacing (file : string) (df : DataFrame) : pacing 0 (Batch.main file df).
Proof.
  unfold Batch.main, Batch.format_hours_iteratively, Batch.print_candidates,
    Batch.call_oai, print, to_csv.
  pace.
Qed.

(** C39. The delay after a call, in the three programs and on every run,
    returning or raising.  The server and the contact script have slept
    50 milliseconds for every request they sent, but for the one on
    which the service failed when that is how the run ended
    ([time.sleep(0.05)] follows the answer in their [call_oai]); the
    batch script has not slept, however many requests it sent: its
    [call_oai] has no pause. *)
Theorem delay_after_each_call (e : env) :
  (forall case r e',
     Server.normalize_input_string case e = (r, e') -> paced 50 e r e') /\
  (forall df primary_key columns r e',
     Contacts.main df primary_key columns e = (r, e') -> paced 50 e r e') /\
  (forall file df r e',
     Batch.main file df e = (r, e') -> slept_ms e' = slept_ms e).
Proof.
  split; [|split].
  - intros case r e'. apply normalize_input_string_pacing.
  - intros df primary_key columns r e'. apply contacts_main_pacing.
  - intros file df r e' H. apply main_pacing in H. apply paced_zero in H. exact H.
Qed.

(** A run of the server that returns has slept 50 milliseconds per
    clause of the input. *)
Lemma normalize_input_string_slept (case : string) (e e' : env) (r : Server.response) :
  Server.normalize_input_string case e = (Ok r, e') ->
  slept_ms e' = slept_ms e + 50 * length (str_split ";" case).
Proof.
  intros H. apply Server.normalize_input_string_ok_inv in H as (r0 & H & _).
  apply Server.format_input_string_ok in H. tauto.
Qed.

End Pacing.

(** ** Three runs *)

(** The server on two clauses, the second of which the service does not
    answer: one pause. *)
Example server_run_unanswered :
  let e := @start Scripted [Some "Monday,9:00,17:00,,,,,,,,Weekly,,,"; None] in
  let run := Server.normalize_input_string " Mon 9-5 ; Tue by appointment" e in
  fst run = Raise UpstreamUnavailable /\ slept_ms (snd run) = 50 /\
  sent_count (snd run) = 2.
Proof. repeat split; vm_compute; reflexivity. Qed.

(** The batch script on the three records of the sample: three requests,
    no pause. *)
Example batch_run_unpaced :
  let run := Batch.main "hours.csv" sample_df sample_env in
  slept_ms (snd run) = 0 /\ sent_count (snd run) = 3.
Proof. split; vm_compute; reflexivity. Qed.

Lemma delay_after_each_call_witness :
  (exists r e',
     Server.normalize_input_string " Mon 9-5 ; Tue by appointment" two_replies = (r, e')
     /\ paced 50 two_replies r e') /\
  (exists r e',
     Batch.main "hours.csv" sample_df sample_env = (r, e')
     /\ slept_ms e' = slept_ms sample_env).
Proof.
  destruct (@delay_after_each_call Scripted two_replies) as (Hs & _ & _).
  destruct (@delay_after_each_call Scripted sample_env) as (_ & _ & Hb).
  split; eexists _, _; (split; [vm_compute; reflexivity|]).
  - apply Hs with (case := " Mon 9-5 ; Tue by appointment"). vm_compute. reflexivity.
  - eapply Hb with (file := "hours.csv") (df := sample_df). vm_compute. reflexivity.
Defined.
